(** * EDK2 meta-file parser: record store, value analysis and the
      dialect-D post-processor, embedded from the Python sources

    Sources embedded here:
    - [src/parsers/MetaFileStore.py]   (the three record tables),
    - [src/Common/Misc.py]             ([AnalyzePcdExpression], [AnalyzeDscPcd],
                                        [CheckPcdDatum]),
    - [src/parsers/MetaFileParser2.py] (section headers, the three [Start]
                                        drivers, the DSC post-processor).

    Python values are modelled as follows: [int] is [Z], [str] is [string]
    (8-bit characters), [list] is [list], [dict] is [gmap] or, where the
    iteration order matters, an association list, [set] is [gset].  A raised
    error is the [Err] case of [result]. *)

From Stdlib Require Import ZArith String Ascii List Bool Lia Sorted.
From stdpp Require Import base option list gmap strings.
Import ListNotations.
Local Open Scope string_scope.
Local Open Scope list_scope.
Local Open Scope Z_scope.

(** ** Python strings *)

Module Py.

(** The characters that the sources spell with an escape. *)
Definition DQUOTE : ascii := ascii_of_nat 34.
Definition SQUOTE : ascii := ascii_of_nat 39.
Definition BACKSLASH : ascii := ascii_of_nat 92.
Definition NEWLINE : ascii := ascii_of_nat 10.

(** [str.isspace] on one character of the 8-bit range. *)
Definition isspace (c : ascii) : bool :=
  let n := N_of_ascii c in
  ((9 <=? n) && (n <=? 13) || (28 <=? n) && (n <=? 32)
   || (n =? 133) || (n =? 160))%N.

Fixpoint lstrip (s : string) : string :=
  match s with
  | EmptyString => EmptyString
  | String c r => if isspace c then lstrip r else s
  end.

Fixpoint rstrip (s : string) : string :=
  match s with
  | EmptyString => EmptyString
  | String c r =>
      match rstrip r with
      | EmptyString => if isspace c then EmptyString else String c EmptyString
      | r' => String c r'
      end
  end.

(** [s.strip()] *)
Definition strip (s : string) : string := rstrip (lstrip s).

(** [s.startswith(p)] and [s.endswith(p)] *)
Definition startswith (s p : string) : bool := String.prefix p s.

Definition rev (s : string) : string :=
  string_of_list_ascii (List.rev (list_ascii_of_string s)).

Definition endswith (s p : string) : bool := String.prefix (rev p) (rev s).

(** [s[n:]] and [s[:n]] for [0 <= n] *)
Fixpoint drop (n : nat) (s : string) : string :=
  match n, s with
  | O, _ => s
  | S n', String _ r => drop n' r
  | S _, EmptyString => EmptyString
  end.

Fixpoint take (n : nat) (s : string) : string :=
  match n, s with
  | S n', String c r => String c (take n' r)
  | _, _ => EmptyString
  end.

(** [s[a:b]] for [0 <= a], [0 <= b] *)
Definition slice (a b : nat) (s : string) : string := take (b - a) (drop a s).

(** [s.find(p, start)], with [None] for Python's -1 *)
Fixpoint find_from (fuel : nat) (p s : string) (pos : nat) : option nat :=
  if String.prefix p s then Some pos
  else match fuel, s with
       | S fuel', String _ r => find_from fuel' p r (S pos)
       | _, _ => None
       end.

Definition find (s p : string) (start : nat) : option nat :=
  if (String.length s <? start)%nat then None
  else find_from (String.length s) p (drop start s) start.

(** [p in s] *)
Definition contains (s p : string) : bool :=
  match find s p 0 with Some _ => true | None => false end.

(** [s.replace(old, new)] for a non-empty [old]: [skip] counts the
    characters of a match that are still to be passed over. *)
Fixpoint replace_go (old new s : string) (skip : nat) : string :=
  match s with
  | EmptyString => EmptyString
  | String c r =>
      match skip with
      | S k => replace_go old new r k
      | O => if String.prefix old s
             then new +:+ replace_go old new r (String.length old - 1)
             else String c (replace_go old new r O)
      end
  end.

Definition replace (s old new : string) : string := replace_go old new s O.

(** [c.upper()] for a character of the 8-bit range, as a text: the letters
    a-z and the letters 224-254 of Latin-1 (247, the division sign, is none)
    go down by 32, the sharp s (223) becomes [SS], every other character
    stays.  The upper-case forms of the micro sign (181) and of the y with
    diaeresis (255) are the characters 924 and 376, which a text of 8-bit
    characters cannot hold: [upper] leaves these two as they are, and is
    [str.upper] on the texts that have neither ([upper_in_range]). *)
Definition upper_char (c : ascii) : string :=
  let n := N_of_ascii c in
  if ((97 <=? n) && (n <=? 122)
      || (224 <=? n) && (n <=? 254) && negb (n =? 247))%N
  then String (ascii_of_N (n - 32)) EmptyString
  else if (n =? 223)%N then "SS"
  else String c EmptyString.

Fixpoint upper (s : string) : string :=
  match s with
  | EmptyString => EmptyString
  | String c r => upper_char c +:+ upper r
  end.

(** the last character, [s[-1]], of a non-empty string *)
Fixpoint last (s : string) : option ascii :=
  match s with
  | EmptyString => None
  | String c EmptyString => Some c
  | String _ r => last r
  end.

(** all characters of [s] satisfy [p] *)
Fixpoint forallb (p : ascii -> bool) (s : string) : bool :=
  match s with
  | EmptyString => true
  | String c r => p c && forallb p r
  end.

(** The texts on which [upper] is [str.upper]: those without the
    characters 181 and 255. *)
Definition upper_in_range (s : string) : bool :=
  forallb (fun c => negb (N_of_ascii c =? 181)%N && negb (N_of_ascii c =? 255)%N) s.

End Py.

(** ** Errors

    [EdkLogger.error] raises; the kinds are those of
    [Common.BuildToolError] that the parser uses.  The exceptions that leave
    the modelled code uncaught are kept apart, and [OutOfFuel] marks a run
    of the model that was given too few rounds. *)

Inductive ErrorKind : Type :=
| FORMAT_INVALID
| FORMAT_UNKNOWN_ERROR
| FILE_READ_FAILURE
| FILE_NOT_FOUND
| ERROR_STATEMENT
| PyIndexError
| PyKeyError
| PyMacroException
| OutOfFuel.

Inductive result (A : Type) : Type :=
| Ok (a : A)
| Err (e : ErrorKind).
Arguments Ok {A} a.
Arguments Err {A} e.

(** Sequencing: [x ← c; k] runs [k] on the value of [c] and passes a raised
    error on. *)
#[global] Instance result_bind : MBind result :=
  fun A B (f : A -> result B) (r : result A) =>
    match r with
    | Ok a => f a
    | Err e => Err e
    end.

#[global] Instance result_ret : MRet result := fun A a => Ok a.

(** ** The record store ([MetaFileStore.py]) *)

(** Modelled from the spec: the [MODEL_*] tags of
    [CommonDataClass.DataClass], which is not among the sources.  The spec
    calls the model an enumerated tag from a closed set; the tags listed are
    the ones the parser sources name.  [MODEL_MINUS_ONE] stands for the
    literal [-1] that the [_DUMMY_] rows carry as their model. *)
Inductive model : Type :=
| MODEL_UNKNOWN
| MODEL_META_DATA_HEADER
| MODEL_META_DATA_INCLUDE
| MODEL_META_DATA_DEFINE
| MODEL_META_DATA_GLOBAL_DEFINE
| MODEL_META_DATA_CONDITIONAL_STATEMENT_IF
| MODEL_META_DATA_CONDITIONAL_STATEMENT_ELSE
| MODEL_META_DATA_CONDITIONAL_STATEMENT_IFDEF
| MODEL_META_DATA_CONDITIONAL_STATEMENT_IFNDEF
| MODEL_META_DATA_CONDITIONAL_STATEMENT_ENDIF
| MODEL_META_DATA_CONDITIONAL_STATEMENT_ELSEIF
| MODEL_META_DATA_CONDITIONAL_STATEMENT_ERROR
| MODEL_META_DATA_BUILD_OPTION
| MODEL_META_DATA_COMPONENT
| MODEL_META_DATA_PACKAGE
| MODEL_META_DATA_NMAKE
| MODEL_META_DATA_USER_EXTENSION
| MODEL_META_DATA_SECTION_HEADER
| MODEL_META_DATA_SUBSECTION_HEADER
| MODEL_META_DATA_COMMENT
| MODEL_META_DATA_HEADER_COMMENT
| MODEL_META_DATA_TAIL_COMMENT
| MODEL_EFI_SKU_ID
| MODEL_EFI_DEFAULT_STORES
| MODEL_EFI_LIBRARY_INSTANCE
| MODEL_EFI_LIBRARY_CLASS
| MODEL_EFI_INCLUDE
| MODEL_EFI_SOURCE_FILE
| MODEL_EFI_BINARY_FILE
| MODEL_EFI_GUID
| MODEL_EFI_PROTOCOL
| MODEL_EFI_PPI
| MODEL_EFI_DEPEX
| MODEL_PCD_FIXED_AT_BUILD
| MODEL_PCD_PATCHABLE_IN_MODULE
| MODEL_PCD_FEATURE_FLAG
| MODEL_PCD_DYNAMIC
| MODEL_PCD_DYNAMIC_EX
| MODEL_PCD_DYNAMIC_DEFAULT
| MODEL_PCD_DYNAMIC_HII
| MODEL_PCD_DYNAMIC_VPD
| MODEL_PCD_DYNAMIC_EX_DEFAULT
| MODEL_PCD_DYNAMIC_EX_HII
| MODEL_PCD_DYNAMIC_EX_VPD
| MODEL_MINUS_ONE.

#[global] Instance model_eq_dec : EqDecision model.
Proof. solve_decision. Defined.

(** Modelled from the spec: [DT.TAB_ARCH_COMMON] and [DT.TAB_COMMON] of
    [Common.DataType], both the wildcard ["COMMON"]. *)
Definition TAB_ARCH_COMMON : string := "COMMON".
Definition TAB_COMMON : string := "COMMON".

(** The [Enabled] slot of a P-shape row holds [True], [False] or, in the
    [_DUMMY_] row, the integer [-1]. *)
Inductive PyFlag : Type :=
| PyBool (b : bool)
| PyInt (z : Z).

(** truth value of a flag, as in [if item.Enabled] *)
Definition truthy (f : PyFlag) : bool :=
  match f with
  | PyBool b => b
  | PyInt z => negb (z =? 0)
  end.

(** [f >= 0]; Python compares [False] as [0] and [True] as [1] *)
Definition flag_ge0 (f : PyFlag) : bool :=
  match f with
  | PyBool _ => true
  | PyInt z => 0 <=? z
  end.

(** [class MetaFileTable]: the content list and the id counter. *)
Module MetaFileTable.

Record t (L : Type) : Type := mk {
  CurrentContent : list L;
  ID : Z
}.
Arguments mk {L} _ _.
Arguments CurrentContent {L} _.
Arguments ID {L} _.

(** What the base class reads of a row: its id and the truth value of its
    [Enabled] slot; [DUMMY] is the subclass's [_DUMMY_]. *)
Class Row (L : Type) : Type := {
  row_ID : L -> Z;
  row_Enabled : L -> bool;
  DUMMY : L
}.

(** [_ID_STEP_] and [_ID_MAX_] *)
Definition _ID_STEP_ : Z := 1.
Definition _ID_MAX_ : Z := 99999999.

(** [MetaFileTable.__init__] *)
Definition init {L : Type} : t L := mk [] 0.

(** [CurrentContent[-1]] *)
Definition last_row {L : Type} (self : t L) : option L :=
  List.last (map Some (CurrentContent self)) None.

Definition IsIntegrity {L : Type} `{Row L} (self : t L) : bool :=
  match last_row self with
  | None => false
  | Some item => row_ID item <? 0
  end.

Definition SetEndFlag {L : Type} `{Row L} (self : t L) : t L :=
  mk (CurrentContent self ++ [DUMMY]) (ID self).

Definition GetAll {L : Type} `{Row L} (self : t L) : list L :=
  List.filter (fun item => (0 <=? row_ID item) && row_Enabled item)
              (CurrentContent self).

End MetaFileTable.

(** *** I-shape: [class ModuleTable] *)

Module ModuleTable.

Record InfLine : Type := mkInfLine {
  ID : Z;
  Model : model;
  Value1 : string;
  Value2 : string;
  Value3 : string;
  Scope1 : string;
  Scope2 : string;
  BelongsToItem : Z;
  StartLine : Z;
  StartColumn : Z;
  EndLine : Z;
  EndColumn : Z;
  Enabled : bool
}.

Definition _DUMMY_ : InfLine :=
  mkInfLine (-1) MODEL_MINUS_ONE "====" "====" "====" "====" "===="
            (-1) (-1) (-1) (-1) (-1) false.

#[global] Instance InfLine_Row : MetaFileTable.Row InfLine :=
  {| MetaFileTable.row_ID := ID;
     MetaFileTable.row_Enabled := Enabled;
     MetaFileTable.DUMMY := _DUMMY_ |}.

(** [ModuleTable.Insert]; [MODEL_FILE_INF] is the integer constant of
    [CommonDataClass.DataClass] (not among the sources) that the guard adds
    to [_ID_MAX_].  Returns the table and the new id. *)
Definition Insert (MODEL_FILE_INF : Z) (self : MetaFileTable.t InfLine)
    (Model : model) (Value1 Value2 Value3 Scope1 Scope2 : string)
    (BelongsToItem StartLine StartColumn EndLine EndColumn : Z)
    (Enabled : bool) : MetaFileTable.t InfLine * Z :=
  let Value1 := Py.strip Value1 in
  let Value2 := Py.strip Value2 in
  let Value3 := Py.strip Value3 in
  let Scope1 := Py.strip Scope1 in
  let Scope2 := Py.strip Scope2 in
  let id := MetaFileTable.ID self + MetaFileTable._ID_STEP_ in
  let id := if MODEL_FILE_INF + MetaFileTable._ID_MAX_ <=? id
            then MODEL_FILE_INF + MetaFileTable._ID_STEP_ else id in
  let row := mkInfLine id Model Value1 Value2 Value3 Scope1 Scope2
                       BelongsToItem StartLine StartColumn EndLine EndColumn
                       Enabled in
  (MetaFileTable.mk (MetaFileTable.CurrentContent self ++ [row]) id, id).

(** [item.Scope1 in ArchList] for [ArchList = set(['COMMON']); ArchList.add(Arch)] *)
Definition in_ArchList (Arch s : string) : bool :=
  bool_decide (s ∈ ({["COMMON"]} ∪ {[Arch]} : gset string)).

(** [item.Scope2 in Platformlist] *)
Definition in_Platformlist (Platform s : string) : bool :=
  bool_decide (s ∈ ({["COMMON"]} ∪ {["DEFAULT"]} ∪ {[Platform]} : gset string)).

(** [ModuleTable.Query]; an argument left at [None] is [None] here. *)
Definition Query (self : MetaFileTable.t InfLine) (Model0 : model)
    (Arch Platform : option string) (BelongsToItem0 : option Z) : list InfLine :=
  let QueryTab := MetaFileTable.CurrentContent self in
  let result := List.filter
                  (fun item => bool_decide (Model item = Model0) && Enabled item)
                  QueryTab in
  let result :=
    match Arch with
    | Some Arch =>
        if bool_decide (Arch <> TAB_ARCH_COMMON)
        then List.filter (fun item => in_ArchList Arch (Scope1 item)) result
        else result
    | None => result
    end in
  let result :=
    match Platform with
    | Some Platform =>
        if bool_decide (Platform <> TAB_COMMON)
        then List.filter (fun item => in_Platformlist Platform (Scope2 item)) result
        else result
    | None => result
    end in
  match BelongsToItem0 with
  | Some b => List.filter (fun item => BelongsToItem item =? b) result
  | None => result
  end.

End ModuleTable.

(** *** P-shape: [class PackageTable] *)

Module PackageTable.

Record DecLine : Type := mkDecLine {
  ID : Z;
  Model : model;
  Value1 : string;
  Value2 : string;
  Value3 : string;
  Scope1 : string;
  Scope2 : string;
  BelongsToItem : Z;
  StartLine : Z;
  StartColumn : Z;
  EndLine : Z;
  EndColumn : Z;
  Enabled : PyFlag
}.

(** The last slot of the P-shape [_DUMMY_] is the integer [-1]. *)
Definition _DUMMY_ : DecLine :=
  mkDecLine (-1) MODEL_MINUS_ONE "====" "====" "====" "====" "===="
            (-1) (-1) (-1) (-1) (-1) (PyInt (-1)).

#[global] Instance DecLine_Row : MetaFileTable.Row DecLine :=
  {| MetaFileTable.row_ID := ID;
     MetaFileTable.row_Enabled := fun item => truthy (Enabled item);
     MetaFileTable.DUMMY := _DUMMY_ |}.

(** [PackageTable.Insert] *)
Definition Insert (self : MetaFileTable.t DecLine)
    (Model : model) (Value1 Value2 Value3 Scope1 Scope2 : string)
    (BelongsToItem StartLine StartColumn EndLine EndColumn : Z)
    (Enabled : PyFlag) : MetaFileTable.t DecLine * Z :=
  let Value1 := Py.strip Value1 in
  let Value2 := Py.strip Value2 in
  let Value3 := Py.strip Value3 in
  let Scope1 := Py.strip Scope1 in
  let Scope2 := Py.strip Scope2 in
  let id := MetaFileTable.ID self + MetaFileTable._ID_STEP_ in
  let row := mkDecLine id Model Value1 Value2 Value3 Scope1 Scope2
                       BelongsToItem StartLine StartColumn EndLine EndColumn
                       Enabled in
  (MetaFileTable.mk (MetaFileTable.CurrentContent self ++ [row]) id, id).

(** [PackageTable.Query]: the row filter is [item.Enabled>=0]. *)
Definition Query (self : MetaFileTable.t DecLine) (Model0 : model)
    (Arch : option string) : list DecLine :=
  let QueryTab := MetaFileTable.CurrentContent self in
  let result := List.filter
                  (fun item => bool_decide (Model item = Model0)
                               && flag_ge0 (Enabled item))
                  QueryTab in
  match Arch with
  | Some Arch =>
      if bool_decide (Arch <> TAB_ARCH_COMMON)
      then List.filter (fun item => ModuleTable.in_ArchList Arch (Scope1 item)) result
      else result
  | None => result
  end.

End PackageTable.

(** *** D-shape: [class PlatformTable] *)

Module PlatformTable.

Record DscLine : Type := mkDscLine {
  ID : Z;
  Model : model;
  Value1 : string;
  Value2 : string;
  Value3 : string;
  Scope1 : string;
  Scope2 : string;
  Scope3 : string;
  BelongsToItem : Z;
  FromItem : Z;
  StartLine : Z;
  StartColumn : Z;
  EndLine : Z;
  EndColumn : Z;
  Comment : string;
  Condition : string;
  Included : string;
  Enabled : bool
}.

Definition _DUMMY_ : DscLine :=
  mkDscLine (-1) MODEL_MINUS_ONE "====" "====" "====" "====" "====" "===="
            (-1) (-1) (-1) (-1) (-1) (-1) "" "" "" false.

#[global] Instance DscLine_Row : MetaFileTable.Row DscLine :=
  {| MetaFileTable.row_ID := ID;
     MetaFileTable.row_Enabled := Enabled;
     MetaFileTable.DUMMY := _DUMMY_ |}.

(** [PlatformTable.Insert] *)
Definition Insert (self : MetaFileTable.t DscLine)
    (Model : model) (Value1 Value2 Value3 Scope1 Scope2 Scope3 : string)
    (BelongsToItem FromItem StartLine StartColumn EndLine EndColumn : Z)
    (Comment Condition Included : string)
    (Enabled : bool) : MetaFileTable.t DscLine * Z :=
  let Value1 := Py.strip Value1 in
  let Value2 := Py.strip Value2 in
  let Value3 := Py.strip Value3 in
  let Scope1 := Py.strip Scope1 in
  let Scope2 := Py.strip Scope2 in
  let Scope3 := Py.strip Scope3 in
  let id := MetaFileTable.ID self + MetaFileTable._ID_STEP_ in
  let row := mkDscLine id Model Value1 Value2 Value3 Scope1 Scope2 Scope3
                       BelongsToItem FromItem
                       StartLine StartColumn EndLine EndColumn
                       (Py.strip Comment) (Py.strip Condition)
                       (Py.strip Included) Enabled in
  (MetaFileTable.mk (MetaFileTable.CurrentContent self ++ [row]) id, id).

(** The set [Sc2] of [Query]: ['COMMON'], ['DEFAULT'], the filter itself
    and, when the filter has a ['.'], ['COMMON'] followed by the filter from
    its first ['.'] on. *)
Definition Sc2 (Scope2 : string) : gset string :=
  let base : gset string := {["COMMON"]} ∪ {["DEFAULT"]} in
  let base :=
    match String.index 0 "." Scope2 with
    | Some Index => base ∪ {[TAB_COMMON +:+ Py.drop Index Scope2]}
    | None => base
    end in
  base ∪ {[Scope2]}.

(** [PlatformTable.Query] *)
Definition Query (self : MetaFileTable.t DscLine) (Model0 : model)
    (Scope1_ Scope2_ : option string) (BelongsToItem0 FromItem0 : option Z)
    : list DscLine :=
  let QueryTab := MetaFileTable.CurrentContent self in
  let result := List.filter
                  (fun item => bool_decide (Model item = Model0) && Enabled item)
                  QueryTab in
  let result :=
    match Scope1_ with
    | Some s1 =>
        if bool_decide (s1 <> TAB_ARCH_COMMON)
        then List.filter (fun item => ModuleTable.in_ArchList s1 (Scope1 item)) result
        else result
    | None => result
    end in
  let result :=
    match Scope2_ with
    | Some s2 =>
        if bool_decide (s2 <> "") && bool_decide (s2 <> TAB_COMMON)
        then List.filter (fun item => bool_decide (Scope2 item ∈ Sc2 s2)) result
        else result
    | None => result
    end in
  let result :=
    match BelongsToItem0 with
    | Some b => List.filter (fun item => BelongsToItem item =? b) result
    | None => List.filter (fun item => BelongsToItem item <? 0) result
    end in
  match FromItem0 with
  | Some f => List.filter (fun item => FromItem item =? f) result
  | None => result
  end.

(** [PlatformTable.DisableComponent] *)
Definition DisableComponent (self : MetaFileTable.t DscLine) (comp_id : Z)
    : MetaFileTable.t DscLine :=
  MetaFileTable.mk
    (map (fun item =>
            if (ID item =? comp_id) || (BelongsToItem item =? comp_id)
            then mkDscLine (ID item) (Model item) (Value1 item) (Value2 item)
                           (Value3 item) (Scope1 item) (Scope2 item) (Scope3 item)
                           (BelongsToItem item) (FromItem item) (StartLine item)
                           (StartColumn item) (EndLine item) (EndColumn item)
                           (Comment item) (Condition item) (Included item) false
            else item)
         (MetaFileTable.CurrentContent self))
    (MetaFileTable.ID self).

End PlatformTable.

(** *** Runs of [Insert] calls

    A row stands for the arguments of one call (its [ID] slot is not read);
    the run returns the table and the ids that the calls returned, in call
    order. *)

Definition ModuleTable_Insert_row (MODEL_FILE_INF : Z)
    (self : MetaFileTable.t ModuleTable.InfLine) (a : ModuleTable.InfLine)
    : MetaFileTable.t ModuleTable.InfLine * Z :=
  ModuleTable.Insert MODEL_FILE_INF self
    (ModuleTable.Model a) (ModuleTable.Value1 a) (ModuleTable.Value2 a)
    (ModuleTable.Value3 a) (ModuleTable.Scope1 a) (ModuleTable.Scope2 a)
    (ModuleTable.BelongsToItem a) (ModuleTable.StartLine a)
    (ModuleTable.StartColumn a) (ModuleTable.EndLine a)
    (ModuleTable.EndColumn a) (ModuleTable.Enabled a).

Definition PackageTable_Insert_row
    (self : MetaFileTable.t PackageTable.DecLine) (a : PackageTable.DecLine)
    : MetaFileTable.t PackageTable.DecLine * Z :=
  PackageTable.Insert self
    (PackageTable.Model a) (PackageTable.Value1 a) (PackageTable.Value2 a)
    (PackageTable.Value3 a) (PackageTable.Scope1 a) (PackageTable.Scope2 a)
    (PackageTable.BelongsToItem a) (PackageTable.StartLine a)
    (PackageTable.StartColumn a) (PackageTable.EndLine a)
    (PackageTable.EndColumn a) (PackageTable.Enabled a).

Definition PlatformTable_Insert_row
    (self : MetaFileTable.t PlatformTable.DscLine) (a : PlatformTable.DscLine)
    : MetaFileTable.t PlatformTable.DscLine * Z :=
  PlatformTable.Insert self
    (PlatformTable.Model a) (PlatformTable.Value1 a) (PlatformTable.Value2 a)
    (PlatformTable.Value3 a) (PlatformTable.Scope1 a) (PlatformTable.Scope2 a)
    (PlatformTable.Scope3 a)
    (PlatformTable.BelongsToItem a) (PlatformTable.FromItem a)
    (PlatformTable.StartLine a) (PlatformTable.StartColumn a)
    (PlatformTable.EndLine a) (PlatformTable.EndColumn a)
    (PlatformTable.Comment a) (PlatformTable.Condition a)
    (PlatformTable.Included a) (PlatformTable.Enabled a).

(** Calls [ins] once per element of [calls], threading the table. *)
Fixpoint InsertAll {L : Type}
    (ins : MetaFileTable.t L -> L -> MetaFileTable.t L * Z)
    (self : MetaFileTable.t L) (calls : list L) : MetaFileTable.t L * list Z :=
  match calls with
  | [] => (self, [])
  | a :: rest =>
      let '(self1, id) := ins self a in
      let '(self2, ids) := InsertAll ins self1 rest in
      (self2, id :: ids)
  end.

(** [n] calls of [ins] with the same arguments. *)
Fixpoint InsertTimes {L : Type}
    (ins : MetaFileTable.t L -> L -> MetaFileTable.t L * Z)
    (n : nat) (self : MetaFileTable.t L) (a : L) : MetaFileTable.t L :=
  match n with
  | O => self
  | S n' => InsertTimes ins n' (fst (ins self a)) a
  end.

(** The ids of the rows of a table, in insertion order. *)
Definition row_ids {L : Type} `{MetaFileTable.Row L} (self : MetaFileTable.t L)
    : list Z :=
  map MetaFileTable.row_ID (MetaFileTable.CurrentContent self).

(** ** Regular expressions ([re])

    The patterns of the sources are matched by derivatives.  [Chr p] is a
    character class. *)

Module Re.

Inductive regex : Type :=
| Never
| Eps
| Chr (p : ascii -> bool)
| Cat (r1 r2 : regex)
| Alt (r1 r2 : regex)
| Star (r : regex).

Fixpoint nullable (r : regex) : bool :=
  match r with
  | Never => false
  | Eps => true
  | Chr _ => false
  | Cat r1 r2 => nullable r1 && nullable r2
  | Alt r1 r2 => nullable r1 || nullable r2
  | Star _ => true
  end.

Fixpoint deriv (c : ascii) (r : regex) : regex :=
  match r with
  | Never => Never
  | Eps => Never
  | Chr p => if p c then Eps else Never
  | Cat r1 r2 =>
      if nullable r1 then Alt (Cat (deriv c r1) r2) (deriv c r2)
      else Cat (deriv c r1) r2
  | Alt r1 r2 => Alt (deriv c r1) (deriv c r2)
  | Star r1 => Cat (deriv c r1) (Star r1)
  end.

(** the whole of [s] matches [r] *)
Fixpoint fullmatch (r : regex) (s : string) : bool :=
  match s with
  | EmptyString => nullable r
  | String c s' => fullmatch (deriv c r) s'
  end.

(** [re.compile(r + '$').match(s)]: a prefix of [s] matches [r] and what
    follows it is the end of [s] or the line feed that ends [s]. *)
Fixpoint match_dollar (r : regex) (s : string) : bool :=
  (nullable r
   && (bool_decide (s = EmptyString)
       || bool_decide (s = String Py.NEWLINE EmptyString)))
  || match s with
     | EmptyString => false
     | String c s' => match_dollar (deriv c r) s'
     end.

(** [re.compile(r).match(s)]: some prefix of [s] matches [r]. *)
Fixpoint match_prefix (r : regex) (s : string) : bool :=
  nullable r
  || match s with
     | EmptyString => false
     | String c s' => match_prefix (deriv c r) s'
     end.

(** [re.compile(r).findall(s)] is not empty: a substring of [s] matches. *)
Definition search (r : regex) (s : string) : bool :=
  match_prefix (Cat (Star (Chr (fun _ => true))) r) s.

(** Classes and literals. *)
Definition lit (c : ascii) : regex := Chr (fun x => bool_decide (x = c)).
Definition space : regex := Chr Py.isspace.
Definition dot : regex := Chr (fun x => negb (bool_decide (x = Py.NEWLINE))).
Definition opt (r : regex) : regex := Alt Eps r.

Fixpoint word (s : string) : regex :=
  match s with
  | EmptyString => Eps
  | String c r => Cat (lit c) (word r)
  end.

End Re.

(** ** [Common/Misc.py] *)

Module Misc.

(** Modelled from the spec: constants of [Common.DataType], which is not
    among the sources: the field separator, the [VOID*] datum type, the
    unsigned integer types with their maxima, and the three characters that
    adjust the printable set (vertical tab, backspace, null). *)
Definition TAB_VALUE_SPLIT : string := "|".
Definition TAB_VOID : string := "VOID*".
Definition TAB_UINT8 : string := "UINT8".
Definition TAB_UINT16 : string := "UINT16".
Definition TAB_UINT32 : string := "UINT32".
Definition TAB_UINT64 : string := "UINT64".
Definition TAB_PRINTCHAR_VT : ascii := ascii_of_nat 11.
Definition TAB_PRINTCHAR_BS : ascii := ascii_of_nat 8.
Definition TAB_PRINTCHAR_NUL : ascii := ascii_of_nat 0.

Definition MAX_VAL_TYPE (Type_ : string) : Z :=
  if bool_decide (Type_ = TAB_UINT8) then 255
  else if bool_decide (Type_ = TAB_UINT16) then 65535
  else if bool_decide (Type_ = TAB_UINT32) then 4294967295
  else 18446744073709551615.

(** *** [int(text, base)] of the Python run time, for the bases 0, 10 and 16

    [None] stands for the [ValueError]. *)

Definition digit_value (c : ascii) : option Z :=
  let n := Z.of_N (N_of_ascii c) in
  if (48 <=? n) && (n <=? 57) then Some (n - 48)
  else if (97 <=? n) && (n <=? 102) then Some (n - 87)
  else if (65 <=? n) && (n <=? 70) then Some (n - 55)
  else None.

(** digits of [base], single underscores allowed between two digits (and
    in front when [lead] is set, as after a base prefix) *)
Fixpoint digits (base : Z) (s : string) (prev_digit : bool) (acc : Z) : option Z :=
  match s with
  | EmptyString => if prev_digit then Some acc else None
  | String c r =>
      if bool_decide (c = "_"%char) then
        if prev_digit then digits base r false acc else None
      else
        match digit_value c with
        | Some d => if d <? base then digits base r true (acc * base + d) else None
        | None => None
        end
  end.

Definition digits_after_prefix (base : Z) (s : string) : option Z :=
  match s with
  | String c r => if bool_decide (c = "_"%char) then digits base r false 0
                  else digits base s false 0
  | EmptyString => None
  end.

Definition unsigned_int (base : Z) (s : string) : option Z :=
  let low := Py.upper (Py.take 2 s) in
  if bool_decide (base = 16) then
    if bool_decide (low = "0X") then digits_after_prefix 16 (Py.drop 2 s)
    else digits 16 s false 0
  else if bool_decide (base = 10) then digits 10 s false 0
  else
    if bool_decide (low = "0X") then digits_after_prefix 16 (Py.drop 2 s)
    else if bool_decide (low = "0O") then digits_after_prefix 8 (Py.drop 2 s)
    else if bool_decide (low = "0B") then digits_after_prefix 2 (Py.drop 2 s)
    else match digits 10 s false 0 with
         | Some v =>
             (* a decimal literal with a leading zero must be zero *)
             if Py.startswith s "0" && negb (v =? 0) then None else Some v
         | None => None
         end.

(** The blanks that [int] passes over at both ends of its text: those
    of the C locale, 9 to 13 and 32, and the two blanks of Latin-1, 133 and
    160, which [int] turns into spaces first (a text with one of them is not
    ASCII).  The separators 28 to 31, which [str.strip] takes off, are not
    passed over: [int] raises on them. *)
Definition int_blank (c : ascii) : bool :=
  let n := N_of_ascii c in
  ((9 <=? n) && (n <=? 13) || (n =? 32) || (n =? 133) || (n =? 160))%N.

Fixpoint int_lstrip (s : string) : string :=
  match s with
  | EmptyString => EmptyString
  | String c r => if int_blank c then int_lstrip r else s
  end.

Fixpoint int_rstrip (s : string) : string :=
  match s with
  | EmptyString => EmptyString
  | String c r =>
      match int_rstrip r with
      | EmptyString => if int_blank c then EmptyString else String c EmptyString
      | r' => String c r'
      end
  end.

Definition int (s : string) (base : Z) : option Z :=
  let s := int_rstrip (int_lstrip s) in
  match s with
  | String "-"%char r => option_map Z.opp (unsigned_int base r)
  | String "+"%char r => unsigned_int base r
  | _ => unsigned_int base s
  end.

(** *** [StructPattern = re.compile(r'[_a-zA-Z][0-9A-Za-z_]*$')] *)

Definition is_alpha_ (c : ascii) : bool :=
  let n := N_of_ascii c in
  ((n =? 95) || (65 <=? n) && (n <=? 90) || (97 <=? n) && (n <=? 122))%N.

Definition is_alnum_ (c : ascii) : bool :=
  let n := N_of_ascii c in
  (is_alpha_ c || (48 <=? n) && (n <=? 57))%N.

Definition StructPattern : Re.regex :=
  Re.Cat (Re.Chr is_alpha_) (Re.Star (Re.Chr is_alnum_)).

Definition StructPattern_match (s : string) : bool :=
  Re.match_dollar StructPattern s.

(** *** [AnalyzePcdExpression] *)

(** The three loop variables of the scan. *)
Record Scan : Type := mkScan {
  InSingleQuoteStr : bool;
  InDoubleQuoteStr : bool;
  Pair : Z
}.

(** One iteration of [for Index, ch in enumerate(Data)]; [prev] is
    [Data[Index - 1]].  Returns the variables and the character appended
    to [NewStr]. *)
Definition scan_char (prev ch : ascii) (st : Scan) : Scan * ascii :=
  let st :=
    if bool_decide (ch = Py.DQUOTE) && negb (InSingleQuoteStr st) then
      if negb (bool_decide (prev = Py.BACKSLASH))
      then mkScan (InSingleQuoteStr st) (negb (InDoubleQuoteStr st)) (Pair st)
      else st
    else if bool_decide (ch = Py.SQUOTE) && negb (InDoubleQuoteStr st) then
      if negb (bool_decide (prev = Py.BACKSLASH))
      then mkScan (negb (InSingleQuoteStr st)) (InDoubleQuoteStr st) (Pair st)
      else st
    else if bool_decide (ch = "("%char)
            && negb (InSingleQuoteStr st || InDoubleQuoteStr st) then
      mkScan (InSingleQuoteStr st) (InDoubleQuoteStr st) (Pair st + 1)
    else if bool_decide (ch = ")"%char)
            && negb (InSingleQuoteStr st || InDoubleQuoteStr st) then
      mkScan (InSingleQuoteStr st) (InDoubleQuoteStr st) (Pair st - 1)
    else st in
  if ((0 <? Pair st) || InSingleQuoteStr st || InDoubleQuoteStr st)
     && bool_decide (ch = "|"%char)
  then (st, "-"%char)
  else (st, ch).

Fixpoint scan (prev : ascii) (Data : string) (st : Scan) : string :=
  match Data with
  | EmptyString => EmptyString
  | String ch rest =>
      let '(st', out) := scan_char prev ch st in
      String out (scan ch rest st')
  end.

(** [NewStr]: at [Index = 0] the character [Data[Index - 1]] is [Data[-1]],
    the last character of [Data]. *)
Definition NewStr_of (Data : string) : string :=
  match Py.last Data with
  | Some l => scan l Data (mkScan false false 0)
  | None => EmptyString
  end.

(** The [while True] loop that cuts [Setting] where [NewStr] has the
    separator; each round moves [StartPos] past a separator, so
    [length NewStr + 1] rounds suffice. *)
Fixpoint split_fields (fuel : nat) (Setting NewStr : string) (StartPos : nat)
    : list string :=
  match Py.find NewStr TAB_VALUE_SPLIT StartPos with
  | None => [Py.strip (Py.drop StartPos Setting)]
  | Some Pos =>
      match fuel with
      | O => []
      | S fuel' =>
          Py.strip (Py.slice StartPos Pos Setting)
          :: split_fields fuel' Setting NewStr (Pos + 1)
      end
  end.

(** [AnalyzePcdExpression(Setting)]; [RanStr] is the random string of 8
    letters and digits that the function draws. *)
Definition AnalyzePcdExpression (RanStr : string) (Setting : string) : list string :=
  let Setting := Py.strip (Py.replace Setting "\\" RanStr) in
  let Data := Setting in
  let NewStr := NewStr_of Data in
  let FieldList := split_fields (String.length NewStr) Setting NewStr 0 in
  map (fun ch => if Py.contains ch RanStr then Py.replace ch RanStr "\\" else ch)
      FieldList.

(** *** [AnalyzeDscPcd] *)

(** [int(Size, 16) if Size.upper().startswith("0X") else int(Size)] raises *)
Definition size_raises (Size : string) : bool :=
  match (if Py.startswith (Py.upper Size) "0X" then int Size 16 else int Size 10) with
  | Some _ => false
  | None => true
  end.

(** [FieldList[i]] for an index that the code has checked *)
Definition field (FieldList : list string) (i : nat) : string :=
  nth i FieldList "".

(** [AnalyzeDscPcd(Setting, PcdType, DataType)]: the value list, [IsValid]
    and the index of the PCD value.  [str(Size)] of the integer [-1] is the
    text [-1]. *)
Definition AnalyzeDscPcd (RanStr : string) (Setting : string) (PcdType : model)
    (DataType : string) : list string * bool * nat :=
  let FieldList := AnalyzePcdExpression RanStr Setting in
  let n := length FieldList in
  if bool_decide (PcdType ∈ [MODEL_PCD_FIXED_AT_BUILD; MODEL_PCD_PATCHABLE_IN_MODULE;
                             MODEL_PCD_DYNAMIC_DEFAULT; MODEL_PCD_DYNAMIC_EX_DEFAULT])
  then
    let Value := field FieldList 0 in
    let '(DataType, IsValid) :=
      if (1 <? n)%nat && negb (bool_decide (field FieldList 1 = "")) then
        (field FieldList 1,
         negb (negb (bool_decide (field FieldList 1 = TAB_VOID))
               && negb (StructPattern_match (field FieldList 1))))
      else (DataType, true) in
    let Size := if (2 <? n)%nat then field FieldList 2 else "" in
    let IsValid :=
      if IsValid then
        if bool_decide (DataType = "") then (n <=? 1)%nat else (n <=? 3)%nat
      else IsValid in
    let '(IsValid, Size) :=
      if negb (bool_decide (Size = "")) && size_raises Size
      then (false, "-1") else (IsValid, Size) in
    ([Value; DataType; Size], IsValid, 0%nat)
  else if bool_decide (PcdType = MODEL_PCD_FEATURE_FLAG) then
    let Value := field FieldList 0 in
    ([Value; DataType; ""], (n <=? 1)%nat, 0%nat)
  else if bool_decide (PcdType ∈ [MODEL_PCD_DYNAMIC_VPD; MODEL_PCD_DYNAMIC_EX_VPD])
  then
    let VpdOffset := field FieldList 0 in
    let '(Value, Size) :=
      if negb (bool_decide (DataType = TAB_VOID)) then
        (if (1 <? n)%nat then field FieldList 1 else "", "")
      else
        (if (2 <? n)%nat then field FieldList 2 else "",
         if (1 <? n)%nat then field FieldList 1 else "") in
    let IsValid :=
      if bool_decide (DataType = "") then (n <=? 1)%nat else (n <=? 3)%nat in
    let '(IsValid, Size) :=
      if negb (bool_decide (Size = "")) && size_raises Size
      then (false, "-1") else (IsValid, Size) in
    ([VpdOffset; Size; Value], IsValid, 2%nat)
  else if bool_decide (PcdType ∈ [MODEL_PCD_DYNAMIC_HII; MODEL_PCD_DYNAMIC_EX_HII])
  then
    let IsValid := (3 <=? n)%nat && (n <=? 5)%nat in
    let HiiString := field FieldList 0 in
    let Guid := if (1 <? n)%nat then field FieldList 1 else "" in
    let Offset := if (2 <? n)%nat then field FieldList 2 else "" in
    let Value := if (3 <? n)%nat then field FieldList 3 else "" in
    let Attribute := if (4 <? n)%nat then field FieldList 4 else "" in
    ([HiiString; Guid; Offset; Value; Attribute], IsValid, 3%nat)
  else ([], false, 0%nat).

(** *** [CheckPcdDatum] *)

(** The cause that [CheckPcdDatum] returns beside its verdict: [NoCause] is
    the empty text, [StructurePcd] the text of that name, the others are
    the messages built from the value and the type. *)
Inductive Cause : Type :=
| NoCause
| StructurePcd
| InvalidVoidForm (Value Type_ : string)
| NotPrintable (Type_ : string)
| InvalidBoolean (Value Type_ : string)
| NegativeValue (Value Type_ : string)
| TooLarge (Value : Z) (Type_ : string)
| InvalidNumber (Value Type_ : string).

(** [ValueRe] of the [VOID*] branch: optional blanks, an optional [L], a
    double quote, any characters but line feeds, a double quote, optional
    blanks, end. *)
Definition ValueRe : Re.regex :=
  Re.Cat (Re.Star Re.space)
    (Re.Cat (Re.opt (Re.lit "L"%char))
      (Re.Cat (Re.lit Py.DQUOTE)
        (Re.Cat (Re.Star Re.dot)
          (Re.Cat (Re.lit Py.DQUOTE) (Re.Star Re.space))))).

(** [Printset]: [string.printable] without [TAB_PRINTCHAR_VT], with
    [TAB_PRINTCHAR_BS] and [TAB_PRINTCHAR_NUL]. *)
Definition string_printable (c : ascii) : bool :=
  let n := N_of_ascii c in
  ((32 <=? n) && (n <=? 126) || (9 <=? n) && (n <=? 13))%N.

Definition Printset (c : ascii) : bool :=
  (string_printable c && negb (bool_decide (c = TAB_PRINTCHAR_VT)))
  || bool_decide (c = TAB_PRINTCHAR_BS)
  || bool_decide (c = TAB_PRINTCHAR_NUL).

Definition DQ : string := String Py.DQUOTE EmptyString.
Definition SQ : string := String Py.SQUOTE EmptyString.
Definition LDQ : string := String "L"%char DQ.
Definition LSQ : string := String "L"%char SQ.

(** [Value[a:-1]] *)
Definition slice_to_last (a : nat) (Value : string) : string :=
  Py.slice a (String.length Value - 1) Value.

(** [Value.lstrip('0')] *)
Fixpoint lstrip0 (s : string) : string :=
  match s with
  | String "0"%char r => lstrip0 r
  | _ => s
  end.

(** [c.lower()] for a character of the 8-bit range: the letters A-Z and
    the letters 192-222 of Latin-1 (215, the multiplication sign, is none)
    go up by 32. *)
Definition lower_char (c : ascii) : ascii :=
  let n := N_of_ascii c in
  if ((65 <=? n) && (n <=? 90)
      || (192 <=? n) && (n <=? 222) && negb (n =? 215))%N
  then ascii_of_N (n + 32) else c.

Fixpoint lower (s : string) : string :=
  match s with
  | EmptyString => EmptyString
  | String c r => String (lower_char c) (lower r)
  end.

Definition CheckPcdDatum (Type_ Value : string) : bool * Cause :=
  if bool_decide (Type_ = TAB_VOID) then
    if negb (((Py.startswith Value LDQ || Py.startswith Value DQ)
              && Py.endswith Value DQ)
             || (Py.startswith Value "{" && Py.endswith Value "}")
             || (Py.startswith Value LSQ
                 || Py.startswith Value SQ && Py.endswith Value SQ))
    then (false, InvalidVoidForm Value Type_)
    else if Re.match_dollar ValueRe Value then
      let Value := if Py.startswith Value "L"
                   then slice_to_last 2 Value else slice_to_last 1 Value in
      if negb (Py.forallb Printset Value)
      then (false, NotPrintable Type_)
      else (true, NoCause)
    else (true, NoCause)
  else if bool_decide (Type_ = "BOOLEAN") then
    if negb (bool_decide (Value ∈ ["TRUE"; "True"; "true"; "0x1"; "0x01"; "1";
                                   "FALSE"; "False"; "false"; "0x0"; "0x00"; "0"]))
    then (false, InvalidBoolean Value Type_)
    else (true, NoCause)
  else if bool_decide (Type_ ∈ [TAB_UINT8; TAB_UINT16; TAB_UINT32; TAB_UINT64]) then
    let Value :=
      if Py.startswith Value "0" && negb (Py.startswith (lower Value) "0x")
         && (1 <? String.length Value)%nat
         && negb (bool_decide (lstrip0 Value = ""))
      then lstrip0 Value else Value in
    match int Value 0 with
    | None => (false, InvalidNumber Value Type_)
    | Some v =>
        if negb (bool_decide (Value = "")) && (v <? 0)
        then (false, NegativeValue Value Type_)
        else if MAX_VAL_TYPE Type_ <? v then (false, TooLarge v Type_)
        else (true, NoCause)
    end
  else (true, StructurePcd).

End Misc.

(** *** What a pattern denotes

    [Re_matches r s]: the whole of [s] is a word of [r]; the reference
    against which the derivative matcher is proved. *)
Inductive Re_matches : Re.regex -> string -> Prop :=
| MEps : Re_matches Re.Eps EmptyString
| MChr p c : p c = true -> Re_matches (Re.Chr p) (String c EmptyString)
| MCat r1 r2 s1 s2 :
    Re_matches r1 s1 -> Re_matches r2 s2 -> Re_matches (Re.Cat r1 r2) (s1 +:+ s2)
| MAltL r1 r2 s : Re_matches r1 s -> Re_matches (Re.Alt r1 r2) s
| MAltR r1 r2 s : Re_matches r2 s -> Re_matches (Re.Alt r1 r2) s
| MStar0 r : Re_matches (Re.Star r) EmptyString
| MStarS r s1 s2 :
    Re_matches r s1 -> Re_matches (Re.Star r) s2 -> Re_matches (Re.Star r) (s1 +:+ s2).

(** *** Two PCD value texts

    [pcd_value_example] is the text [L] followed by the double-quoted
    [a|b] and [|VOID*|8]; [pcd_value_leading_quote] is the double-quoted
    [a|b] followed by one backslash. *)
Definition pcd_value_example : string :=
  Misc.LDQ +:+ "a|b" +:+ Misc.DQ +:+ "|VOID*|8".

Definition pcd_value_leading_quote : string :=
  Misc.DQ +:+ "a|b" +:+ Misc.DQ +:+ "\".

(** ** The parsers ([MetaFileParser2.py]) *)

(** More of [str]: [s.split(sep)] on a one-character separator, and
    [sep.join(l)]. *)
Fixpoint py_split (sep : ascii) (s : string) : list string :=
  match s with
  | EmptyString => [EmptyString]
  | String c r =>
      if bool_decide (c = sep) then EmptyString :: py_split sep r
      else match py_split sep r with
           | [] => [String c EmptyString]
           | x :: xs => String c x :: xs
           end
  end.

Fixpoint py_join (sep : string) (l : list string) : string :=
  match l with
  | [] => EmptyString
  | [x] => x
  | x :: rest => x +:+ sep +:+ py_join sep rest
  end.

(** The third slot of a scope entry: the default store in dialects D and I,
    the section's model in dialect P. *)
Inductive Scope3Val : Type :=
| Store (s : string)
| SectionModel (m : model).

#[global] Instance Scope3Val_eq_dec : EqDecision Scope3Val.
Proof. solve_decision. Defined.

Definition ScopeEntry : Type := (string * string * Scope3Val)%type.

(** [_SectionType] is one model in the base class and a list of models in
    [DecParser]. *)
Inductive SectionTypeVal : Type :=
| OneType (m : model)
| TypeList (l : list model).

#[global] Instance SectionTypeVal_eq_dec : EqDecision SectionTypeVal.
Proof. solve_decision. Defined.

(** Which class the parser object is an instance of. *)
Inductive ParserClass : Type := IsInfParser | IsDscParser | IsDecParser.

#[global] Instance ParserClass_eq_dec : EqDecision ParserClass.
Proof. solve_decision. Defined.

(** The outcome of [ValueExpression(text, macros)()]: a value, of which the
    parser reads the truth value and the text, or one of the exceptions that
    the parser tells apart. *)
Inductive ExprOutcome : Type :=
| ExprValue (truth : bool) (text : string)
| ExprSymbolNotFound
| ExprWarning (truth : bool) (text : string)
| ExprBad.

Definition Macros : Type := gmap string string.

(** [d.update(m)] *)
Definition update (d m : Macros) : Macros := m ∪ d.

(** [self._SectionsMacroDict]: a dictionary read in insertion order, keyed
    by the section type and the tuple of scope entries. *)
Definition SectionKey : Type := (model * list ScopeEntry)%type.
Definition SectionsMacroDict : Type := list (SectionKey * Macros).

(** [d[key][Name] = Value] on the [defaultdict(dict)] *)
Fixpoint section_macro_set (d : SectionsMacroDict) (key : SectionKey)
    (Name Value : string) : SectionsMacroDict :=
  match d with
  | [] => [(key, <[Name := Value]> ∅)]
  | (k, m) :: rest =>
      if bool_decide (k = key) then (k, <[Name := Value]> m) :: rest
      else (k, m) :: section_macro_set rest key Name Value
  end.

(** The state of a parser object, with the [GlobalData] dictionaries that
    its methods read and write.  [L] is the row type of its table.

    [self._Table] and [self._RawTable] start as two names of one table
    object, and what is appended through one is seen through the other;
    [_PostProcess] makes [self._Table] a table of its own.  [_RawTable] is
    the raw table, [_OwnTable] is [None] while [self._Table] is the raw
    table and else the table that [self._Table] names. *)
Record Parser (L : Type) : Type := mkParser {
  Class_ : ParserClass;
  DataType : gmap string model;
  _OwnTable : option (MetaFileTable.t L);
  _RawTable : MetaFileTable.t L;
  _FileLocalMacros : Macros;
  _SectionsMacroDict : SectionsMacroDict;
  _Owner : list Z;
  _From : Z;
  _ValueList : option (list string);
  _Scope : list ScopeEntry;
  _LineIndex : Z;
  _CurrentLine : string;
  _SectionType : SectionTypeVal;
  _SectionName : string;
  _InSubsection : bool;
  _SubsectionType : model;
  _SubsectionName : string;
  _ItemType : model;
  _LastItem : Z;
  _Enabled : bool;
  _Finished : bool;
  _PostProcessed : bool;
  _Version : Z;
  (* DscParser *)
  _DirectiveStack : list model;
  _DirectiveEvalStack : list bool;
  _InDirective : Z;
  _Symbols : Macros;
  _IdMapping : gmap Z Z;
  _Content : list L;
  _ContentIndex : nat;
  (* DecParser *)
  _DefinesCount : Z;
  (* GlobalData *)
  gGlobalDefines : Macros;
  gCommandLineDefines : Macros;
  gEdkGlobal : Macros;
  gPlatformDefines : Macros;
  gPlatformPcds : Macros;
  BuildOptionPcd : list (string * string)
}.

Arguments mkParser {L}.
Arguments Class_ {L} _.
Arguments DataType {L} _.
Arguments _OwnTable {L} _.
Arguments _RawTable {L} _.
Arguments _FileLocalMacros {L} _.
Arguments _SectionsMacroDict {L} _.
Arguments _Owner {L} _.
Arguments _From {L} _.
Arguments _ValueList {L} _.
Arguments _Scope {L} _.
Arguments _LineIndex {L} _.
Arguments _CurrentLine {L} _.
Arguments _SectionType {L} _.
Arguments _SectionName {L} _.
Arguments _InSubsection {L} _.
Arguments _SubsectionType {L} _.
Arguments _SubsectionName {L} _.
Arguments _ItemType {L} _.
Arguments _LastItem {L} _.
Arguments _Enabled {L} _.
Arguments _Finished {L} _.
Arguments _PostProcessed {L} _.
Arguments _Version {L} _.
Arguments _DirectiveStack {L} _.
Arguments _DirectiveEvalStack {L} _.
Arguments _InDirective {L} _.
Arguments _Symbols {L} _.
Arguments _IdMapping {L} _.
Arguments _Content {L} _.
Arguments _ContentIndex {L} _.
Arguments _DefinesCount {L} _.
Arguments gGlobalDefines {L} _.
Arguments gCommandLineDefines {L} _.
Arguments gEdkGlobal {L} _.
Arguments gPlatformDefines {L} _.
Arguments gPlatformPcds {L} _.
Arguments BuildOptionPcd {L} _.

(** Field update: [p <| f := v |>] is [p] with the field [f] set to [v]. *)
Class Setter {R E : Type} (proj : R -> E) : Type := set : (E -> E) -> R -> R.
Arguments set {R E} proj {Setter} _ _.

Ltac build_setter eta proj :=
  let s := (match eval pattern proj in eta with
            | ?mk _ => constr:(fun f => mk (fun r => f (proj r)))
            end) in
  let s := (eval cbv beta in s) in
  exact s.

Notation "r <| proj := v |>" := (set proj (fun _ => v) r)
  (at level 12, left associativity, format "r  <| proj  :=  v |>").

Section ParserSetters.
Context {L : Type}.

Definition Parser_eta : Parser L -> Parser L :=
  fun r => mkParser (Class_ r) (DataType r) (_OwnTable r) (_RawTable r)
    (_FileLocalMacros r) (_SectionsMacroDict r) (_Owner r) (_From r)
    (_ValueList r) (_Scope r) (_LineIndex r) (_CurrentLine r)
    (_SectionType r) (_SectionName r) (_InSubsection r) (_SubsectionType r)
    (_SubsectionName r) (_ItemType r) (_LastItem r) (_Enabled r)
    (_Finished r) (_PostProcessed r) (_Version r) (_DirectiveStack r)
    (_DirectiveEvalStack r) (_InDirective r) (_Symbols r) (_IdMapping r)
    (_Content r) (_ContentIndex r) (_DefinesCount r) (gGlobalDefines r)
    (gCommandLineDefines r) (gEdkGlobal r) (gPlatformDefines r)
    (gPlatformPcds r) (BuildOptionPcd r).

Ltac parser_setter proj :=
  let eta := (eval cbv delta [Parser_eta] in Parser_eta) in
  build_setter eta proj.

#[global] Instance set_OwnTable : Setter (@_OwnTable L) := ltac:(parser_setter (@_OwnTable L)).
#[global] Instance set_RawTable : Setter (@_RawTable L) := ltac:(parser_setter (@_RawTable L)).
#[global] Instance set_FileLocalMacros : Setter (@_FileLocalMacros L) := ltac:(parser_setter (@_FileLocalMacros L)).
#[global] Instance set_SectionsMacroDict : Setter (@_SectionsMacroDict L) := ltac:(parser_setter (@_SectionsMacroDict L)).
#[global] Instance set_Owner : Setter (@_Owner L) := ltac:(parser_setter (@_Owner L)).
#[global] Instance set_From : Setter (@_From L) := ltac:(parser_setter (@_From L)).
#[global] Instance set_ValueList : Setter (@_ValueList L) := ltac:(parser_setter (@_ValueList L)).
#[global] Instance set_Scope : Setter (@_Scope L) := ltac:(parser_setter (@_Scope L)).
#[global] Instance set_LineIndex : Setter (@_LineIndex L) := ltac:(parser_setter (@_LineIndex L)).
#[global] Instance set_CurrentLine : Setter (@_CurrentLine L) := ltac:(parser_setter (@_CurrentLine L)).
#[global] Instance set_SectionType : Setter (@_SectionType L) := ltac:(parser_setter (@_SectionType L)).
#[global] Instance set_SectionName : Setter (@_SectionName L) := ltac:(parser_setter (@_SectionName L)).
#[global] Instance set_InSubsection : Setter (@_InSubsection L) := ltac:(parser_setter (@_InSubsection L)).
#[global] Instance set_SubsectionType : Setter (@_SubsectionType L) := ltac:(parser_setter (@_SubsectionType L)).
#[global] Instance set_SubsectionName : Setter (@_SubsectionName L) := ltac:(parser_setter (@_SubsectionName L)).
#[global] Instance set_ItemType : Setter (@_ItemType L) := ltac:(parser_setter (@_ItemType L)).
#[global] Instance set_LastItem : Setter (@_LastItem L) := ltac:(parser_setter (@_LastItem L)).
#[global] Instance set_Enabled : Setter (@_Enabled L) := ltac:(parser_setter (@_Enabled L)).
#[global] Instance set_Finished : Setter (@_Finished L) := ltac:(parser_setter (@_Finished L)).
#[global] Instance set_PostProcessed : Setter (@_PostProcessed L) := ltac:(parser_setter (@_PostProcessed L)).
#[global] Instance set_DirectiveStack : Setter (@_DirectiveStack L) := ltac:(parser_setter (@_DirectiveStack L)).
#[global] Instance set_DirectiveEvalStack : Setter (@_DirectiveEvalStack L) := ltac:(parser_setter (@_DirectiveEvalStack L)).
#[global] Instance set_Symbols : Setter (@_Symbols L) := ltac:(parser_setter (@_Symbols L)).
#[global] Instance set_IdMapping : Setter (@_IdMapping L) := ltac:(parser_setter (@_IdMapping L)).
#[global] Instance set_Content : Setter (@_Content L) := ltac:(parser_setter (@_Content L)).
#[global] Instance set_ContentIndex : Setter (@_ContentIndex L) := ltac:(parser_setter (@_ContentIndex L)).
#[global] Instance set_DefinesCount : Setter (@_DefinesCount L) := ltac:(parser_setter (@_DefinesCount L)).
#[global] Instance set_gEdkGlobal : Setter (@gEdkGlobal L) := ltac:(parser_setter (@gEdkGlobal L)).
#[global] Instance set_gPlatformDefines : Setter (@gPlatformDefines L) := ltac:(parser_setter (@gPlatformDefines L)).
#[global] Instance set_gPlatformPcds : Setter (@gPlatformPcds L) := ltac:(parser_setter (@gPlatformPcds L)).

End ParserSetters.

(** [MetaFileParser.__init__] and the subclass constructors, for a table
    whose counter the caller has set to [GetTableID()]. *)
Definition Parser_init {L : Type} (cls : ParserClass) (dt : gmap string model)
    (Table : MetaFileTable.t L) (Owner From : Z)
    (gGlobal gCommandLine gEdk gPlatform gPcds : Macros)
    (BuildOption : list (string * string)) : Parser L :=
  mkParser cls dt None Table ∅ [] [Owner] From
           (Some [""; ""; ""; ""; ""]) [] 0 "" (OneType MODEL_UNKNOWN) ""
           false MODEL_UNKNOWN "" MODEL_UNKNOWN (-1) true false false
           (if bool_decide (cls = IsInfParser) then 0 else 65541)
           [] [] (-1) ∅ (<[(-1) := (-1)]> ∅) [] 0%nat 0
           gGlobal gCommandLine gEdk gPlatform gPcds BuildOption.

(** [self._Table] *)
Definition _Table {L : Type} (self : Parser L) : MetaFileTable.t L :=
  match _OwnTable self with
  | Some t => t
  | None => _RawTable self
  end.

(** A change made to the table object that [self._Table] names. *)
Definition with_Table {L : Type} (self : Parser L) (t : MetaFileTable.t L)
    : Parser L :=
  match _OwnTable self with
  | Some _ => self <| _OwnTable := Some t |>
  | None => self <| _RawTable := t |>
  end.

(** The status that [__ProcessDirective] copies into the parser of an
    included file. *)
Record IncludeStatus : Type := mkIncludeStatus {
  inc_SectionName : string;
  inc_SubsectionType : model;
  inc_InSubsection : bool;
  inc_SectionType : SectionTypeVal;
  inc_Scope : list ScopeEntry;
  inc_Enabled : bool
}.

(** *** What the parser calls but the sources at hand do not define

    [Common.StringUtils], [Common.Expression], [Common.DataType] and the
    file system.  The theorems hold for every value of these; the examples
    fix one.
    - [ReplaceMacro text macros SelfReplacement RaiseError] is [None] when
      the call raises [MacroException];
    - [ReadLines] is the list of lines of the meta file, [None] when the
      file cannot be read;
    - [IncludedRecords status path FromItem Owner] stands for the whole of
      building the table and parser of an included file, giving the new
      parser the status of the including one, parsing the file and calling
      [GetAll()] on its table: the rows of the included file, or the error
      that finding or parsing it raises;
    - [RanStr] is the random string that [AnalyzePcdExpression] draws. *)
Record Externals : Type := mkExternals {
  GetSplitValueList : string -> string -> Z -> list string;
  ReplaceMacro : string -> Macros -> bool -> bool -> option string;
  ValueExpression : string -> Macros -> ExprOutcome;
  NormPath : string -> string;
  SECTIONS_HAVE_ITEM_AFTER_ARCH_SET : gset string;
  SECTIONS_HAVE_ITEM_PCD_SET : gset string;
  RanStr : string;
  ReadLines : option (list string);
  IncludedRecords : IncludeStatus -> string -> Z -> Z ->
                    result (list PlatformTable.DscLine)
}.

(** Modelled from the spec: names of [Common.DataType] that the section
    header parsers compare with, upper-cased as the code does. *)
Definition TAB_DEC_DEFINES_UPPER : string := "DEFINES".
Definition TAB_INCLUDES_UPPER : string := "INCLUDES".
Definition TAB_GUIDS_UPPER : string := "GUIDS".
Definition TAB_PROTOCOLS_UPPER : string := "PROTOCOLS".
Definition TAB_PPIS_UPPER : string := "PPIS".

Section Methods.
Context {L : Type} `{MetaFileTable.Row L}.
Variable ext : Externals.

(** [MetaFileParser._Done] *)
Definition _Done (self : Parser L) : Parser L :=
  with_Table (self <| _Finished := true |>)
             (MetaFileTable.SetEndFlag (_Table self)).

(** The model that the macro tables key on: [self._SectionType], and
    [self._SectionType[0]] in [DecParser] ([None] for the [IndexError] of an
    empty list). *)
Definition ActiveSectionType (self : Parser L) : option model :=
  match _SectionType self with
  | OneType m => Some m
  | TypeList (m :: _) => Some m
  | TypeList [] => None
  end.

(** [MetaFileParser._ConstructSectionMacroDict] *)
Definition _ConstructSectionMacroDict (self : Parser L) (Name Value : string)
    : result (Parser L) :=
  match ActiveSectionType self with
  | Some st =>
      Ok (self <| _SectionsMacroDict :=
                    section_macro_set (_SectionsMacroDict self)
                                      (st, _Scope self) Name Value |>)
  | None => Err PyIndexError
  end.

(** Does every active scope entry satisfy [ok]?  (a [for ... else]) *)
Definition all_active (ok : ScopeEntry -> bool) (active : list ScopeEntry) : bool :=
  List.forallb ok active.

(** [MetaFileParser._GetApplicableSectionMacro] *)
Definition _GetApplicableSectionMacro (self : Parser L) : Macros :=
  match ActiveSectionType self with
  | None => ∅
  | Some active_type =>
      let step (acc : Macros * Macros * Macros) (entry : SectionKey * Macros) :=
        let '(ComCom, ComSpe, SpeSpe) := acc in
        let '((SectionType, Scope), m) := entry in
        if negb (bool_decide (SectionType = active_type)) then acc
        else
          let SpeSpe :=
            if all_active (fun a => bool_decide (a ∈ Scope)) (_Scope self)
            then update SpeSpe m else SpeSpe in
          let ComSpe :=
            if all_active
                 (fun a =>
                    let '(Scope0, Scope1, _) := a in
                    negb (negb (bool_decide (a ∈ Scope))
                          && negb (bool_decide
                                     ((Scope0, TAB_COMMON, Store TAB_COMMON) ∈ Scope))
                          && negb (bool_decide
                                     ((TAB_COMMON, Scope1, Store TAB_COMMON) ∈ Scope))))
                 (_Scope self)
            then update ComSpe m else ComSpe in
          let ComCom :=
            if bool_decide ((TAB_COMMON, TAB_COMMON, Store TAB_COMMON) ∈ Scope)
            then update ComCom m else ComCom in
          (ComCom, ComSpe, SpeSpe) in
      let '(ComCom, ComSpe, SpeSpe) :=
        fold_left step (_SectionsMacroDict self) (∅, ∅, ∅) in
      update (update (update ∅ ComCom) ComSpe) SpeSpe
  end.

(** [Macros[PcdName.strip()] = TmpValue] for the items of
    [GlobalData.BuildOptionPcd], given as the pairs of a name and the
    value that [BuildOptionValue] makes of the text after the [=]. *)
Definition with_build_options (m : Macros) (items : list (string * string)) : Macros :=
  fold_left (fun acc item => <[Py.strip (fst item) := snd item]> acc) items m.

(** The property [_Macros]: the base class's, and [DscParser]'s override. *)
Definition _Macros (self : Parser L) : Macros :=
  let m := update ∅ (_FileLocalMacros self) in
  let m := update m (_GetApplicableSectionMacro self) in
  if bool_decide (Class_ self = IsDscParser) then
    let m := update m (gEdkGlobal self) in
    let m := update m (gPlatformDefines self) in
    let m := update m (gCommandLineDefines self) in
    let m := if negb (bool_decide (_ItemType self ∈
                        [MODEL_META_DATA_DEFINE; MODEL_META_DATA_GLOBAL_DEFINE]))
             then update m (_Symbols self) else m in
    with_build_options m (BuildOptionPcd self)
  else m.

(** [self._ValueList[0] = v]; an [IndexError] on the empty list, a
    [TypeError] (reported as [PyIndexError] too) on [None]. *)
Definition set_ValueList0 (self : Parser L) (v : string) : result (Parser L) :=
  match _ValueList self with
  | Some (_ :: rest) => Ok (self <| _ValueList := Some (v :: rest) |>)
  | _ => Err PyIndexError
  end.

(** One round of the loop of [MetaFileParser._SectionHeaderParser] over
    the items between the brackets; [ArchList] is kept as the list of the
    distinct values added. *)
Definition header_item (st : Parser L * list string) (Item : string)
    : result (Parser L * list string) :=
  let '(self, ArchList) := st in
  if bool_decide (Item = "") then Ok st
  else
    let ItemList := GetSplitValueList ext Item "." 3 in
    match ItemList with
    | [] => Err PyIndexError
    | Item0 :: _ =>
        if negb (bool_decide (_SectionName self = ""))
           && negb (bool_decide (_SectionName self = Py.upper Item0))
        then Err FORMAT_INVALID
        else
          let self := self <| _SectionName := Py.upper Item0 |> in
          self ←
            match DataType self !! _SectionName self with
            | Some ty =>
                let self := self <| _SectionType := OneType ty |> in
                if negb (bool_decide (_SectionName self
                                      ∈ SECTIONS_HAVE_ITEM_AFTER_ARCH_SET ext))
                   && (3 <? length ItemList)%nat
                then Err FORMAT_UNKNOWN_ERROR else Ok self
            | None =>
                if 65541 <=? _Version self then Err FORMAT_UNKNOWN_ERROR
                else Ok (self <| _SectionType := OneType MODEL_UNKNOWN |>)
            end;
          let S1 := if (1 <? length ItemList)%nat
                    then Py.upper (nth 1 ItemList "") else TAB_ARCH_COMMON in
          match ReplaceMacro ext S1 (_Macros self) false false with
          | None => Err PyMacroException
          | Some S1 =>
              let ArchList := if bool_decide (S1 ∈ ArchList)
                              then ArchList else ArchList ++ [S1] in
              let S2 :=
                if (2 <? length ItemList)%nat then
                  if bool_decide (Py.upper (_SectionName self)
                                  ∈ SECTIONS_HAVE_ITEM_PCD_SET ext)
                  then nth 2 ItemList "" else Py.upper (nth 2 ItemList "")
                else TAB_COMMON in
              let S3 := if (3 <? length ItemList)%nat
                        then nth 3 ItemList "" else TAB_COMMON in
              Ok (self <| _Scope := _Scope self ++ [(S1, S2, Store S3)] |>,
                  ArchList)
          end
    end.

(** the loop *)
Fixpoint header_items (st : Parser L * list string) (items : list string)
    : result (Parser L * list string) :=
  match items with
  | [] => Ok st
  | Item :: rest => st' ← header_item st Item; header_items st' rest
  end.

(** [MetaFileParser._SectionHeaderParser] *)
Definition _SectionHeaderParser (self : Parser L) : result (Parser L) :=
  let self := self <| _Scope := [] |> <| _SectionName := "" |> in
  let items := GetSplitValueList ext (Misc.slice_to_last 1 (_CurrentLine self))
                                 "," (-1) in
  '(self, ArchList) ← header_items (self, []) items;
  if bool_decide (TAB_ARCH_COMMON ∈ ArchList) && (1 <? length ArchList)%nat
  then Err FORMAT_INVALID
  else set_ValueList0 self (_SectionName self).

(** [re.sub(',[\s]*', ',', line)]: the blanks after each comma go. *)
Fixpoint sub_comma_blanks (s : string) (after_comma : bool) : string :=
  match s with
  | EmptyString => EmptyString
  | String c r =>
      if after_comma && Py.isspace c then sub_comma_blanks r true
      else String c (sub_comma_blanks r (bool_decide (c = ","%char)))
  end.

(** The state of the loop of [DecParser._SectionHeaderParser]: the parser,
    [ArchList] and [PrivateList]. *)
Definition dec_header_item (n_items : nat)
    (st : Parser L * list string * list string) (Item : string)
    : result (Parser L * list string * list string) :=
  let '(self, ArchList, PrivateList) := st in
  if bool_decide (Item = "") then Err FORMAT_UNKNOWN_ERROR
  else
    let ItemList := py_split "."%char Item in
    let self := self <| _SectionName := Py.upper (nth 0 ItemList "") |> in
    if bool_decide (_SectionName self = TAB_DEC_DEFINES_UPPER)
       && ((1 <? length ItemList)%nat || (1 <? n_items)%nat)
    then Err FORMAT_INVALID
    else
      match DataType self !! _SectionName self with
      | None => Err FORMAT_UNKNOWN_ERROR
      | Some ty =>
          let types := match _SectionType self with
                       | TypeList l => l
                       | OneType _ => []
                       end in
          let types := if bool_decide (ty ∈ types) then types else types ++ [ty] in
          let self := self <| _SectionType := TypeList types |> in
          if bool_decide (MODEL_PCD_FEATURE_FLAG ∈ types) && (1 <? length types)%nat
          then Err FORMAT_INVALID
          else
            let S1 := if (1 <? length ItemList)%nat
                      then Py.upper (nth 1 ItemList "") else TAB_ARCH_COMMON in
            let ArchList := if bool_decide (S1 ∈ ArchList)
                            then ArchList else ArchList ++ [S1] in
            S2 ←
              (if (2 <? length ItemList)%nat then
                 let S2 := Py.upper (nth 2 ItemList "") in
                 if bool_decide (_SectionName self
                                 ∈ [TAB_INCLUDES_UPPER; TAB_GUIDS_UPPER;
                                    TAB_PROTOCOLS_UPPER; TAB_PPIS_UPPER])
                    && negb (bool_decide (S2 = "PRIVATE"))
                 then Err FORMAT_INVALID else Ok S2
               else Ok TAB_COMMON);
            let PrivateList := if bool_decide (S2 ∈ PrivateList)
                               then PrivateList else PrivateList ++ [S2] in
            let entry : ScopeEntry := (S1, S2, SectionModel ty) in
            let self := if bool_decide (entry ∈ _Scope self) then self
                        else self <| _Scope := _Scope self ++ [entry] |> in
            Ok (self, ArchList, PrivateList)
      end.

Fixpoint dec_header_items (n_items : nat)
    (st : Parser L * list string * list string) (items : list string)
    : result (Parser L * list string * list string) :=
  match items with
  | [] => Ok st
  | Item :: rest =>
      st' ← dec_header_item n_items st Item; dec_header_items n_items st' rest
  end.

(** [DecParser._SectionHeaderParser] *)
Definition DecParser_SectionHeaderParser (self : Parser L) : result (Parser L) :=
  let self := self <| _Scope := [] |> <| _SectionName := "" |>
                   <| _SectionType := TypeList [] |> in
  let Line := sub_comma_blanks (_CurrentLine self) false in
  let items := py_split ","%char (Misc.slice_to_last 1 Line) in
  let n_items := length (py_split ","%char Line) in
  '(self, ArchList, PrivateList) ←
    dec_header_items n_items (self, [], []) items;
  if bool_decide (TAB_ARCH_COMMON ∈ ArchList) && (1 <? length ArchList)%nat
  then Err FORMAT_INVALID
  else if bool_decide (TAB_COMMON ∈ PrivateList) && (1 <? length PrivateList)%nat
  then Err FORMAT_INVALID
  else Ok self.

End Methods.

(** *** The [Start] drivers *)

(** [CODEPattern = re.compile(r"{CODE\([a-fA-F0-9Xx\{\},\s]*\)}")] *)
Definition CODE_char (c : ascii) : bool :=
  let n := N_of_ascii c in
  ((97 <=? n) && (n <=? 102) || (65 <=? n) && (n <=? 70)
   || (48 <=? n) && (n <=? 57) || (n =? 88) || (n =? 120)
   || (n =? 123) || (n =? 125) || (n =? 44))%N
  || Py.isspace c.

Definition CODEPattern : Re.regex :=
  Re.Cat (Re.word "{CODE(") (Re.Cat (Re.Star (Re.Chr CODE_char)) (Re.word ")}")).

(** The loop variables of [ProcessMultipleLineCODEValue]. *)
Record CodeFold : Type := mkCodeFold {
  CODEBegin : bool;
  CODELine : string;
  continuelinecount : nat;
  newContent : list string
}.

Definition code_fold_line (st : CodeFold) (Line : string) : CodeFold :=
  if CODEBegin st then
    let CODELine := CODELine st +:+ Line in
    let count := S (continuelinecount st) in
    if Py.contains Line ")}" then
      mkCodeFold false "" 0 (newContent st ++ [CODELine] ++ repeat "" count)
    else mkCodeFold true CODELine count (newContent st)
  else
    if bool_decide (Line = "") then
      mkCodeFold false (CODELine st) (continuelinecount st) (newContent st ++ [Line])
    else if negb (Py.contains Line "{CODE(") then
      mkCodeFold false (CODELine st) (continuelinecount st) (newContent st ++ [Line])
    else if Re.search CODEPattern Line then
      mkCodeFold false (CODELine st) (continuelinecount st) (newContent st ++ [Line])
    else mkCodeFold true Line (continuelinecount st) (newContent st).

(** [MetaFileParser.ProcessMultipleLineCODEValue] *)
Definition ProcessMultipleLineCODEValue (Content : list string) : list string :=
  newContent (fold_left code_fold_line Content (mkCodeFold false "" 0 [])).

(** [for Index in range(0, len(Content))]: the body gets the index and the
    line and may raise. *)
Fixpoint for_lines {St : Type} (body : St -> nat -> string -> result St)
    (st : St) (Index : nat) (Content : list string) : result St :=
  match Content with
  | [] => Ok st
  | Line :: rest => st' ← body st Index Line; for_lines body st' (S Index) rest
  end.

(** [self._Owner[-1]] *)
Definition Owner_last {L : Type} (self : Parser L) : result Z :=
  match List.last (map Some (_Owner self)) None with
  | Some o => Ok o
  | None => Err PyIndexError
  end.

Section Start.
Variable ext : Externals.

(** The variables of [InfParser.Start] that live across lines. *)
Record InfLocals : Type := mkInfLocals {
  NmakeLine : string;
  IsFindBlockComment : bool;
  GetHeaderComment : bool;
  TailComments : list (string * Z);
  SectionComments : list (string * Z);
  Comments : list (string * Z)
}.

(** The bodies of the three [for] loops, one line each.  They call the
    field parsers of the sections and the cleaners of [Common.StringUtils];
    the drivers are stated for any body. *)
Variable InfParser_line :
  Parser ModuleTable.InfLine * InfLocals -> nat -> string ->
  result (Parser ModuleTable.InfLine * InfLocals).
Variable DscParser_line :
  Parser PlatformTable.DscLine * gmap string Z -> nat -> string ->
  result (Parser PlatformTable.DscLine * gmap string Z).
Variable DecParser_line :
  Parser PackageTable.DecLine -> nat -> string ->
  result (Parser PackageTable.DecLine).

(** [MODEL_FILE_INF], the constant that [ModuleTable.Insert] reads. *)
Variable MODEL_FILE_INF : Z.

(** The tail comments are stored one by one. *)
Fixpoint store_tail_comments (self : Parser ModuleTable.InfLine)
    (tail : list (string * Z)) : result (Parser ModuleTable.InfLine) :=
  match tail with
  | [] => Ok self
  | Comment :: rest =>
      owner ← Owner_last self;
      let '(t, _) := ModuleTable.Insert MODEL_FILE_INF (_Table self)
                       MODEL_META_DATA_TAIL_COMMENT (fst Comment) "" ""
                       TAB_COMMON TAB_COMMON owner (-1) (-1) (-1) (-1) true in
      store_tail_comments (with_Table self t) rest
  end.

(** [InfParser.Start] *)
Definition InfParser_Start (self : Parser ModuleTable.InfLine)
    : result (Parser ModuleTable.InfLine) :=
  match ReadLines ext with
  | None => Err FILE_READ_FAILURE
  | Some Content =>
      '(self, loc) ← for_lines InfParser_line
                       (self, mkInfLocals "" false false [] [] []) 0%nat Content;
      let TailComments := TailComments loc ++ (SectionComments loc ++ Comments loc) in
      if IsFindBlockComment loc then Err FORMAT_INVALID
      else
        self ← store_tail_comments self TailComments;
        Ok (_Done self)
  end.

(** [DscParser.Start] *)
Definition DscParser_Start (self : Parser PlatformTable.DscLine)
    : result (Parser PlatformTable.DscLine) :=
  match ReadLines ext with
  | None => Err FILE_READ_FAILURE
  | Some Content =>
      let OwnerId : gmap string Z := ∅ in
      let Content := ProcessMultipleLineCODEValue Content in
      '(self, _) ← for_lines DscParser_line (self, OwnerId) 0%nat Content;
      if negb (bool_decide (_DirectiveStack self = []))
      then Err FORMAT_INVALID
      else Ok (_Done self)
  end.

(** [DecParser.Start] *)
Definition DecParser_Start (self : Parser PackageTable.DecLine)
    : result (Parser PackageTable.DecLine) :=
  match ReadLines ext with
  | None => Err FILE_READ_FAILURE
  | Some Content =>
      let Content := ProcessMultipleLineCODEValue Content in
      let self := self <| _DefinesCount := 0 |> in
      self ← for_lines DecParser_line self 0%nat Content;
      if 1 <? _DefinesCount self then Err FORMAT_INVALID
      else if _DefinesCount self =? 0 then Err FORMAT_INVALID
      else Ok (_Done self)
  end.

End Start.

(** [MetaFileParser.StartParse], given the class's [Start]. *)
Definition StartParse {L : Type} `{MetaFileTable.Row L}
    (Start : Parser L -> result (Parser L)) (self : Parser L)
    : result (Parser L) :=
  if negb (_Finished self) then
    if MetaFileTable.IsIntegrity (_RawTable self)
    then Ok (self <| _Finished := true |>)
    else Start (self <| _OwnTable := None |> <| _PostProcessed := false |>)
  else Ok self.

(** *** [DscParser._PostProcess]

    The two directive stacks are kept with the top, the last element of the
    Python lists, first.  [_FileWithError] and [gPlatformOtherPcds] only
    feed the texts of error messages and are left out. *)

Section PostProcess.
Variable ext : Externals.

Local Abbreviation DscLine := PlatformTable.DscLine.
Local Abbreviation DscParser := (Parser PlatformTable.DscLine).

(** [(not stack) or (False not in stack)] *)
Definition no_false (stack : list bool) : bool :=
  bool_decide (stack = []) || negb (bool_decide (false ∈ stack)).

(** [ReplaceMacro] under the [try] of [_PostProcess]: a [MacroException]
    is reported as [FORMAT_INVALID]. *)
Definition replace_macro (self : DscParser) (text : string) (RaiseError : bool)
    : result string :=
  match ReplaceMacro ext text (_Macros self) false RaiseError with
  | Some s => Ok s
  | None => Err FORMAT_INVALID
  end.

(** [[ReplaceMacro(Value, self._Macros, RaiseError=r) for Value in l]] *)
Fixpoint replace_all (self : DscParser) (l : list string) (RaiseError : bool)
    : result (list string) :=
  match l with
  | [] => Ok []
  | v :: rest =>
      v' ← replace_macro self v RaiseError;
      rest' ← replace_all self rest RaiseError;
      Ok (v' :: rest')
  end.

(** the three values of [self._ValueList] *)
Definition values3 (self : DscParser) : result (string * string * string) :=
  match _ValueList self with
  | Some [a; b; c] => Ok (a, b, c)
  | _ => Err PyIndexError
  end.

Definition _ProcessError (self : DscParser) : result DscParser :=
  if negb (_Enabled self) then Ok self else Err ERROR_STATEMENT.

Definition lookup_DataType (self : DscParser) (name : string) : model :=
  match DataType self !! name with
  | Some ty => ty
  | None => MODEL_UNKNOWN
  end.

Definition __ProcessSectionHeader (self : DscParser) : result DscParser :=
  '(v0, _, _) ← values3 self;
  Ok (self <| _SectionName := v0 |>
           <| _SectionType := OneType (lookup_DataType self v0) |>).

Definition __ProcessSubsectionHeader (self : DscParser) : result DscParser :=
  '(v0, _, _) ← values3 self;
  Ok (self <| _SubsectionName := v0 |>
           <| _SubsectionType := lookup_DataType self v0 |>).

Definition __ProcessDefine (self : DscParser) : result DscParser :=
  if negb (_Enabled self) then Ok self
  else
    '(Type_, Name, Value) ← values3 self;
    Value ← replace_macro self Value false;
    if _InSubsection self
    then Ok (self <| _ValueList := Some [Type_; Name; Value] |>)
    else
      self ←
        (if bool_decide (_ItemType self = MODEL_META_DATA_DEFINE) then
           if bool_decide (_SectionType self = OneType MODEL_META_DATA_HEADER)
           then Ok (self <| _FileLocalMacros :=
                              <[Name := Value]> (_FileLocalMacros self) |>)
           else _ConstructSectionMacroDict self Name Value
         else if bool_decide (_ItemType self = MODEL_META_DATA_GLOBAL_DEFINE)
         then Ok (self <| gEdkGlobal := <[Name := Value]> (gEdkGlobal self) |>)
         else Ok self);
      let self :=
        if bool_decide (_ItemType self = MODEL_META_DATA_HEADER)
           && bool_decide (_SectionType self = OneType MODEL_META_DATA_HEADER)
        then self <| _FileLocalMacros := <[Name := Value]> (_FileLocalMacros self) |>
        else self in
      Ok (self <| _ValueList := Some [Type_; Name; Value] |>).

(** The [while] of the [!endif] case: pops both stacks up to and with
    the nearest [!if], [!ifdef] or [!ifndef]. *)
Fixpoint endif_pop (ds : list model) (es : list bool)
    : result (list model * list bool) :=
  match ds with
  | [] => Ok ([], es)
  | Directive :: ds' =>
      match es with
      | [] => Err PyIndexError
      | _ :: es' =>
          if bool_decide (Directive ∈
               [MODEL_META_DATA_CONDITIONAL_STATEMENT_IF;
                MODEL_META_DATA_CONDITIONAL_STATEMENT_IFDEF;
                MODEL_META_DATA_CONDITIONAL_STATEMENT_IFNDEF])
          then Ok (ds', es')
          else endif_pop ds' es'
      end
  end.

(** [self._DirectiveEvalStack[-1] = not self._DirectiveEvalStack[-1]] *)
Definition invert_top (es : list bool) : result (list bool) :=
  match es with
  | [] => Err PyIndexError
  | b :: rest => Ok (negb b :: rest)
  end.

(** [Macro[2:-1] if Macro.startswith("$(") and Macro.endswith(")") else Macro] *)
Definition macro_name (Macro : string) : string :=
  if Py.startswith Macro "$(" && Py.endswith Macro ")"
  then Misc.slice_to_last 2 Macro else Macro.

(** The [!include] case of [__ProcessDirective]. *)
Definition process_include (self : DscParser) : result DscParser :=
  '(_, v1, _) ← values3 self;
  match gGlobalDefines self !! "WORKSPACE" with
  | None => Err PyKeyError
  | Some ws =>
      let IncludeMacros := update (<["WORKSPACE" := ws]> ∅) (_Macros self) in
      match ReplaceMacro ext v1 IncludeMacros false true with
      | None => Err FORMAT_INVALID
      | Some path =>
          let IncludedFile := NormPath ext path in
          if _Enabled self then
            match nth_error (_Content self) (_ContentIndex self - 1) with
            | None => Err PyIndexError
            | Some this =>
                let FromItem := PlatformTable.ID this in
                let Owner := if _InSubsection self
                             then PlatformTable.BelongsToItem this
                             else PlatformTable.ID this in
                Records ← IncludedRecords ext
                            (mkIncludeStatus (_SectionName self)
                               (_SubsectionType self) (_InSubsection self)
                               (_SectionType self) (_Scope self) (_Enabled self))
                            IncludedFile FromItem Owner;
                match Records with
                | [] => Ok self
                | _ =>
                    let idx := _ContentIndex self in
                    Ok (self <| _Content :=
                                  firstn (idx - 1) (_Content self)
                                  ++ Records ++ skipn idx (_Content self) |>
                             <| _ValueList := None |>
                             <| _ContentIndex := (idx - 1)%nat |>)
                end
            end
          else Ok self
      end
  end.

Definition __ProcessDirective (self : DscParser) : result DscParser :=
  let ty := _ItemType self in
  '(_, v1, _) ← values3 self;
  Result ←
    (if bool_decide (ty ∈ [MODEL_META_DATA_CONDITIONAL_STATEMENT_IF;
                           MODEL_META_DATA_CONDITIONAL_STATEMENT_ELSEIF])
     then
       let Macros_ := update (_Macros self) (gGlobalDefines self) in
       match ValueExpression ext v1 Macros_ with
       | ExprValue truth _ => Ok truth
       | ExprSymbolNotFound => Ok false
       | ExprWarning truth _ => Ok truth
       | ExprBad => Err FORMAT_INVALID
       end
     else Ok false);
  if bool_decide (ty ∈ [MODEL_META_DATA_CONDITIONAL_STATEMENT_IF;
                        MODEL_META_DATA_CONDITIONAL_STATEMENT_IFDEF;
                        MODEL_META_DATA_CONDITIONAL_STATEMENT_IFNDEF])
  then
    let Result :=
      if bool_decide (ty = MODEL_META_DATA_CONDITIONAL_STATEMENT_IF) then Result
      else
        let defined := bool_decide (is_Some (_Macros self !! macro_name v1)) in
        if bool_decide (ty = MODEL_META_DATA_CONDITIONAL_STATEMENT_IFNDEF)
        then negb defined else defined in
    Ok (self <| _DirectiveStack := ty :: _DirectiveStack self |>
             <| _DirectiveEvalStack := Result :: _DirectiveEvalStack self |>)
  else if bool_decide (ty = MODEL_META_DATA_CONDITIONAL_STATEMENT_ELSEIF) then
    es ← invert_top (_DirectiveEvalStack self);
    Ok (self <| _DirectiveStack := ty :: _DirectiveStack self |>
             <| _DirectiveEvalStack := Result :: es |>)
  else if bool_decide (ty = MODEL_META_DATA_CONDITIONAL_STATEMENT_ELSE) then
    es ← invert_top (_DirectiveEvalStack self);
    Ok (self <| _DirectiveStack := ty :: _DirectiveStack self |>
             <| _DirectiveEvalStack := true :: es |>)
  else if bool_decide (ty = MODEL_META_DATA_CONDITIONAL_STATEMENT_ENDIF) then
    '(ds, es) ← endif_pop (_DirectiveStack self) (_DirectiveEvalStack self);
    Ok (self <| _DirectiveStack := ds |> <| _DirectiveEvalStack := es |>)
  else if bool_decide (ty = MODEL_META_DATA_INCLUDE) then process_include self
  else Ok self.

Definition __ProcessPackages (self : DscParser) : result DscParser :=
  '(v0, v1, v2) ← values3 self;
  v0 ← replace_macro self v0 false;
  Ok (self <| _ValueList := Some [v0; v1; v2] |>).

Definition __ProcessSkuId (self : DscParser) : result DscParser :=
  '(v0, v1, v2) ← values3 self;
  l ← replace_all self [v0; v1; v2] true;
  Ok (self <| _ValueList := Some l |>).

Definition __ProcessDefaultStores (self : DscParser) : result DscParser :=
  __ProcessSkuId self.

Definition __ProcessLibraryInstance (self : DscParser) : result DscParser :=
  '(v0, v1, v2) ← values3 self;
  l ← replace_all self [v0; v1; v2] false;
  Ok (self <| _ValueList := Some l |>).

Definition __ProcessLibraryClass (self : DscParser) : result DscParser :=
  '(v0, v1, v2) ← values3 self;
  v1 ← replace_macro self v1 true;
  Ok (self <| _ValueList := Some [v0; v1; v2] |>).

(** [l[i] = v] for an index in range *)
Definition list_set (l : list string) (i : nat) (v : string) : list string :=
  <[i := v]> l.

Definition __ProcessPcd (self : DscParser) : result DscParser :=
  '(v0, v1, v2) ← values3 self;
  if negb (bool_decide (_ItemType self ∈
             [MODEL_PCD_FEATURE_FLAG; MODEL_PCD_FIXED_AT_BUILD]))
  then
    v2 ← replace_macro self v2 true;
    Ok (self <| _ValueList := Some [v0; v1; v2] |>)
  else
    let '(ValList, Valid, Index) :=
      Misc.AnalyzeDscPcd (RanStr ext) v2 (_ItemType self) "" in
    if negb Valid then Err FORMAT_INVALID
    else
      let PcdValue := nth Index ValList "" in
      let ValList :=
        if negb (bool_decide (PcdValue = "")) && negb (Py.contains v0 ".") then
          match ValueExpression ext PcdValue (_Macros self) with
          | ExprValue _ text => list_set ValList Index text
          | ExprWarning _ text => list_set ValList Index text
          | _ => ValList
          end
        else ValList in
      let ValList := if bool_decide (nth Index ValList "" = "True")
                     then list_set ValList Index "1" else ValList in
      let ValList := if bool_decide (nth Index ValList "" = "False")
                     then list_set ValList Index "0" else ValList in
      let name := py_join "." [v0; v1] in
      let self :=
        if no_false (_DirectiveEvalStack self)
        then self <| gPlatformPcds := <[name := PcdValue]> (gPlatformPcds self) |>
                  <| _Symbols := <[name := PcdValue]> (_Symbols self) |>
        else self in
      Ok (self <| _ValueList := Some [v0; v1; py_join "|" ValList] |>).

Definition __ProcessComponent (self : DscParser) : result DscParser :=
  __ProcessPackages self.

Definition __ProcessBuildOption (self : DscParser) : result DscParser :=
  __ProcessLibraryInstance self.

(** [MetaFileParser._Skip] and [_SkipUserExtension]:
    [self._ValueList[0:1] = [self._CurrentLine]] *)
Definition _Skip (self : DscParser) : result DscParser :=
  match _ValueList self with
  | Some l => Ok (self <| _ValueList := Some (_CurrentLine self :: skipn 1 l) |>)
  | None => Err PyIndexError
  end.

Definition _SkipUserExtension (self : DscParser) : result DscParser := _Skip self.

(** The dictionary [Processer]; [None] is the [KeyError] of a model that
    is not one of its keys. *)
Definition Processer (ty : model) : option (DscParser -> result DscParser) :=
  match ty with
  | MODEL_META_DATA_SECTION_HEADER => Some __ProcessSectionHeader
  | MODEL_META_DATA_SUBSECTION_HEADER => Some __ProcessSubsectionHeader
  | MODEL_META_DATA_HEADER => Some __ProcessDefine
  | MODEL_META_DATA_DEFINE => Some __ProcessDefine
  | MODEL_META_DATA_GLOBAL_DEFINE => Some __ProcessDefine
  | MODEL_META_DATA_INCLUDE => Some __ProcessDirective
  | MODEL_META_DATA_PACKAGE => Some __ProcessPackages
  | MODEL_META_DATA_CONDITIONAL_STATEMENT_IF => Some __ProcessDirective
  | MODEL_META_DATA_CONDITIONAL_STATEMENT_ELSE => Some __ProcessDirective
  | MODEL_META_DATA_CONDITIONAL_STATEMENT_IFDEF => Some __ProcessDirective
  | MODEL_META_DATA_CONDITIONAL_STATEMENT_IFNDEF => Some __ProcessDirective
  | MODEL_META_DATA_CONDITIONAL_STATEMENT_ENDIF => Some __ProcessDirective
  | MODEL_META_DATA_CONDITIONAL_STATEMENT_ELSEIF => Some __ProcessDirective
  | MODEL_EFI_SKU_ID => Some __ProcessSkuId
  | MODEL_EFI_DEFAULT_STORES => Some __ProcessDefaultStores
  | MODEL_EFI_LIBRARY_INSTANCE => Some __ProcessLibraryInstance
  | MODEL_EFI_LIBRARY_CLASS => Some __ProcessLibraryClass
  | MODEL_PCD_FIXED_AT_BUILD => Some __ProcessPcd
  | MODEL_PCD_PATCHABLE_IN_MODULE => Some __ProcessPcd
  | MODEL_PCD_FEATURE_FLAG => Some __ProcessPcd
  | MODEL_PCD_DYNAMIC_DEFAULT => Some __ProcessPcd
  | MODEL_PCD_DYNAMIC_HII => Some __ProcessPcd
  | MODEL_PCD_DYNAMIC_VPD => Some __ProcessPcd
  | MODEL_PCD_DYNAMIC_EX_DEFAULT => Some __ProcessPcd
  | MODEL_PCD_DYNAMIC_EX_HII => Some __ProcessPcd
  | MODEL_PCD_DYNAMIC_EX_VPD => Some __ProcessPcd
  | MODEL_META_DATA_COMPONENT => Some __ProcessComponent
  | MODEL_META_DATA_BUILD_OPTION => Some __ProcessBuildOption
  | MODEL_UNKNOWN => Some _Skip
  | MODEL_META_DATA_USER_EXTENSION => Some _SkipUserExtension
  | MODEL_META_DATA_CONDITIONAL_STATEMENT_ERROR => Some _ProcessError
  | _ => None
  end.

(** The inner [while] that gathers the scopes of the rows of one
    [!include] line; [rest] is the content from [_ContentIndex] on. *)
Fixpoint merge_include (LineStart LineEnd : Z) (rest : list DscLine)
    (scope : list ScopeEntry) (idx : nat) : list ScopeEntry * nat :=
  match rest with
  | [] => (scope, idx)
  | Record_ :: rest' =>
      if (LineStart =? PlatformTable.StartLine Record_)
         && (LineEnd =? PlatformTable.EndLine Record_)
      then
        let entry : ScopeEntry :=
          (PlatformTable.Scope1 Record_, PlatformTable.Scope2 Record_,
           Store (PlatformTable.Scope3 Record_)) in
        merge_include LineStart LineEnd rest'
          (if bool_decide (entry ∈ scope) then scope else scope ++ [entry])
          (S idx)
      else (scope, idx)
  end.

(** The call [self._Store(...)] at the end of a round: the row that the
    round appends to the resolved table, before the table strips its
    texts and gives it an id. *)
Definition resolved_row (self : DscParser) (item : DscLine) (vl : list string)
    (NewOwner : Z) (enabled : bool) : DscLine :=
  PlatformTable.mkDscLine 0 (_ItemType self)
    (nth 0 vl "") (nth 1 vl "") (nth 2 vl "")
    (PlatformTable.Scope1 item) (PlatformTable.Scope2 item)
    (PlatformTable.Scope3 item) NewOwner (_From self)
    (_LineIndex self + 1) (-1) (_LineIndex self + 1) (-1) "" "" "" enabled.

(** One round of the [while] loop of [_PostProcess]. *)
Definition _PostProcess_round (self : DscParser) : result DscParser :=
  match nth_error (_Content self) (_ContentIndex self) with
  | None => Err PyIndexError
  | Some item =>
      let Id := PlatformTable.ID item in
      let Owner := PlatformTable.BelongsToItem item in
      let LineStart := PlatformTable.StartLine item in
      let LineEnd := PlatformTable.EndLine item in
      let self := self <| _ItemType := PlatformTable.Model item |>
                       <| _From := PlatformTable.FromItem item |>
                       <| _ContentIndex := S (_ContentIndex self) |>
                       <| _Scope := [(PlatformTable.Scope1 item,
                                      PlatformTable.Scope2 item,
                                      Store (PlatformTable.Scope3 item))] |> in
      let self :=
        if bool_decide (_ItemType self = MODEL_META_DATA_INCLUDE) then
          let '(scope, idx) :=
            merge_include LineStart LineEnd
              (skipn (_ContentIndex self) (_Content self))
              (_Scope self) (_ContentIndex self) in
          self <| _Scope := scope |> <| _ContentIndex := idx |>
        else self in
      let self := self <| _LineIndex := LineStart - 1 |>
                       <| _ValueList := Some [PlatformTable.Value1 item;
                                              PlatformTable.Value2 item;
                                              PlatformTable.Value3 item] |>
                       <| _InSubsection :=
                            (0 <? Owner)
                            && bool_decide (is_Some (_IdMapping self !! Owner)) |> in
      match Processer (_ItemType self) with
      | None => Err PyKeyError
      | Some process =>
          self ← process self;
          match _ValueList self with
          | None => Ok self
          | Some vl =>
              let NewOwner := default (-1) (_IdMapping self !! Owner) in
              let enabled := no_false (_DirectiveEvalStack self) in
              let self := self <| _Enabled := enabled |> in
              let '(t, id) :=
                PlatformTable_Insert_row (_Table self)
                  (resolved_row self item vl NewOwner enabled) in
              Ok (with_Table self t
                    <| _LastItem := id |>
                    <| _IdMapping := <[Id := id]> (_IdMapping self) |>)
          end
      end
  end.

(** The [while self._ContentIndex < len(self._Content)] loop, for at most
    [fuel] rounds. *)
Fixpoint _PostProcess_loop (fuel : nat) (self : DscParser) : result DscParser :=
  if (_ContentIndex self <? length (_Content self))%nat then
    match fuel with
    | O => Err OutOfFuel
    | S fuel' => self' ← _PostProcess_round self; _PostProcess_loop fuel' self'
    end
  else Ok self.

(** What [_PostProcess] sets before the loop: a fresh resolved table
    ([MetaFileStorage] with [Temporary=True] builds a new [PlatformTable]),
    empty stacks and macro tables, and the content of the raw table.
    [__RetrievePcdValue] reads the meta file again and fills
    [gPlatformOtherPcds], which is left out; of its errors the one of a
    file that cannot be read is kept. *)
Definition _PostProcess_enter (self : DscParser) : result DscParser :=
  let self := self <| _OwnTable := Some MetaFileTable.init |>
                   <| _DirectiveStack := [] |>
                   <| _DirectiveEvalStack := [] |>
                   <| _FileLocalMacros := ∅ |>
                   <| _SectionsMacroDict := [] |>
                   <| gPlatformDefines := ∅ |> in
  match ReadLines ext with
  | None => Err FILE_READ_FAILURE
  | Some _ =>
      Ok (self <| _Content := MetaFileTable.GetAll (_RawTable self) |>
               <| _ContentIndex := 0%nat |>
               <| _InSubsection := false |>)
  end.

(** [DscParser._PostProcess] *)
Definition _PostProcess (fuel : nat) (self : DscParser) : result DscParser :=
  self ← _PostProcess_enter self;
  self ← _PostProcess_loop fuel self;
  Ok (self <| gPlatformDefines :=
                update (gPlatformDefines self) (_FileLocalMacros self) |>
           <| _PostProcessed := true |>
           <| _Content := [] |>).

End PostProcess.

(** *** One value for each external, for the examples *)

(** Modelled from the spec: [GetSplitValueList] of [Common.StringUtils]
    (the spec's [SplitValueList(line, delimiter, max_splits)]), which is not
    among the sources.  It cuts at the delimiter outside string literals and
    parentheses, with the backslash as escape, at most [MaxSplit] times when
    [MaxSplit] is not negative, and strips the fields. *)
Record SplitScan : Type := mkSplitScan {
  in_single : bool;
  in_double : bool;
  depth : Z;
  escaped : bool
}.

Definition split_scan_char (c : ascii) (st : SplitScan) : SplitScan :=
  if escaped st then mkSplitScan (in_single st) (in_double st) (depth st) false
  else if bool_decide (c = Py.BACKSLASH)
  then mkSplitScan (in_single st) (in_double st) (depth st) true
  else if bool_decide (c = Py.DQUOTE) && negb (in_single st)
  then mkSplitScan (in_single st) (negb (in_double st)) (depth st) false
  else if bool_decide (c = Py.SQUOTE) && negb (in_double st)
  then mkSplitScan (negb (in_single st)) (in_double st) (depth st) false
  else if bool_decide (c = "("%char) && negb (in_single st || in_double st)
  then mkSplitScan (in_single st) (in_double st) (depth st + 1) false
  else if bool_decide (c = ")"%char) && negb (in_single st || in_double st)
  then mkSplitScan (in_single st) (in_double st) (depth st - 1) false
  else st.

Fixpoint split_scan (sep : ascii) (s : string) (st : SplitScan) (left : Z)
    : list string :=
  match s with
  | EmptyString => [EmptyString]
  | String c r =>
      if bool_decide (c = sep)
         && negb (in_single st || in_double st || (0 <? depth st) || escaped st)
         && negb (left =? 0)
      then EmptyString :: split_scan sep r st (left - 1)
      else match split_scan sep r (split_scan_char c st) left with
           | x :: xs => String c x :: xs
           | [] => [String c EmptyString]
           end
  end.

Definition spec_GetSplitValueList (s SplitTag : string) (MaxSplit : Z)
    : list string :=
  match SplitTag with
  | String sep _ =>
      map Py.strip (split_scan sep s (mkSplitScan false false 0 false) MaxSplit)
  | EmptyString => [Py.strip s]
  end.

(** Modelled from the spec: [ReplaceMacro] of [Common.StringUtils], which
    is not among the sources: each [$(NAME)] is replaced by the value of
    [NAME]; an undefined name raises when [RaiseError] is set and is left
    as it is otherwise.  [name] is [Some n] while the scan is inside
    [$(n...]. *)
Fixpoint spec_replace_scan (macros : Macros) (RaiseError : bool)
    (s : string) (name : option string) : option string :=
  match s with
  | EmptyString =>
      match name with
      | Some n => Some ("$(" +:+ n)
      | None => Some EmptyString
      end
  | String c r =>
      match name with
      | Some n =>
          if bool_decide (c = ")"%char) then
            rest ← spec_replace_scan macros RaiseError r None;
            match macros !! n with
            | Some v => Some (v +:+ rest)
            | None => if RaiseError then None
                      else Some ("$(" +:+ n +:+ ")" +:+ rest)
            end
          else spec_replace_scan macros RaiseError r
                 (Some (n +:+ String c EmptyString))
      | None =>
          match r with
          | String d r' =>
              if bool_decide (c = "$"%char) && bool_decide (d = "("%char)
              then spec_replace_scan macros RaiseError r' (Some EmptyString)
              else rest ← spec_replace_scan macros RaiseError r None;
                   Some (String c rest)
          | EmptyString => Some (String c EmptyString)
          end
      end
  end.

Definition spec_ReplaceMacro (s : string) (macros : Macros)
    (SelfReplacement RaiseError : bool) : option string :=
  spec_replace_scan macros RaiseError s None.

(** A stand-in for [ValueExpression] of [Common.Expression]: after macro
    replacement it knows the truth literals, integer literals and the
    comparison [a == b] of two texts; a text that still holds a macro
    reference is an unknown symbol. *)
Definition literal_ValueExpression (text : string) (macros : Macros)
    : ExprOutcome :=
  match spec_replace_scan macros false text None with
  | None => ExprBad
  | Some t =>
      let t := Py.strip t in
      if Py.contains t "$(" then ExprSymbolNotFound
      else
        match Py.find t "==" 0 with
        | Some pos =>
            let same := bool_decide (Py.strip (Py.take pos t)
                                     = Py.strip (Py.drop (pos + 2) t)) in
            ExprValue same (if same then "True" else "False")
        | None =>
            if bool_decide (t ∈ ["TRUE"; "True"; "true"]) then ExprValue true "1"
            else if bool_decide (t ∈ ["FALSE"; "False"; "false"])
            then ExprValue false "0"
            else match Misc.int t 0 with
                 | Some v => ExprValue (negb (v =? 0)) t
                 | None => ExprBad
                 end
        end
  end.

(** Modelled from the spec: the section and directive names of dialect D,
    upper-cased, with their models ([DscParser.DataType]; its keys are
    constants of [Common.DataType]). *)
Definition DscParser_DataType : gmap string model :=
  list_to_map
    [ ("SKUIDS", MODEL_EFI_SKU_ID);
      ("DEFAULTSTORES", MODEL_EFI_DEFAULT_STORES);
      ("LIBRARIES", MODEL_EFI_LIBRARY_INSTANCE);
      ("LIBRARYCLASSES", MODEL_EFI_LIBRARY_CLASS);
      ("BUILDOPTIONS", MODEL_META_DATA_BUILD_OPTION);
      ("PACKAGES", MODEL_META_DATA_PACKAGE);
      ("PCDSFIXEDATBUILD", MODEL_PCD_FIXED_AT_BUILD);
      ("PCDSPATCHABLEINMODULE", MODEL_PCD_PATCHABLE_IN_MODULE);
      ("PCDSFEATUREFLAG", MODEL_PCD_FEATURE_FLAG);
      ("PCDSDYNAMICDEFAULT", MODEL_PCD_DYNAMIC_DEFAULT);
      ("PCDSDYNAMICHII", MODEL_PCD_DYNAMIC_HII);
      ("PCDSDYNAMICVPD", MODEL_PCD_DYNAMIC_VPD);
      ("PCDSDYNAMICEXDEFAULT", MODEL_PCD_DYNAMIC_EX_DEFAULT);
      ("PCDSDYNAMICEXHII", MODEL_PCD_DYNAMIC_EX_HII);
      ("PCDSDYNAMICEXVPD", MODEL_PCD_DYNAMIC_EX_VPD);
      ("COMPONENTS", MODEL_META_DATA_COMPONENT);
      ("DEFINES", MODEL_META_DATA_HEADER);
      ("DEFINE", MODEL_META_DATA_DEFINE);
      ("EDK_GLOBAL", MODEL_META_DATA_GLOBAL_DEFINE);
      ("!INCLUDE", MODEL_META_DATA_INCLUDE);
      ("!IF", MODEL_META_DATA_CONDITIONAL_STATEMENT_IF);
      ("!IFDEF", MODEL_META_DATA_CONDITIONAL_STATEMENT_IFDEF);
      ("!IFNDEF", MODEL_META_DATA_CONDITIONAL_STATEMENT_IFNDEF);
      ("!ELSEIF", MODEL_META_DATA_CONDITIONAL_STATEMENT_ELSEIF);
      ("!ELSE", MODEL_META_DATA_CONDITIONAL_STATEMENT_ELSE);
      ("!ENDIF", MODEL_META_DATA_CONDITIONAL_STATEMENT_ENDIF);
      ("USEREXTENSIONS", MODEL_META_DATA_USER_EXTENSION);
      ("!ERROR", MODEL_META_DATA_CONDITIONAL_STATEMENT_ERROR) ].

(** Modelled from the spec: the section names of dialect P
    ([DecParser.DataType]). *)
Definition DecParser_DataType : gmap string model :=
  list_to_map
    [ ("DEFINES", MODEL_META_DATA_HEADER);
      ("DEFINE", MODEL_META_DATA_DEFINE);
      ("INCLUDES", MODEL_EFI_INCLUDE);
      ("LIBRARYCLASSES", MODEL_EFI_LIBRARY_CLASS);
      ("GUIDS", MODEL_EFI_GUID);
      ("PPIS", MODEL_EFI_PPI);
      ("PROTOCOLS", MODEL_EFI_PROTOCOL);
      ("PCDSFIXEDATBUILD", MODEL_PCD_FIXED_AT_BUILD);
      ("PCDSPATCHABLEINMODULE", MODEL_PCD_PATCHABLE_IN_MODULE);
      ("PCDSFEATUREFLAG", MODEL_PCD_FEATURE_FLAG);
      ("PCDSDYNAMIC", MODEL_PCD_DYNAMIC);
      ("PCDSDYNAMICEX", MODEL_PCD_DYNAMIC_EX);
      ("USEREXTENSIONS", MODEL_META_DATA_USER_EXTENSION) ].

(** Modelled from the spec: the section names of dialect I
    ([InfParser.DataType]). *)
Definition InfParser_DataType : gmap string model :=
  list_to_map
    [ ("UNKNOWN", MODEL_UNKNOWN);
      ("DEFINES", MODEL_META_DATA_HEADER);
      ("DEFINE", MODEL_META_DATA_DEFINE);
      ("BUILDOPTIONS", MODEL_META_DATA_BUILD_OPTION);
      ("INCLUDES", MODEL_EFI_INCLUDE);
      ("LIBRARIES", MODEL_EFI_LIBRARY_INSTANCE);
      ("LIBRARYCLASSES", MODEL_EFI_LIBRARY_CLASS);
      ("PACKAGES", MODEL_META_DATA_PACKAGE);
      ("NMAKE", MODEL_META_DATA_NMAKE);
      ("FIXEDPCD", MODEL_PCD_FIXED_AT_BUILD);
      ("PATCHPCD", MODEL_PCD_PATCHABLE_IN_MODULE);
      ("FEATUREPCD", MODEL_PCD_FEATURE_FLAG);
      ("PCDEX", MODEL_PCD_DYNAMIC_EX);
      ("PCD", MODEL_PCD_DYNAMIC);
      ("SOURCES", MODEL_EFI_SOURCE_FILE);
      ("GUIDS", MODEL_EFI_GUID);
      ("PROTOCOLS", MODEL_EFI_PROTOCOL);
      ("PPIS", MODEL_EFI_PPI);
      ("DEPEX", MODEL_EFI_DEPEX);
      ("BINARIES", MODEL_EFI_BINARY_FILE);
      ("USEREXTENSIONS", MODEL_META_DATA_USER_EXTENSION) ].

(** The externals of the examples: the meta file has the lines [lines] and
    includes no file that can be found. *)
Definition example_ext (lines : list string) : Externals :=
  mkExternals spec_GetSplitValueList spec_ReplaceMacro literal_ValueExpression
    (fun path => path)
    ({["LIBRARYCLASSES"]} ∪ {["DEPEX"]} ∪ {["USEREXTENSIONS"]}
     ∪ {["PCDSDYNAMICDEFAULT"]} ∪ {["PCDSDYNAMICHII"]} ∪ {["PCDSDYNAMICVPD"]}
     ∪ {["PCDSDYNAMICEXDEFAULT"]} ∪ {["PCDSDYNAMICEXHII"]}
     ∪ {["PCDSDYNAMICEXVPD"]})
    ({["PCDSDYNAMICDEFAULT"]} ∪ {["PCDSDYNAMICHII"]} ∪ {["PCDSDYNAMICVPD"]}
     ∪ {["PCDSDYNAMICEXDEFAULT"]} ∪ {["PCDSDYNAMICEXHII"]}
     ∪ {["PCDSDYNAMICEXVPD"]})
    "k3Zq9TbM"
    (Some lines)
    (fun _ _ _ _ => Err FILE_NOT_FOUND).

(** Fresh parsers of the three classes, as their constructors leave them,
    on a new table whose counter is the [GetTableID()] of the class; the
    only global macro is [WORKSPACE]. *)
Definition example_globals : Macros := <["WORKSPACE" := "/ws"]> ∅.

Definition new_DscParser : Parser PlatformTable.DscLine :=
  Parser_init IsDscParser DscParser_DataType (MetaFileTable.mk [] 10000000)
              (-1) (-1) example_globals ∅ ∅ ∅ ∅ [].

Definition new_InfParser : Parser ModuleTable.InfLine :=
  Parser_init IsInfParser InfParser_DataType (MetaFileTable.mk [] 10000000)
              (-1) (-1) example_globals ∅ ∅ ∅ ∅ [].

Definition new_DecParser : Parser PackageTable.DecLine :=
  Parser_init IsDecParser DecParser_DataType (MetaFileTable.mk [] 10000000)
              (-1) (-1) example_globals ∅ ∅ ∅ ∅ [].

(** A parser whose current line is [line], ready for a section header. *)
Definition at_line {L : Type} (p : Parser L) (line : string) : Parser L :=
  p <| _CurrentLine := line |> <| _ValueList := Some [""; ""; ""] |>.

(** *** Raw tables of small D-dialect files

    [raw_row model v1 v2 v3 owner line] is the call that the raw pass makes
    for an item under the header [[Defines]] or a directive: scope
    [COMMON], no including file, enabled. *)
Definition raw_row (m : model) (v1 v2 v3 : string) (owner line : Z)
    : PlatformTable.DscLine :=
  PlatformTable.mkDscLine 0 m v1 v2 v3 "COMMON" "COMMON" "COMMON" owner (-1)
                          line (-1) line (-1) "" "" "" true.

(** The raw table that holds the rows [calls], with the end flag set. *)
Definition raw_table (calls : list PlatformTable.DscLine)
    : MetaFileTable.t PlatformTable.DscLine :=
  MetaFileTable.SetEndFlag
    (fst (InsertAll PlatformTable_Insert_row (MetaFileTable.mk [] 10000000) calls)).

(** The name of the last section header among the rows, empty when there
    is none. *)
Definition last_section (calls : list PlatformTable.DscLine) : string :=
  fold_left
    (fun acc r =>
       if bool_decide (PlatformTable.Model r = MODEL_META_DATA_SECTION_HEADER)
       then PlatformTable.Value1 r else acc)
    calls "".

(** A D-dialect parser that has finished the raw pass with these rows: the
    table holds them, and the section name and type are those of the last
    header, as [_SectionHeaderParser] has left them. *)
Definition parsed (calls : list PlatformTable.DscLine)
    : Parser PlatformTable.DscLine :=
  new_DscParser <| _RawTable := raw_table calls |> <| _Finished := true |>
    <| _SectionName := last_section calls |>
    <| _SectionType :=
         OneType (default MODEL_UNKNOWN
                    (DscParser_DataType !! last_section calls)) |>.

(** The file of the spec's scenario 3:
    [[Defines]], [DEFINE FOO = 1], [!if $(FOO) == 1], [PLATFORM_NAME = A],
    [!else], [PLATFORM_NAME = B], [!endif]. *)
Definition scenario_conditional : list PlatformTable.DscLine :=
  [ raw_row MODEL_META_DATA_SECTION_HEADER "DEFINES" "" "" (-1) 1;
    raw_row MODEL_META_DATA_DEFINE "DEFINE" "FOO" "1" (-1) 2;
    raw_row MODEL_META_DATA_CONDITIONAL_STATEMENT_IF "!if" "$(FOO) == 1" "" (-1) 3;
    raw_row MODEL_META_DATA_HEADER "" "PLATFORM_NAME" "A" (-1) 4;
    raw_row MODEL_META_DATA_CONDITIONAL_STATEMENT_ELSE "!else" "" "" (-1) 5;
    raw_row MODEL_META_DATA_HEADER "" "PLATFORM_NAME" "B" (-1) 6;
    raw_row MODEL_META_DATA_CONDITIONAL_STATEMENT_ENDIF "!endif" "" "" (-1) 7 ].

(** [[Defines]], [!if 0], [PLATFORM_NAME = A], [!endif]. *)
Definition scenario_if_0 : list PlatformTable.DscLine :=
  [ raw_row MODEL_META_DATA_SECTION_HEADER "DEFINES" "" "" (-1) 1;
    raw_row MODEL_META_DATA_CONDITIONAL_STATEMENT_IF "!if" "0" "" (-1) 2;
    raw_row MODEL_META_DATA_HEADER "" "PLATFORM_NAME" "A" (-1) 3;
    raw_row MODEL_META_DATA_CONDITIONAL_STATEMENT_ENDIF "!endif" "" "" (-1) 4 ].

(** [[PcdsFeatureFlag]], [!ifdef gTokenSpaceGuid.PcdFlag],
    [gTokenSpaceGuid.PcdOther|TRUE], [!endif],
    [gTokenSpaceGuid.PcdFlag|TRUE]; the raw pass has replaced [TRUE] by
    [1]. *)
Definition scenario_ifdef_pcd : list PlatformTable.DscLine :=
  [ raw_row MODEL_META_DATA_SECTION_HEADER "PCDSFEATUREFLAG" "" "" (-1) 1;
    raw_row MODEL_META_DATA_CONDITIONAL_STATEMENT_IFDEF
            "!ifdef" "gTokenSpaceGuid.PcdFlag" "" (-1) 2;
    raw_row MODEL_PCD_FEATURE_FLAG "gTokenSpaceGuid" "PcdOther" "1" (-1) 3;
    raw_row MODEL_META_DATA_CONDITIONAL_STATEMENT_ENDIF "!endif" "" "" (-1) 4;
    raw_row MODEL_PCD_FEATURE_FLAG "gTokenSpaceGuid" "PcdFlag" "1" (-1) 5 ].

(** The file [[PcdsFeatureFlag]], [gTokenSpaceGuid.PcdFlag|TRUE]; the raw
    pass has replaced [TRUE] by [1]. *)
Definition scenario_pcd_defined : list PlatformTable.DscLine :=
  [ raw_row MODEL_META_DATA_SECTION_HEADER "PCDSFEATUREFLAG" "" "" (-1) 1;
    raw_row MODEL_PCD_FEATURE_FLAG "gTokenSpaceGuid" "PcdFlag" "1" (-1) 2 ].

(** The rows of the resolved table after one pass, and after a second pass
    made on the parser that the first one left; [None] when a pass
    raises. *)
Definition resolved_once (ext : Externals) (fuel : nat)
    (self : Parser PlatformTable.DscLine) : option (list PlatformTable.DscLine) :=
  match _PostProcess ext fuel self with
  | Ok self1 => Some (MetaFileTable.CurrentContent (_Table self1))
  | Err _ => None
  end.

Definition resolved_twice (ext : Externals) (fuel : nat)
    (self : Parser PlatformTable.DscLine) : option (list PlatformTable.DscLine) :=
  match _PostProcess ext fuel self with
  | Ok self1 => resolved_once ext fuel self1
  | Err _ => None
  end.

(** What the examples print of a row: model, third value, enabled flag. *)
Definition brief (r : PlatformTable.DscLine) : model * string * bool :=
  (PlatformTable.Model r, PlatformTable.Value3 r, PlatformTable.Enabled r).

(** *** The rounds of a pass

    [_PostProcess_trace ext fuel self] lists the rounds that the loop of
    [_PostProcess] makes from [self], each as the parser before and after
    the round; it stops where the loop stops. *)
Fixpoint _PostProcess_trace (ext : Externals) (fuel : nat)
    (self : Parser PlatformTable.DscLine)
    : list (Parser PlatformTable.DscLine * Parser PlatformTable.DscLine) :=
  if (_ContentIndex self <? length (_Content self))%nat then
    match fuel with
    | O => []
    | S fuel' =>
        match _PostProcess_round ext self with
        | Ok self' => (self, self') :: _PostProcess_trace ext fuel' self'
        | Err _ => []
        end
    end
  else [].

(** The rows of the table that [self._Table] names. *)
Definition rows (self : Parser PlatformTable.DscLine)
    : list PlatformTable.DscLine :=
  MetaFileTable.CurrentContent (_Table self).

(** The rows that a round has appended to the resolved table. *)
Definition appended
    (round : Parser PlatformTable.DscLine * Parser PlatformTable.DscLine)
    : list PlatformTable.DscLine :=
  skipn (length (rows (fst round))) (rows (snd round)).

(** The row that a round works on. *)
Definition current_item (self : Parser PlatformTable.DscLine)
    : option PlatformTable.DscLine :=
  nth_error (_Content self) (_ContentIndex self).

(** [[Defines]], [!error stop]. *)
Definition scenario_error : list PlatformTable.DscLine :=
  [ raw_row MODEL_META_DATA_SECTION_HEADER "DEFINES" "" "" (-1) 1;
    raw_row MODEL_META_DATA_CONDITIONAL_STATEMENT_ERROR "!error" "stop" "" (-1) 2 ].

(** [[Defines]], [!if 0], [!error stop], [!endif]. *)
Definition scenario_error_skipped : list PlatformTable.DscLine :=
  [ raw_row MODEL_META_DATA_SECTION_HEADER "DEFINES" "" "" (-1) 1;
    raw_row MODEL_META_DATA_CONDITIONAL_STATEMENT_IF "!if" "0" "" (-1) 2;
    raw_row MODEL_META_DATA_CONDITIONAL_STATEMENT_ERROR "!error" "stop" "" (-1) 3;
    raw_row MODEL_META_DATA_CONDITIONAL_STATEMENT_ENDIF "!endif" "" "" (-1) 4 ].

(** The parser after [n] rounds of the pass over the file [calls]; the
    parser as it stands when the pass does not come that far. *)
Fixpoint after_rounds (ext : Externals) (n : nat)
    (self : Parser PlatformTable.DscLine) : Parser PlatformTable.DscLine :=
  match n with
  | O => self
  | S n' =>
      match _PostProcess_round ext self with
      | Ok self' => after_rounds ext n' self'
      | Err _ => self
      end
  end.

Definition entered (ext : Externals) (calls : list PlatformTable.DscLine)
    : Parser PlatformTable.DscLine :=
  match _PostProcess_enter ext (parsed calls) with
  | Ok self => self
  | Err _ => parsed calls
  end.

(** *** [MetaFileParser.__getitem__], for the D dialect *)

(** [MetaFileParser._FilterRecordList]; [FilterArch] is [None] when the
    caller hands over Python's [None]. *)
Definition _FilterRecordList (RecordList : list PlatformTable.DscLine)
    (FilterArch : option string) : list PlatformTable.DscLine :=
  List.filter
    (fun Record =>
       let Arch := PlatformTable.Scope1 Record in
       bool_decide (Arch = TAB_ARCH_COMMON) || bool_decide (Some Arch = FilterArch))
    RecordList.

(** [parser[Model, Scope1, Scope2, BelongsToItem, FromItem]] on a
    [DscParser], the arguments that the tuple leaves out being [None];
    [Arch] is [self._Arch], which the constructor sets and nothing writes.
    A table object is always true, so the raw table is asked whenever the
    tuple has one element or [None] as its second.  Returns the parser as
    the call leaves it and the rows. *)
Definition DscParser_getitem (ext : Externals)
    (body : Parser PlatformTable.DscLine * gmap string Z -> nat -> string ->
            result (Parser PlatformTable.DscLine * gmap string Z))
    (fuel : nat) (Arch : option string)
    (self : Parser PlatformTable.DscLine) (Model0 : model)
    (Scope1_ Scope2_ : option string) (BelongsToItem0 FromItem0 : option Z)
    : result (Parser PlatformTable.DscLine * list PlatformTable.DscLine) :=
  self ← StartParse (DscParser_Start ext body) self;
  match Scope1_ with
  | None =>
      Ok (self,
          _FilterRecordList
            (PlatformTable.Query (_RawTable self) Model0 None Scope2_
                                 BelongsToItem0 FromItem0)
            Arch)
  | Some _ =>
      self ← (if negb (_PostProcessed self) then _PostProcess ext fuel self
              else Ok self);
      Ok (self,
          _FilterRecordList
            (PlatformTable.Query (_Table self) Model0 Scope1_ Scope2_
                                 BelongsToItem0 FromItem0)
            Scope1_)
  end.

(** *** [MetaFileStorage] ([MetaFileStore.py])

    The factory hands out table objects and keeps the ones that are not
    temporary in the class dictionary [_ObjectCache].  A table object is
    named by its place in the list of the objects made so far; the list
    holds the class of each. *)

(** The four [MODEL_FILE_*] constants of [CommonDataClass.DataClass], which
    is not among the sources. *)
Record FileModels : Type := mkFileModels {
  MODEL_FILE_INF : Z;
  MODEL_FILE_DEC : Z;
  MODEL_FILE_DSC : Z;
  MODEL_FILE_OTHERS : Z
}.

Inductive TableClass : Type :=
| IsModuleTable | IsPackageTable | IsPlatformTable | IsMetaFileTable.

(** [(MetaFile.Path, FileType, Temporary, FromItem)] *)
Definition StorageKey : Type := (string * option Z * bool * option Z)%type.

Record Storage : Type := mkStorage {
  objects : list TableClass;
  _ObjectCache : gmap StorageKey nat
}.

(** [cls._FILE_TABLE_[FileType]], [None] for the [KeyError]; were two of
    the constants equal, the entry written later in the dictionary display
    would be the one kept. *)
Definition _FILE_TABLE_ (c : FileModels) (FileType : Z) : option TableClass :=
  if FileType =? MODEL_FILE_OTHERS c then Some IsMetaFileTable
  else if FileType =? MODEL_FILE_DSC c then Some IsPlatformTable
  else if FileType =? MODEL_FILE_DEC c then Some IsPackageTable
  else if FileType =? MODEL_FILE_INF c then Some IsModuleTable
  else None.

Definition _FILE_TYPE_ (c : FileModels) (Type_ : string) : option Z :=
  if bool_decide (Type_ = ".inf") then Some (MODEL_FILE_INF c)
  else if bool_decide (Type_ = ".dec") then Some (MODEL_FILE_DEC c)
  else if bool_decide (Type_ = ".dsc") then Some (MODEL_FILE_DSC c)
  else None.

(** [MetaFileStorage(MetaFile, FileType, Temporary, FromItem)], with
    [Path] and [Type_] for [MetaFile.Path] and [MetaFile.Type]: the
    storage after the call and the object returned. *)
Definition MetaFileStorage_new (c : FileModels) (st : Storage)
    (Path Type_ : string) (FileType : option Z) (Temporary : bool)
    (FromItem : option Z) : result (Storage * nat) :=
  let key : StorageKey := (Path, FileType, Temporary, FromItem) in
  match _ObjectCache st !! key with
  | Some reval => Ok (st, reval)
  | None =>
      let FileType :=
        match FileType with
        | Some ft => if ft =? 0 then None else Some ft
        | None => None
        end in
      let FileType :=
        match FileType with
        | Some ft => ft
        | None => default (MODEL_FILE_OTHERS c) (_FILE_TYPE_ c Type_)
        end in
      match _FILE_TABLE_ c FileType with
      | None => Err PyKeyError
      | Some cls =>
          let reval := length (objects st) in
          let objs := objects st ++ [cls] in
          if negb Temporary
          then Ok (mkStorage objs (<[key := reval]> (_ObjectCache st)), reval)
          else Ok (mkStorage objs (_ObjectCache st), reval)
      end
  end.

(** One call of the factory, as a record of its arguments. *)
Record StorageCall : Type := mkStorageCall {
  call_Path : string;
  call_Type : string;
  call_FileType : option Z;
  call_Temporary : bool;
  call_FromItem : option Z
}.

Definition call_storage (c : FileModels) (st : Storage) (a : StorageCall)
    : result (Storage * nat) :=
  MetaFileStorage_new c st (call_Path a) (call_Type a) (call_FileType a)
                      (call_Temporary a) (call_FromItem a).

(** A run of calls; the calls that raise leave the storage as it is. *)
Fixpoint call_storage_all (c : FileModels) (st : Storage)
    (calls : list StorageCall) : Storage :=
  match calls with
  | [] => st
  | a :: rest =>
      match call_storage c st a with
      | Ok (st', _) => call_storage_all c st' rest
      | Err _ => call_storage_all c st rest
      end
  end.

(** *** [CommonPath] ([Common/Misc.py]) *)

(** [a < b] on strings: by code points, a proper prefix being smaller. *)
Fixpoint str_lt (a b : string) : bool :=
  match a, b with
  | _, EmptyString => false
  | EmptyString, String _ _ => true
  | String c a', String d b' =>
      (N_of_ascii c <? N_of_ascii d)%N
      || ((N_of_ascii c =? N_of_ascii d)%N && str_lt a' b')
  end.

(** [min(l)] and [max(l)]: the first of the smallest, the first of the
    largest; [None] for the [ValueError] on an empty list. *)
Definition py_min (l : list string) : option string :=
  match l with
  | [] => None
  | x :: rest => Some (fold_left (fun m y => if str_lt y m then y else m) rest x)
  end.

Definition py_max (l : list string) : option string :=
  match l with
  | [] => None
  | x :: rest => Some (fold_left (fun m y => if str_lt m y then y else m) rest x)
  end.

(** The loop of [CommonPath]: [P1[:Index]] at the first index where the
    two lists differ, all of [P1] when the shorter one is used up. *)
Fixpoint common_components (P1 P2 : list string) : list string :=
  match P1, P2 with
  | x :: r1, y :: r2 =>
      if negb (bool_decide (x = y)) then [] else x :: common_components r1 r2
  | _, _ => P1
  end.

(** [CommonPath(PathList)], with [sep] for [os.path.sep]. *)
Definition CommonPath (sep : ascii) (PathList : list string) : option string :=
  match py_min PathList, py_max PathList with
  | Some lo, Some hi =>
      let P1 := py_split sep lo in
      let P2 := py_split sep hi in
      Some (py_join (String sep EmptyString) (common_components P1 P2))
  | _, _ => None
  end.


(** * Theorems *)

(** ** The record store *)

(** The ids [i+1, ..., i+n]. *)
Definition ids_after (i : Z) (n : nat) : list Z :=
  map (fun k => i + 1 + Z.of_nat k) (seq 0 n).

Lemma ids_after_S i n : ids_after i (S n) = (i + 1) :: ids_after (i + 1) n.
Proof.
  unfold ids_after. simpl. f_equal; [lia|].
  rewrite <- seq_shift, map_map. apply map_ext. intros k. lia.
Qed.

Lemma ids_after_bounds i n x : In x (ids_after i n) -> i < x <= i + Z.of_nat n.
Proof.
  unfold ids_after. rewrite in_map_iff. intros (k & <- & Hk).
  apply in_seq in Hk. lia.
Qed.

Lemma ids_after_sorted i n : StronglySorted Z.lt (ids_after i n).
Proof.
  revert i. induction n as [|n IH]; intros i.
  - constructor.
  - rewrite ids_after_S. constructor; [apply IH|].
    apply List.Forall_forall. intros x Hx. apply ids_after_bounds in Hx. lia.
Qed.

Lemma StronglySorted_lt_NoDup (l : list Z) : StronglySorted Z.lt l -> List.NoDup l.
Proof.
  induction 1 as [|a l Hs IH Hall]; constructor; auto.
  intros Hin. rewrite List.Forall_forall in Hall. specialize (Hall _ Hin). lia.
Qed.

Section InsertRuns.
Context {L : Type} `{MetaFileTable.Row L}.
Variable ins : MetaFileTable.t L -> L -> MetaFileTable.t L * Z.
(** [guard i]: a call made when the counter is [i] takes the next id. *)
Variable guard : Z -> Prop.
Hypothesis ins_next : forall t a, guard (MetaFileTable.ID t) ->
  exists row,
    ins t a = (MetaFileTable.mk (MetaFileTable.CurrentContent t ++ [row])
                                (MetaFileTable.ID t + 1),
               MetaFileTable.ID t + 1)
    /\ MetaFileTable.row_ID row = MetaFileTable.ID t + 1.

Lemma InsertAll_ids (calls : list L) : forall t,
  (forall k, 0 <= k < Z.of_nat (length calls) -> guard (MetaFileTable.ID t + k)) ->
  snd (InsertAll ins t calls) = ids_after (MetaFileTable.ID t) (length calls)
  /\ MetaFileTable.ID (fst (InsertAll ins t calls))
     = MetaFileTable.ID t + Z.of_nat (length calls)
  /\ row_ids (fst (InsertAll ins t calls))
     = row_ids t ++ snd (InsertAll ins t calls).
Proof.
  induction calls as [|a rest IH]; intros t Hg.
  - simpl. unfold ids_after. simpl. rewrite app_nil_r. repeat split; lia.
  - destruct (ins_next t a) as (row & Hins & Hrow).
    { replace (MetaFileTable.ID t) with (MetaFileTable.ID t + 0) by lia.
      apply Hg. simpl length. lia. }
    cbn [InsertAll]. rewrite Hins.
    set (t1 := MetaFileTable.mk _ _).
    specialize (IH t1).
    destruct (InsertAll ins t1 rest) as [t2 ids] eqn:Hrun.
    cbn [fst snd] in *.
    destruct IH as (Hids & Hcnt & Hrows).
    { intros k Hk. subst t1. cbn [MetaFileTable.ID].
      replace (MetaFileTable.ID t + 1 + k) with (MetaFileTable.ID t + (k + 1)) by lia.
      apply Hg. simpl length. lia. }
    subst t1. cbn [MetaFileTable.ID] in *.
    repeat split.
    + cbn [length]. rewrite ids_after_S. now f_equal.
    + cbn [length]. lia.
    + rewrite Hrows. unfold row_ids. cbn [MetaFileTable.CurrentContent].
      rewrite map_app. simpl. rewrite Hrow, <- app_assoc. reflexivity.
Qed.

Lemma InsertTimes_ID (n : nat) : forall t a,
  (forall k, 0 <= k < Z.of_nat n -> guard (MetaFileTable.ID t + k)) ->
  MetaFileTable.ID (InsertTimes ins n t a) = MetaFileTable.ID t + Z.of_nat n.
Proof.
  induction n as [|n IH]; intros t a Hg.
  - simpl. lia.
  - destruct (ins_next t a) as (row & Hins & Hrow).
    { replace (MetaFileTable.ID t) with (MetaFileTable.ID t + 0) by lia.
      apply Hg. lia. }
    cbn [InsertTimes]. rewrite Hins. cbn [fst].
    rewrite IH.
    + cbn [MetaFileTable.ID]. lia.
    + intros k Hk. cbn [MetaFileTable.ID].
      replace (MetaFileTable.ID t + 1 + k) with (MetaFileTable.ID t + (k + 1)) by lia.
      apply Hg. lia.
Qed.
End InsertRuns.

Lemma PlatformTable_Insert_next t a :
  exists row,
    PlatformTable_Insert_row t a
    = (MetaFileTable.mk (MetaFileTable.CurrentContent t ++ [row])
                        (MetaFileTable.ID t + 1),
       MetaFileTable.ID t + 1)
    /\ MetaFileTable.row_ID row = MetaFileTable.ID t + 1.
Proof. eexists. split; reflexivity. Qed.

Lemma PackageTable_Insert_next t a :
  exists row,
    PackageTable_Insert_row t a
    = (MetaFileTable.mk (MetaFileTable.CurrentContent t ++ [row])
                        (MetaFileTable.ID t + 1),
       MetaFileTable.ID t + 1)
    /\ MetaFileTable.row_ID row = MetaFileTable.ID t + 1.
Proof. eexists. split; reflexivity. Qed.

Lemma ModuleTable_Insert_next M t a :
  MetaFileTable.ID t + 1 < M + MetaFileTable._ID_MAX_ ->
  exists row,
    ModuleTable_Insert_row M t a
    = (MetaFileTable.mk (MetaFileTable.CurrentContent t ++ [row])
                        (MetaFileTable.ID t + 1),
       MetaFileTable.ID t + 1)
    /\ MetaFileTable.row_ID row = MetaFileTable.ID t + 1.
Proof.
  intros Hlt. unfold ModuleTable_Insert_row, ModuleTable.Insert.
  unfold MetaFileTable._ID_STEP_ in *.
  destruct (Z.leb_spec (M + MetaFileTable._ID_MAX_) (MetaFileTable.ID t + 1)); [lia|].
  eexists. split; reflexivity.
Qed.

(** At the guard the I-shape counter restarts at [MODEL_FILE_INF + 1]. *)
Lemma ModuleTable_Insert_restart M t a :
  M + MetaFileTable._ID_MAX_ <= MetaFileTable.ID t + 1 ->
  snd (ModuleTable_Insert_row M t a) = M + 1
  /\ MetaFileTable.ID (fst (ModuleTable_Insert_row M t a)) = M + 1.
Proof.
  intros Hge. unfold ModuleTable_Insert_row, ModuleTable.Insert.
  unfold MetaFileTable._ID_STEP_ in *.
  destruct (Z.leb_spec (M + MetaFileTable._ID_MAX_) (MetaFileTable.ID t + 1)); [|lia].
  split; reflexivity.
Qed.


(** Peels the optional filters of a [Query] result off a membership
    hypothesis, keeping what each filter says about the row. *)
Ltac peel_filters :=
  repeat match goal with
    | H : In _ (List.filter _ _) |- _ =>
        let Hf := fresh "Hf" in apply filter_In in H as [H Hf]; cbv beta in Hf
    | H : In _ (match ?o with Some _ => _ | None => _ end) |- _ => destruct o
    | H : In _ (if ?c then _ else _) |- _ => destruct c
    end;
  repeat match goal with
    | H : _ && _ = true |- _ => apply andb_true_iff in H as [? ?]
    end;
  repeat match goal with
    | H : bool_decide _ = true |- _ => apply bool_decide_eq_true in H
    | H : (_ =? _) = true |- _ => apply Z.eqb_eq in H
    | H : (_ <? _) = true |- _ => apply Z.ltb_lt in H
    end.

(** Every row that the I-shape [Query] returns is enabled and of the
    queried model. *)
Lemma ModuleTable_Query_enabled t m arch plat owner r :
  In r (ModuleTable.Query t m arch plat owner) ->
  ModuleTable.Enabled r = true /\ ModuleTable.Model r = m.
Proof.
  unfold ModuleTable.Query. cbv zeta. intros Hin.
  peel_filters; auto.
Qed.

(** Every row that the D-shape [Query] returns is enabled, of the queried
    model, and owned as the [BelongsToItem] argument says. *)
Lemma PlatformTable_Query_sound t m s1 s2 owner from r :
  In r (PlatformTable.Query t m s1 s2 owner from) ->
  PlatformTable.Enabled r = true
  /\ PlatformTable.Model r = m
  /\ match owner with
     | Some b => PlatformTable.BelongsToItem r = b
     | None => PlatformTable.BelongsToItem r < 0
     end.
Proof.
  unfold PlatformTable.Query. cbv zeta. intros Hin.
  peel_filters; auto.
Qed.

(** C1 (the P-shape part, evaluated): a package table holding one row that
    was inserted with [Enabled = False] returns that row from [Query]; the
    row filter [item.Enabled>=0] lets [False] through, while the I-shape and
    D-shape queries ([ModuleTable_Query_enabled],
    [PlatformTable_Query_sound]) drop such rows. *)
Lemma PackageTable_Query_returns_disabled_row :
  exists r,
    In r (PackageTable.Query
            (fst (PackageTable.Insert MetaFileTable.init MODEL_EFI_GUID
                    "gFooGuid" "{0x1}" "" "COMMON" "COMMON"
                    (-1) 3 (-1) 3 (-1) (PyBool false)))
            MODEL_EFI_GUID None)
    /\ PackageTable.Enabled r = PyBool false
    /\ PackageTable.Value1 r = "gFooGuid".
Proof.
  eexists. split.
  - vm_compute. left. reflexivity.
  - split; reflexivity.
Qed.

(** The arguments of one I-shape call, used below. *)
Definition inf_call : ModuleTable.InfLine :=
  ModuleTable.mkInfLine 0 MODEL_EFI_SOURCE_FILE "Main.c" "" "" "COMMON" "COMMON"
                        (-1) 7 (-1) 7 (-1) true.

(** C3, as stated, fails on the I-shape table: with [MODEL_FILE_INF = 1011]
    and the counter at the parser's start value [10**7], the call after
    90001008 calls returns id 100001009 and the next call returns id 1012. *)
Lemma ModuleTable_Insert_id_restarts :
  let t := InsertTimes (ModuleTable_Insert_row 1011) (Z.to_nat 90001008)
                       (MetaFileTable.mk [] 10000000) inf_call in
  snd (ModuleTable_Insert_row 1011 t inf_call) = 100001009
  /\ snd (ModuleTable_Insert_row 1011
            (fst (ModuleTable_Insert_row 1011 t inf_call)) inf_call) = 1012.
Proof.
  intros t.
  assert (Ht : MetaFileTable.ID t = 100001008).
  { subst t.
    rewrite (InsertTimes_ID (ModuleTable_Insert_row 1011)
               (fun i => i + 1 < 1011 + MetaFileTable._ID_MAX_)).
    - rewrite Z2Nat.id by (apply Z.leb_le; reflexivity). reflexivity.
    - intros t0 a Hg. apply ModuleTable_Insert_next. exact Hg.
    - intros k Hk. rewrite Z2Nat.id in Hk by (apply Z.leb_le; reflexivity).
      cbn [MetaFileTable.ID]. unfold MetaFileTable._ID_MAX_. lia. }
  clearbody t.
  destruct (ModuleTable_Insert_next 1011 t inf_call) as (row & Hins & _).
  { rewrite Ht. unfold MetaFileTable._ID_MAX_. lia. }
  rewrite Hins. cbn [fst snd]. split; [lia|].
  apply ModuleTable_Insert_restart.
  cbn [MetaFileTable.ID]. rewrite Ht. unfold MetaFileTable._ID_MAX_. lia.
Qed.

(** C3 (amended): a run of [Insert] calls on a D-shape or P-shape table, and
    on an I-shape table as long as the counter stays below
    [MODEL_FILE_INF + _ID_MAX_], returns the ids [ID+1, ID+2, ...]: each
    call raises the counter by exactly 1, a later call returns a strictly
    greater id than an earlier one, the rows appended carry exactly these
    ids, and so no two of them share an id. *)
Theorem Insert_ids_strictly_increase :
  (forall t calls,
      let run := InsertAll PlatformTable_Insert_row t calls in
      snd run = ids_after (MetaFileTable.ID t) (length calls)
      /\ MetaFileTable.ID (fst run) = MetaFileTable.ID t + Z.of_nat (length calls)
      /\ row_ids (fst run) = row_ids t ++ snd run
      /\ StronglySorted Z.lt (snd run) /\ List.NoDup (snd run))
  /\ (forall t calls,
      let run := InsertAll PackageTable_Insert_row t calls in
      snd run = ids_after (MetaFileTable.ID t) (length calls)
      /\ MetaFileTable.ID (fst run) = MetaFileTable.ID t + Z.of_nat (length calls)
      /\ row_ids (fst run) = row_ids t ++ snd run
      /\ StronglySorted Z.lt (snd run) /\ List.NoDup (snd run))
  /\ (forall MODEL_FILE_INF t calls,
      MetaFileTable.ID t + Z.of_nat (length calls)
        < MODEL_FILE_INF + MetaFileTable._ID_MAX_ ->
      let run := InsertAll (ModuleTable_Insert_row MODEL_FILE_INF) t calls in
      snd run = ids_after (MetaFileTable.ID t) (length calls)
      /\ MetaFileTable.ID (fst run) = MetaFileTable.ID t + Z.of_nat (length calls)
      /\ row_ids (fst run) = row_ids t ++ snd run
      /\ StronglySorted Z.lt (snd run) /\ List.NoDup (snd run)).
Proof.
  assert (Hfin : forall (ids : list Z) i n,
             ids = ids_after i n -> StronglySorted Z.lt ids /\ List.NoDup ids).
  { intros ids i n ->. split; [|apply StronglySorted_lt_NoDup];
      apply ids_after_sorted. }
  split; [|split].
  - intros t calls run.
    destruct (InsertAll_ids PlatformTable_Insert_row (fun _ => True)
                (fun t0 a _ => PlatformTable_Insert_next t0 a) calls t)
      as (Hids & Hcnt & Hrows); [auto|].
    fold run in Hids, Hcnt, Hrows.
    repeat split; auto; eapply Hfin; eauto.
  - intros t calls run.
    destruct (InsertAll_ids PackageTable_Insert_row (fun _ => True)
                (fun t0 a _ => PackageTable_Insert_next t0 a) calls t)
      as (Hids & Hcnt & Hrows); [auto|].
    fold run in Hids, Hcnt, Hrows.
    repeat split; auto; eapply Hfin; eauto.
  - intros M t calls Hbound run.
    destruct (InsertAll_ids (ModuleTable_Insert_row M)
                (fun i => i + 1 < M + MetaFileTable._ID_MAX_)
                (fun t0 a Hg => ModuleTable_Insert_next M t0 a Hg) calls t)
      as (Hids & Hcnt & Hrows); [intros k Hk; lia|].
    fold run in Hids, Hcnt, Hrows.
    repeat split; auto; eapply Hfin; eauto.
Qed.

(** The I-shape part of [Insert_ids_strictly_increase] at two calls on the
    table that [InfParser] starts from (counter [10**7]). *)
Lemma Insert_ids_strictly_increase_witness :
  let t := MetaFileTable.mk [] 10000000 in
  let run := InsertAll (ModuleTable_Insert_row 1011) t [inf_call; inf_call] in
  snd run = ids_after 10000000 2
  /\ MetaFileTable.ID (fst run) = 10000000 + 2
  /\ row_ids (fst run) = [] ++ snd run
  /\ StronglySorted Z.lt (snd run) /\ List.NoDup (snd run).
Proof.
  apply (proj2 (proj2 Insert_ids_strictly_increase) 1011
               (MetaFileTable.mk [] 10000000) [inf_call; inf_call]).
  vm_compute. reflexivity.
Defined.

(** A D-shape table with a component row (id 1) and a library override in
    its sub-section (id 2, owned by row 1). *)
Definition component_table : MetaFileTable.t PlatformTable.DscLine :=
  fst (InsertAll PlatformTable_Insert_row MetaFileTable.init
         [ PlatformTable.mkDscLine 0 MODEL_META_DATA_COMPONENT
             "Pkg/Drv.inf" "" "" "IA32" "COMMON" "COMMON" (-1) (-1) 10 (-1) 10 (-1)
             "" "" "" true;
           PlatformTable.mkDscLine 0 MODEL_EFI_LIBRARY_CLASS
             "PcdLib" "Pkg/PcdLib.inf" "" "IA32" "COMMON" "COMMON" 1 (-1) 12 (-1) 12 (-1)
             "" "" "" true ]).

(** C10: a D-shape query without a [BelongsToItem] argument returns only
    rows whose [BelongsToItem] is negative, and a query with the argument
    [b] returns only rows owned by [b]: a sub-section row, whose
    [BelongsToItem] is its component's id, is returned by no default query
    and only by a query that passes its parent's id. *)
Theorem PlatformTable_Query_default_hides_owned t m s1 s2 from r :
  (In r (PlatformTable.Query t m s1 s2 None from) ->
   PlatformTable.BelongsToItem r < 0)
  /\ (forall b, In r (PlatformTable.Query t m s1 s2 (Some b) from) ->
                PlatformTable.BelongsToItem r = b)
  /\ (0 <= PlatformTable.BelongsToItem r ->
      ~ In r (PlatformTable.Query t m s1 s2 None from)
      /\ forall b, In r (PlatformTable.Query t m s1 s2 (Some b) from) ->
                   b = PlatformTable.BelongsToItem r).
Proof.
  assert (H1 : In r (PlatformTable.Query t m s1 s2 None from) ->
               PlatformTable.BelongsToItem r < 0).
  { intros Hin. apply PlatformTable_Query_sound in Hin. tauto. }
  assert (H2 : forall b, In r (PlatformTable.Query t m s1 s2 (Some b) from) ->
                         PlatformTable.BelongsToItem r = b).
  { intros b Hin. apply PlatformTable_Query_sound in Hin. tauto. }
  repeat split; auto.
  - intros Hin. apply H1 in Hin. lia.
  - intros b Hin. symmetry. auto.
Qed.

(** [PlatformTable_Query_default_hides_owned] at [component_table]: the
    override row is returned for its parent's id 1 and is not among the rows
    of the default query. *)
Lemma PlatformTable_Query_default_hides_owned_witness :
  exists r,
    In r (PlatformTable.Query component_table MODEL_EFI_LIBRARY_CLASS
            (Some "IA32") None (Some 1) None)
    /\ PlatformTable.BelongsToItem r = 1
    /\ ~ In r (PlatformTable.Query component_table MODEL_EFI_LIBRARY_CLASS
                 (Some "IA32") None None None).
Proof.
  eexists. split; [vm_compute; left; reflexivity|].
  split; [reflexivity|].
  apply (proj2 (proj2 (PlatformTable_Query_default_hides_owned
                         component_table MODEL_EFI_LIBRARY_CLASS
                         (Some "IA32") None None _))).
  vm_compute. discriminate.
Defined.


(** ** Strings and patterns *)

Lemma append_nil_l (s : string) : EmptyString +:+ s = s.
Proof. reflexivity. Qed.

Lemma append_cons c (a b : string) : String c a +:+ b = String c (a +:+ b).
Proof. reflexivity. Qed.

Lemma append_nil_r (s : string) : s +:+ EmptyString = s.
Proof.
  induction s as [|c s IH]; [reflexivity|]. now rewrite append_cons, IH.
Qed.

Lemma append_assoc (a b c : string) : (a +:+ b) +:+ c = a +:+ (b +:+ c).
Proof.
  induction a as [|x a IH]; [reflexivity|]. now rewrite !append_cons, IH.
Qed.

Lemma append_eq_nil (a b : string) :
  a +:+ b = EmptyString -> a = EmptyString /\ b = EmptyString.
Proof. destruct a; [rewrite append_nil_l; auto|rewrite append_cons; discriminate]. Qed.

Lemma length_append (a b : string) :
  String.length (a +:+ b) = (String.length a + String.length b)%nat.
Proof.
  induction a as [|x a IH]; [reflexivity|].
  rewrite append_cons. simpl. now rewrite IH.
Qed.

Lemma nullable_matches r : Re.nullable r = true <-> Re_matches r EmptyString.
Proof.
  split.
  - induction r; simpl; intros Hn; try discriminate.
    + constructor.
    + apply andb_true_iff in Hn as [H1 H2].
      change EmptyString with (EmptyString +:+ EmptyString). constructor; auto.
    + apply orb_true_iff in Hn as [H1|H2]; [apply MAltL|apply MAltR]; auto.
    + constructor.
  - intros Hm. remember EmptyString as s eqn:Hs.
    induction Hm; simpl; try discriminate; auto.
    + apply append_eq_nil in Hs as [-> ->]. rewrite IHHm1, IHHm2; auto.
    + rewrite IHHm; auto.
    + rewrite IHHm; auto using orb_true_r.
Qed.

(** A non-empty word of [Star r] starts with a non-empty word of [r]. *)
Lemma star_cons_inv r c s :
  Re_matches (Re.Star r) (String c s) ->
  exists s1 s2, s = s1 +:+ s2
                /\ Re_matches r (String c s1) /\ Re_matches (Re.Star r) s2.
Proof.
  intros Hm. remember (Re.Star r) as r' eqn:Hr. remember (String c s) as w eqn:Hw.
  revert c s Hw. induction Hm; intros c0 s0 Hw; try discriminate.
  injection Hr as ->.
  destruct s1 as [|c1 s1'].
  - rewrite append_nil_l in Hw. apply IHHm2; auto.
  - rewrite append_cons in Hw. injection Hw as -> <-. exists s1', s2. auto.
Qed.

Lemma deriv_matches r : forall c s,
  Re_matches (Re.deriv c r) s <-> Re_matches r (String c s).
Proof.
  induction r; intros c s; simpl.
  - split; inversion 1.
  - split; inversion 1.
  - split.
    + destruct (p c) eqn:Hp; inversion 1. subst. now constructor.
    + inversion 1; subst. rewrite H2. constructor.
  - split.
    + destruct (Re.nullable r1) eqn:Hn.
      * inversion 1; subst.
        -- match goal with H : Re_matches (Re.Cat _ _) _ |- _ => inversion H; subst end.
           change (String c (s1 +:+ s2)) with (String c s1 +:+ s2).
           constructor; auto. now apply IHr1.
        -- change (String c s) with (EmptyString +:+ String c s).
           constructor; [now apply nullable_matches | now apply IHr2].
      * inversion 1; subst.
        change (String c (s1 +:+ s2)) with (String c s1 +:+ s2).
        constructor; auto. now apply IHr1.
    + intros Hm. remember (String c s) as w eqn:Hw.
      inversion Hm as [| |? ? s1 s2 H1 H2| | | |]; subst.
      match goal with H : _ +:+ _ = String c s |- _ => rename H into Heq end.
      destruct s1 as [|c1 s1'].
      * rewrite append_nil_l in Heq. subst s2.
        assert (Hn : Re.nullable r1 = true) by now apply nullable_matches.
        rewrite Hn. apply MAltR. now apply IHr2.
      * rewrite append_cons in Heq. injection Heq as -> <-.
        assert (Hc : Re_matches (Re.Cat (Re.deriv c r1) r2) (s1' +:+ s2)).
        { constructor; auto. now apply IHr1. }
        destruct (Re.nullable r1); [now apply MAltL|exact Hc].
  - split.
    + inversion 1; subst; [apply MAltL; now apply IHr1|apply MAltR; now apply IHr2].
    + inversion 1; subst; [apply MAltL; now apply IHr1|apply MAltR; now apply IHr2].
  - split.
    + inversion 1; subst.
      change (String c (s1 +:+ s2)) with (String c s1 +:+ s2).
      constructor; auto. now apply IHr.
    + intros Hm. apply star_cons_inv in Hm as (s1 & s2 & -> & H1 & H2).
      constructor; auto. now apply IHr.
Qed.

Lemma fullmatch_matches s : forall r,
  Re.fullmatch r s = true <-> Re_matches r s.
Proof.
  induction s as [|c s IH]; intros r; simpl.
  - apply nullable_matches.
  - rewrite IH. apply deriv_matches.
Qed.

(** [match_dollar]: a prefix is a word of [r] and the rest is empty or the
    closing line feed. *)
Lemma match_dollar_spec s : forall r,
  Re.match_dollar r s = true <->
  exists p rest, s = p +:+ rest /\ Re_matches r p
                 /\ (rest = EmptyString \/ rest = String Py.NEWLINE EmptyString).
Proof.
  induction s as [|c s IH]; intros r; cbn [Re.match_dollar].
  - rewrite orb_false_r, andb_true_iff, orb_true_iff, !bool_decide_eq_true.
    split.
    + intros [Hn _]. exists EmptyString, EmptyString.
      split; [reflexivity|]. split; [now apply nullable_matches|auto].
    + intros (p & rest & Heq & Hm & _). symmetry in Heq.
      apply append_eq_nil in Heq as [-> ->].
      split; [now apply nullable_matches|auto].
  - rewrite orb_true_iff, andb_true_iff, orb_true_iff, !bool_decide_eq_true, IH.
    split.
    + intros [[Hn Hrest]|(p & rest & -> & Hm & Hrest)].
      * exists EmptyString, (String c s). split; [reflexivity|]. split.
        -- now apply nullable_matches.
        -- destruct Hrest as [H|H]; [discriminate|auto].
      * exists (String c p), rest. split; [reflexivity|]. split; [|exact Hrest].
        now apply deriv_matches.
    + intros (p & rest & Heq & Hm & Hrest).
      destruct p as [|c' p'].
      * left. rewrite append_nil_l in Heq. subst rest. split; [now apply nullable_matches|].
        destruct Hrest as [H|H]; [discriminate|auto].
      * right. rewrite append_cons in Heq. injection Heq as -> ->.
        exists p', rest. split; [reflexivity|]. split; [|exact Hrest].
        now apply deriv_matches.
Qed.

(** A word of a starred class is a string of characters of the class. *)
Lemma star_chr_matches p s :
  Py.forallb p s = true -> Re_matches (Re.Star (Re.Chr p)) s.
Proof.
  induction s as [|c s IH]; simpl; intros Hall.
  - constructor.
  - apply andb_true_iff in Hall as [Hc Hs].
    change (String c s) with (String c EmptyString +:+ s).
    constructor; [now constructor|auto].
Qed.

Lemma star_chr_inv p s :
  Re_matches (Re.Star (Re.Chr p)) s -> Py.forallb p s = true.
Proof.
  intros Hm. remember (Re.Star (Re.Chr p)) as r eqn:Hr.
  induction Hm; try discriminate; [reflexivity|].
  injection Hr as ->.
  inversion Hm1; subst. simpl. rewrite H0. simpl. auto.
Qed.


(** ** [CheckPcdDatum] *)

Lemma list_ascii_append (a b : string) :
  list_ascii_of_string (a +:+ b) = list_ascii_of_string a ++ list_ascii_of_string b.
Proof.
  induction a as [|c a IH]; [reflexivity|].
  rewrite append_cons. simpl. now rewrite IH.
Qed.

Lemma string_of_list_app (l1 l2 : list ascii) :
  string_of_list_ascii (l1 ++ l2)
  = string_of_list_ascii l1 +:+ string_of_list_ascii l2.
Proof.
  induction l1 as [|c l1 IH]; [reflexivity|].
  simpl. now rewrite IH, append_cons.
Qed.

Lemma rev_append (a b : string) : Py.rev (a +:+ b) = Py.rev b +:+ Py.rev a.
Proof.
  unfold Py.rev. now rewrite list_ascii_append, rev_app_distr, string_of_list_app.
Qed.

Lemma prefix_append (p s : string) : String.prefix p (p +:+ s) = true.
Proof.
  induction p as [|c p IH]; [now destruct s|].
  rewrite append_cons. simpl. destruct (ascii_dec c c); [exact IH|congruence].
Qed.

Lemma startswith_append (p s : string) : Py.startswith (p +:+ s) p = true.
Proof. apply prefix_append. Qed.

Lemma endswith_append (s p : string) : Py.endswith (s +:+ p) p = true.
Proof. unfold Py.endswith. rewrite rev_append. apply prefix_append. Qed.

Lemma take_append (a b : string) : Py.take (String.length a) (a +:+ b) = a.
Proof.
  induction a as [|c a IH]; [now destruct b|].
  rewrite append_cons. simpl. now rewrite IH.
Qed.

Lemma drop_append (a b : string) : Py.drop (String.length a) (a +:+ b) = b.
Proof.
  induction a as [|c a IH]; [reflexivity|]. rewrite append_cons. exact IH.
Qed.

(** [(pre + body + post)[len(pre):-len(post)]] is [body] for a one-character
    [post]. *)
Lemma slice_to_last_body (pre body : string) (q : ascii) :
  Misc.slice_to_last (String.length pre) (pre +:+ body +:+ String q EmptyString)
  = body.
Proof.
  unfold Misc.slice_to_last, Py.slice.
  rewrite drop_append, !length_append. cbn [String.length].
  replace (String.length pre + (String.length body + 1) - 1 - String.length pre)%nat
    with (String.length body) by lia.
  apply take_append.
Qed.

(** The pattern [ValueRe] matches a double-quoted text without line feeds,
    with or without the [L] in front. *)
Lemma ValueRe_matches_quoted (pre body : string) :
  pre = Misc.DQ \/ pre = Misc.LDQ ->
  Py.forallb (fun c => negb (bool_decide (c = Py.NEWLINE))) body = true ->
  Re.match_dollar Misc.ValueRe (pre +:+ body +:+ Misc.DQ) = true.
Proof.
  intros Hpre Hbody. apply match_dollar_spec.
  exists (pre +:+ body +:+ Misc.DQ), EmptyString.
  split; [now rewrite append_nil_r|]. split; [|auto].
  unfold Misc.ValueRe.
  assert (Hq : Re_matches (Re.lit Py.DQUOTE) Misc.DQ).
  { constructor. now apply bool_decide_eq_true. }
  assert (Htail : Re_matches
            (Re.Cat (Re.lit Py.DQUOTE)
               (Re.Cat (Re.Star Re.dot)
                  (Re.Cat (Re.lit Py.DQUOTE) (Re.Star Re.space))))
            (Misc.DQ +:+ body +:+ Misc.DQ)).
  { constructor; [exact Hq|].
    constructor; [now apply star_chr_matches|].
    rewrite <- (append_nil_r Misc.DQ) at 1.
    constructor; [exact Hq|constructor]. }
  change (pre +:+ body +:+ Misc.DQ)
    with (EmptyString +:+ (pre +:+ body +:+ Misc.DQ)).
  constructor; [constructor|].
  destruct Hpre as [->| ->].
  - change (Misc.DQ +:+ body +:+ Misc.DQ)
      with (EmptyString +:+ (Misc.DQ +:+ body +:+ Misc.DQ)).
    constructor; [apply MAltL; constructor|exact Htail].
  - change (Misc.LDQ +:+ body +:+ Misc.DQ)
      with (String "L"%char EmptyString +:+ (Misc.DQ +:+ body +:+ Misc.DQ)).
    constructor; [apply MAltR; constructor; now apply bool_decide_eq_true|exact Htail].
Qed.

(** A text that [ValueRe] matches is made of blanks and then a double
    quote, with or without an [L] before it. *)
Lemma ValueRe_first (s : string) :
  Re.match_dollar Misc.ValueRe s = true ->
  exists blanks rest,
    s = blanks +:+ rest /\ Py.forallb Py.isspace blanks = true
    /\ (Py.startswith rest Misc.DQ = true \/ Py.startswith rest Misc.LDQ = true).
Proof.
  intros Hm. apply match_dollar_spec in Hm as (p & tail & -> & Hp & _).
  unfold Misc.ValueRe in Hp.
  inversion Hp as [| |r1 r2 s1 s2 H1 H2| | | |]; subst.
  inversion H2 as [| |r3 r4 s3 s4 H3 H4| | | |]; subst.
  inversion H4 as [| |r5 r6 s5 s6 H5 H6| | | |]; subst.
  inversion H5 as [|p c Hc| | | | |]; subst.
  apply bool_decide_eq_true in Hc. subst c.
  exists s1, (s3 +:+ (Misc.DQ +:+ s6) +:+ tail).
  split; [now rewrite !append_assoc|].
  split; [now apply star_chr_inv|].
  inversion H3 as [| | |r7 r8 s7 H7|r7 r8 s7 H7| |]; subst.
  - inversion H7; subst. left.
    rewrite append_nil_l, !append_assoc. apply startswith_append.
  - inversion H7 as [|p c Hc| | | | |]; subst.
    apply bool_decide_eq_true in Hc. subst c. right.
    unfold Py.startswith, Misc.LDQ, Misc.DQ.
    rewrite ?append_cons, ?append_nil_l. cbn [String.prefix].
    repeat (destruct (ascii_dec _ _); [|congruence]).
    destruct (s6 +:+ tail); reflexivity.
Qed.

(** [ValueRe] matches no text that starts with a single quote or with [L]
    and a single quote. *)
Lemma ValueRe_not_single_quoted (pre rest : string) :
  pre = Misc.SQ \/ pre = Misc.LSQ ->
  Re.match_dollar Misc.ValueRe (pre +:+ rest) = false.
Proof.
  intros Hpre. destruct (Re.match_dollar Misc.ValueRe (pre +:+ rest)) eqn:Hm;
    [|reflexivity].
  exfalso. apply ValueRe_first in Hm as (blanks & tail & Heq & Hb & Hq).
  destruct blanks as [|b blanks].
  - rewrite append_nil_l in Heq. subst tail.
    destruct Hpre as [->| ->], Hq as [Hq|Hq]; vm_compute in Hq; discriminate.
  - cbn [Py.forallb] in Hb. apply andb_true_iff in Hb as [Hb _].
    destruct Hpre as [->| ->]; rewrite !append_cons in Heq;
      injection Heq as <- _; vm_compute in Hb; discriminate.
Qed.

(** The value made of a single quote, the control character 0x01 and a
    single quote is accepted although 0x01 is outside the printable set:
    the characters are checked in double-quoted values only. *)
Lemma CheckPcdDatum_single_quoted_unchecked :
  Misc.CheckPcdDatum Misc.TAB_VOID
    (Misc.SQ +:+ String (ascii_of_nat 1) Misc.SQ) = (true, Misc.NoCause)
  /\ Py.forallb Misc.Printset (String (ascii_of_nat 1) EmptyString) = false.
Proof. split; vm_compute; reflexivity. Qed.

(** The value [L'abc], with the quote left open, is accepted: the last
    alternative of the form test reads
    [startswith L' or (startswith ' and endswith ')]. *)
Lemma CheckPcdDatum_accepts_open_wide_quote :
  Misc.CheckPcdDatum Misc.TAB_VOID (Misc.LSQ +:+ "abc") = (true, Misc.NoCause)
  /\ Py.endswith (Misc.LSQ +:+ "abc") Misc.SQ = false.
Proof. split; vm_compute; reflexivity. Qed.

(** C9: what [CheckPcdDatum] does with a value of the datum type [VOID*].
    - A value that does not start with [L'] is accepted only if it starts
      and ends with a double quote (with or without [L] in front), starts
      with an opening and ends with a closing brace, or starts and ends with
      a single quote.
    - A double-quoted value, with or without [L] in front, whose body has no
      line feed is accepted exactly when every character of the body is in
      the printable set without vertical tab, with backspace and null, and
      is otherwise rejected with the cause that names the printable set.
    - For every datum type, a rejection comes with a cause.
    - Every value that starts with [L'] is accepted, whatever follows and
      whether a quote closes it or not: the form test reads
      [startswith L' or (startswith ' and endswith ')], so the closing quote
      is asked for without the [L] only.  [L'abc] is such a value.
    - Every value between single quotes is accepted, whatever its body: the
      pattern that leads to the check of the characters asks for a double
      quote. *)
Theorem CheckPcdDatum_VOID_forms :
  (forall Value,
      Py.startswith Value Misc.LSQ = false ->
      fst (Misc.CheckPcdDatum Misc.TAB_VOID Value) = true ->
      (Py.startswith Value Misc.DQ = true /\ Py.endswith Value Misc.DQ = true)
      \/ (Py.startswith Value Misc.LDQ = true /\ Py.endswith Value Misc.DQ = true)
      \/ (Py.startswith Value "{" = true /\ Py.endswith Value "}" = true)
      \/ (Py.startswith Value Misc.SQ = true /\ Py.endswith Value Misc.SQ = true))
  /\ (forall pre body,
      pre = Misc.DQ \/ pre = Misc.LDQ ->
      Py.forallb (fun c => negb (bool_decide (c = Py.NEWLINE))) body = true ->
      Misc.CheckPcdDatum Misc.TAB_VOID (pre +:+ body +:+ Misc.DQ)
      = if Py.forallb Misc.Printset body
        then (true, Misc.NoCause)
        else (false, Misc.NotPrintable Misc.TAB_VOID))
  /\ (forall Type_ Value,
      fst (Misc.CheckPcdDatum Type_ Value) = false ->
      snd (Misc.CheckPcdDatum Type_ Value) <> Misc.NoCause)
  /\ (forall rest,
      Misc.CheckPcdDatum Misc.TAB_VOID (Misc.LSQ +:+ rest) = (true, Misc.NoCause))
  /\ (forall body,
      Misc.CheckPcdDatum Misc.TAB_VOID (Misc.SQ +:+ body +:+ Misc.SQ)
      = (true, Misc.NoCause))
  /\ Py.endswith (Misc.LSQ +:+ "abc") Misc.SQ = false.
Proof.
  split; [|split; [|split; [|split; [|split]]]].
  - intros Value HnoL. unfold Misc.CheckPcdDatum.
    rewrite bool_decide_eq_true_2 by reflexivity. rewrite HnoL.
    destruct (Py.startswith Value Misc.LDQ) eqn:H1,
             (Py.startswith Value Misc.DQ) eqn:H2,
             (Py.endswith Value Misc.DQ) eqn:H3,
             (Py.startswith Value "{") eqn:H4,
             (Py.endswith Value "}") eqn:H5,
             (Py.startswith Value Misc.SQ) eqn:H6,
             (Py.endswith Value Misc.SQ) eqn:H7;
      cbn [negb andb orb fst]; intros Hacc; try discriminate; tauto.
  - intros pre body Hpre Hbody. unfold Misc.CheckPcdDatum.
    rewrite bool_decide_eq_true_2 by reflexivity.
    rewrite (ValueRe_matches_quoted pre body Hpre Hbody).
    assert (Hform : (Py.startswith (pre +:+ body +:+ Misc.DQ) Misc.LDQ
                     || Py.startswith (pre +:+ body +:+ Misc.DQ) Misc.DQ)
                    && Py.endswith (pre +:+ body +:+ Misc.DQ) Misc.DQ = true).
    { rewrite <- append_assoc, endswith_append, andb_true_r.
      rewrite append_assoc.
      destruct Hpre as [->| ->]; rewrite startswith_append;
        auto using orb_true_r. }
    rewrite Hform. cbn [orb negb].
    assert (Hbodyeq :
              (if Py.startswith (pre +:+ body +:+ Misc.DQ) "L"
               then Misc.slice_to_last 2 (pre +:+ body +:+ Misc.DQ)
               else Misc.slice_to_last 1 (pre +:+ body +:+ Misc.DQ)) = body).
    { destruct Hpre as [->| ->].
      - change (Py.startswith (Misc.DQ +:+ body +:+ Misc.DQ) "L") with false.
        apply (slice_to_last_body Misc.DQ body Py.DQUOTE).
      - change (Py.startswith (Misc.LDQ +:+ body +:+ Misc.DQ) "L") with true.
        apply (slice_to_last_body Misc.LDQ body Py.DQUOTE). }
    rewrite Hbodyeq. now destruct (Py.forallb Misc.Printset body).
  - intros Type_ Value. unfold Misc.CheckPcdDatum.
    repeat match goal with
      | |- context [if ?c then _ else _] => destruct c; cbn [fst snd]
      | |- context [match ?o with Some _ => _ | None => _ end] =>
          destruct o; cbn [fst snd]
      end; intros Hf; try discriminate Hf; discriminate.
  - intros rest. unfold Misc.CheckPcdDatum.
    rewrite bool_decide_eq_true_2 by reflexivity.
    rewrite (startswith_append Misc.LSQ rest). cbn [orb].
    rewrite orb_true_r. cbn [negb].
    rewrite (ValueRe_not_single_quoted Misc.LSQ rest) by (right; reflexivity).
    reflexivity.
  - intros body. unfold Misc.CheckPcdDatum.
    rewrite bool_decide_eq_true_2 by reflexivity.
    rewrite (startswith_append Misc.SQ (body +:+ Misc.SQ)).
    rewrite <- (append_assoc Misc.SQ body Misc.SQ).
    rewrite (endswith_append (Misc.SQ +:+ body) Misc.SQ).
    cbn [andb]. rewrite !orb_true_r. cbn [negb].
    rewrite (append_assoc Misc.SQ body Misc.SQ).
    rewrite (ValueRe_not_single_quoted Misc.SQ (body +:+ Misc.SQ))
      by (left; reflexivity).
    reflexivity.
  - vm_compute. reflexivity.
Qed.

(** [CheckPcdDatum_VOID_forms] at the value [L] followed by the
    double-quoted [a|b]: accepted, with the empty cause. *)
Lemma CheckPcdDatum_VOID_forms_witness :
  Misc.CheckPcdDatum Misc.TAB_VOID (Misc.LDQ +:+ "a|b" +:+ Misc.DQ)
  = (true, Misc.NoCause).
Proof.
  exact (proj1 (proj2 CheckPcdDatum_VOID_forms) Misc.LDQ "a|b"
               (or_intror eq_refl) eq_refl).
Defined.


(** ** [AnalyzePcdExpression] *)

Lemma prefix_length (p s : string) :
  String.prefix p s = true -> (String.length p <= String.length s)%nat.
Proof.
  revert s. induction p as [|c p IH]; intros s Hp; [simpl; lia|].
  destruct s as [|d s]; [discriminate|]. simpl in *.
  destruct (ascii_dec c d); [|discriminate]. apply IH in Hp. lia.
Qed.

Lemma find_from_short fuel (p : string) : forall s pos,
  (String.length s < String.length p)%nat -> Py.find_from fuel p s pos = None.
Proof.
  induction fuel as [|fuel IH]; intros s pos Hlt; simpl.
  - destruct (String.prefix p s) eqn:Hp; [apply prefix_length in Hp; lia|reflexivity].
  - destruct (String.prefix p s) eqn:Hp; [apply prefix_length in Hp; lia|].
    destruct s as [|c s]; [reflexivity|]. apply IH. simpl in Hlt. lia.
Qed.

(** A text shorter than [p] does not contain [p]. *)
Lemma contains_short (s p : string) :
  (String.length s < String.length p)%nat -> Py.contains s p = false.
Proof.
  intros Hlt. unfold Py.contains, Py.find.
  destruct (String.length s <? 0)%nat; [reflexivity|].
  now rewrite find_from_short.
Qed.

(** C8 (evaluated): whatever eight characters [RanStr] are drawn,
    - the text [L"a|b"|VOID*|8] is cut into its three fields, the separator
      inside the quotes staying in the first, and [AnalyzeDscPcd] finds it a
      valid fixed-at-build setting;
    - the text made of the double-quoted [a|b] and one closing backslash is
      cut at the separator inside its quotes: at the first character the
      scan reads [Data[Index - 1]] with [Index = 0], which is the last
      character, the backslash, and takes the opening quote for an escaped
      one. *)
Theorem AnalyzePcdExpression_cuts (RanStr : string) :
  String.length RanStr = 8%nat ->
  Misc.AnalyzePcdExpression RanStr pcd_value_example
  = [Misc.LDQ +:+ "a|b" +:+ Misc.DQ; "VOID*"; "8"]
  /\ Misc.AnalyzeDscPcd RanStr pcd_value_example MODEL_PCD_FIXED_AT_BUILD ""
     = ([Misc.LDQ +:+ "a|b" +:+ Misc.DQ; "VOID*"; "8"], true, 0%nat)
  /\ Misc.AnalyzePcdExpression RanStr pcd_value_leading_quote
     = [Misc.DQ +:+ "a"; "b" +:+ Misc.DQ +:+ "\"].
Proof.
  intros Hlen.
  assert (Hex : Misc.AnalyzePcdExpression RanStr pcd_value_example
                = [Misc.LDQ +:+ "a|b" +:+ Misc.DQ; "VOID*"; "8"]).
  { unfold Misc.AnalyzePcdExpression.
    replace (Py.strip (Py.replace pcd_value_example "\\" RanStr))
      with pcd_value_example by (vm_compute; reflexivity).
    replace (Misc.split_fields
               (String.length (Misc.NewStr_of pcd_value_example))
               pcd_value_example (Misc.NewStr_of pcd_value_example) 0)
      with [Misc.LDQ +:+ "a|b" +:+ Misc.DQ; "VOID*"; "8"]
      by (vm_compute; reflexivity).
    cbn [map].
    rewrite !contains_short; [reflexivity| | |]; rewrite Hlen; vm_compute; lia. }
  split; [exact Hex|]. split.
  - unfold Misc.AnalyzeDscPcd. rewrite Hex. vm_compute. reflexivity.
  - unfold Misc.AnalyzePcdExpression.
    replace (Py.strip (Py.replace pcd_value_leading_quote "\\" RanStr))
      with pcd_value_leading_quote by (vm_compute; reflexivity).
    replace (Misc.split_fields
               (String.length (Misc.NewStr_of pcd_value_leading_quote))
               pcd_value_leading_quote (Misc.NewStr_of pcd_value_leading_quote) 0)
      with [Misc.DQ +:+ "a"; "b" +:+ Misc.DQ +:+ "\"]
      by (vm_compute; reflexivity).
    cbn [map].
    rewrite !contains_short; [reflexivity| |]; rewrite Hlen; vm_compute; lia.
Qed.

(** [AnalyzePcdExpression_cuts] at one draw of [RanStr]. *)
Lemma AnalyzePcdExpression_cuts_witness :
  Misc.AnalyzePcdExpression "k3Zq9TbM" pcd_value_example
  = [Misc.LDQ +:+ "a|b" +:+ Misc.DQ; "VOID*"; "8"]
  /\ Misc.AnalyzeDscPcd "k3Zq9TbM" pcd_value_example MODEL_PCD_FIXED_AT_BUILD ""
     = ([Misc.LDQ +:+ "a|b" +:+ Misc.DQ; "VOID*"; "8"], true, 0%nat)
  /\ Misc.AnalyzePcdExpression "k3Zq9TbM" pcd_value_leading_quote
     = [Misc.DQ +:+ "a"; "b" +:+ Misc.DQ +:+ "\"].
Proof. exact (AnalyzePcdExpression_cuts "k3Zq9TbM" eq_refl). Defined.


(** ** Section headers *)

Lemma bind_Ok {A B : Type} (c : result A) (f : A -> result B) (b : B) :
  (c ≫= f) = Ok b -> exists a, c = Ok a /\ f a = Ok b.
Proof. destruct c as [a|e]; [eauto|discriminate]. Qed.

Lemma NoDup_two_distinct {A : Type} (l : list A) (a b : A) :
  List.NoDup l -> In a l -> In b l -> a <> b -> (1 < length l)%nat.
Proof.
  intros Hnd Ha Hb Hab.
  destruct l as [|x [|y l']]; simpl in *; try tauto; try lia.
  destruct Ha as [<-|[]], Hb as [<-|[]]. congruence.
Qed.

(** [ArchList] with one more value, as a set kept in a list. *)
Definition add_distinct (l : list string) (x : string) : list string :=
  if bool_decide (x ∈ l) then l else l ++ [x].

Lemma add_distinct_In l x y : In y (add_distinct l x) <-> In y l \/ y = x.
Proof.
  unfold add_distinct. case_bool_decide as Hx.
  - apply list_elem_of_In in Hx. split; [auto|]. intros [?| ->]; auto.
  - rewrite in_app_iff. simpl. intuition.
Qed.

Lemma NoDup_snoc {A : Type} (l : list A) (x : A) :
  List.NoDup l -> ~ In x l -> List.NoDup (l ++ [x]).
Proof.
  induction 1 as [|y l Hy Hnd IH]; intros Hx; simpl.
  - constructor; [intros []|constructor].
  - constructor.
    + rewrite in_app_iff. simpl. intros [?|[->|[]]]; [auto|]. apply Hx. now left.
    + apply IH. intros Hin. apply Hx. now right.
Qed.

Lemma add_distinct_NoDup l x : List.NoDup l -> List.NoDup (add_distinct l x).
Proof.
  intros Hnd. unfold add_distinct. case_bool_decide as Hx; [exact Hnd|].
  apply NoDup_snoc; [exact Hnd|]. intros Hin. apply Hx, list_elem_of_In, Hin.
Qed.

(** The first slots and the second slots of the entries of a scope. *)
Definition scope_archs (scope : list ScopeEntry) : list string :=
  map (fun e => fst (fst e)) scope.
Definition scope_tags (scope : list ScopeEntry) : list string :=
  map (fun e => snd (fst e)) scope.

(** [tracks l scope_part]: the set [l] holds exactly the values of that
    slot of the scope, each once. *)
Definition tracks (l slots : list string) : Prop :=
  List.NoDup l /\ forall a, In a l <-> In a slots.

Lemma tracks_add l slots x :
  tracks l slots -> tracks (add_distinct l x) (slots ++ [x]).
Proof.
  intros [Hnd Hin]. split; [now apply add_distinct_NoDup|].
  intros a. rewrite add_distinct_In, in_app_iff, Hin. simpl. intuition.
Qed.

Lemma tracks_add_present l slots x :
  tracks l slots -> In x slots -> tracks (add_distinct l x) slots.
Proof.
  intros [Hnd Hin] Hx. split; [now apply add_distinct_NoDup|].
  intros a. rewrite add_distinct_In, Hin. intuition; subst; auto.
Qed.

Lemma tracks_mixed l slots a :
  tracks l slots -> In TAB_COMMON slots -> In a slots -> a <> TAB_COMMON ->
  bool_decide (TAB_COMMON ∈ l) && (1 <? length l)%nat = true.
Proof.
  intros [Hnd Hin] Hc Ha Hne.
  apply andb_true_iff. split.
  - apply bool_decide_eq_true, list_elem_of_In, Hin, Hc.
  - apply Nat.ltb_lt.
    eapply (NoDup_two_distinct l a TAB_COMMON); auto; now apply Hin.
Qed.

(** The parts of the items of a shared-parser header, and the texts on
    which the model of [str.upper] is [str.upper]. *)
Definition header_parts (ext : Externals) (line : string) : list string :=
  concat (map (fun Item => GetSplitValueList ext Item "." 3)
              (GetSplitValueList ext (Misc.slice_to_last 1 line) "," (-1))).

Definition parts_in_range (ext : Externals) (line : string) : bool :=
  forallb Py.upper_in_range (header_parts ext line).

(** The architecture that an item of a shared-parser header names, before
    its macros are replaced: the second part, upper-cased, [COMMON] when
    missing. *)
Definition arch_of (ext : Externals) (Item : string) : string :=
  let ItemList := GetSplitValueList ext Item "." 3 in
  if (1 <? length ItemList)%nat
  then Py.upper (nth 1 ItemList "") else TAB_ARCH_COMMON.

(** The scope entry of an item of a shared-parser header whose
    architecture, macros replaced, is [S1]: the module type is the third
    part, as it stands in the sections of [SECTIONS_HAVE_ITEM_PCD_SET] and
    upper-cased in the others, the default store is the fourth part, and
    each of the two is [COMMON] when the part is missing. *)
Definition declared (ext : Externals) (Item S1 : string) : ScopeEntry :=
  let ItemList := GetSplitValueList ext Item "." 3 in
  (S1,
   if (2 <? length ItemList)%nat then
     if bool_decide (Py.upper (Py.upper (nth 0 ItemList ""))
                     ∈ SECTIONS_HAVE_ITEM_PCD_SET ext)
     then nth 2 ItemList "" else Py.upper (nth 2 ItemList "")
   else TAB_COMMON,
   Store (if (3 <? length ItemList)%nat then nth 3 ItemList "" else TAB_COMMON)).

(** What an item of a shared-parser header declares. *)
Definition declares (ext : Externals) (Item : string) (e : ScopeEntry) : Prop :=
  e = declared ext Item (fst (fst e))
  /\ exists macros,
       ReplaceMacro ext (arch_of ext Item) macros false false
       = Some (fst (fst e)).

(** What an item of a P-dialect header declares. *)
Definition dec_declares (Item : string) (e : ScopeEntry) : Prop :=
  let ItemList := py_split "."%char Item in
  fst (fst e) = (if (1 <? length ItemList)%nat
                 then Py.upper (nth 1 ItemList "") else TAB_ARCH_COMMON)
  /\ snd (fst e) = (if (2 <? length ItemList)%nat
                    then Py.upper (nth 2 ItemList "") else TAB_COMMON).

Definition nonempty (i : string) : bool := negb (bool_decide (i = "")).

(** [COMMON] stands beside another value in [slots]. *)
Definition mixed (slots : list string) : Prop :=
  In TAB_COMMON slots /\ exists a, In a slots /\ a <> TAB_COMMON.

Section HeaderFacts.
Context {L : Type} `{MetaFileTable.Row L}.
Variable ext : Externals.

(** What one round of the shared loop does to the scope: an empty item
    adds nothing, any other item adds the entry it declares at the end,
    and its architecture joins [ArchList]. *)
Lemma header_item_scope (self self' : Parser L) (archs archs' : list string)
    (Item : string) :
  header_item ext (self, archs) Item = Ok (self', archs') ->
  (Item = "" /\ self' = self /\ archs' = archs)
  \/ (Item <> ""
      /\ exists e, _Scope self' = _Scope self ++ [e]
                   /\ archs' = add_distinct archs (fst (fst e))
                   /\ declares ext Item e).
Proof.
  unfold header_item. case_bool_decide as Hitem.
  - intros Hrun. injection Hrun as <- <-. left. repeat split; assumption.
  - intros Hrun. right. split; [exact Hitem|]. unfold declares, declared, arch_of.
    destruct (GetSplitValueList ext Item "." 3) as [|Item0 tail] eqn:Hsplit;
      [discriminate|].
    destruct (negb (bool_decide (_SectionName self = ""))
              && negb (bool_decide (_SectionName self = Py.upper Item0)));
      [discriminate|].
    apply bind_Ok in Hrun as (self1 & Hty & Hrun).
    assert (Hsc : _Scope self1 = _Scope self /\ _SectionName self1 = Py.upper Item0).
    { revert Hty. cbn.
      destruct (DataType self !! Py.upper Item0).
      - destruct (_ && _); [discriminate|]. now intros [= <-].
      - destruct (_ <=? _); [discriminate|]. now intros [= <-]. }
    destruct Hsc as [Hsc Hname].
    destruct (ReplaceMacro ext _ _ _ _) as [S1|] eqn:Hrep; [|discriminate].
    injection Hrun as <- <-. cbn [_Scope set set_Scope].
    eexists (S1, _, _). rewrite Hsc, Hname. split; [reflexivity|].
    split; [reflexivity|]. cbv zeta. cbn [fst snd length nth] in *.
    split; [reflexivity|]. eexists. exact Hrep.
Qed.

(** The loop adds the declared entry of each non-empty item, in order, and
    keeps [ArchList] in step with the architectures of the scope. *)
Lemma header_items_tracks (items : list string) :
  forall (self self' : Parser L) (archs archs' : list string),
    header_items ext (self, archs) items = Ok (self', archs') ->
    tracks archs (scope_archs (_Scope self)) ->
    tracks archs' (scope_archs (_Scope self'))
    /\ exists new, _Scope self' = _Scope self ++ new
                   /\ Forall2 (declares ext) (List.filter nonempty items) new.
Proof.
  induction items as [|Item rest IH]; intros self self' archs archs' Hrun Htr.
  - injection Hrun as <- <-. split; [exact Htr|].
    exists []. rewrite app_nil_r. split; [reflexivity|constructor].
  - cbn [header_items] in Hrun.
    apply bind_Ok in Hrun as ([self1 archs1] & Hone & Hrest).
    apply header_item_scope in Hone.
    destruct Hone as [(-> & -> & ->)|(Hne & e & Hsc & -> & Hdecl)].
    + destruct (IH _ _ _ _ Hrest Htr) as [Htr' Hnew].
      split; [exact Htr'|]. simpl. exact Hnew.
    + assert (Htr1 : tracks (add_distinct archs (fst (fst e)))
                            (scope_archs (_Scope self1))).
      { rewrite Hsc. unfold scope_archs. rewrite map_app. simpl.
        now apply tracks_add. }
      destruct (IH _ _ _ _ Hrest Htr1) as [Htr' (new & Hnew & Hall)].
      split; [exact Htr'|].
      exists (e :: new). split.
      * rewrite Hnew, Hsc, <- app_assoc. reflexivity.
      * cbn [List.filter]. unfold nonempty at 1.
        rewrite bool_decide_eq_false_2 by exact Hne. cbn [negb].
        constructor; assumption.
Qed.

(** One round of the P-dialect loop: the entry that the item declares is
    in the scope afterwards, nothing leaves the scope, and the two sets
    stay in step with the architectures and the tags of the scope. *)
Lemma dec_header_item_scope n (self self' : Parser L)
    (archs archs' tags tags' : list string) (Item : string) :
  dec_header_item n (self, archs, tags) Item = Ok (self', archs', tags') ->
  tracks archs (scope_archs (_Scope self)) ->
  tracks tags (scope_tags (_Scope self)) ->
  tracks archs' (scope_archs (_Scope self'))
  /\ tracks tags' (scope_tags (_Scope self'))
  /\ (forall e, In e (_Scope self) -> In e (_Scope self'))
  /\ exists e, In e (_Scope self') /\ dec_declares Item e.
Proof.
  unfold dec_header_item. intros Hrun Ha Ht.
  destruct (bool_decide (Item = "")); [discriminate|].
  cbn [_SectionName set set_SectionName] in Hrun.
  destruct (_ && _) in Hrun; [discriminate|].
  cbn [DataType set set_SectionName] in Hrun.
  destruct (DataType self !! _) as [ty|]; [|discriminate].
  destruct (_ && _) in Hrun; [discriminate|].
  apply bind_Ok in Hrun as (S2 & HS2 & Hrun).
  assert (HS2eq : S2 = (if (2 <? length (py_split "."%char Item))%nat
                        then Py.upper (nth 2 (py_split "."%char Item) "")
                        else TAB_COMMON)).
  { destruct (2 <? length (py_split "."%char Item))%nat.
    - destruct (_ && _) in HS2; [discriminate|]. now injection HS2.
    - now injection HS2. }
  clear HS2.
  set (S1 := if (1 <? length (py_split "."%char Item))%nat
             then Py.upper (nth 1 (py_split "."%char Item) "")
             else TAB_ARCH_COMMON) in *.
  cbn [_Scope set set_Scope set_SectionType set_SectionName] in Hrun.
  case_bool_decide as Hin.
  - injection Hrun as <- <- <-.
    cbn [_Scope set set_Scope set_SectionType set_SectionName].
    apply list_elem_of_In in Hin.
    assert (Hin1 : In S1 (scope_archs (_Scope self))).
    { unfold scope_archs. apply in_map_iff. eexists. split; [|exact Hin]. reflexivity. }
    assert (Hin2 : In S2 (scope_tags (_Scope self))).
    { unfold scope_tags. apply in_map_iff. eexists. split; [|exact Hin]. reflexivity. }
    split; [now apply tracks_add_present|].
    split; [now apply tracks_add_present|].
    split; [auto|].
    eexists. split; [exact Hin|]. split; [reflexivity|exact HS2eq].
  - injection Hrun as <- <- <-.
    cbn [_Scope set set_Scope set_SectionType set_SectionName].
    unfold scope_archs, scope_tags. rewrite !map_app. cbn [map fst snd].
    split; [now apply tracks_add|].
    split; [now apply tracks_add|].
    split; [intros e He; apply in_app_iff; now left|].
    eexists. split; [apply in_app_iff; right; left; reflexivity|].
    split; [reflexivity|exact HS2eq].
Qed.

Lemma dec_header_items_tracks n (items : list string) :
  forall (self self' : Parser L) (archs archs' tags tags' : list string),
    dec_header_items n (self, archs, tags) items = Ok (self', archs', tags') ->
    tracks archs (scope_archs (_Scope self)) ->
    tracks tags (scope_tags (_Scope self)) ->
    tracks archs' (scope_archs (_Scope self'))
    /\ tracks tags' (scope_tags (_Scope self'))
    /\ (forall e, In e (_Scope self) -> In e (_Scope self'))
    /\ (forall Item, In Item items ->
                     exists e, In e (_Scope self') /\ dec_declares Item e).
Proof.
  induction items as [|Item rest IH];
    intros self self' archs archs' tags tags' Hrun Ha Ht.
  - injection Hrun as <- <- <-.
    split; [exact Ha|]. split; [exact Ht|]. split; [auto|]. intros ? [].
  - cbn [dec_header_items] in Hrun.
    apply bind_Ok in Hrun as ([[self1 archs1] tags1] & Hone & Hrest).
    destruct (dec_header_item_scope _ _ _ _ _ _ _ _ Hone Ha Ht)
      as (Ha1 & Ht1 & Hkeep1 & e1 & Hin1 & Hd1).
    destruct (IH _ _ _ _ _ _ Hrest Ha1 Ht1) as (Ha' & Ht' & Hkeep & Hall).
    split; [exact Ha'|]. split; [exact Ht'|]. split; [auto|].
    intros Item' [<-|Hin]; [|auto].
    exists e1. split; [auto|exact Hd1].
Qed.

End HeaderFacts.

Section HeaderAccepts.
Context {L : Type} `{MetaFileTable.Row L}.
Variable ext : Externals.

(** The items pass their own checks: every one names the section [N], has
    no part after the third unless the section takes one, and names an
    architecture that macro replacement leaves as it is. *)
Definition item_passes (known : bool) (N Item : string) : Prop :=
  exists Item0 tail,
    GetSplitValueList ext Item "." 3 = Item0 :: tail
    /\ Py.upper Item0 = N
    /\ (known = true ->
        (length (Item0 :: tail) <= 3)%nat
        \/ N ∈ SECTIONS_HAVE_ITEM_AFTER_ARCH_SET ext)
    /\ forall macros,
         ReplaceMacro ext (arch_of ext Item) macros false false
         = Some (arch_of ext Item).

Lemma header_item_accept (self : Parser L) archs N Item :
  Item <> "" ->
  item_passes (bool_decide (is_Some (DataType self !! N))) N Item ->
  (_SectionName self = "" \/ _SectionName self = N) ->
  (is_Some (DataType self !! N) \/ _Version self < 65541) ->
  exists self',
    header_item ext (self, archs) Item
    = Ok (self', add_distinct archs (arch_of ext Item))
    /\ _Scope self' = _Scope self ++ [declared ext Item (arch_of ext Item)]
    /\ _SectionName self' = N
    /\ DataType self' = DataType self
    /\ _Version self' = _Version self
    /\ _ValueList self' = _ValueList self.
Proof.
  intros Hne (Item0 & tail & Hsplit & HN & Hlen & Hrep) Hname Hknown.
  unfold header_item. rewrite bool_decide_eq_false_2 by exact Hne.
  unfold declared. pose proof (Hrep) as Hrep'. unfold arch_of in Hrep' |- *.
  rewrite Hsplit in *. cbn [nth] in *. rewrite HN.
  replace (negb (bool_decide (_SectionName self = ""))
           && negb (bool_decide (_SectionName self = N))) with false
    by (destruct Hname as [E|E]; rewrite E;
        rewrite ?(bool_decide_eq_true_2 (N = N)) by reflexivity;
        rewrite ?(bool_decide_eq_true_2 ("" = "")) by reflexivity;
        cbn [negb andb]; rewrite ?andb_false_r; reflexivity).
  cbn [DataType _SectionName _Version set set_SectionName].
  destruct (DataType self !! N) as [ty|] eqn:Hty.
  - rewrite bool_decide_eq_true_2 in Hlen by eauto.
    specialize (Hlen eq_refl).
    replace (negb (bool_decide (N ∈ SECTIONS_HAVE_ITEM_AFTER_ARCH_SET ext))
             && (3 <? length (Item0 :: tail))%nat) with false.
    2:{ destruct Hlen as [Hl|Hin].
        - replace (3 <? length (Item0 :: tail))%nat with false
            by (symmetry; apply Nat.ltb_ge; exact Hl).
          now rewrite andb_false_r.
        - rewrite bool_decide_eq_true_2 by exact Hin. reflexivity. }
    cbn [mbind result_bind].
    match goal with
    | |- context [ReplaceMacro ext ?a ?m false false] => rewrite (Hrep' m)
    end.
    eexists. split; [reflexivity|].
    cbn [_Scope _SectionName DataType _Version _ValueList
         set set_Scope set_SectionName set_SectionType].
    repeat split; reflexivity.
  - destruct Hknown as [[? Hk]|Hv]; [discriminate|].
    replace (65541 <=? _Version self) with false
      by (symmetry; apply Z.leb_gt; exact Hv).
    cbn [mbind result_bind].
    match goal with
    | |- context [ReplaceMacro ext ?a ?m false false] => rewrite (Hrep' m)
    end.
    eexists. split; [reflexivity|].
    cbn [_Scope _SectionName DataType _Version _ValueList
         set set_Scope set_SectionName set_SectionType].
    repeat split; reflexivity.
Qed.

Lemma header_items_accept N (items : list string) :
  forall (self : Parser L) archs,
    Forall (item_passes (bool_decide (is_Some (DataType self !! N))) N)
           (List.filter nonempty items) ->
    (_SectionName self = "" \/ _SectionName self = N) ->
    (is_Some (DataType self !! N) \/ _Version self < 65541) ->
    exists self' archs',
      header_items ext (self, archs) items = Ok (self', archs')
      /\ _Scope self'
         = _Scope self
           ++ map (fun Item => declared ext Item (arch_of ext Item))
                  (List.filter nonempty items)
      /\ _ValueList self' = _ValueList self.
Proof.
  induction items as [|Item rest IH]; intros self archs Hall Hname Hknown.
  - exists self, archs. cbn. rewrite app_nil_r. auto.
  - cbn [header_items List.filter] in *.
    destruct (decide (Item = "")) as [->|Hitem].
    { replace (nonempty "") with false in * by (vm_compute; reflexivity). unfold header_item at 1.
      rewrite bool_decide_eq_true_2 by reflexivity. cbn [mbind result_bind].
      apply IH; assumption. }
    replace (nonempty Item) with true in *
      by (unfold nonempty; rewrite bool_decide_eq_false_2 by exact Hitem;
          reflexivity).
    inversion Hall as [|? ? Hone Hrest]; subst.
    destruct (header_item_accept self archs N Item Hitem Hone Hname Hknown)
      as (self1 & Hrun & Hsc & Hn1 & Hd1 & Hv1 & Hvl1).
    rewrite Hrun. cbn [mbind result_bind].
    destruct (IH self1 (add_distinct archs (arch_of ext Item)))
      as (self' & archs' & Hloop & Hsc' & Hvl').
    + rewrite Hd1. exact Hrest.
    + now right.
    + rewrite Hd1, Hv1. exact Hknown.
    + exists self', archs'. split; [exact Hloop|].
      split; [|congruence].
      rewrite Hsc', Hsc, <- app_assoc. reflexivity.
Qed.

End HeaderAccepts.

(** A set that holds [COMMON] and something else tracks slots that mix. *)
Lemma tracks_unmixed l slots :
  tracks l slots -> ~ mixed slots ->
  bool_decide (TAB_COMMON ∈ l) && (1 <? length l)%nat = false.
Proof.
  intros [Hnd Hin] Hno.
  destruct (bool_decide (TAB_COMMON ∈ l) && (1 <? length l)%nat) eqn:E;
    [|reflexivity].
  exfalso. apply Hno. apply andb_true_iff in E as [Hc Hlen].
  apply bool_decide_eq_true, list_elem_of_In in Hc. apply Nat.ltb_lt in Hlen.
  split; [now apply Hin|].
  destruct l as [|x [|y l']]; cbn in Hlen; try lia.
  inversion Hnd as [|? ? Hx _]; subst.
  destruct (decide (x = TAB_COMMON)) as [->|Hx'].
  - exists y. split; [apply Hin; right; left; reflexivity|].
    intros ->. apply Hx. left. reflexivity.
  - exists x. split; [apply Hin; left; reflexivity|exact Hx'].
Qed.

Lemma tracks_nil : tracks [] [].
Proof. split; [constructor|]. intros a. tauto. Qed.

(** C7 fails as stated: the D-dialect header
    [[LibraryClasses.IA32, LibraryClasses.IA32.PEIM]] declares the module
    types [COMMON] (left out in the first item) and [PEIM]; the shared
    parser accepts it and the scope holds both entries. *)
Lemma SectionHeaderParser_accepts_mixed_module_type :
  exists self',
    _SectionHeaderParser (example_ext [])
      (at_line new_DscParser "[LibraryClasses.IA32, LibraryClasses.IA32.PEIM]")
    = Ok self'
    /\ _Scope self' = [("IA32", "COMMON", Store "COMMON");
                       ("IA32", "PEIM", Store "COMMON")].
Proof. eexists. split; vm_compute; reflexivity. Qed.

(** C7 (amended), for headers whose parts have their upper case in the
    8-bit range.
    - A section header that the shared parser (dialects D and I) accepts
      has, in its scope, exactly one entry per non-empty comma-separated
      item, in order, each as the item declares it, and its architectures
      do not mix [COMMON] with another value.
    - When the items pass their own checks and the architectures do mix,
      the shared parser raises [FORMAT_INVALID].
    - The shared parser makes no such check on the module type or the
      default store: it accepts every header whose items name one section,
      known to the dialect or read by a version before 0x00010005, have no
      fourth part unless the section takes one, name architectures that
      macro replacement leaves alone and do not mix [COMMON] with another
      architecture, whatever the third and fourth parts of the items are;
      the scope is then the list of the entries that the items declare.
    - A header of dialect P that its parser accepts has the declared entry
      of every item in its scope and mixes [COMMON] with another value
      neither in the architectures nor in the tags ([PRIVATE]).
    - When the items of a header of dialect P pass their own checks and
      either slot mixes, the parser raises [FORMAT_INVALID]. *)
Theorem SectionHeaderParser_scope_and_mix :
  (forall (L : Type) (ext : Externals) (self self' : Parser L),
      parts_in_range ext (_CurrentLine self) = true ->
      _SectionHeaderParser ext self = Ok self' ->
      Forall2 (declares ext)
        (List.filter nonempty
           (GetSplitValueList ext (Misc.slice_to_last 1 (_CurrentLine self))
                              "," (-1)))
        (_Scope self')
      /\ ~ mixed (scope_archs (_Scope self')))
  /\ (forall (L : Type) (ext : Externals) (self self1 : Parser L) archs,
      parts_in_range ext (_CurrentLine self) = true ->
      header_items ext (self <| _Scope := [] |> <| _SectionName := "" |>, [])
        (GetSplitValueList ext (Misc.slice_to_last 1 (_CurrentLine self))
                           "," (-1)) = Ok (self1, archs) ->
      mixed (scope_archs (_Scope self1)) ->
      _SectionHeaderParser ext self = Err FORMAT_INVALID)
  /\ (forall (L : Type) (ext : Externals) (self : Parser L) (N v : string)
             (rest : list string),
      parts_in_range ext (_CurrentLine self) = true ->
      Forall (item_passes ext (bool_decide (is_Some (DataType self !! N))) N)
        (List.filter nonempty
           (GetSplitValueList ext (Misc.slice_to_last 1 (_CurrentLine self))
                              "," (-1))) ->
      (is_Some (DataType self !! N) \/ _Version self < 65541) ->
      ~ mixed (map (arch_of ext)
                 (List.filter nonempty
                    (GetSplitValueList ext
                       (Misc.slice_to_last 1 (_CurrentLine self)) "," (-1)))) ->
      _ValueList self = Some (v :: rest) ->
      exists self',
        _SectionHeaderParser ext self = Ok self'
        /\ _Scope self'
           = map (fun Item => declared ext Item (arch_of ext Item))
               (List.filter nonempty
                  (GetSplitValueList ext
                     (Misc.slice_to_last 1 (_CurrentLine self)) "," (-1))))
  /\ (forall (self self' : Parser PackageTable.DecLine),
      Py.upper_in_range (_CurrentLine self) = true ->
      DecParser_SectionHeaderParser self = Ok self' ->
      (forall Item,
          In Item (py_split ","%char
                     (Misc.slice_to_last 1
                        (sub_comma_blanks (_CurrentLine self) false))) ->
          exists e, In e (_Scope self') /\ dec_declares Item e)
      /\ ~ mixed (scope_archs (_Scope self'))
      /\ ~ mixed (scope_tags (_Scope self')))
  /\ (forall (self self1 : Parser PackageTable.DecLine) archs tags,
      Py.upper_in_range (_CurrentLine self) = true ->
      dec_header_items
        (length (py_split ","%char (sub_comma_blanks (_CurrentLine self) false)))
        (self <| _Scope := [] |> <| _SectionName := "" |>
              <| _SectionType := TypeList [] |>, [], [])
        (py_split ","%char
           (Misc.slice_to_last 1 (sub_comma_blanks (_CurrentLine self) false)))
      = Ok (self1, archs, tags) ->
      mixed (scope_archs (_Scope self1)) \/ mixed (scope_tags (_Scope self1)) ->
      DecParser_SectionHeaderParser self = Err FORMAT_INVALID).
Proof.
  split; [|split; [|split; [|split]]].
  - intros L ext self self' _ Hrun. unfold _SectionHeaderParser in Hrun.
    cbn [_CurrentLine set set_Scope set_SectionName] in Hrun.
    apply bind_Ok in Hrun as ([self1 archs] & Hloop & Hend).
    destruct (header_items_tracks ext _ _ _ _ _ Hloop tracks_nil)
      as [Htr (new & Hnew & Hall)].
    cbn [_Scope set set_Scope set_SectionName app] in Hnew.
    destruct (bool_decide (TAB_ARCH_COMMON ∈ archs) && (1 <? length archs)%nat)
      eqn:Hmix; [discriminate|].
    assert (Hsc : _Scope self' = _Scope self1).
    { unfold set_ValueList0 in Hend.
      destruct (_ValueList self1) as [[|? ?]|]; try discriminate.
      now injection Hend as <-. }
    rewrite Hsc, Hnew. split; [exact Hall|].
    intros (Hc & a & Ha & Hne). rewrite <- Hnew in *.
    change TAB_ARCH_COMMON with TAB_COMMON in Hmix.
    rewrite (tracks_mixed _ _ a Htr Hc Ha Hne) in Hmix. discriminate.
  - intros L ext self self1 archs _ Hloop (Hc & a & Ha & Hne).
    unfold _SectionHeaderParser.
    cbn [_CurrentLine set set_Scope set_SectionName]. rewrite Hloop.
    destruct (header_items_tracks ext _ _ _ _ _ Hloop tracks_nil) as [Htr _].
    cbn [mbind result_bind]. change TAB_ARCH_COMMON with TAB_COMMON.
    rewrite (tracks_mixed _ _ a Htr Hc Ha Hne). reflexivity.
  - intros L ext self N v rest _ Hall Hknown Hnomix Hvl.
    unfold _SectionHeaderParser.
    cbn [_CurrentLine set set_Scope set_SectionName].
    destruct (header_items_accept ext N
                (GetSplitValueList ext (Misc.slice_to_last 1 (_CurrentLine self))
                                   "," (-1))
                (self <| _Scope := [] |> <| _SectionName := "" |>) [])
      as (self1 & archs & Hloop & Hsc & Hvl1).
    + exact Hall.
    + left. reflexivity.
    + exact Hknown.
    + rewrite Hloop. cbn [mbind result_bind].
      destruct (header_items_tracks ext _ _ _ _ _ Hloop tracks_nil) as [Htr _].
      cbn [_Scope _ValueList set set_Scope set_SectionName app] in Hsc, Hvl1.
      assert (Harchs : scope_archs (_Scope self1)
                       = map (arch_of ext)
                           (List.filter nonempty
                              (GetSplitValueList ext
                                 (Misc.slice_to_last 1 (_CurrentLine self))
                                 "," (-1)))).
      { rewrite Hsc. unfold scope_archs. rewrite map_map. reflexivity. }
      rewrite Harchs in Htr.
      change TAB_ARCH_COMMON with TAB_COMMON.
      rewrite (tracks_unmixed _ _ Htr Hnomix).
      unfold set_ValueList0. rewrite Hvl1, Hvl.
      eexists. split; [reflexivity|].
      cbn [_Scope set set_ValueList]. exact Hsc.
  - intros self self' _ Hrun. unfold DecParser_SectionHeaderParser in Hrun.
    cbn [_CurrentLine set set_Scope set_SectionName set_SectionType] in Hrun.
    apply bind_Ok in Hrun as ([[self1 archs] tags] & Hloop & Hend).
    destruct (dec_header_items_tracks _ _ _ _ _ _ _ _ Hloop tracks_nil tracks_nil)
      as (Ha & Ht & _ & Hall).
    destruct (bool_decide (TAB_ARCH_COMMON ∈ archs) && (1 <? length archs)%nat)
      eqn:Hmix1; [discriminate|].
    destruct (bool_decide (TAB_COMMON ∈ tags) && (1 <? length tags)%nat)
      eqn:Hmix2; [discriminate|].
    injection Hend as <-.
    split; [exact Hall|]. split.
    + intros (Hc & a & Hin & Hne).
      change TAB_ARCH_COMMON with TAB_COMMON in Hmix1.
      rewrite (tracks_mixed _ _ a Ha Hc Hin Hne) in Hmix1. discriminate.
    + intros (Hc & a & Hin & Hne).
      rewrite (tracks_mixed _ _ a Ht Hc Hin Hne) in Hmix2. discriminate.
  - intros self self1 archs tags _ Hloop Hmixed.
    unfold DecParser_SectionHeaderParser.
    cbn [_CurrentLine set set_Scope set_SectionName set_SectionType].
    rewrite Hloop.
    destruct (dec_header_items_tracks _ _ _ _ _ _ _ _ Hloop tracks_nil tracks_nil)
      as (Ha & Ht & _ & _).
    cbn [mbind result_bind]. change TAB_ARCH_COMMON with TAB_COMMON.
    destruct Hmixed as [(Hc & a & Hin & Hne)|(Hc & a & Hin & Hne)].
    + rewrite (tracks_mixed _ _ a Ha Hc Hin Hne). reflexivity.
    + rewrite (tracks_mixed _ _ a Ht Hc Hin Hne).
      now destruct (bool_decide (TAB_COMMON ∈ archs) && (1 <? length archs)%nat).
Qed.

(** [SectionHeaderParser_scope_and_mix] at two D-dialect headers:
    [[LibraryClasses.common, LibraryClasses.IA32.PEIM]], whose architectures
    are [COMMON] and [IA32], is refused;
    [[PcdsDynamicHii.IA32.SKU1, PcdsDynamicHii.IA32.SKU1.STANDARD]], whose
    default stores are [COMMON] (left out) and [STANDARD], is accepted with
    both entries. *)
Lemma SectionHeaderParser_scope_and_mix_witness :
  _SectionHeaderParser (example_ext [])
    (at_line new_DscParser "[LibraryClasses.common, LibraryClasses.IA32.PEIM]")
  = Err FORMAT_INVALID
  /\ exists self',
       _SectionHeaderParser (example_ext [])
         (at_line new_DscParser
            "[PcdsDynamicHii.IA32.SKU1, PcdsDynamicHii.IA32.SKU1.STANDARD]")
       = Ok self'
       /\ _Scope self' = [("IA32", "SKU1", Store "COMMON");
                          ("IA32", "SKU1", Store "STANDARD")].
Proof.
  split.
  - eapply (proj1 (proj2 SectionHeaderParser_scope_and_mix) _ (example_ext [])).
    + vm_compute. reflexivity.
    + vm_compute. reflexivity.
    + split; [left; reflexivity|].
      exists "IA32". split; [right; left; reflexivity|discriminate].
  - destruct (proj1 (proj2 (proj2 SectionHeaderParser_scope_and_mix)) _
                (example_ext [])
                (at_line new_DscParser
                   "[PcdsDynamicHii.IA32.SKU1, PcdsDynamicHii.IA32.SKU1.STANDARD]")
                "PCDSDYNAMICHII" "" [""; ""])
      as (self' & Hrun & Hscope).
    + vm_compute. reflexivity.
    + replace (List.filter nonempty _)
        with ["PcdsDynamicHii.IA32.SKU1"; "PcdsDynamicHii.IA32.SKU1.STANDARD"]
        by (vm_compute; reflexivity).
      constructor; [|constructor; [|constructor]].
      * exists "PcdsDynamicHii", ["IA32"; "SKU1"].
        split; [vm_compute; reflexivity|]. split; [vm_compute; reflexivity|].
        split; [intros _; left; cbn; lia|].
        intros macros. vm_compute. reflexivity.
      * exists "PcdsDynamicHii", ["IA32"; "SKU1"; "STANDARD"].
        split; [vm_compute; reflexivity|]. split; [vm_compute; reflexivity|].
        split; [intros _; right; apply (proj1 (bool_decide_eq_true _));
                vm_compute; reflexivity|].
        intros macros. vm_compute. reflexivity.
    + left. vm_compute. eauto.
    + replace (map _ _) with ["IA32"; "IA32"] by (vm_compute; reflexivity).
      intros (Hc & _). vm_compute in Hc.
      destruct Hc as [Hc|[Hc|[]]]; discriminate Hc.
    + reflexivity.
    + exists self'. split; [exact Hrun|].
      rewrite Hscope. vm_compute. reflexivity.
Defined.


(** ** Empty files *)

Lemma ProcessMultipleLineCODEValue_nil : ProcessMultipleLineCODEValue [] = [].
Proof. reflexivity. Qed.

(** [_Done] sets the flag of the parser and appends the sentinel to the
    table that [self._Table] names; while that is the raw table, the raw
    table is what changes. *)
Lemma Done_table {L : Type} `{MetaFileTable.Row L} (self : Parser L) :
  _Finished (_Done self) = true
  /\ _Table (_Done self) = MetaFileTable.SetEndFlag (_Table self)
  /\ (_OwnTable self = None -> _RawTable (_Done self) = _Table (_Done self)).
Proof.
  unfold _Done, with_Table, _Table.
  destruct self as [? ? own ? ? ? ? ? ? ? ? ? ? ? ? ? ? ? ? ? ? ? ? ? ? ? ? ? ? ? ? ? ? ? ? ? ?].
  cbn. destruct own; cbn; repeat split; auto; discriminate.
Qed.

Lemma IsIntegrity_SetEndFlag {L : Type} `{MetaFileTable.Row L}
    (t : MetaFileTable.t L) :
  MetaFileTable.row_ID (MetaFileTable.DUMMY (L := L)) < 0 ->
  MetaFileTable.IsIntegrity (MetaFileTable.SetEndFlag t) = true.
Proof.
  intros Hneg. unfold MetaFileTable.IsIntegrity, MetaFileTable.last_row.
  cbn [MetaFileTable.SetEndFlag MetaFileTable.CurrentContent].
  rewrite map_app. cbn [map]. rewrite last_last. now apply Z.ltb_lt.
Qed.

(** C6 fails as stated for dialect P: on an empty file [DecParser.Start]
    counts no [Defines] section and raises [FORMAT_INVALID]; the table is
    left without the end flag. *)
Lemma DecParser_Start_empty_file_raises :
  DecParser_Start (example_ext []) (fun self _ _ => Ok self) new_DecParser
  = Err FORMAT_INVALID.
Proof. vm_compute. reflexivity. Qed.

(** C6 (amended): on an empty file, whatever the loop bodies are,
    - [DscParser.Start], entered with no directive open, and
      [InfParser.Start] succeed, and set the end flag: the table, which
      [self._Table] and [self._RawTable] both name, is the table from
      before with the sentinel row appended, so a table that was empty
      holds the sentinel only, [IsIntegrity()] holds and [GetAll()] is
      empty;
    - [DecParser.Start] raises [FORMAT_INVALID], there being no [Defines]
      section. *)
Theorem Start_on_empty_file (ext : Externals) :
  ReadLines ext = Some [] ->
  (forall body (self : Parser PlatformTable.DscLine),
      _DirectiveStack self = [] ->
      exists self',
        DscParser_Start ext body self = Ok self'
        /\ _Finished self' = true
        /\ MetaFileTable.CurrentContent (_Table self')
           = MetaFileTable.CurrentContent (_Table self) ++ [PlatformTable._DUMMY_]
        /\ (_OwnTable self = None -> _RawTable self' = _Table self')
        /\ MetaFileTable.IsIntegrity (_Table self') = true
        /\ (MetaFileTable.CurrentContent (_Table self) = [] ->
            MetaFileTable.CurrentContent (_Table self') = [PlatformTable._DUMMY_]
            /\ MetaFileTable.GetAll (_Table self') = []))
  /\ (forall body MODEL_FILE_INF (self : Parser ModuleTable.InfLine),
      exists self',
        InfParser_Start ext body MODEL_FILE_INF self = Ok self'
        /\ _Finished self' = true
        /\ MetaFileTable.CurrentContent (_Table self')
           = MetaFileTable.CurrentContent (_Table self) ++ [ModuleTable._DUMMY_]
        /\ (_OwnTable self = None -> _RawTable self' = _Table self')
        /\ MetaFileTable.IsIntegrity (_Table self') = true
        /\ (MetaFileTable.CurrentContent (_Table self) = [] ->
            MetaFileTable.CurrentContent (_Table self') = [ModuleTable._DUMMY_]
            /\ MetaFileTable.GetAll (_Table self') = []))
  /\ (forall body (self : Parser PackageTable.DecLine),
      DecParser_Start ext body self = Err FORMAT_INVALID).
Proof.
  intros Hread.
  split; [|split].
  - intros body self Hstack. unfold DscParser_Start. rewrite Hread.
    cbn [ProcessMultipleLineCODEValue fold_left newContent for_lines mbind result_bind].
    rewrite Hstack. rewrite bool_decide_eq_true_2 by reflexivity. cbn [negb].
    eexists. split; [reflexivity|].
    destruct (Done_table self) as (Hfin & Htab & Halias).
    rewrite Hfin, Htab. split; [reflexivity|]. split; [reflexivity|].
    split; [intros Hown; rewrite (Halias Hown); exact Htab|].
    split; [apply IsIntegrity_SetEndFlag; reflexivity|].
    intros Hnil. unfold MetaFileTable.GetAll, MetaFileTable.SetEndFlag.
    cbn [MetaFileTable.CurrentContent]. rewrite Hnil. split; reflexivity.
  - intros body M self. unfold InfParser_Start. rewrite Hread.
    cbn [for_lines mbind result_bind IsFindBlockComment TailComments
         SectionComments Comments app store_tail_comments].
    eexists. split; [reflexivity|].
    destruct (Done_table self) as (Hfin & Htab & Halias).
    rewrite Hfin, Htab. split; [reflexivity|]. split; [reflexivity|].
    split; [intros Hown; rewrite (Halias Hown); exact Htab|].
    split; [apply IsIntegrity_SetEndFlag; reflexivity|].
    intros Hnil. unfold MetaFileTable.GetAll, MetaFileTable.SetEndFlag.
    cbn [MetaFileTable.CurrentContent]. rewrite Hnil. split; reflexivity.
  - intros body self. unfold DecParser_Start. rewrite Hread.
    cbn [ProcessMultipleLineCODEValue fold_left newContent for_lines mbind result_bind].
    reflexivity.
Qed.

(** [Start_on_empty_file] for a new D-dialect parser on a new table: the
    raw table holds the sentinel row and nothing else. *)
Lemma Start_on_empty_file_witness :
  exists self',
    DscParser_Start (example_ext []) (fun st _ _ => Ok st) new_DscParser = Ok self'
    /\ MetaFileTable.CurrentContent (_RawTable self') = [PlatformTable._DUMMY_]
    /\ MetaFileTable.GetAll (_RawTable self') = [].
Proof.
  destruct (proj1 (Start_on_empty_file (example_ext []) eq_refl)
              (fun st _ _ => Ok st) new_DscParser eq_refl)
    as (self' & Hrun & _ & _ & Halias & _ & Hnew).
  exists self'. split; [exact Hrun|].
  rewrite (Halias eq_refl). apply Hnew. reflexivity.
Defined.

(** ** Post-processing of dialect D *)

Ltac unfold_processors H :=
  cbv [__ProcessSectionHeader __ProcessSubsectionHeader __ProcessDefine
       __ProcessDirective __ProcessPackages __ProcessSkuId
       __ProcessDefaultStores __ProcessLibraryInstance __ProcessLibraryClass
       __ProcessPcd __ProcessComponent __ProcessBuildOption _Skip
       _SkipUserExtension _ProcessError process_include values3
       _ConstructSectionMacroDict replace_all replace_macro
       mbind result_bind] in H.

Ltac split_result :=
  repeat match goal with
         | H : Ok _ = Ok _ |- _ => injection H as <-
         | H : Err _ = Ok _ |- _ => discriminate H
         | H : context [match ?t with _ => _ end] |- _ => destruct t eqn:?
         end.

Ltac decide_closed x H :=
  repeat match type of H with
         | context [bool_decide ?P] =>
             lazymatch P with context [x] => fail | _ => idtac end;
             let b := eval vm_compute in (bool_decide P) in
             match b with true => idtac | false => idtac end;
             change (bool_decide P) with b in H
         end.

Ltac decide_closed_goal x :=
  repeat match goal with
         | |- context [bool_decide ?P] =>
             lazymatch P with context [x] => fail | _ => idtac end;
             let b := eval vm_compute in (bool_decide P) in
             match b with true => idtac | false => idtac end;
             change (bool_decide P) with b
         end.

Ltac split_goal_ifs :=
  repeat match goal with
         | |- context [if ?t then _ else _] => destruct t
         end.

Section PostProcessFacts.
Variable ext : Externals.

Local Abbreviation DscParser := (Parser PlatformTable.DscLine).

(** The fields that no step of the pass writes. *)
Definition fixed (x : DscParser) :=
  (Class_ x, DataType x, _Owner x, _CurrentLine x, _Finished x, _Version x,
   _InDirective x, _DefinesCount x, gGlobalDefines x, gCommandLineDefines x,
   BuildOptionPcd x).

(** What a processor of the dictionary leaves as it is. *)
Definition processor_frame (x x' : DscParser) : Prop :=
  fixed x' = fixed x
  /\ _OwnTable x' = _OwnTable x /\ _RawTable x' = _RawTable x
  /\ _ItemType x' = _ItemType x /\ _IdMapping x' = _IdMapping x
  /\ _From x' = _From x /\ _LineIndex x' = _LineIndex x
  /\ _LastItem x' = _LastItem x /\ _PostProcessed x' = _PostProcessed x.

Lemma Processer_frame ty process x x' :
  Processer ext ty = Some process -> process x = Ok x' -> processor_frame x x'.
Proof.
  intros Hp Hx.
  destruct ty; cbn in Hp; try discriminate Hp; injection Hp as <-;
    unfold_processors Hx; cbn in Hx; split_result;
    split_goal_ifs; repeat split; reflexivity.
Qed.

(** A processor other than the one of [!include] keeps the three values
    and the content. *)
Lemma Processer_keeps_values process x x' a b c :
  Processer ext (_ItemType x) = Some process ->
  _ItemType x <> MODEL_META_DATA_INCLUDE ->
  _ValueList x = Some [a; b; c] ->
  process x = Ok x' ->
  (exists a' b' c', _ValueList x' = Some [a'; b'; c'])
  /\ _Content x' = _Content x /\ _ContentIndex x' = _ContentIndex x.
Proof.
  intros Hp Hty Hvl Hx.
  destruct (_ItemType x) eqn:Ety; cbn in Hp; try discriminate Hp;
    try (exfalso; apply Hty; reflexivity);
    injection Hp as <-;
    unfold_processors Hx; rewrite ?Ety, ?Hvl in Hx; decide_closed x Hx;
    cbn in Hx; rewrite ?Ety, ?Hvl in Hx; decide_closed x Hx; cbn in Hx.
  all: split_result.
  all: split_goal_ifs; cbn; eauto 10.
Qed.

(** The six kinds of conditional directive. *)
Definition conditional_kinds : list model :=
  [MODEL_META_DATA_CONDITIONAL_STATEMENT_IF;
   MODEL_META_DATA_CONDITIONAL_STATEMENT_IFDEF;
   MODEL_META_DATA_CONDITIONAL_STATEMENT_IFNDEF;
   MODEL_META_DATA_CONDITIONAL_STATEMENT_ELSEIF;
   MODEL_META_DATA_CONDITIONAL_STATEMENT_ELSE;
   MODEL_META_DATA_CONDITIONAL_STATEMENT_ENDIF].

(** A processor of a row that is no conditional directive keeps the two
    directive stacks. *)
Lemma Processer_keeps_stacks process x x' :
  Processer ext (_ItemType x) = Some process ->
  ~ In (_ItemType x) conditional_kinds ->
  process x = Ok x' ->
  _DirectiveEvalStack x' = _DirectiveEvalStack x
  /\ _DirectiveStack x' = _DirectiveStack x.
Proof.
  intros Hp Hty Hx.
  destruct (_ItemType x) eqn:Ety; cbn in Hp; try discriminate Hp;
    try (exfalso; apply Hty; cbn; tauto);
    injection Hp as <-;
    unfold_processors Hx; rewrite ?Ety in Hx; decide_closed x Hx;
    cbn in Hx; rewrite ?Ety in Hx; decide_closed x Hx; cbn in Hx.
  all: split_result.
  all: split_goal_ifs; cbn; auto.
Qed.

(** The parser as a round hands it to the processor of its row. *)
Definition round_enter (self : DscParser) (item : PlatformTable.DscLine)
    : DscParser :=
  let self := self <| _ItemType := PlatformTable.Model item |>
                   <| _From := PlatformTable.FromItem item |>
                   <| _ContentIndex := S (_ContentIndex self) |>
                   <| _Scope := [(PlatformTable.Scope1 item,
                                  PlatformTable.Scope2 item,
                                  Store (PlatformTable.Scope3 item))] |> in
  let self :=
    if bool_decide (_ItemType self = MODEL_META_DATA_INCLUDE) then
      let '(scope, idx) :=
        merge_include (PlatformTable.StartLine item) (PlatformTable.EndLine item)
          (skipn (_ContentIndex self) (_Content self))
          (_Scope self) (_ContentIndex self) in
      self <| _Scope := scope |> <| _ContentIndex := idx |>
    else self in
  self <| _LineIndex := PlatformTable.StartLine item - 1 |>
       <| _ValueList := Some [PlatformTable.Value1 item;
                              PlatformTable.Value2 item;
                              PlatformTable.Value3 item] |>
       <| _InSubsection :=
            (0 <? PlatformTable.BelongsToItem item)
            && bool_decide (is_Some (_IdMapping self
                                     !! PlatformTable.BelongsToItem item)) |>.

(** The end of a round: the call of [_Store] and what follows it. *)
Definition round_store (self : DscParser) (item : PlatformTable.DscLine)
    : DscParser :=
  match _ValueList self with
  | None => self
  | Some vl =>
      let NewOwner :=
        default (-1) (_IdMapping self !! PlatformTable.BelongsToItem item) in
      let enabled := no_false (_DirectiveEvalStack self) in
      let self := self <| _Enabled := enabled |> in
      let '(t, id) :=
        PlatformTable_Insert_row (_Table self)
          (resolved_row self item vl NewOwner enabled) in
      with_Table self t
        <| _LastItem := id |>
        <| _IdMapping := <[PlatformTable.ID item := id]> (_IdMapping self) |>
  end.

Lemma PostProcess_round_unfold self :
  _PostProcess_round ext self
  = match current_item self with
    | None => Err PyIndexError
    | Some item =>
        match Processer ext (PlatformTable.Model item) with
        | None => Err PyKeyError
        | Some process =>
            self' ← process (round_enter self item);
            Ok (round_store self' item)
        end
    end.
Proof.
  unfold _PostProcess_round, current_item.
  destruct (nth_error (_Content self) (_ContentIndex self)) as [item|];
    [|reflexivity].
  cbv zeta.
  match goal with
  | |- match Processer ext (_ItemType ?s) with _ => _ end = _ =>
      change s with (round_enter self item)
  end.
  replace (_ItemType (round_enter self item)) with (PlatformTable.Model item).
  2:{ unfold round_enter. cbn.
      destruct (bool_decide (PlatformTable.Model item = MODEL_META_DATA_INCLUDE));
        [destruct (merge_include _ _ _ _ _)|]; reflexivity. }
  destruct (Processer ext (PlatformTable.Model item)) as [process|];
    [|reflexivity].
  destruct (process (round_enter self item)) as [x|e]; [|reflexivity].
  cbn [mbind result_bind]. unfold round_store.
  destruct (_ValueList x); reflexivity.
Qed.

Lemma round_enter_frame self item :
  let x := round_enter self item in
  fixed x = fixed self
  /\ _OwnTable x = _OwnTable self /\ _RawTable x = _RawTable self
  /\ _ItemType x = PlatformTable.Model item
  /\ _IdMapping x = _IdMapping self
  /\ _ValueList x = Some [PlatformTable.Value1 item; PlatformTable.Value2 item;
                          PlatformTable.Value3 item]
  /\ _Content x = _Content self
  /\ _DirectiveEvalStack x = _DirectiveEvalStack self
  /\ _Enabled x = _Enabled self
  /\ (PlatformTable.Model item <> MODEL_META_DATA_INCLUDE ->
      _ContentIndex x = S (_ContentIndex self)).
Proof.
  unfold round_enter. cbn.
  destruct (bool_decide (PlatformTable.Model item = MODEL_META_DATA_INCLUDE))
    eqn:E; [destruct (merge_include _ _ _ _ _)|]; cbn; repeat split; auto.
  intros Hne. apply bool_decide_eq_true_1 in E. contradiction.
Qed.

End PostProcessFacts.

Section RoundFacts.
Variable ext : Externals.

Local Abbreviation DscParser := (Parser PlatformTable.DscLine).

(** What the call of [_Store] at the end of a round does. *)
Lemma round_store_spec (x : DscParser) item vl :
  _ValueList x = Some vl ->
  let x' := round_store x item in
  exists r,
    rows x' = rows x ++ [r]
    /\ PlatformTable.Model r = _ItemType x
    /\ PlatformTable.Enabled r = no_false (_DirectiveEvalStack x')
    /\ _Enabled x' = PlatformTable.Enabled r
    /\ PlatformTable.ID r = MetaFileTable.ID (_Table x) + 1
    /\ PlatformTable.BelongsToItem r
       = default (-1) (_IdMapping x !! PlatformTable.BelongsToItem item)
    /\ _IdMapping x'
       = <[PlatformTable.ID item := PlatformTable.ID r]> (_IdMapping x)
    /\ _LastItem x' = PlatformTable.ID r
    /\ _DirectiveEvalStack x' = _DirectiveEvalStack x
    /\ fixed x' = fixed x
    /\ _Content x' = _Content x /\ _ContentIndex x' = _ContentIndex x
    /\ (is_Some (_OwnTable x) ->
        _RawTable x' = _RawTable x /\ is_Some (_OwnTable x')).
Proof.
  intros Hvl. unfold round_store. rewrite Hvl. cbv zeta.
  unfold PlatformTable_Insert_row, PlatformTable.Insert, rows, _Table, with_Table.
  cbn. destruct (_OwnTable x) as [t|] eqn:E; cbn; rewrite ?E; cbn;
    eexists; (split; [reflexivity|]);
    cbn; repeat split; eauto.
  all: match goal with H : is_Some None |- _ => destruct H; discriminate end.
Qed.

(** What a round is, as a whole: it works on the current row, leaves the
    raw table alone, and either stores nothing or appends one row with the
    model of the current row and the flag of the directive stack. *)
Definition stores_nothing (self self' : DscParser) : Prop :=
  _ValueList self' = None /\ rows self' = rows self
  /\ _IdMapping self' = _IdMapping self.

Definition stores_row (self self' : DscParser) (item r : PlatformTable.DscLine)
    : Prop :=
  rows self' = rows self ++ [r]
  /\ PlatformTable.Model r = PlatformTable.Model item
  /\ PlatformTable.Enabled r = no_false (_DirectiveEvalStack self')
  /\ _Enabled self' = PlatformTable.Enabled r
  /\ PlatformTable.ID r = MetaFileTable.ID (_Table self) + 1
  /\ PlatformTable.BelongsToItem r
     = default (-1) (_IdMapping self !! PlatformTable.BelongsToItem item)
  /\ _IdMapping self'
     = <[PlatformTable.ID item := PlatformTable.ID r]> (_IdMapping self).

Lemma Table_eq (x y : DscParser) :
  _OwnTable x = _OwnTable y -> _RawTable x = _RawTable y -> _Table x = _Table y.
Proof. unfold _Table. intros -> ->. reflexivity. Qed.

Lemma PostProcess_round_spec self self' :
  _PostProcess_round ext self = Ok self' ->
  exists item,
    current_item self = Some item
    /\ fixed self' = fixed self
    /\ (is_Some (_OwnTable self) ->
        _RawTable self' = _RawTable self /\ is_Some (_OwnTable self'))
    /\ (stores_nothing self self' \/ exists r, stores_row self self' item r).
Proof.
  rewrite PostProcess_round_unfold.
  destruct (current_item self) as [item|]; [|discriminate].
  destruct (Processer ext (PlatformTable.Model item)) as [process|] eqn:Hp;
    [|discriminate].
  destruct (process (round_enter self item)) as [x|e] eqn:Hx; [|discriminate].
  cbn [mbind result_bind]. intros [= <-].
  exists item. split; [reflexivity|].
  destruct (Processer_frame ext _ _ _ _ Hp Hx)
    as (Hfix & Hown & Hraw & Hty & Hmap & _).
  destruct (round_enter_frame self item)
    as (Hfix0 & Hown0 & Hraw0 & Hty0 & Hmap0 & _).
  cbv zeta in *.
  assert (Htab : _Table x = _Table self).
  { apply Table_eq; congruence. }
  destruct (_ValueList x) as [vl|] eqn:Hvl.
  - destruct (round_store_spec x item vl Hvl)
      as (r & Hrows & Hm & Hen & Hen' & Hid & Hown' & Hmap' & _ & _ & Hfix'
          & _ & _ & Hkeep).
    cbv zeta in *. split; [congruence|]. split.
    + intros Hsome. rewrite <- Hown0, <- Hown in Hsome.
      destruct (Hkeep Hsome). split; [congruence|assumption].
    + right. exists r. unfold stores_row, rows in *.
      rewrite Hrows, Htab, Hm, Hty, Hty0, Hown', Hmap', Hmap, Hmap0.
      repeat split; auto. rewrite Hid, Htab. reflexivity.
  - unfold round_store. rewrite Hvl. split; [congruence|]. split.
    + intros Hsome. split; [congruence|]. rewrite Hown, Hown0. exact Hsome.
    + left. unfold stores_nothing, rows. rewrite Htab.
      repeat split; auto. congruence.
Qed.

(** A round that succeeds is the processor of the current row, run on
    [round_enter], followed by [round_store]. *)
Lemma PostProcess_round_factor self self' :
  _PostProcess_round ext self = Ok self' ->
  exists item process x,
    current_item self = Some item
    /\ Processer ext (PlatformTable.Model item) = Some process
    /\ process (round_enter self item) = Ok x
    /\ self' = round_store x item.
Proof.
  rewrite PostProcess_round_unfold.
  destruct (current_item self) as [item|]; [|discriminate].
  destruct (Processer ext (PlatformTable.Model item)) as [process|] eqn:Hp;
    [|discriminate].
  destruct (process (round_enter self item)) as [x|e] eqn:Hx; [|discriminate].
  cbn [mbind result_bind]. intros [= <-]. eauto 10.
Qed.

(** A round on a row that is no [!include] stores a row and moves on by
    one row in the same content. *)
Lemma PostProcess_round_plain self self' item :
  current_item self = Some item ->
  PlatformTable.Model item <> MODEL_META_DATA_INCLUDE ->
  _PostProcess_round ext self = Ok self' ->
  (exists r, stores_row self self' item r)
  /\ _Content self' = _Content self
  /\ _ContentIndex self' = S (_ContentIndex self).
Proof.
  intros Hcur Hne Hr.
  destruct (PostProcess_round_spec _ _ Hr) as (item' & Hcur' & _ & _ & Hst).
  assert (item' = item) by congruence. subst item'.
  destruct (PostProcess_round_factor _ _ Hr)
    as (item' & process & x & Hcur2 & Hp & Hx & ->).
  assert (item' = item) by congruence. subst item'.
  destruct (round_enter_frame self item)
    as (_ & _ & _ & Hty0 & _ & Hvl0 & Hc0 & _ & _ & Hi0).
  cbv zeta in *. rewrite <- Hty0 in Hp.
  destruct (Processer_keeps_values ext _ _ _ _ _ _ Hp
              ltac:(rewrite Hty0; exact Hne) Hvl0 Hx)
    as ((a' & b' & c' & Hvl) & Hc & Hi).
  destruct (round_store_spec x item _ Hvl)
    as (r & _ & _ & _ & _ & _ & _ & _ & _ & _ & _ & Hc' & Hi' & _).
  cbv zeta in *.
  split; [|split].
  - destruct Hst as [(Hnone & _)|Hrow]; [|exact Hrow].
    unfold round_store in Hnone. rewrite Hvl in Hnone.
    unfold PlatformTable_Insert_row, PlatformTable.Insert, with_Table in Hnone.
    cbn in Hnone. destruct (_OwnTable x); cbn in Hnone; congruence.
  - congruence.
  - rewrite Hi', Hi. auto.
Qed.

(** A round on a row that is neither a conditional directive nor an
    [!include] keeps the stack of truth values. *)
Lemma PostProcess_round_keeps_stack self self' item :
  current_item self = Some item ->
  ~ In (PlatformTable.Model item) conditional_kinds ->
  _PostProcess_round ext self = Ok self' ->
  _DirectiveEvalStack self' = _DirectiveEvalStack self.
Proof.
  intros Hcur Hne Hr.
  destruct (PostProcess_round_factor _ _ Hr)
    as (item' & process & x & Hcur2 & Hp & Hx & ->).
  assert (item' = item) by congruence. subst item'.
  destruct (round_enter_frame self item)
    as (_ & _ & _ & Hty0 & _ & _ & _ & Hst0 & _).
  cbv zeta in *. rewrite <- Hty0 in Hp, Hne.
  destruct (Processer_keeps_stacks ext _ _ _ Hp Hne Hx) as (Hst & _).
  unfold round_store. destruct (_ValueList x) as [vl|] eqn:Hvl; [|congruence].
  unfold PlatformTable_Insert_row, PlatformTable.Insert, with_Table.
  cbn. destruct (_OwnTable x); cbn; congruence.
Qed.

(** The processor of an [!if] whose expression the evaluator finds false
    pushes [False]. *)
Lemma ProcessDirective_if_false (x : DscParser) a b c text :
  _ItemType x = MODEL_META_DATA_CONDITIONAL_STATEMENT_IF ->
  _ValueList x = Some [a; b; c] ->
  ValueExpression ext b (update (_Macros x) (gGlobalDefines x))
  = ExprValue false text ->
  __ProcessDirective ext x
  = Ok (x <| _DirectiveStack :=
               MODEL_META_DATA_CONDITIONAL_STATEMENT_IF :: _DirectiveStack x |>
          <| _DirectiveEvalStack := false :: _DirectiveEvalStack x |>).
Proof.
  intros Hty Hvl Hval.
  unfold __ProcessDirective, values3.
  rewrite Hvl, Hty. cbn [mbind result_bind].
  assert (E1 : bool_decide (MODEL_META_DATA_CONDITIONAL_STATEMENT_IF
                             ∈ [MODEL_META_DATA_CONDITIONAL_STATEMENT_IF;
                                MODEL_META_DATA_CONDITIONAL_STATEMENT_ELSEIF])
               = true) by (vm_compute; reflexivity).
  assert (E2 : bool_decide (MODEL_META_DATA_CONDITIONAL_STATEMENT_IF
                             ∈ [MODEL_META_DATA_CONDITIONAL_STATEMENT_IF;
                                MODEL_META_DATA_CONDITIONAL_STATEMENT_IFDEF;
                                MODEL_META_DATA_CONDITIONAL_STATEMENT_IFNDEF])
               = true) by (vm_compute; reflexivity).
  assert (E3 : bool_decide (MODEL_META_DATA_CONDITIONAL_STATEMENT_IF
                            = MODEL_META_DATA_CONDITIONAL_STATEMENT_IF)
               = true) by (vm_compute; reflexivity).
  rewrite E1, Hval. cbn [mbind result_bind]. rewrite E2, E3.
  reflexivity.
Qed.

(** A round on an [!if] whose expression the evaluator finds false
    succeeds and pushes [False]. *)
Lemma PostProcess_round_if_false self item text :
  current_item self = Some item ->
  PlatformTable.Model item = MODEL_META_DATA_CONDITIONAL_STATEMENT_IF ->
  (let x := round_enter self item in
   ValueExpression ext (PlatformTable.Value2 item)
     (update (_Macros x) (gGlobalDefines x)) = ExprValue false text) ->
  exists self',
    _PostProcess_round ext self = Ok self'
    /\ _DirectiveEvalStack self' = false :: _DirectiveEvalStack self.
Proof.
  intros Hcur Hm Hval. cbv zeta in Hval.
  destruct (round_enter_frame self item)
    as (_ & _ & _ & Hty0 & _ & Hvl0 & _ & Hst0 & _).
  cbv zeta in Hty0, Hvl0, Hst0. rewrite Hm in Hty0.
  pose proof (ProcessDirective_if_false _ _ _ _ _ Hty0 Hvl0 Hval) as Hp.
  remember (round_enter self item) as x1 eqn:Ex1.
  set (x2 := x1 <| _DirectiveStack := _ |> <| _DirectiveEvalStack := _ |>) in Hp.
  assert (Hvl2 : _ValueList x2 = _ValueList x1) by (vm_compute; reflexivity).
  assert (Hst2 : _DirectiveEvalStack x2 = false :: _DirectiveEvalStack x1)
    by (vm_compute; reflexivity).
  clearbody x2. rewrite Hvl0 in Hvl2.
  exists (round_store x2 item). split.
  - rewrite PostProcess_round_unfold, Hcur, Hm.
    change (Processer ext MODEL_META_DATA_CONDITIONAL_STATEMENT_IF)
      with (Some (__ProcessDirective ext)).
    cbv iota. rewrite <- Ex1, Hp. reflexivity.
  - destruct (round_store_spec x2 item _ Hvl2)
      as (r & _ & _ & _ & _ & _ & _ & _ & _ & Hst & _).
    cbv zeta in Hst. rewrite Hst, Hst2, Hst0. reflexivity.
Qed.

(** [(not stack) or (False not in stack)], as a proposition. *)
Lemma no_false_spec stack :
  no_false stack = true <-> stack = [] \/ ~ In false stack.
Proof.
  unfold no_false. rewrite orb_true_iff, bool_decide_eq_true, negb_true_iff,
    bool_decide_eq_false, list_elem_of_In. reflexivity.
Qed.

Lemma appended_nothing self self' :
  rows self' = rows self -> appended (self, self') = [].
Proof.
  unfold appended. cbn [fst snd]. intros ->. apply drop_all.
Qed.

Lemma appended_row self self' r :
  rows self' = rows self ++ [r] -> appended (self, self') = [r].
Proof.
  unfold appended. cbn [fst snd]. intros ->.
  apply drop_app_length.
Qed.

Lemma PostProcess_loop_unfold fuel self :
  _PostProcess_loop ext fuel self
  = if (_ContentIndex self <? length (_Content self))%nat then
      match fuel with
      | O => Err OutOfFuel
      | S fuel' =>
          self' ← _PostProcess_round ext self; _PostProcess_loop ext fuel' self'
      end
    else Ok self.
Proof. destruct fuel; reflexivity. Qed.

Lemma PostProcess_trace_unfold fuel self :
  _PostProcess_trace ext fuel self
  = if (_ContentIndex self <? length (_Content self))%nat then
      match fuel with
      | O => []
      | S fuel' =>
          match _PostProcess_round ext self with
          | Ok self' => (self, self') :: _PostProcess_trace ext fuel' self'
          | Err _ => []
          end
      end
    else [].
Proof. destruct fuel; reflexivity. Qed.

Lemma PostProcess_trace_rounds fuel self :
  Forall (fun round => _PostProcess_round ext (fst round) = Ok (snd round))
         (_PostProcess_trace ext fuel self).
Proof.
  revert self. induction fuel as [|fuel IH]; intros self;
    rewrite PostProcess_trace_unfold;
    destruct (_ContentIndex self <? length (_Content self))%nat;
    try constructor.
  - destruct (_PostProcess_round ext self) as [self1|] eqn:Hr; constructor; auto.
Qed.

(** The loop appends to the resolved table what its rounds append, one
    after the other, and leaves the raw table as it is. *)
Lemma PostProcess_loop_trace fuel self self' :
  _PostProcess_loop ext fuel self = Ok self' ->
  rows self' = rows self ++ concat (map appended (_PostProcess_trace ext fuel self))
  /\ fixed self' = fixed self
  /\ (is_Some (_OwnTable self) ->
      _RawTable self' = _RawTable self /\ is_Some (_OwnTable self')).
Proof.
  revert self. induction fuel as [|fuel IH]; intros self;
    rewrite PostProcess_loop_unfold, PostProcess_trace_unfold;
    destruct (_ContentIndex self <? length (_Content self))%nat;
    try discriminate;
    try (intros [= <-]; cbn; rewrite app_nil_r; auto; fail).
  - destruct (_PostProcess_round ext self) as [self1|] eqn:Hr; [|discriminate].
    cbn [mbind result_bind]. intros Hloop.
    destruct (IH _ Hloop) as (Hrows & Hfix & Hraw).
    destruct (PostProcess_round_spec _ _ Hr) as (item & _ & Hfix1 & Hraw1 & Hst).
    split; [|split].
    + rewrite Hrows. cbn [map concat]. rewrite app_assoc. f_equal.
      destruct Hst as [(_ & Hn & _)|(r & Hr' & _)].
      * rewrite (appended_nothing _ _ Hn), Hn, app_nil_r. reflexivity.
      * rewrite (appended_row _ _ _ Hr'), Hr'. reflexivity.
    + congruence.
    + intros Hsome. destruct (Hraw1 Hsome) as (E1 & Hsome1).
      destruct (Hraw Hsome1) as (E2 & Hsome2). split; [congruence|assumption].
Qed.

(** The pass as a whole: it enters, the rows of its resolved table are the
    rows that its rounds have appended, and the raw table is the one it
    found. *)
Lemma PostProcess_trace fuel self self' :
  _PostProcess ext fuel self = Ok self' ->
  exists entered,
    _PostProcess_enter ext self = Ok entered
    /\ rows self' = concat (map appended (_PostProcess_trace ext fuel entered))
    /\ _RawTable self' = _RawTable self
    /\ _Content entered = MetaFileTable.GetAll (_RawTable self)
    /\ _ContentIndex entered = 0%nat.
Proof.
  unfold _PostProcess.
  destruct (_PostProcess_enter ext self) as [entered|] eqn:He; [|discriminate].
  cbn [mbind result_bind].
  destruct (_PostProcess_loop ext fuel entered) as [x|] eqn:Hl; [|discriminate].
  cbn [mbind result_bind]. intros [= <-].
  exists entered. split; [reflexivity|].
  destruct (PostProcess_loop_trace _ _ _ Hl) as (Hrows & _ & Hraw).
  unfold _PostProcess_enter in He.
  destruct (ReadLines ext); [|discriminate]. injection He as <-.
  destruct Hraw as (Hraw & _); [cbn; eauto|].
  split; [|split; [|split]].
  - unfold rows in *. cbn in Hrows |- *. rewrite <- Hrows. reflexivity.
  - cbn. rewrite Hraw. reflexivity.
  - reflexivity.
  - reflexivity.
Qed.

End RoundFacts.

(** *** The enabled flag of the resolved rows *)

(** What a round appends carries the flag of the stack that the round
    leaves. *)
Lemma PostProcess_round_flag ext self self' r :
  _PostProcess_round ext self = Ok self' ->
  In r (appended (self, self')) ->
  (PlatformTable.Enabled r = true <->
   _DirectiveEvalStack self' = [] \/ ~ In false (_DirectiveEvalStack self'))
  /\ _Enabled self' = PlatformTable.Enabled r.
Proof.
  intros Hr Hin.
  destruct (PostProcess_round_spec _ _ _ Hr) as (item & _ & _ & _ & Hst).
  destruct Hst as [(_ & Hn & _)|(r0 & Hrows & _ & Hen & Hen' & _)].
  - rewrite (appended_nothing _ _ Hn) in Hin. destruct Hin.
  - rewrite (appended_row _ _ _ Hrows) in Hin.
    destruct Hin as [<-|[]]. split; [rewrite Hen; apply no_false_spec|exact Hen'].
Qed.

(** A row that is stored disabled is returned by no query. *)
Lemma disabled_row_not_queried r t m s1 s2 b f :
  PlatformTable.Enabled r = false ->
  ~ In r (PlatformTable.Query t m s1 s2 b f).
Proof.
  intros Hoff Hin. apply PlatformTable_Query_sound in Hin.
  destruct Hin as (Hon & _). congruence.
Qed.

(** C5: in the post-processing of dialect D,
    - the row that a round appends to the resolved table carries
      [Enabled = True] exactly when the stack of directive truth values,
      as the round leaves it, is empty or holds no [False], and
      [self._Enabled] is that flag;
    - a pass that succeeds leaves the raw table as it found it, and the
      rows of its resolved table are the rows that its rounds appended,
      each with the flag of its round;
    - a round on an [!if] whose expression the evaluator finds false
      succeeds, pushes [False], and stores the [!if] row disabled;
    - while the stack holds a [False], a round on a row that is neither a
      conditional directive nor an [!include] stores it with its model and
      [Enabled = False], and no query returns it;
    - for the file [[Defines]], [!if 0], [PLATFORM_NAME = A], [!endif]:
      the raw table keeps its four rows with their models, the resolved
      table has the [PLATFORM_NAME] row with [Enabled = False], and the
      query for header rows returns nothing. *)
Theorem PostProcess_enabled_flag :
  (forall ext self self' r,
      _PostProcess_round ext self = Ok self' ->
      In r (appended (self, self')) ->
      (PlatformTable.Enabled r = true <->
       _DirectiveEvalStack self' = [] \/ ~ In false (_DirectiveEvalStack self'))
      /\ _Enabled self' = PlatformTable.Enabled r)
  /\ (forall ext fuel self self',
      _PostProcess ext fuel self = Ok self' ->
      exists entered,
        _PostProcess_enter ext self = Ok entered
        /\ _RawTable self' = _RawTable self
        /\ rows self'
           = concat (map appended (_PostProcess_trace ext fuel entered))
        /\ Forall (fun round =>
                     _PostProcess_round ext (fst round) = Ok (snd round)
                     /\ forall r, In r (appended round) ->
                          (PlatformTable.Enabled r = true <->
                           _DirectiveEvalStack (snd round) = []
                           \/ ~ In false (_DirectiveEvalStack (snd round))))
                  (_PostProcess_trace ext fuel entered))
  /\ (forall ext self item text,
      current_item self = Some item ->
      PlatformTable.Model item = MODEL_META_DATA_CONDITIONAL_STATEMENT_IF ->
      (let x := round_enter self item in
       ValueExpression ext (PlatformTable.Value2 item)
         (update (_Macros x) (gGlobalDefines x)) = ExprValue false text) ->
      exists self' r,
        _PostProcess_round ext self = Ok self'
        /\ _DirectiveEvalStack self' = false :: _DirectiveEvalStack self
        /\ appended (self, self') = [r]
        /\ PlatformTable.Model r = MODEL_META_DATA_CONDITIONAL_STATEMENT_IF
        /\ PlatformTable.Enabled r = false)
  /\ (forall ext self self' item,
      current_item self = Some item ->
      ~ In (PlatformTable.Model item) conditional_kinds ->
      PlatformTable.Model item <> MODEL_META_DATA_INCLUDE ->
      In false (_DirectiveEvalStack self) ->
      _PostProcess_round ext self = Ok self' ->
      exists r,
        appended (self, self') = [r]
        /\ PlatformTable.Model r = PlatformTable.Model item
        /\ PlatformTable.Enabled r = false
        /\ forall t m s1 s2 b f, ~ In r (PlatformTable.Query t m s1 s2 b f))
  /\ (exists self',
      _PostProcess (example_ext []) 4 (parsed scenario_if_0) = Ok self'
      /\ map brief (MetaFileTable.GetAll (_RawTable self'))
         = [ (MODEL_META_DATA_SECTION_HEADER, "", true);
             (MODEL_META_DATA_CONDITIONAL_STATEMENT_IF, "", true);
             (MODEL_META_DATA_HEADER, "A", true);
             (MODEL_META_DATA_CONDITIONAL_STATEMENT_ENDIF, "", true) ]
      /\ map brief (rows self')
         = [ (MODEL_META_DATA_SECTION_HEADER, "", true);
             (MODEL_META_DATA_CONDITIONAL_STATEMENT_IF, "", false);
             (MODEL_META_DATA_HEADER, "A", false);
             (MODEL_META_DATA_CONDITIONAL_STATEMENT_ENDIF, "", true) ]
      /\ PlatformTable.Query (_Table self') MODEL_META_DATA_HEADER
           None None None None = []).
Proof.
  split; [|split; [|split; [|split]]].
  - intros ext self self' r. apply PostProcess_round_flag.
  - intros ext fuel self self' Hp.
    destruct (PostProcess_trace _ _ _ _ Hp) as (entered & He & Hrows & Hraw & _).
    exists entered. repeat split; auto.
    eapply List.Forall_impl; [|apply PostProcess_trace_rounds].
    intros [a b] Hr. cbn [fst snd] in *. split; [exact Hr|].
    intros r Hin. apply (PostProcess_round_flag _ _ _ _ Hr Hin).
  - intros ext self item text Hcur Hm Hval.
    destruct (PostProcess_round_if_false _ _ _ _ Hcur Hm Hval)
      as (self' & Hr & Hst).
    destruct (PostProcess_round_plain _ _ _ _ Hcur
                ltac:(rewrite Hm; discriminate) Hr)
      as ((r & Hrows & Hmod & Hen & _) & _).
    exists self', r. repeat split; auto.
    + apply appended_row. exact Hrows.
    + congruence.
    + rewrite Hen, Hst. reflexivity.
  - intros ext self self' item Hcur Hnc Hni Hfalse Hr.
    destruct (PostProcess_round_plain _ _ _ _ Hcur Hni Hr)
      as ((r & Hrows & Hmod & Hen & _) & _).
    pose proof (PostProcess_round_keeps_stack _ _ _ _ Hcur Hnc Hr) as Hst.
    assert (Hoff : PlatformTable.Enabled r = false).
    { destruct (PlatformTable.Enabled r) eqn:E; [|reflexivity].
      symmetry in Hen. apply no_false_spec in Hen. rewrite Hst in Hen.
      destruct Hen as [Hnil|Hno]; [rewrite Hnil in Hfalse; destruct Hfalse|].
      contradiction. }
    exists r. repeat split; auto.
    + apply appended_row. exact Hrows.
    + intros t m s1 s2 b f. apply disabled_row_not_queried. exact Hoff.
  - eexists. split; [vm_compute; reflexivity|].
    repeat split; vm_compute; reflexivity.
Qed.

(** [PostProcess_enabled_flag] on the pass over the file with [!if 0]. *)
Lemma PostProcess_enabled_flag_witness :
  exists self' entered,
    _PostProcess (example_ext []) 4 (parsed scenario_if_0) = Ok self'
    /\ _PostProcess_enter (example_ext []) (parsed scenario_if_0) = Ok entered
    /\ _RawTable self' = _RawTable (parsed scenario_if_0)
    /\ rows self'
       = concat (map appended
                   (_PostProcess_trace (example_ext []) 4 entered)).
Proof.
  destruct (proj1 (proj2 PostProcess_enabled_flag) (example_ext []) 4%nat
              (parsed scenario_if_0)
              (match _PostProcess (example_ext []) 4 (parsed scenario_if_0) with
               | Ok s => s
               | Err _ => parsed scenario_if_0
               end))
    as (entered & He & Hraw & Hrows & _).
  - vm_compute. reflexivity.
  - eexists. exists entered. split; [vm_compute; reflexivity|].
    split; [exact He|]. split; [exact Hraw|exact Hrows].
Defined.

(** *** The directive rows in the resolved table *)

Lemma skipn_nth_error {A : Type} (l : list A) (n : nat) (x : A) :
  nth_error l n = Some x -> skipn n l = x :: skipn (S n) l.
Proof.
  revert n. induction l as [|a l IH]; intros [|n] H; cbn in *;
    try discriminate.
  - injection H as ->. reflexivity.
  - rewrite (IH n H). reflexivity.
Qed.

Section DirectiveRows.
Variable ext : Externals.

Local Abbreviation DscParser := (Parser PlatformTable.DscLine).

(** The processor of an [!include] row drops the three values only when
    the parser is enabled and the included file has rows. *)
Lemma ProcessDirective_include (x x' : DscParser) a b c :
  _ItemType x = MODEL_META_DATA_INCLUDE ->
  _ValueList x = Some [a; b; c] ->
  __ProcessDirective ext x = Ok x' ->
  (_ValueList x' = None /\ _Enabled x = true
   /\ exists status path from owner d recs,
        IncludedRecords ext status path from owner = Ok (d :: recs))
  \/ (_ValueList x' = Some [a; b; c]
      /\ (_Enabled x = false
          \/ exists status path from owner,
               IncludedRecords ext status path from owner = Ok [])).
Proof.
  intros Hty Hvl Hx.
  unfold __ProcessDirective, process_include, values3 in Hx.
  rewrite Hty, Hvl in Hx. cbn [mbind result_bind] in Hx.
  decide_closed x Hx. cbv iota in Hx. cbn [mbind result_bind] in Hx.
  split_result.
  3:{ right. split; [exact Hvl|]. left. reflexivity. }
  all: match type of Hx with
       | context [IncludedRecords ext ?s ?p ?f ?o] =>
           destruct (IncludedRecords ext s p f o) as [[|d0 recs]|] eqn:Hrec
       end;
    cbn [mbind result_bind] in Hx; try discriminate Hx; injection Hx as <-.
  all: first [ right; split; [exact Hvl|]; right; eauto; fail
             | left; split; [vm_compute; reflexivity|];
               split; [reflexivity|]; eauto 10 ].
Qed.

Lemma PostProcess_round_include self self' item :
  current_item self = Some item ->
  PlatformTable.Model item = MODEL_META_DATA_INCLUDE ->
  _PostProcess_round ext self = Ok self' ->
  (appended (self, self') = [] /\ _Enabled self = true
   /\ exists status path from owner d recs,
        IncludedRecords ext status path from owner = Ok (d :: recs))
  \/ (exists r, appended (self, self') = [r]
                /\ PlatformTable.Model r = MODEL_META_DATA_INCLUDE
                /\ (_Enabled self = false
                    \/ exists status path from owner,
                         IncludedRecords ext status path from owner = Ok [])).
Proof.
  intros Hcur Hm Hr.
  destruct (PostProcess_round_spec _ _ _ Hr) as (item' & Hcur' & _ & _ & Hst).
  assert (item' = item) by congruence. subst item'.
  destruct (PostProcess_round_factor _ _ _ Hr)
    as (item' & process & x & Hcur2 & Hp & Hx & ->).
  assert (item' = item) by congruence. subst item'.
  rewrite Hm in Hp. injection Hp as <-.
  destruct (round_enter_frame self item)
    as (_ & _ & _ & Hty0 & _ & Hvl0 & _ & _ & Hen0 & _).
  cbv zeta in *. rewrite Hm in Hty0.
  destruct (ProcessDirective_include _ _ _ _ _ Hty0 Hvl0 Hx)
    as [(Hnone & Hon & Hrec)|(Hsome & Hwhy)].
  - left. rewrite <- Hen0. split; [|auto].
    destruct Hst as [(_ & Hn & _)|(r & Hrows & _)];
      [apply appended_nothing; exact Hn|].
    exfalso. unfold round_store in Hrows. rewrite Hnone in Hrows.
    apply (f_equal (@length _)) in Hrows. rewrite length_app in Hrows.
    cbn in Hrows.
    destruct (Processer_frame ext MODEL_META_DATA_INCLUDE _ _ _ eq_refl Hx)
      as (_ & Ho & Hw & _).
    destruct (round_enter_frame self item) as (_ & Ho0 & Hw0 & _).
    cbv zeta in *. unfold rows in Hrows.
    rewrite (Table_eq x self) in Hrows by congruence. lia.
  - right. rewrite <- Hen0.
    destruct Hst as [(Hnone & _)|(r & Hrows & Hmod & _)].
    + exfalso. unfold round_store in Hnone. rewrite Hsome in Hnone.
      destruct (round_store_spec x item _ Hsome) as (r & _).
      unfold round_store in Hnone.
      unfold PlatformTable_Insert_row, PlatformTable.Insert, with_Table in Hnone.
      cbn in Hnone. destruct (_OwnTable x); cbn in Hnone; congruence.
    + exists r. split; [apply appended_row; exact Hrows|].
      split; [congruence|exact Hwhy].
Qed.

(** A pass over rows none of which is an [!include] stores one row per
    row, in order, each with its model. *)
Lemma PostProcess_loop_plain fuel self self' :
  Forall (fun item => PlatformTable.Model item <> MODEL_META_DATA_INCLUDE)
         (skipn (_ContentIndex self) (_Content self)) ->
  _PostProcess_loop ext fuel self = Ok self' ->
  map PlatformTable.Model (rows self')
  = map PlatformTable.Model (rows self)
    ++ map PlatformTable.Model (skipn (_ContentIndex self) (_Content self)).
Proof.
  revert self. induction fuel as [|fuel IH]; intros self Hall;
    rewrite PostProcess_loop_unfold;
    destruct (_ContentIndex self <? length (_Content self))%nat eqn:Hlt;
    try discriminate.
  - intros [= <-]. apply Nat.ltb_ge in Hlt.
    rewrite drop_ge by exact Hlt. cbn. rewrite app_nil_r. reflexivity.
  - destruct (_PostProcess_round ext self) as [self1|] eqn:Hr; [|discriminate].
    cbn [mbind result_bind]. intros Hloop.
    apply Nat.ltb_lt in Hlt.
    destruct (nth_error (_Content self) (_ContentIndex self)) as [item|] eqn:Hcur.
    2:{ apply nth_error_None in Hcur. lia. }
    assert (Hdrop : skipn (_ContentIndex self) (_Content self)
                    = item :: skipn (S (_ContentIndex self)) (_Content self)).
    { apply skipn_nth_error. exact Hcur. }
    rewrite Hdrop in Hall |- *. inversion Hall as [|? ? Hne Hrest]; subst.
    destruct (PostProcess_round_plain ext _ _ _ Hcur Hne Hr)
      as ((r & Hrows & Hmod & _) & Hc & Hi).
    rewrite (IH self1 ltac:(rewrite Hc, Hi; exact Hrest) Hloop).
    rewrite Hrows, Hc, Hi, map_app. cbn [map]. rewrite Hmod, <- app_assoc.
    reflexivity.
  - intros [= <-]. apply Nat.ltb_ge in Hlt.
    rewrite drop_ge by exact Hlt. cbn. rewrite app_nil_r. reflexivity.
Qed.

End DirectiveRows.

(** C2 fails as stated: the pass over the file of the spec's third
    scenario ([[Defines]], [DEFINE FOO = 1], [!if $(FOO) == 1],
    [PLATFORM_NAME = A], [!else], [PLATFORM_NAME = B], [!endif]) succeeds,
    its resolved table has the rows of [!if], [!else] and [!endif] with
    their models, and the query for [!endif] rows returns one. *)
Lemma PostProcess_copies_conditional_rows :
  exists self',
    _PostProcess (example_ext []) 7 (parsed scenario_conditional) = Ok self'
    /\ map PlatformTable.Model (rows self')
       = [ MODEL_META_DATA_SECTION_HEADER;
           MODEL_META_DATA_DEFINE;
           MODEL_META_DATA_CONDITIONAL_STATEMENT_IF;
           MODEL_META_DATA_HEADER;
           MODEL_META_DATA_CONDITIONAL_STATEMENT_ELSE;
           MODEL_META_DATA_HEADER;
           MODEL_META_DATA_CONDITIONAL_STATEMENT_ENDIF ]
    /\ exists r,
         In r (PlatformTable.Query (_Table self')
                 MODEL_META_DATA_CONDITIONAL_STATEMENT_ENDIF
                 None None None None).
Proof.
  eexists. split; [vm_compute; reflexivity|].
  split; [vm_compute; reflexivity|].
  eexists. vm_compute. left. reflexivity.
Qed.

(** C2 (amended): the pass copies the directive rows into the resolved
    table and consumes an [!include] row only when it expands it:
    - a pass that succeeds on a raw table without [!include] rows leaves a
      resolved table with one row per live raw row, in order and with the
      same models, the conditional directives among them;
    - a round that succeeds on a row of a conditional directive or of
      [!error] appends one row of that model;
    - a round that succeeds on an [!include] row appends nothing only if
      the parser is enabled and the included file has rows, and otherwise
      (disabled, or a file without rows) appends a row of the model of
      [!include]. *)
Theorem PostProcess_directive_rows :
  (forall ext fuel self self',
      _PostProcess ext fuel self = Ok self' ->
      Forall (fun item => PlatformTable.Model item <> MODEL_META_DATA_INCLUDE)
             (MetaFileTable.GetAll (_RawTable self)) ->
      map PlatformTable.Model (rows self')
      = map PlatformTable.Model (MetaFileTable.GetAll (_RawTable self)))
  /\ (forall ext self self' item,
      current_item self = Some item ->
      In (PlatformTable.Model item)
         (MODEL_META_DATA_CONDITIONAL_STATEMENT_ERROR :: conditional_kinds) ->
      _PostProcess_round ext self = Ok self' ->
      exists r, appended (self, self') = [r]
                /\ PlatformTable.Model r = PlatformTable.Model item)
  /\ (forall ext self self' item,
      current_item self = Some item ->
      PlatformTable.Model item = MODEL_META_DATA_INCLUDE ->
      _PostProcess_round ext self = Ok self' ->
      (appended (self, self') = [] /\ _Enabled self = true
       /\ exists status path from owner d recs,
            IncludedRecords ext status path from owner = Ok (d :: recs))
      \/ (exists r, appended (self, self') = [r]
                    /\ PlatformTable.Model r = MODEL_META_DATA_INCLUDE
                    /\ (_Enabled self = false
                        \/ exists status path from owner,
                             IncludedRecords ext status path from owner
                             = Ok []))).
Proof.
  split; [|split].
  - intros ext fuel self self' Hp Hall.
    unfold _PostProcess in Hp.
    destruct (_PostProcess_enter ext self) as [entered|] eqn:He;
      [|discriminate].
    cbn [mbind result_bind] in Hp.
    destruct (_PostProcess_loop ext fuel entered) as [x|] eqn:Hl;
      [|discriminate].
    cbn [mbind result_bind] in Hp. injection Hp as <-.
    unfold _PostProcess_enter in He.
    destruct (ReadLines ext); [|discriminate]. injection He as <-.
    apply PostProcess_loop_plain in Hl; [|exact Hall].
    exact Hl.
  - intros ext self self' item Hcur Hin Hr.
    assert (Hne : PlatformTable.Model item <> MODEL_META_DATA_INCLUDE).
    { intros E. rewrite E in Hin. cbn in Hin.
      repeat (destruct Hin as [Hin|Hin]; [discriminate Hin|]). exact Hin. }
    destruct (PostProcess_round_plain ext _ _ _ Hcur Hne Hr)
      as ((r & Hrows & Hmod & _) & _).
    exists r. split; [apply appended_row; exact Hrows|exact Hmod].
  - intros ext self self' item. apply PostProcess_round_include.
Qed.

(** [PostProcess_directive_rows] on the pass over the file of the third
    scenario. *)
Lemma PostProcess_directive_rows_witness :
  exists self',
    _PostProcess (example_ext []) 7 (parsed scenario_conditional) = Ok self'
    /\ map PlatformTable.Model (rows self')
       = map PlatformTable.Model
           (MetaFileTable.GetAll (_RawTable (parsed scenario_conditional))).
Proof.
  eexists. split; [vm_compute; reflexivity|].
  apply (proj1 PostProcess_directive_rows (example_ext []) 7%nat).
  - vm_compute. reflexivity.
  - vm_compute. repeat constructor; discriminate.
Defined.

(** *** A second pass on the same parser *)

Section SecondPass.
Variable ext : Externals.

Local Abbreviation DscParser := (Parser PlatformTable.DscLine).

(** The fields that a pass reads, writes and does not reset when it is
    entered: they come to a second pass as the first has left them. *)
Definition carried (x : DscParser) :=
  (_Symbols x, gEdkGlobal x, _SectionType x, _SectionName x,
   _SubsectionType x, _Enabled x).

(** The parser without the fields that a pass writes and never reads, and
    without the id mapping. *)
Definition forget (x : DscParser) : DscParser :=
  x <| gPlatformPcds := ∅ |> <| _SubsectionName := "" |> <| _LastItem := 0 |>
    <| _PostProcessed := false |> <| _IdMapping := ∅ |>.

Definition result_map {A B : Type} (f : A -> B) (r : result A) : result B :=
  match r with
  | Ok a => Ok (f a)
  | Err e => Err e
  end.

Ltac by_fields := intros; match goal with x : DscParser |- _ => destruct x end;
  vm_compute; reflexivity.

(** [forget] keeps the other fields ... *)

Lemma forget_Class_ x : Class_ (forget x) = Class_ x.
Proof. by_fields. Qed.

Lemma forget_DataType x : DataType (forget x) = DataType x.
Proof. by_fields. Qed.

Lemma forget_OwnTable x : _OwnTable (forget x) = _OwnTable x.
Proof. by_fields. Qed.

Lemma forget_RawTable x : _RawTable (forget x) = _RawTable x.
Proof. by_fields. Qed.

Lemma forget_FileLocalMacros x : _FileLocalMacros (forget x) = _FileLocalMacros x.
Proof. by_fields. Qed.

Lemma forget_SectionsMacroDict x : _SectionsMacroDict (forget x) = _SectionsMacroDict x.
Proof. by_fields. Qed.

Lemma forget_Owner x : _Owner (forget x) = _Owner x.
Proof. by_fields. Qed.

Lemma forget_From x : _From (forget x) = _From x.
Proof. by_fields. Qed.

Lemma forget_ValueList x : _ValueList (forget x) = _ValueList x.
Proof. by_fields. Qed.

Lemma forget_Scope x : _Scope (forget x) = _Scope x.
Proof. by_fields. Qed.

Lemma forget_LineIndex x : _LineIndex (forget x) = _LineIndex x.
Proof. by_fields. Qed.

Lemma forget_CurrentLine x : _CurrentLine (forget x) = _CurrentLine x.
Proof. by_fields. Qed.

Lemma forget_SectionType x : _SectionType (forget x) = _SectionType x.
Proof. by_fields. Qed.

Lemma forget_SectionName x : _SectionName (forget x) = _SectionName x.
Proof. by_fields. Qed.

Lemma forget_InSubsection x : _InSubsection (forget x) = _InSubsection x.
Proof. by_fields. Qed.

Lemma forget_SubsectionType x : _SubsectionType (forget x) = _SubsectionType x.
Proof. by_fields. Qed.

Lemma forget_ItemType x : _ItemType (forget x) = _ItemType x.
Proof. by_fields. Qed.

Lemma forget_Enabled x : _Enabled (forget x) = _Enabled x.
Proof. by_fields. Qed.

Lemma forget_Finished x : _Finished (forget x) = _Finished x.
Proof. by_fields. Qed.

Lemma forget_Version x : _Version (forget x) = _Version x.
Proof. by_fields. Qed.

Lemma forget_DirectiveStack x : _DirectiveStack (forget x) = _DirectiveStack x.
Proof. by_fields. Qed.

Lemma forget_DirectiveEvalStack x : _DirectiveEvalStack (forget x) = _DirectiveEvalStack x.
Proof. by_fields. Qed.

Lemma forget_InDirective x : _InDirective (forget x) = _InDirective x.
Proof. by_fields. Qed.

Lemma forget_Symbols x : _Symbols (forget x) = _Symbols x.
Proof. by_fields. Qed.

Lemma forget_Content x : _Content (forget x) = _Content x.
Proof. by_fields. Qed.

Lemma forget_ContentIndex x : _ContentIndex (forget x) = _ContentIndex x.
Proof. by_fields. Qed.

Lemma forget_DefinesCount x : _DefinesCount (forget x) = _DefinesCount x.
Proof. by_fields. Qed.

Lemma forget_gGlobalDefines x : gGlobalDefines (forget x) = gGlobalDefines x.
Proof. by_fields. Qed.

Lemma forget_gCommandLineDefines x : gCommandLineDefines (forget x) = gCommandLineDefines x.
Proof. by_fields. Qed.

Lemma forget_gEdkGlobal x : gEdkGlobal (forget x) = gEdkGlobal x.
Proof. by_fields. Qed.

Lemma forget_gPlatformDefines x : gPlatformDefines (forget x) = gPlatformDefines x.
Proof. by_fields. Qed.

Lemma forget_BuildOptionPcd x : BuildOptionPcd (forget x) = BuildOptionPcd x.
Proof. by_fields. Qed.


(** ... commutes with their setters ... *)

Lemma forget_set_ValueList g x : forget (set _ValueList g x) = set _ValueList g (forget x).
Proof. by_fields. Qed.

Lemma forget_set_SectionName g x : forget (set _SectionName g x) = set _SectionName g (forget x).
Proof. by_fields. Qed.

Lemma forget_set_SectionType g x : forget (set _SectionType g x) = set _SectionType g (forget x).
Proof. by_fields. Qed.

Lemma forget_set_SubsectionType g x : forget (set _SubsectionType g x) = set _SubsectionType g (forget x).
Proof. by_fields. Qed.

Lemma forget_set_FileLocalMacros g x : forget (set _FileLocalMacros g x) = set _FileLocalMacros g (forget x).
Proof. by_fields. Qed.

Lemma forget_set_SectionsMacroDict g x : forget (set _SectionsMacroDict g x) = set _SectionsMacroDict g (forget x).
Proof. by_fields. Qed.

Lemma forget_set_gEdkGlobal g x : forget (set gEdkGlobal g x) = set gEdkGlobal g (forget x).
Proof. by_fields. Qed.

Lemma forget_set_DirectiveStack g x : forget (set _DirectiveStack g x) = set _DirectiveStack g (forget x).
Proof. by_fields. Qed.

Lemma forget_set_DirectiveEvalStack g x : forget (set _DirectiveEvalStack g x) = set _DirectiveEvalStack g (forget x).
Proof. by_fields. Qed.

Lemma forget_set_Content g x : forget (set _Content g x) = set _Content g (forget x).
Proof. by_fields. Qed.

Lemma forget_set_ContentIndex g x : forget (set _ContentIndex g x) = set _ContentIndex g (forget x).
Proof. by_fields. Qed.

Lemma forget_set_Symbols g x : forget (set _Symbols g x) = set _Symbols g (forget x).
Proof. by_fields. Qed.

Lemma forget_set_Enabled g x : forget (set _Enabled g x) = set _Enabled g (forget x).
Proof. by_fields. Qed.

Lemma forget_set_ItemType g x : forget (set _ItemType g x) = set _ItemType g (forget x).
Proof. by_fields. Qed.

Lemma forget_set_From g x : forget (set _From g x) = set _From g (forget x).
Proof. by_fields. Qed.

Lemma forget_set_Scope g x : forget (set _Scope g x) = set _Scope g (forget x).
Proof. by_fields. Qed.

Lemma forget_set_LineIndex g x : forget (set _LineIndex g x) = set _LineIndex g (forget x).
Proof. by_fields. Qed.

Lemma forget_set_InSubsection g x : forget (set _InSubsection g x) = set _InSubsection g (forget x).
Proof. by_fields. Qed.

Lemma forget_set_OwnTable g x : forget (set _OwnTable g x) = set _OwnTable g (forget x).
Proof. by_fields. Qed.

Lemma forget_set_RawTable g x : forget (set _RawTable g x) = set _RawTable g (forget x).
Proof. by_fields. Qed.


(** ... and absorbs the setters of what it drops. *)

Lemma forget_drop_gPlatformPcds g x : forget (set gPlatformPcds g x) = forget x.
Proof. by_fields. Qed.

Lemma forget_drop_SubsectionName g x : forget (set _SubsectionName g x) = forget x.
Proof. by_fields. Qed.

Lemma forget_drop_LastItem g x : forget (set _LastItem g x) = forget x.
Proof. by_fields. Qed.

Lemma forget_drop_PostProcessed g x : forget (set _PostProcessed g x) = forget x.
Proof. by_fields. Qed.

Lemma forget_drop_IdMapping g x : forget (set _IdMapping g x) = forget x.
Proof. by_fields. Qed.


Lemma forget_idem x : forget (forget x) = forget x.
Proof. by_fields. Qed.

Hint Rewrite forget_Class_ forget_DataType forget_OwnTable forget_RawTable
    forget_FileLocalMacros forget_SectionsMacroDict forget_Owner
    forget_From forget_ValueList forget_Scope forget_LineIndex
    forget_CurrentLine forget_SectionType forget_SectionName
    forget_InSubsection forget_SubsectionType forget_ItemType
    forget_Enabled forget_Finished forget_Version forget_DirectiveStack
    forget_DirectiveEvalStack forget_InDirective forget_Symbols
    forget_Content forget_ContentIndex forget_DefinesCount
    forget_gGlobalDefines forget_gCommandLineDefines forget_gEdkGlobal
    forget_gPlatformDefines forget_BuildOptionPcd : forget_fields.
Hint Rewrite forget_set_ValueList forget_set_SectionName forget_set_SectionType
    forget_set_SubsectionType forget_set_FileLocalMacros
    forget_set_SectionsMacroDict forget_set_gEdkGlobal
    forget_set_DirectiveStack forget_set_DirectiveEvalStack
    forget_set_Content forget_set_ContentIndex forget_set_Symbols
    forget_set_Enabled forget_set_ItemType forget_set_From
    forget_set_Scope forget_set_LineIndex forget_set_InSubsection
    forget_set_OwnTable forget_set_RawTable
    forget_drop_gPlatformPcds forget_drop_SubsectionName
    forget_drop_LastItem forget_drop_PostProcessed forget_drop_IdMapping forget_idem : forget_sets.

Lemma forget_ActiveSectionType x :
  ActiveSectionType (forget x) = ActiveSectionType x.
Proof. unfold ActiveSectionType. rewrite forget_SectionType. reflexivity. Qed.

Lemma forget_GetApplicableSectionMacro x :
  _GetApplicableSectionMacro (forget x) = _GetApplicableSectionMacro x.
Proof.
  unfold _GetApplicableSectionMacro.
  rewrite forget_ActiveSectionType, forget_Scope, forget_SectionsMacroDict.
  reflexivity.
Qed.

Lemma forget_Macros x : _Macros (forget x) = _Macros x.
Proof.
  unfold _Macros.
  rewrite forget_GetApplicableSectionMacro.
  autorewrite with forget_fields. reflexivity.
Qed.

#[local] Arguments forget : simpl never.
#[local] Arguments _Macros : simpl never.
#[local] Arguments ActiveSectionType : simpl never.

Ltac forget_norm :=
  cbn; rewrite ?forget_Macros, ?forget_ActiveSectionType;
  autorewrite with forget_fields.

Ltac split_innermost :=
  match goal with
  | |- context [match ?t with _ => _ end] =>
      lazymatch t with
      | context [match _ with _ => _ end] => fail
      | _ => destruct t eqn:?
      end
  end.

Ltac same_sides :=
  match goal with
  | |- ?a = ?a => reflexivity
  end.

Ltac forget_processor :=
  cbv [__ProcessSectionHeader __ProcessSubsectionHeader __ProcessDefine
       __ProcessDirective __ProcessPackages __ProcessSkuId
       __ProcessLibraryInstance __ProcessLibraryClass __ProcessPcd _Skip
       _ProcessError process_include values3
       _ConstructSectionMacroDict replace_all replace_macro
       lookup_DataType mbind result_bind result_map];
  forget_norm; repeat (split_innermost; forget_norm);
  autorewrite with forget_sets; forget_norm; same_sides.

(** A processor reads nothing of what [forget] drops. *)
Lemma ProcessSectionHeader_forget x :
  result_map forget (__ProcessSectionHeader x) = result_map forget (__ProcessSectionHeader (forget x)).
Proof. forget_processor. Qed.

Lemma ProcessSubsectionHeader_forget x :
  result_map forget (__ProcessSubsectionHeader x) = result_map forget (__ProcessSubsectionHeader (forget x)).
Proof. forget_processor. Qed.

Lemma ProcessDefine_forget x :
  result_map forget (__ProcessDefine ext x) = result_map forget (__ProcessDefine ext (forget x)).
Proof. forget_processor. Qed.

Lemma ProcessDirective_forget x :
  result_map forget (__ProcessDirective ext x) = result_map forget (__ProcessDirective ext (forget x)).
Proof. forget_processor. Qed.

Lemma ProcessPackages_forget x :
  result_map forget (__ProcessPackages ext x) = result_map forget (__ProcessPackages ext (forget x)).
Proof. forget_processor. Qed.

Lemma ProcessSkuId_forget x :
  result_map forget (__ProcessSkuId ext x) = result_map forget (__ProcessSkuId ext (forget x)).
Proof. forget_processor. Qed.

Lemma ProcessLibraryInstance_forget x :
  result_map forget (__ProcessLibraryInstance ext x) = result_map forget (__ProcessLibraryInstance ext (forget x)).
Proof. forget_processor. Qed.

Lemma ProcessLibraryClass_forget x :
  result_map forget (__ProcessLibraryClass ext x) = result_map forget (__ProcessLibraryClass ext (forget x)).
Proof. forget_processor. Qed.

Lemma ProcessPcd_forget x :
  result_map forget (__ProcessPcd ext x) = result_map forget (__ProcessPcd ext (forget x)).
Proof. forget_processor. Qed.

Lemma Skip_forget x :
  result_map forget (_Skip x) = result_map forget (_Skip (forget x)).
Proof. forget_processor. Qed.

Lemma ProcessError_forget x :
  result_map forget (_ProcessError x) = result_map forget (_ProcessError (forget x)).
Proof. forget_processor. Qed.

Lemma Processer_forget ty process x :
  Processer ext ty = Some process ->
  result_map forget (process x) = result_map forget (process (forget x)).
Proof.
  intros Hp.
  destruct ty; cbn in Hp; try discriminate Hp; injection Hp as <-;
    first [ apply ProcessSectionHeader_forget
          | apply ProcessSubsectionHeader_forget
          | apply ProcessDefine_forget
          | apply ProcessDirective_forget
          | apply ProcessPackages_forget
          | apply ProcessSkuId_forget
          | apply ProcessLibraryInstance_forget
          | apply ProcessLibraryClass_forget
          | apply ProcessPcd_forget
          | apply Skip_forget
          | apply ProcessError_forget ].
Qed.

End SecondPass.

Section Simulation.
Variable ext : Externals.

Local Abbreviation DscParser := (Parser PlatformTable.DscLine).

(** [forget], and without the fields that every round sets before it
    reads them. *)
Definition forget_round (x : DscParser) : DscParser :=
  forget x <| _ItemType := MODEL_UNKNOWN |> <| _From := 0 |> <| _Scope := [] |>
    <| _LineIndex := 0 |> <| _ValueList := None |> <| _InSubsection := false |>.

Ltac record_cbv :=
  cbv [forget forget_round set
       set_OwnTable set_RawTable set_FileLocalMacros set_SectionsMacroDict
       set_Owner set_From set_ValueList set_Scope set_LineIndex
       set_CurrentLine set_SectionType set_SectionName set_InSubsection
       set_SubsectionType set_SubsectionName set_ItemType set_LastItem
       set_Enabled set_Finished set_PostProcessed set_DirectiveStack
       set_DirectiveEvalStack set_Symbols set_IdMapping set_Content
       set_ContentIndex set_DefinesCount set_gEdkGlobal set_gPlatformDefines
       set_gPlatformPcds
       Class_ DataType _OwnTable _RawTable _FileLocalMacros
       _SectionsMacroDict _Owner _From _ValueList _Scope _LineIndex
       _CurrentLine _SectionType _SectionName _InSubsection _SubsectionType
       _SubsectionName _ItemType _LastItem _Enabled _Finished _PostProcessed
       _Version _DirectiveStack _DirectiveEvalStack _InDirective _Symbols
       _IdMapping _Content _ContentIndex _DefinesCount gGlobalDefines
       gCommandLineDefines gEdkGlobal gPlatformDefines gPlatformPcds
       BuildOptionPcd].

Ltac record_cbv_in H :=
  cbv [forget forget_round set
       set_OwnTable set_RawTable set_FileLocalMacros set_SectionsMacroDict
       set_Owner set_From set_ValueList set_Scope set_LineIndex
       set_CurrentLine set_SectionType set_SectionName set_InSubsection
       set_SubsectionType set_SubsectionName set_ItemType set_LastItem
       set_Enabled set_Finished set_PostProcessed set_DirectiveStack
       set_DirectiveEvalStack set_Symbols set_IdMapping set_Content
       set_ContentIndex set_DefinesCount set_gEdkGlobal set_gPlatformDefines
       set_gPlatformPcds
       Class_ DataType _OwnTable _RawTable _FileLocalMacros
       _SectionsMacroDict _Owner _From _ValueList _Scope _LineIndex
       _CurrentLine _SectionType _SectionName _InSubsection _SubsectionType
       _SubsectionName _ItemType _LastItem _Enabled _Finished _PostProcessed
       _Version _DirectiveStack _DirectiveEvalStack _InDirective _Symbols
       _IdMapping _Content _ContentIndex _DefinesCount gGlobalDefines
       gCommandLineDefines gEdkGlobal gPlatformDefines gPlatformPcds
       BuildOptionPcd] in H.

Ltac same_sides :=
  match goal with
  | |- ?a = ?a => reflexivity
  end.

(** Two parsers that differ in nothing that a round reads enter the round
    alike. *)
Lemma round_enter_forget (a b : DscParser) item :
  forget_round a = forget_round b ->
  _IdMapping a !! PlatformTable.BelongsToItem item
  = _IdMapping b !! PlatformTable.BelongsToItem item ->
  forget (round_enter a item) = forget (round_enter b item).
Proof.
  intros H Hlook.
  destruct a as [p1 p2 p3 p4 p5 p6 p7 p8 p9 p10 p11 p12 p13 p14 p15 p16 p17 p18 p19 p20 p21 p22 p23 p24 p25 p26 p27 p28 p29 p30 p31 p32 p33 p34 p35 p36 p37].
  destruct b as [q1 q2 q3 q4 q5 q6 q7 q8 q9 q10 q11 q12 q13 q14 q15 q16 q17 q18 q19 q20 q21 q22 q23 q24 q25 q26 q27 q28 q29 q30 q31 q32 q33 q34 q35 q36 q37].
  record_cbv_in H. record_cbv_in Hlook. injection H as H. subst.
  unfold round_enter. cbn.
  destruct (bool_decide (PlatformTable.Model item = MODEL_META_DATA_INCLUDE));
    [destruct (merge_include _ _ _ _ _)|];
    record_cbv; rewrite Hlook; same_sides.
Qed.

(** How a round changes the id mapping: not at all, or by one entry. *)
Definition same_step (Ma Ma' Mb Mb' : gmap Z Z) : Prop :=
  (Ma' = Ma /\ Mb' = Mb)
  \/ exists k v, Ma' = <[k := v]> Ma /\ Mb' = <[k := v]> Mb.

(** ... and they store alike. *)
Lemma round_store_forget (x y : DscParser) item :
  forget x = forget y ->
  _IdMapping x !! PlatformTable.BelongsToItem item
  = _IdMapping y !! PlatformTable.BelongsToItem item ->
  forget (round_store x item) = forget (round_store y item)
  /\ same_step (_IdMapping x) (_IdMapping (round_store x item))
               (_IdMapping y) (_IdMapping (round_store y item)).
Proof.
  intros H Hlook.
  destruct x as [p1 p2 p3 p4 p5 p6 p7 p8 p9 p10 p11 p12 p13 p14 p15 p16 p17 p18 p19 p20 p21 p22 p23 p24 p25 p26 p27 p28 p29 p30 p31 p32 p33 p34 p35 p36 p37].
  destruct y as [q1 q2 q3 q4 q5 q6 q7 q8 q9 q10 q11 q12 q13 q14 q15 q16 q17 q18 q19 q20 q21 q22 q23 q24 q25 q26 q27 q28 q29 q30 q31 q32 q33 q34 q35 q36 q37].
  record_cbv_in H. record_cbv_in Hlook. injection H as H. subst.
  unfold round_store, same_step. cbn.
  destruct q9 as [vl|].
  - unfold PlatformTable_Insert_row, PlatformTable.Insert, with_Table, _Table.
    cbn. rewrite Hlook. destruct q3 as [t|]; record_cbv.
    + split; [same_sides|]. right. eexists _, _. split; reflexivity.
    + split; [same_sides|]. right. eexists _, _. split; reflexivity.
  - record_cbv. split; [same_sides|]. left. split; reflexivity.
Qed.

Lemma forget_round_current (a b : DscParser) :
  forget_round a = forget_round b ->
  _Content a = _Content b /\ _ContentIndex a = _ContentIndex b
  /\ _OwnTable a = _OwnTable b /\ _RawTable a = _RawTable b.
Proof.
  intros H.
  destruct a as [p1 p2 p3 p4 p5 p6 p7 p8 p9 p10 p11 p12 p13 p14 p15 p16 p17 p18 p19 p20 p21 p22 p23 p24 p25 p26 p27 p28 p29 p30 p31 p32 p33 p34 p35 p36 p37].
  destruct b as [q1 q2 q3 q4 q5 q6 q7 q8 q9 q10 q11 q12 q13 q14 q15 q16 q17 q18 q19 q20 q21 q22 q23 q24 q25 q26 q27 q28 q29 q30 q31 q32 q33 q34 q35 q36 q37].
  record_cbv_in H. injection H as H. subst. record_cbv. auto.
Qed.

Lemma forget_forget_round (a b : DscParser) :
  forget a = forget b -> forget_round a = forget_round b.
Proof. unfold forget_round. intros ->. reflexivity. Qed.

(** A processor run on two parsers that differ only in what [forget]
    drops ends alike. *)
Lemma Processer_forget_eq ty process (x y x' : DscParser) :
  Processer ext ty = Some process ->
  forget x = forget y ->
  process x = Ok x' ->
  exists y', process y = Ok y' /\ forget x' = forget y'.
Proof.
  intros Hp H Hx.
  pose proof (Processer_forget ext ty process x Hp) as E1.
  pose proof (Processer_forget ext ty process y Hp) as E2.
  rewrite H, <- E2, Hx in E1.
  destruct (process y) as [y'|e]; unfold result_map in E1; [|discriminate E1].
  exists y'. split; [reflexivity|congruence].
Qed.

(** A round run on two parsers that differ in nothing that it reads, and
    whose id mappings agree on the owner of the current row, ends alike. *)
Lemma PostProcess_round_forget (a b a' : DscParser) :
  forget_round a = forget_round b ->
  (forall item, current_item a = Some item ->
     _IdMapping a !! PlatformTable.BelongsToItem item
     = _IdMapping b !! PlatformTable.BelongsToItem item) ->
  _PostProcess_round ext a = Ok a' ->
  exists b',
    _PostProcess_round ext b = Ok b'
    /\ forget a' = forget b'
    /\ same_step (_IdMapping a) (_IdMapping a') (_IdMapping b) (_IdMapping b').
Proof.
  intros H Hlook Hr.
  destruct (PostProcess_round_factor ext _ _ Hr)
    as (item & process & x & Hcur & Hp & Hx & ->).
  destruct (forget_round_current _ _ H) as (Hc & Hi & _).
  specialize (Hlook item Hcur).
  pose proof (round_enter_forget a b item H Hlook) as He.
  destruct (Processer_forget_eq _ _ _ _ _ Hp He Hx) as (y & Hy & Hxy).
  destruct (Processer_frame ext _ _ _ _ Hp Hx) as (_ & _ & _ & _ & Hmx & _).
  destruct (Processer_frame ext _ _ _ _ Hp Hy) as (_ & _ & _ & _ & Hmy & _).
  destruct (round_enter_frame a item) as (_ & _ & _ & _ & Hma & _).
  destruct (round_enter_frame b item) as (_ & _ & _ & _ & Hmb & _).
  cbv zeta in Hma, Hmb.
  assert (Hlook' : _IdMapping x !! PlatformTable.BelongsToItem item
                   = _IdMapping y !! PlatformTable.BelongsToItem item)
    by congruence.
  destruct (round_store_forget x y item Hxy Hlook') as (Hs & Hstep).
  exists (round_store y item). split; [|split].
  - rewrite PostProcess_round_unfold.
    unfold current_item in *. rewrite <- Hc, <- Hi, Hcur, Hp, Hy. reflexivity.
  - exact Hs.
  - rewrite Hmx, Hma, Hmy, Hmb in Hstep. exact Hstep.
Qed.

(** The second map holds, for every key, what the first holds or what
    [final] holds. *)
Definition agree_or_final (final Ma Mb : gmap Z Z) : Prop :=
  forall k, Mb !! k = Ma !! k \/ Mb !! k = final !! k.

(** At this round, the id mapping holds for the owner of the current row
    what [final] holds for it. *)
Definition owner_settled (final : gmap Z Z) (round : DscParser * DscParser)
    : bool :=
  match current_item (fst round) with
  | Some item =>
      bool_decide (_IdMapping (fst round) !! PlatformTable.BelongsToItem item
                   = final !! PlatformTable.BelongsToItem item)
  | None => true
  end.

Lemma agree_or_final_step final Ma Ma' Mb Mb' :
  agree_or_final final Ma Mb -> same_step Ma Ma' Mb Mb' ->
  agree_or_final final Ma' Mb'.
Proof.
  intros Hinv [(-> & ->)|(k & v & -> & ->)]; [exact Hinv|].
  intros k'. destruct (decide (k = k')) as [->|Hne].
  - left. rewrite !lookup_insert_eq. reflexivity.
  - rewrite !lookup_insert_ne by exact Hne. apply Hinv.
Qed.

(** The loop run on two parsers that differ in nothing that a round reads
    ends alike, when the first run met every owner settled. *)
Lemma PostProcess_loop_forget final fuel (a b a' : DscParser) :
  forget_round a = forget_round b ->
  agree_or_final final (_IdMapping a) (_IdMapping b) ->
  forallb (owner_settled final) (_PostProcess_trace ext fuel a) = true ->
  _PostProcess_loop ext fuel a = Ok a' ->
  exists b', _PostProcess_loop ext fuel b = Ok b'
             /\ forget_round a' = forget_round b'.
Proof.
  revert a b. induction fuel as [|fuel IH]; intros a b H Hinv Hset;
    rewrite PostProcess_loop_unfold;
    rewrite PostProcess_trace_unfold in Hset;
    rewrite (PostProcess_loop_unfold ext _ b);
    destruct (forget_round_current _ _ H) as (Hc & Hi & _);
    rewrite <- Hc, <- Hi;
    destruct (_ContentIndex a <? length (_Content a))%nat;
    try discriminate;
    try (intros [= <-]; eauto; fail).
  destruct (_PostProcess_round ext a) as [a1|] eqn:Hr; [|discriminate].
  cbn [mbind result_bind]. intros Hloop.
  cbn [forallb] in Hset. apply andb_true_iff in Hset as (Hnow & Hrest).
  destruct (PostProcess_round_forget a b a1 H) with (2 := Hr)
    as (b1 & Hrb & Hf & Hstep).
  { intros item Hcur. unfold owner_settled in Hnow. cbn [fst] in Hnow.
    rewrite Hcur in Hnow. apply bool_decide_eq_true_1 in Hnow.
    destruct (Hinv (PlatformTable.BelongsToItem item)) as [E|E];
      rewrite E; [reflexivity|exact Hnow]. }
  rewrite Hrb. cbn [mbind result_bind].
  apply (IH a1 b1); auto.
  - apply forget_forget_round. exact Hf.
  - eapply agree_or_final_step; eauto.
Qed.

Ltac fields_cbv_in H :=
  cbv [fixed carried
       Class_ DataType _OwnTable _RawTable _FileLocalMacros
       _SectionsMacroDict _Owner _From _ValueList _Scope _LineIndex
       _CurrentLine _SectionType _SectionName _InSubsection _SubsectionType
       _SubsectionName _ItemType _LastItem _Enabled _Finished _PostProcessed
       _Version _DirectiveStack _DirectiveEvalStack _InDirective _Symbols
       _IdMapping _Content _ContentIndex _DefinesCount gGlobalDefines
       gCommandLineDefines gEdkGlobal gPlatformDefines gPlatformPcds
       BuildOptionPcd] in H.

(** Entering the pass resets or keeps everything but the carried fields:
    two parsers with the same raw table and the same carried fields enter
    alike. *)
Lemma PostProcess_enter_forget (s f e1 : DscParser) :
  fixed f = fixed s -> _RawTable f = _RawTable s -> carried f = carried s ->
  _PostProcess_enter ext s = Ok e1 ->
  exists e2,
    _PostProcess_enter ext f = Ok e2
    /\ forget_round e1 = forget_round e2
    /\ _IdMapping e1 = _IdMapping s /\ _IdMapping e2 = _IdMapping f.
Proof.
  intros Hfix Hraw Hcar.
  destruct s as [p1 p2 p3 p4 p5 p6 p7 p8 p9 p10 p11 p12 p13 p14 p15 p16 p17 p18 p19 p20 p21 p22 p23 p24 p25 p26 p27 p28 p29 p30 p31 p32 p33 p34 p35 p36 p37].
  destruct f as [q1 q2 q3 q4 q5 q6 q7 q8 q9 q10 q11 q12 q13 q14 q15 q16 q17 q18 q19 q20 q21 q22 q23 q24 q25 q26 q27 q28 q29 q30 q31 q32 q33 q34 q35 q36 q37].
  fields_cbv_in Hfix. fields_cbv_in Hraw. fields_cbv_in Hcar.
  injection Hfix as Hfix. injection Hcar as Hcar. subst.
  unfold _PostProcess_enter.
  destruct (ReadLines ext); [|discriminate]. intros [= <-].
  eexists. split; [reflexivity|]. record_cbv.
  split; [same_sides|]. split; reflexivity.
Qed.

(** The pass writes none of the fixed fields and leaves the raw table. *)
Lemma PostProcess_fixed fuel (s f : DscParser) :
  _PostProcess ext fuel s = Ok f ->
  fixed f = fixed s /\ _RawTable f = _RawTable s.
Proof.
  unfold _PostProcess.
  destruct (_PostProcess_enter ext s) as [e|] eqn:He; [|discriminate].
  cbn [mbind result_bind].
  destruct (_PostProcess_loop ext fuel e) as [x|] eqn:Hl; [|discriminate].
  cbn [mbind result_bind]. intros [= <-].
  destruct (PostProcess_loop_trace ext _ _ _ Hl) as (_ & Hfix & Hraw).
  unfold _PostProcess_enter in He.
  destruct (ReadLines ext); [|discriminate]. injection He as <-.
  destruct Hraw as (Hraw & _); [vm_compute; eauto|].
  revert Hfix Hraw. generalize x. clear.
  intros x.
  destruct s as [p1 p2 p3 p4 p5 p6 p7 p8 p9 p10 p11 p12 p13 p14 p15 p16 p17 p18 p19 p20 p21 p22 p23 p24 p25 p26 p27 p28 p29 p30 p31 p32 p33 p34 p35 p36 p37].
  destruct x as [q1 q2 q3 q4 q5 q6 q7 q8 q9 q10 q11 q12 q13 q14 q15 q16 q17 q18 q19 q20 q21 q22 q23 q24 q25 q26 q27 q28 q29 q30 q31 q32 q33 q34 q35 q36 q37].
  unfold fixed. record_cbv. intros Hfix Hraw. split; assumption.
Qed.

End Simulation.

(** Has the first pass from [self], which ended in [first], met at every
    round the id of the current row's owner mapped as it is mapped in
    [first]?  So it is when owners come before what they own and no raw id
    comes twice. *)
Definition owners_settled (ext : Externals) (fuel : nat)
    (self first : Parser PlatformTable.DscLine) : bool :=
  match _PostProcess_enter ext self with
  | Ok entered =>
      forallb (owner_settled (_IdMapping first))
              (_PostProcess_trace ext fuel entered)
  | Err _ => true
  end.

Lemma rows_after_loop (x : Parser PlatformTable.DscLine) g :
  rows (x <| gPlatformDefines := g |> <| _PostProcessed := true |>
          <| _Content := [] |>) = rows x.
Proof.
  destruct x as [p1 p2 p3 p4 p5 p6 p7 p8 p9 p10 p11 p12 p13 p14 p15 p16 p17 p18 p19 p20 p21 p22 p23 p24 p25 p26 p27 p28 p29 p30 p31 p32 p33 p34 p35 p36 p37].
  vm_compute. reflexivity.
Qed.

(** C4 fails as stated: on the file [[PcdsFeatureFlag]],
    [!ifdef gTokenSpaceGuid.PcdFlag], [gTokenSpaceGuid.PcdOther|TRUE],
    [!endif], [gTokenSpaceGuid.PcdFlag|TRUE] the first pass finds the flag
    undefined at the [!ifdef] and stores that row and the one inside it
    disabled; it then records the flag in [self._Symbols], which no pass
    resets, so the second pass stores both rows enabled. *)
Lemma PostProcess_second_pass_differs :
  exists rows1 rows2,
    resolved_once (example_ext []) 5 (parsed scenario_ifdef_pcd) = Some rows1
    /\ resolved_twice (example_ext []) 5 (parsed scenario_ifdef_pcd)
       = Some rows2
    /\ map brief rows1
       = [ (MODEL_META_DATA_SECTION_HEADER, "", true);
           (MODEL_META_DATA_CONDITIONAL_STATEMENT_IFDEF, "", false);
           (MODEL_PCD_FEATURE_FLAG, "1||", false);
           (MODEL_META_DATA_CONDITIONAL_STATEMENT_ENDIF, "", true);
           (MODEL_PCD_FEATURE_FLAG, "1||", true) ]
    /\ map brief rows2
       = [ (MODEL_META_DATA_SECTION_HEADER, "", true);
           (MODEL_META_DATA_CONDITIONAL_STATEMENT_IFDEF, "", true);
           (MODEL_PCD_FEATURE_FLAG, "1||", true);
           (MODEL_META_DATA_CONDITIONAL_STATEMENT_ENDIF, "", true);
           (MODEL_PCD_FEATURE_FLAG, "1||", true) ].
Proof.
  eexists _, _. split; [vm_compute; reflexivity|].
  split; [vm_compute; reflexivity|].
  split; vm_compute; reflexivity.
Qed.

(** *** The second pass seen from the first

    A pass reads, sets and does not reset when it is entered: the PCD
    symbols, the EDK globals, the section type and name, the sub-section
    type and the enabled flag.  [Written] says which of the last four the
    pass has set so far. *)
Record Written : Type := mkWritten {
  w_section : bool;
  w_subsection : bool;
  w_enabled : bool
}.

(** After a round: a section header sets the section, a sub-section header
    the sub-section type, and a round that stores its row the enabled
    flag. *)
Definition written_after (w : Written)
    (round : Parser PlatformTable.DscLine * Parser PlatformTable.DscLine)
    : Written :=
  let ty := match current_item (fst round) with
            | Some item => PlatformTable.Model item
            | None => MODEL_UNKNOWN
            end in
  mkWritten
    (w_section w || bool_decide (ty = MODEL_META_DATA_SECTION_HEADER))
    (w_subsection w || bool_decide (ty = MODEL_META_DATA_SUBSECTION_HEADER))
    (w_enabled w || bool_decide (is_Some (_ValueList (snd round)))).

(** The parser [x] of the first pass as the second pass meets it at the
    same round, [final] being what the first pass leaves: the symbols and
    the EDK globals that the first pass defines later are there already,
    with the values that it leaves, and the section, the sub-section type
    and the enabled flag are those that it leaves until the pass sets
    them. *)
Definition as_second (final : Parser PlatformTable.DscLine) (w : Written)
    (x : Parser PlatformTable.DscLine) : Parser PlatformTable.DscLine :=
  x <| _Symbols := _Symbols x ∪ _Symbols final |>
    <| gEdkGlobal := gEdkGlobal x ∪ gEdkGlobal final |>
    <| _SectionType :=
         if w_section w then _SectionType x else _SectionType final |>
    <| _SectionName :=
         if w_section w then _SectionName x else _SectionName final |>
    <| _SubsectionType :=
         if w_subsection w then _SubsectionType x else _SubsectionType final |>
    <| _Enabled := if w_enabled w then _Enabled x else _Enabled final |>.

(** Every round of the trace does the same when it is run as the second
    pass meets it: no round reads what the pass sets later. *)
Fixpoint rounds_reread (ext : Externals)
    (final : Parser PlatformTable.DscLine) (w : Written)
    (trace : list (Parser PlatformTable.DscLine * Parser PlatformTable.DscLine))
    : Prop :=
  match trace with
  | [] => True
  | (x, x') :: rest =>
      _PostProcess_round ext (as_second final w x)
      = Ok (as_second final (written_after w (x, x')) x')
      /\ rounds_reread ext final (written_after w (x, x')) rest
  end.

(** Has no round of the first pass from [self], which ended in [first],
    read what the pass set later? *)
Definition nothing_read_ahead (ext : Externals) (fuel : nat)
    (self first : Parser PlatformTable.DscLine) : Prop :=
  match _PostProcess_enter ext self with
  | Ok entered =>
      rounds_reread ext first (mkWritten false false false)
                    (_PostProcess_trace ext fuel entered)
  | Err _ => True
  end.

Section SecondPassFromFirst.
Variable ext : Externals.

Local Abbreviation DscParser := (Parser PlatformTable.DscLine).

Ltac record_cbv :=
  cbv [forget forget_round fixed set
       set_OwnTable set_RawTable set_FileLocalMacros set_SectionsMacroDict
       set_Owner set_From set_ValueList set_Scope set_LineIndex
       set_CurrentLine set_SectionType set_SectionName set_InSubsection
       set_SubsectionType set_SubsectionName set_ItemType set_LastItem
       set_Enabled set_Finished set_PostProcessed set_DirectiveStack
       set_DirectiveEvalStack set_Symbols set_IdMapping set_Content
       set_ContentIndex set_DefinesCount set_gEdkGlobal set_gPlatformDefines
       set_gPlatformPcds
       Class_ DataType _OwnTable _RawTable _FileLocalMacros
       _SectionsMacroDict _Owner _From _ValueList _Scope _LineIndex
       _CurrentLine _SectionType _SectionName _InSubsection _SubsectionType
       _SubsectionName _ItemType _LastItem _Enabled _Finished _PostProcessed
       _Version _DirectiveStack _DirectiveEvalStack _InDirective _Symbols
       _IdMapping _Content _ContentIndex _DefinesCount gGlobalDefines
       gCommandLineDefines gEdkGlobal gPlatformDefines gPlatformPcds
       BuildOptionPcd] in *.

(** [as_second] leaves the content, the tables and the id mapping. *)
Lemma as_second_frame (final : DscParser) w (x : DscParser) :
  _Content (as_second final w x) = _Content x
  /\ _ContentIndex (as_second final w x) = _ContentIndex x
  /\ _OwnTable (as_second final w x) = _OwnTable x
  /\ _RawTable (as_second final w x) = _RawTable x
  /\ _IdMapping (as_second final w x) = _IdMapping x.
Proof.
  destruct x as [p1 p2 p3 p4 p5 p6 p7 p8 p9 p10 p11 p12 p13 p14 p15 p16 p17 p18 p19 p20 p21 p22 p23 p24 p25 p26 p27 p28 p29 p30 p31 p32 p33 p34 p35 p36 p37].
  split; [reflexivity|]. split; [reflexivity|]. split; [reflexivity|].
  split; reflexivity.
Qed.

(** Before the pass has set anything, and when it changes no symbol and
    no EDK global that was there before, this is the parser with the six
    fields as the first pass leaves them. *)
Lemma as_second_start (final x : DscParser) :
  _Symbols x ∪ _Symbols final = _Symbols final ->
  gEdkGlobal x ∪ gEdkGlobal final = gEdkGlobal final ->
  as_second final (mkWritten false false false) x
  = x <| _Symbols := _Symbols final |>
      <| gEdkGlobal := gEdkGlobal final |>
      <| _SectionType := _SectionType final |>
      <| _SectionName := _SectionName final |>
      <| _SubsectionType := _SubsectionType final |>
      <| _Enabled := _Enabled final |>.
Proof.
  intros E1 E2. unfold as_second. rewrite E1, E2. reflexivity.
Qed.

(** A round of the second pass goes as the round of the first, run as
    the second pass meets it. *)
Lemma PostProcess_round_second (final a b a1 x x1 : DscParser) :
  _Content x = _Content a -> _ContentIndex x = _ContentIndex a ->
  _IdMapping x = _IdMapping a -> _IdMapping x1 = _IdMapping a1 ->
  forget_round x = forget_round b ->
  agree_or_final (_IdMapping final) (_IdMapping a) (_IdMapping b) ->
  _PostProcess_round ext x = Ok x1 ->
  owner_settled (_IdMapping final) (a, a1) = true ->
  exists b1,
    _PostProcess_round ext b = Ok b1
    /\ forget_round x1 = forget_round b1
    /\ agree_or_final (_IdMapping final) (_IdMapping a1) (_IdMapping b1).
Proof.
  intros Fc Fi Fm Fm1 Hf Hinv Hnow' Hnow.
  destruct (PostProcess_round_forget ext x b x1 Hf) as (b1 & Hrb & Hfb & Hstep).
  { intros item Hcur. unfold current_item in Hcur. rewrite Fc, Fi in Hcur.
    rewrite Fm. unfold owner_settled in Hnow. cbn [fst] in Hnow.
    unfold current_item in Hnow. rewrite Hcur in Hnow.
    apply bool_decide_eq_true_1 in Hnow.
    destruct (Hinv (PlatformTable.BelongsToItem item)) as [E|E];
      rewrite E; [reflexivity|exact Hnow]. }
  { exact Hnow'. }
  exists b1. split; [exact Hrb|]. split.
  - apply forget_forget_round. exact Hfb.
  - rewrite Fm, Fm1 in Hstep.
    exact (agree_or_final_step _ _ _ _ _ Hinv Hstep).
Qed.

(** The loop of the second pass goes as the loop of the first, round by
    round, when no round of the first has read ahead and every owner was
    settled. *)
Lemma PostProcess_loop_second (final : DscParser) fuel :
  forall (a b a' : DscParser) (w : Written),
    forget_round (as_second final w a) = forget_round b ->
    agree_or_final (_IdMapping final) (_IdMapping a) (_IdMapping b) ->
    rounds_reread ext final w (_PostProcess_trace ext fuel a) ->
    forallb (owner_settled (_IdMapping final)) (_PostProcess_trace ext fuel a)
    = true ->
    _PostProcess_loop ext fuel a = Ok a' ->
    exists b' w',
      _PostProcess_loop ext fuel b = Ok b'
      /\ forget_round (as_second final w' a') = forget_round b'.
Proof.
  induction fuel as [|fuel IH]; intros a b a' w Hf Hinv Hre Hset;
    rewrite PostProcess_loop_unfold;
    rewrite PostProcess_trace_unfold in Hre, Hset;
    rewrite (PostProcess_loop_unfold ext _ b);
    destruct (forget_round_current _ _ Hf) as (Hc & Hi & _);
    destruct (as_second_frame final w a) as (Fc & Fi & _ & _ & Fm);
    rewrite Fc in Hc; rewrite Fi in Hi;
    rewrite <- Hc, <- Hi;
    destruct (_ContentIndex a <? length (_Content a))%nat;
    try discriminate;
    try (intros [= <-]; exists b, w; split; [reflexivity|exact Hf]).
  destruct (_PostProcess_round ext a) as [a1|] eqn:Hr; [|discriminate].
  cbn [mbind result_bind]. intros Hloop.
  destruct Hre as (Hnow' & Hrest').
  cbn [forallb] in Hset. apply andb_true_iff in Hset as (Hnow & Hrest).
  destruct (as_second_frame final (written_after w (a, a1)) a1)
    as (_ & _ & _ & _ & Fm1).
  destruct (PostProcess_round_second final a b a1 _ _ Fc Fi Fm Fm1
              Hf Hinv Hnow' Hnow) as (b1 & Hrb & Hfb & Hinv1).
  rewrite Hrb. cbn [mbind result_bind].
  exact (IH a1 b1 a' (written_after w (a, a1)) Hfb Hinv1 Hrest' Hrest Hloop).
Qed.

(** The second pass is entered as the first, seen from the second. *)
Lemma PostProcess_enter_second (s f e1 : DscParser) :
  fixed f = fixed s -> _RawTable f = _RawTable s ->
  _Symbols s ⊆ _Symbols f -> gEdkGlobal s ⊆ gEdkGlobal f ->
  _PostProcess_enter ext s = Ok e1 ->
  exists e2,
    _PostProcess_enter ext f = Ok e2
    /\ forget_round (as_second f (mkWritten false false false) e1)
       = forget_round e2
    /\ _IdMapping e1 = _IdMapping s /\ _IdMapping e2 = _IdMapping f.
Proof.
  intros Hfix Hraw Hsym Hedk He.
  apply map_subseteq_union in Hsym. apply map_subseteq_union in Hedk.
  assert (Hkeep : _Symbols e1 = _Symbols s /\ gEdkGlobal e1 = gEdkGlobal s).
  { unfold _PostProcess_enter in He.
    destruct (ReadLines ext); [|discriminate]. injection He as <-.
    destruct s; split; reflexivity. }
  destruct Hkeep as [Hs1 Hg1].
  rewrite (as_second_start f e1);
    [|rewrite Hs1; exact Hsym|rewrite Hg1; exact Hedk].
  clear Hsym Hedk Hs1 Hg1. revert He.
  destruct s as [p1 p2 p3 p4 p5 p6 p7 p8 p9 p10 p11 p12 p13 p14 p15 p16 p17 p18 p19 p20 p21 p22 p23 p24 p25 p26 p27 p28 p29 p30 p31 p32 p33 p34 p35 p36 p37].
  destruct f as [q1 q2 q3 q4 q5 q6 q7 q8 q9 q10 q11 q12 q13 q14 q15 q16 q17 q18 q19 q20 q21 q22 q23 q24 q25 q26 q27 q28 q29 q30 q31 q32 q33 q34 q35 q36 q37].
  record_cbv. injection Hfix as Hfix. subst.
  unfold _PostProcess_enter.
  destruct (ReadLines ext); [|discriminate]. intros [= <-].
  eexists. split; [reflexivity|]. record_cbv.
  split; [reflexivity|]. split; reflexivity.
Qed.

End SecondPassFromFirst.

(** C4 (amended): a second pass on the parser that a first, successful
    pass has left succeeds and yields the same resolved rows, field for
    field, provided that
    - the first pass has changed no symbol and no EDK global that was
      defined before it,
    - no round of the first pass has read what the pass set later: every
      round gives the same result when the symbols and the EDK globals that
      the pass defines later are there already and, until the pass sets
      them, the section, the sub-section type and the enabled flag are
      those that the pass leaves, and
    - at every round of the first pass the id mapping held for the owner
      of the current row what it holds at the end of the pass. *)
Theorem PostProcess_second_pass ext fuel
    (self first : Parser PlatformTable.DscLine) :
  _PostProcess ext fuel self = Ok first ->
  _Symbols self ⊆ _Symbols first ->
  gEdkGlobal self ⊆ gEdkGlobal first ->
  nothing_read_ahead ext fuel self first ->
  owners_settled ext fuel self first = true ->
  exists second,
    _PostProcess ext fuel first = Ok second
    /\ rows second = rows first.
Proof.
  intros Hp Hsym Hedk Hre Hown.
  destruct (PostProcess_fixed ext _ _ _ Hp) as (Hfix & Hraw).
  unfold _PostProcess in Hp. unfold owners_settled in Hown.
  unfold nothing_read_ahead in Hre.
  destruct (_PostProcess_enter ext self) as [e1|] eqn:He; [|discriminate].
  cbn [mbind result_bind] in Hp.
  destruct (_PostProcess_loop ext fuel e1) as [x1|] eqn:Hl; [|discriminate].
  cbn [mbind result_bind] in Hp. injection Hp as Hfirst.
  destruct (PostProcess_enter_second ext _ _ _ Hfix Hraw Hsym Hedk He)
    as (e2 & He2 & Hf & Hm1 & Hm2).
  destruct (PostProcess_loop_second ext first fuel e1 e2 x1 _ Hf)
    as (x2 & w' & Hl2 & Hfx); auto.
  { intros k. right. rewrite Hm2. reflexivity. }
  unfold _PostProcess. rewrite He2. cbn [mbind result_bind].
  rewrite Hl2. cbn [mbind result_bind].
  eexists. split; [reflexivity|].
  rewrite <- Hfirst, !rows_after_loop.
  destruct (forget_round_current _ _ Hfx) as (_ & _ & Ho & Hr).
  destruct (as_second_frame first w' x1) as (_ & _ & Fo & Fr & _).
  rewrite Fo in Ho. rewrite Fr in Hr.
  unfold rows. rewrite (Table_eq x2 x1); [reflexivity| |]; congruence.
Qed.

(** [PostProcess_second_pass] on the file [[PcdsFeatureFlag]],
    [gTokenSpaceGuid.PcdFlag|TRUE]: the first pass defines the symbol
    [gTokenSpaceGuid.PcdFlag], which no row reads; the second pass stores
    the same rows. *)
Lemma PostProcess_second_pass_witness :
  exists first second,
    _PostProcess (example_ext []) 2 (parsed scenario_pcd_defined) = Ok first
    /\ _Symbols (parsed scenario_pcd_defined) !! "gTokenSpaceGuid.PcdFlag" = None
    /\ _Symbols first !! "gTokenSpaceGuid.PcdFlag" = Some "1"
    /\ _PostProcess (example_ext []) 2 first = Ok second
    /\ rows second = rows first.
Proof.
  pose (first := match _PostProcess (example_ext []) 2
                         (parsed scenario_pcd_defined)
                 with Ok s => s | Err _ => parsed scenario_pcd_defined end).
  destruct (PostProcess_second_pass (example_ext []) 2%nat
              (parsed scenario_pcd_defined) first)
    as (second & Hsecond & Hrows).
  - vm_compute. reflexivity.
  - replace (_Symbols (parsed scenario_pcd_defined)) with (∅ : Macros)
      by (vm_compute; reflexivity).
    apply map_empty_subseteq.
  - replace (gEdkGlobal (parsed scenario_pcd_defined)) with (∅ : Macros)
      by (vm_compute; reflexivity).
    apply map_empty_subseteq.
  - vm_compute. split; [reflexivity|]. split; [reflexivity|exact I].
  - vm_compute. reflexivity.
  - exists first, second. split; [vm_compute; reflexivity|].
    split; [vm_compute; reflexivity|]. split; [vm_compute; reflexivity|].
    split; [exact Hsecond|exact Hrows].
Defined.

(** ** More on the record tables *)

Lemma filter_filter_comm {A : Type} (f g : A -> bool) (l : list A) :
  List.filter f (List.filter g l) = List.filter g (List.filter f l).
Proof.
  induction l as [|a l IH]; [reflexivity|]. cbn.
  destruct (f a) eqn:Ef, (g a) eqn:Eg; cbn; rewrite ?Ef, ?Eg, IH; reflexivity.
Qed.

(** The queries read the content only: [Query] of a table whose content is
    [l1 ++ l2] is [Query] of [l1] followed by [Query] of [l2]. *)
Lemma PlatformTable_Query_app l1 l2 i m s1 s2 b f :
  PlatformTable.Query (MetaFileTable.mk (l1 ++ l2) i) m s1 s2 b f
  = PlatformTable.Query (MetaFileTable.mk l1 i) m s1 s2 b f
    ++ PlatformTable.Query (MetaFileTable.mk l2 i) m s1 s2 b f.
Proof.
  unfold PlatformTable.Query. cbn [MetaFileTable.CurrentContent]. cbv zeta.
  rewrite List.filter_app.
  destruct s1 as [a|]; [destruct (bool_decide (a <> TAB_ARCH_COMMON))|];
    rewrite ?List.filter_app;
    (destruct s2 as [p|];
     [destruct (bool_decide (p <> "") && bool_decide (p <> TAB_COMMON))|];
     rewrite ?List.filter_app;
     destruct b as [b|]; rewrite ?List.filter_app;
     destruct f as [f|]; rewrite ?List.filter_app; reflexivity).
Qed.

(** X1. [PlatformTable.Insert] followed by [Query]: the query returns what it
    returned before the insert, in the same order, followed by the new row
    if the new row answers the query; the new row carries the id that
    [Insert] returns, the counter plus one, and the stripped texts. *)
Theorem PlatformTable_Query_after_Insert
    t M v1 v2 v3 c1 c2 c3 owner from sl sc el ec cm cd inc en m s1 s2 b f :
  let row :=
    PlatformTable.mkDscLine (MetaFileTable.ID t + 1) M
      (Py.strip v1) (Py.strip v2) (Py.strip v3)
      (Py.strip c1) (Py.strip c2) (Py.strip c3) owner from sl sc el ec
      (Py.strip cm) (Py.strip cd) (Py.strip inc) en in
  let after :=
    PlatformTable.Insert t M v1 v2 v3 c1 c2 c3 owner from sl sc el ec
                         cm cd inc en in
  snd after = MetaFileTable.ID t + 1
  /\ MetaFileTable.CurrentContent (fst after)
     = MetaFileTable.CurrentContent t ++ [row]
  /\ PlatformTable.Query (fst after) m s1 s2 b f
     = PlatformTable.Query t m s1 s2 b f
       ++ PlatformTable.Query (MetaFileTable.mk [row] 0) m s1 s2 b f
  /\ (PlatformTable.Query (MetaFileTable.mk [row] 0) m s1 s2 b f = [row]
      \/ PlatformTable.Query (MetaFileTable.mk [row] 0) m s1 s2 b f = []).
Proof.
  intros row after. subst after. unfold PlatformTable.Insert. cbv zeta.
  cbn [fst snd MetaFileTable.CurrentContent]. fold row.
  unfold MetaFileTable._ID_STEP_.
  split; [reflexivity|]. split; [reflexivity|]. split.
  - destruct t as [l i]. cbn [MetaFileTable.CurrentContent MetaFileTable.ID].
    rewrite PlatformTable_Query_app. reflexivity.
  - unfold PlatformTable.Query. cbn [MetaFileTable.CurrentContent]. cbv zeta.
    generalize row. intros r. cbn [List.filter].
    repeat match goal with
           | |- context [match ?x with _ => _ end] =>
               lazymatch x with
               | context [match _ with _ => _ end] => fail
               | _ => destruct x; cbn [List.filter]
               end
           end; auto.
Qed.

(** X2. [PlatformTable.DisableComponent] followed by [Query]: the query returns
    what it returned before without the component row and the rows that
    belong to it, and nothing else changes. *)
Theorem PlatformTable_Query_after_DisableComponent t comp_id m s1 s2 b f :
  PlatformTable.Query (PlatformTable.DisableComponent t comp_id) m s1 s2 b f
  = List.filter
      (fun item => negb ((PlatformTable.ID item =? comp_id)
                         || (PlatformTable.BelongsToItem item =? comp_id)))
      (PlatformTable.Query t m s1 s2 b f).
Proof.
  destruct t as [l i]. unfold PlatformTable.DisableComponent.
  cbn [MetaFileTable.CurrentContent MetaFileTable.ID].
  set (keep := fun item => negb ((PlatformTable.ID item =? comp_id)
                                 || (PlatformTable.BelongsToItem item =? comp_id))).
  match goal with |- context [map ?g l] => set (h := g) end.
  assert (Hon : forall a, keep a = true -> h a = a).
  { intros a Hk. unfold h, keep in *.
    destruct ((PlatformTable.ID a =? comp_id)
              || (PlatformTable.BelongsToItem a =? comp_id));
      [discriminate Hk|reflexivity]. }
  assert (Hoff : forall a, keep a = false ->
                           PlatformTable.Enabled (h a) = false).
  { intros a Hk. unfold h, keep in *.
    destruct ((PlatformTable.ID a =? comp_id)
              || (PlatformTable.BelongsToItem a =? comp_id));
      [reflexivity|discriminate Hk]. }
  clearbody h.
  assert (Hbase :
    List.filter (fun item => bool_decide (PlatformTable.Model item = m)
                             && PlatformTable.Enabled item) (map h l)
    = List.filter keep
        (List.filter (fun item => bool_decide (PlatformTable.Model item = m)
                                  && PlatformTable.Enabled item) l)).
  { induction l as [|a l IH]; [reflexivity|]. cbn [map List.filter].
    destruct (keep a) eqn:Ek.
    - rewrite (Hon a Ek).
      destruct (bool_decide (PlatformTable.Model a = m)
                && PlatformTable.Enabled a); cbn [List.filter];
        rewrite ?Ek, IH; reflexivity.
    - rewrite (Hoff a Ek), andb_false_r.
      destruct (bool_decide (PlatformTable.Model a = m)
                && PlatformTable.Enabled a); cbn [List.filter];
        rewrite ?Ek, IH; reflexivity. }
  unfold PlatformTable.Query. cbn [MetaFileTable.CurrentContent]. cbv zeta.
  rewrite Hbase.
  destruct s1 as [a|]; [destruct (bool_decide (a <> TAB_ARCH_COMMON))|];
    (destruct s2 as [p|];
     [destruct (bool_decide (p <> "") && bool_decide (p <> TAB_COMMON))|];
     destruct b as [b|]; destruct f as [f|];
     rewrite ?(filter_filter_comm _ keep); reflexivity).
Qed.

Lemma GetAll_app {L : Type} `{MetaFileTable.Row L} (l1 l2 : list L) i j k :
  MetaFileTable.GetAll (MetaFileTable.mk (l1 ++ l2) i)
  = MetaFileTable.GetAll (MetaFileTable.mk l1 j)
    ++ MetaFileTable.GetAll (MetaFileTable.mk l2 k).
Proof.
  unfold MetaFileTable.GetAll. cbn [MetaFileTable.CurrentContent].
  apply List.filter_app.
Qed.

Lemma IsIntegrity_last {L : Type} `{MetaFileTable.Row L} (l : list L) row i :
  MetaFileTable.IsIntegrity (MetaFileTable.mk (l ++ [row]) i)
  = (MetaFileTable.row_ID row <? 0).
Proof.
  unfold MetaFileTable.IsIntegrity, MetaFileTable.last_row.
  cbn [MetaFileTable.CurrentContent].
  rewrite map_app. cbn [map]. rewrite last_last. reflexivity.
Qed.

(** X3. The end flag of a D-shape table: a new table has none; [SetEndFlag]
    sets it; [GetAll] returns the same rows with and without it, all of
    them rows of the table with an id that is not negative and enabled;
    and an [Insert] made after [SetEndFlag], on a table whose counter is
    not negative, takes the flag away again. *)
Theorem PlatformTable_end_flag (t : MetaFileTable.t PlatformTable.DscLine) :
  0 <= MetaFileTable.ID t ->
  MetaFileTable.IsIntegrity (MetaFileTable.init (L := PlatformTable.DscLine))
  = false
  /\ MetaFileTable.IsIntegrity (MetaFileTable.SetEndFlag t) = true
  /\ MetaFileTable.GetAll (MetaFileTable.SetEndFlag t) = MetaFileTable.GetAll t
  /\ (forall r, In r (MetaFileTable.GetAll t) ->
        In r (MetaFileTable.CurrentContent t)
        /\ 0 <= PlatformTable.ID r /\ PlatformTable.Enabled r = true)
  /\ (forall M v1 v2 v3 c1 c2 c3 owner from sl sc el ec cm cd inc en,
        MetaFileTable.IsIntegrity
          (fst (PlatformTable.Insert (MetaFileTable.SetEndFlag t)
                  M v1 v2 v3 c1 c2 c3 owner from sl sc el ec cm cd inc en))
        = false).
Proof.
  intros Hid. destruct t as [l i]. cbn [MetaFileTable.ID] in Hid.
  split; [reflexivity|].
  split; [unfold MetaFileTable.SetEndFlag;
          cbn [MetaFileTable.CurrentContent];
          rewrite IsIntegrity_last; reflexivity|].
  split; [|split].
  - unfold MetaFileTable.SetEndFlag.
    cbn [MetaFileTable.CurrentContent MetaFileTable.ID].
    rewrite (GetAll_app l _ i i i). unfold MetaFileTable.GetAll at 2.
    cbn. apply app_nil_r.
  - intros r Hin. unfold MetaFileTable.GetAll in Hin.
    apply List.filter_In in Hin as (Hin & Hok).
    apply andb_true_iff in Hok as (Hge & Hen).
    cbn in Hge, Hen. split; [exact Hin|]. split; [lia|exact Hen].
  - intros. unfold PlatformTable.Insert, MetaFileTable.SetEndFlag. cbv zeta.
    cbn [fst MetaFileTable.CurrentContent MetaFileTable.ID].
    rewrite IsIntegrity_last. cbn [MetaFileTable.row_ID PlatformTable.DscLine_Row
                                   PlatformTable.ID].
    unfold MetaFileTable._ID_STEP_. apply Z.ltb_ge. lia.
Qed.

(** [PlatformTable_end_flag] on the table of one row. *)
Lemma PlatformTable_end_flag_witness :
  MetaFileTable.IsIntegrity (MetaFileTable.SetEndFlag component_table) = true
  /\ MetaFileTable.GetAll (MetaFileTable.SetEndFlag component_table)
     = MetaFileTable.GetAll component_table.
Proof.
  destruct (PlatformTable_end_flag component_table) as (_ & H1 & H2 & _).
  - vm_compute. discriminate.
  - split; [exact H1|exact H2].
Defined.

(** ** More on the folding of multi-line CODE values *)

Definition code_fold (Content : list string) (st : CodeFold) : CodeFold :=
  fold_left code_fold_line Content st.

Lemma code_fold_cons Line rest st :
  code_fold (Line :: rest) st = code_fold rest (code_fold_line st Line).
Proof. reflexivity. Qed.

(** The lines already put out do not bear on what follows. *)
Lemma code_fold_acc Content b cl c acc :
  let st := code_fold Content (mkCodeFold b cl c acc) in
  let st0 := code_fold Content (mkCodeFold b cl c []) in
  newContent st = acc ++ newContent st0
  /\ CODEBegin st = CODEBegin st0
  /\ continuelinecount st = continuelinecount st0.
Proof.
  revert b cl c acc. induction Content as [|Line rest IH]; intros b cl c acc.
  - cbn. rewrite app_nil_r. auto.
  - cbv zeta. rewrite !code_fold_cons.
    unfold code_fold_line.
    cbn [CODEBegin CODELine continuelinecount newContent].
    destruct b.
    + destruct (Py.contains Line ")}").
      * destruct (IH false "" 0%nat (acc ++ [cl +:+ Line] ++ repeat "" (S c)))
          as (H1 & H2 & H3).
        destruct (IH false "" 0%nat ([] ++ [cl +:+ Line] ++ repeat "" (S c)))
          as (H1' & H2' & H3').
        cbv zeta in *. rewrite H1, H1', H2, H2', H3, H3'.
        rewrite <- !app_assoc. auto.
      * apply IH.
    + destruct (bool_decide (Line = "")); [|destruct (negb _);
        [|destruct (Re.search CODEPattern Line)]].
      1,2,3: destruct (IH false cl c (acc ++ [Line])) as (H1 & H2 & H3);
        destruct (IH false cl c ([] ++ [Line])) as (H1' & H2' & H3');
        cbv zeta in *; rewrite H1, H1', H2, H2', H3, H3';
        rewrite <- !app_assoc; auto.
      apply IH.
Qed.

(** The line kept from before an opening is not read. *)
Lemma code_fold_outside Content cl acc :
  newContent (code_fold Content (mkCodeFold false cl 0 acc))
  = newContent (code_fold Content (mkCodeFold false "" 0 acc))
  /\ CODEBegin (code_fold Content (mkCodeFold false cl 0 acc))
     = CODEBegin (code_fold Content (mkCodeFold false "" 0 acc))
  /\ continuelinecount (code_fold Content (mkCodeFold false cl 0 acc))
     = continuelinecount (code_fold Content (mkCodeFold false "" 0 acc)).
Proof.
  revert cl acc. induction Content as [|Line rest IH]; intros cl acc.
  - cbn. auto.
  - rewrite !code_fold_cons.
    unfold code_fold_line.
    cbn [CODEBegin CODELine continuelinecount newContent].
    destruct (bool_decide (Line = "")); [|destruct (negb _);
      [|destruct (Re.search CODEPattern Line)]]; auto.
Qed.

(** The count of the lines: what is put out, and what an open block
    holds, are the lines read. *)
Lemma code_fold_count Content b cl c acc :
  (b = false -> c = 0%nat) ->
  let st := code_fold Content (mkCodeFold b cl c acc) in
  (length (newContent st)
   + (if CODEBegin st then S (continuelinecount st) else 0)
   = length acc + (if b then S c else 0) + length Content)%nat.
Proof.
  revert b cl c acc. induction Content as [|Line rest IH]; intros b cl c acc Hc.
  - cbn. lia.
  - cbv zeta. rewrite !code_fold_cons.
    unfold code_fold_line.
    cbn [CODEBegin CODELine continuelinecount newContent].
    destruct b.
    + destruct (Py.contains Line ")}"); rewrite IH by (intros; congruence);
        repeat first [rewrite length_app | rewrite repeat_length
                     | rewrite length_cons | progress cbn [length app]];
        lia.
    + rewrite (Hc eq_refl).
      destruct (bool_decide (Line = "")); [|destruct (negb _);
        [|destruct (Re.search CODEPattern Line)]];
        rewrite IH by (intros; congruence);
        rewrite ?length_app; cbn [length]; lia.
Qed.

(** The text of a list of lines put together. *)
Definition joined (lines : list string) : string :=
  fold_right String.append "" lines.

(** Inside a block, up to the line that closes it. *)
Lemma code_fold_block mid close post cl c :
  Forall (fun Line => Py.contains Line ")}" = false) mid ->
  Py.contains close ")}" = true ->
  code_fold (mid ++ close :: post) (mkCodeFold true cl c [])
  = code_fold post
      (mkCodeFold false "" 0
         ([cl +:+ joined mid +:+ close]
          ++ repeat "" (S (c + length mid)))).
Proof.
  intros Hmid Hclose. revert cl c.
  induction Hmid as [|Line mid HLine Hmid IH]; intros cl c.
  - cbn [app joined fold_right length]. rewrite code_fold_cons.
    unfold code_fold_line.
    cbn [CODEBegin CODELine continuelinecount newContent].
    rewrite Hclose, Nat.add_0_r. reflexivity.
  - cbn [app]. rewrite code_fold_cons.
    unfold code_fold_line.
    cbn [CODEBegin CODELine continuelinecount newContent].
    rewrite HLine, IH. cbn [joined fold_right length].
    fold (joined mid). rewrite !append_assoc.
    replace (S c + length mid)%nat with (c + S (length mid))%nat by lia.
    reflexivity.
Qed.

(** X4. [ProcessMultipleLineCODEValue]:
    - the lines put out are never more than the lines read, and as many
      when no CODE block is left open at the end, so that line numbers
      stay;
    - a line that is empty, or has no [{CODE(], or has a CODE value that is
      complete on the line, is put out as it is;
    - a CODE value that opens on one line and closes on a later one (the
      first later line with [)}]) is put out as one line, the lines put
      together, followed by one empty line for each line that was
      folded in. *)
Theorem ProcessMultipleLineCODEValue_lines :
  (forall Content,
      (length (ProcessMultipleLineCODEValue Content) <= length Content)%nat
      /\ (CODEBegin (code_fold Content (mkCodeFold false "" 0 [])) = false ->
          length (ProcessMultipleLineCODEValue Content) = length Content))
  /\ (forall Line rest,
      Line = "" \/ Py.contains Line "{CODE(" = false
      \/ Re.search CODEPattern Line = true ->
      ProcessMultipleLineCODEValue (Line :: rest)
      = Line :: ProcessMultipleLineCODEValue rest)
  /\ (forall open mid close post,
      open <> "" -> Py.contains open "{CODE(" = true ->
      Re.search CODEPattern open = false ->
      Forall (fun Line => Py.contains Line ")}" = false) mid ->
      Py.contains close ")}" = true ->
      ProcessMultipleLineCODEValue (open :: mid ++ close :: post)
      = [open +:+ joined mid +:+ close]
        ++ repeat "" (S (length mid))
        ++ ProcessMultipleLineCODEValue post).
Proof.
  split; [|split].
  - intros Content.
    pose proof (code_fold_count Content false "" 0%nat [] (fun _ => eq_refl)) as H.
    cbv zeta in H. cbn [length] in H.
    unfold ProcessMultipleLineCODEValue. fold (code_fold Content (mkCodeFold false "" 0 [])).
    split; [lia|]. intros Hb. rewrite Hb in H. lia.
  - intros Line rest Hplain.
    unfold ProcessMultipleLineCODEValue.
    fold (code_fold (Line :: rest) (mkCodeFold false "" 0 [])).
    fold (code_fold rest (mkCodeFold false "" 0 [])).
    rewrite code_fold_cons.
    assert (E : code_fold_line (mkCodeFold false "" 0 []) Line
                = mkCodeFold false "" 0 [Line]).
    { unfold code_fold_line.
      cbn [CODEBegin CODELine continuelinecount newContent app].
      destruct (bool_decide (Line = "")) eqn:E1; [reflexivity|].
      destruct (Py.contains Line "{CODE(") eqn:E2; [|reflexivity].
      cbn [negb]. destruct (Re.search CODEPattern Line) eqn:E3; [reflexivity|].
      destruct Hplain as [->|[H|H]]; discriminate. }
    rewrite E.
    destruct (code_fold_acc rest false "" 0%nat [Line]) as (H & _).
    cbv zeta in H. rewrite H. reflexivity.
  - intros open mid close post Hne Hopen Hpat Hmid Hclose.
    unfold ProcessMultipleLineCODEValue.
    fold (code_fold (open :: mid ++ close :: post) (mkCodeFold false "" 0 [])).
    fold (code_fold post (mkCodeFold false "" 0 [])).
    rewrite code_fold_cons.
    assert (E : code_fold_line (mkCodeFold false "" 0 []) open
                = mkCodeFold true open 0 []).
    { unfold code_fold_line.
      cbn [CODEBegin CODELine continuelinecount newContent app].
      rewrite bool_decide_eq_false_2 by exact Hne.
      rewrite Hopen, Hpat. reflexivity. }
    rewrite E, (code_fold_block mid close post open 0 Hmid Hclose).
    destruct (code_fold_acc post false "" 0%nat
                ([open +:+ joined mid +:+ close]
                 ++ repeat "" (S (0 + length mid)))) as (H & _).
    cbv zeta in H. rewrite H. cbn [Nat.add]. rewrite <- app_assoc. reflexivity.
Qed.

(** [ProcessMultipleLineCODEValue_lines] on a value of three lines. *)
Lemma ProcessMultipleLineCODEValue_lines_witness :
  ProcessMultipleLineCODEValue
    ("gG.PcdA|{CODE(" :: ["  {1, 2},"] ++ ")}" :: ["gG.PcdB|1"])
  = ["gG.PcdA|{CODE(" +:+ joined ["  {1, 2},"] +:+ ")}"]
    ++ repeat "" 2 ++ ProcessMultipleLineCODEValue ["gG.PcdB|1"].
Proof.
  apply (proj2 (proj2 ProcessMultipleLineCODEValue_lines)
           "gG.PcdA|{CODE(" ["  {1, 2},"] ")}" ["gG.PcdB|1"]).
  - discriminate.
  - vm_compute. reflexivity.
  - vm_compute. reflexivity.
  - repeat constructor.
  - vm_compute. reflexivity.
Defined.

(** ** What a pass of [_PostProcess] keeps from round to round *)

Section PassInvariants.
Variable ext : Externals.

Local Abbreviation DscParser := (Parser PlatformTable.DscLine).

(** No processor writes [_Enabled]: only the end of a round does. *)
Lemma Processer_keeps_enabled ty process (x x' : DscParser) :
  Processer ext ty = Some process -> process x = Ok x' ->
  _Enabled x' = _Enabled x.
Proof.
  intros Hp Hx.
  destruct ty; cbn in Hp; try discriminate Hp; injection Hp as <-;
    unfold_processors Hx; cbn in Hx; split_result;
    split_goal_ifs; first [reflexivity | assumption | symmetry; assumption].
Qed.

(** The table after the [_Store] of a round. *)
Lemma round_store_table (x : DscParser) item vl :
  _ValueList x = Some vl ->
  exists r,
    _Table (round_store x item)
    = MetaFileTable.mk (rows x ++ [r]) (MetaFileTable.ID (_Table x) + 1).
Proof.
  intros Hvl. unfold round_store. rewrite Hvl. cbv zeta.
  unfold PlatformTable_Insert_row, PlatformTable.Insert, rows, _Table, with_Table.
  cbn. destruct (_OwnTable x) as [t|] eqn:E; cbn; rewrite ?E; cbn;
    eexists; reflexivity.
Qed.

(** A round either stores nothing, and then keeps the table, the flag and
    the stack of results, or appends one row and moves the counter of the
    table to the id of that row. *)
Lemma PostProcess_round_table self self' :
  _PostProcess_round ext self = Ok self' ->
  exists item,
    current_item self = Some item
    /\ ((stores_nothing self self' /\ _Table self' = _Table self
         /\ _Enabled self' = _Enabled self
         /\ _DirectiveEvalStack self' = _DirectiveEvalStack self)
        \/ (exists r, stores_row self self' item r
                      /\ MetaFileTable.ID (_Table self') = PlatformTable.ID r)).
Proof.
  intros Hround.
  destruct (PostProcess_round_spec ext _ _ Hround)
    as (item & Hcur & _ & _ & Hst).
  destruct (PostProcess_round_factor ext _ _ Hround)
    as (item' & process & x & Hcur' & Hp & Hx & ->).
  assert (item' = item) as -> by congruence.
  exists item. split; [exact Hcur|].
  destruct (Processer_frame ext _ _ _ _ Hp Hx)
    as (_ & Hown & Hraw & _).
  destruct (round_enter_frame self item)
    as (_ & Hown0 & Hraw0 & Hty0 & _ & Hvl0 & _ & Hstack0 & Hen0 & _).
  cbv zeta in *.
  assert (Htab : _Table x = _Table self) by (apply Table_eq; congruence).
  destruct (_ValueList x) as [vl|] eqn:Hvl.
  - right. destruct Hst as [(_ & Hnone)|(r & Hrow)].
    + exfalso. destruct Hnone as (Hsame & _).
      destruct (round_store_spec x item vl Hvl) as (r & Hrows & _).
      cbv zeta in Hrows. rewrite Hrows in Hsame. unfold rows in Hsame.
      rewrite Htab in Hsame.
      apply (f_equal (@length _)) in Hsame. rewrite length_app in Hsame.
      cbn in Hsame. lia.
    + exists r. split; [exact Hrow|].
      destruct (round_store_table x item vl Hvl) as (r' & Ht).
      rewrite Ht. cbn. destruct Hrow as (_ & _ & _ & _ & -> & _).
      rewrite Htab. reflexivity.
  - left. destruct Hst as [Hnone|(r & Hrows & _)].
    + assert (Hsame : round_store x item = x)
        by (unfold round_store; rewrite Hvl; reflexivity).
      rewrite Hsame in *. split; [exact Hnone|]. split; [exact Htab|].
      assert (Hinc : PlatformTable.Model item = MODEL_META_DATA_INCLUDE).
      { destruct (decide (PlatformTable.Model item = MODEL_META_DATA_INCLUDE))
          as [E|E]; [exact E|]. exfalso.
        rewrite <- Hty0 in Hp, E.
        destruct (Processer_keeps_values ext _ _ _ _ _ _ Hp E Hvl0 Hx)
          as ((a & b & c & Hv) & _). congruence. }
      split.
      * rewrite (Processer_keeps_enabled _ _ _ _ Hp Hx). exact Hen0.
      * rewrite <- Hty0 in Hp.
        destruct (Processer_keeps_stacks ext process (round_enter self item) x Hp)
          as (Hs & _); [|exact Hx|congruence].
        rewrite Hty0, Hinc. cbn. intuition discriminate.
    + exfalso. unfold round_store in Hrows. rewrite Hvl in Hrows.
      unfold rows in Hrows. rewrite Htab in Hrows.
      apply (f_equal (@length _)) in Hrows. rewrite length_app in Hrows.
      cbn in Hrows. lia.
Qed.

(** What holds when the loop starts and is kept by every round that
    succeeds holds when the loop ends. *)
Lemma PostProcess_loop_invariant (I : DscParser -> Prop) :
  (forall x x', I x -> _PostProcess_round ext x = Ok x' -> I x') ->
  forall fuel x x', I x -> _PostProcess_loop ext fuel x = Ok x' -> I x'.
Proof.
  intros Hstep. induction fuel as [|fuel IH]; intros x x' HI;
    rewrite PostProcess_loop_unfold;
    destruct (_ContentIndex x <? length (_Content x))%nat;
    try discriminate; try (intros [= <-]; exact HI).
  destruct (_PostProcess_round ext x) as [x1|] eqn:Hr; [|discriminate].
  cbn [mbind result_bind]. apply IH. exact (Hstep _ _ HI Hr).
Qed.

(** The pass is the loop, run on a parser with an empty resolved table and
    empty stacks; what follows the loop keeps the table. *)
Lemma PostProcess_factor fuel self self' :
  _PostProcess ext fuel self = Ok self' ->
  exists entered looped,
    _PostProcess_loop ext fuel entered = Ok looped
    /\ _Table entered = MetaFileTable.init
    /\ _DirectiveEvalStack entered = []
    /\ _DirectiveStack entered = []
    /\ _Enabled entered = _Enabled self
    /\ _IdMapping entered = _IdMapping self
    /\ _Table self' = _Table looped
    /\ _IdMapping self' = _IdMapping looped.
Proof.
  unfold _PostProcess.
  destruct (_PostProcess_enter ext self) as [entered|] eqn:He; [|discriminate].
  cbn [mbind result_bind].
  destruct (_PostProcess_loop ext fuel entered) as [x|] eqn:Hl; [|discriminate].
  cbn [mbind result_bind]. intros [= <-].
  exists entered, x. split; [exact Hl|].
  unfold _PostProcess_enter in He.
  destruct (ReadLines ext); [|discriminate]. injection He as <-.
  repeat split; vm_compute; reflexivity.
Qed.

(** The rows of the table are numbered from 1 in the order they have, and
    the counter of the table is the number of rows. *)
Definition numbered (t : MetaFileTable.t PlatformTable.DscLine) : Prop :=
  MetaFileTable.ID t = Z.of_nat (length (MetaFileTable.CurrentContent t))
  /\ forall i r, MetaFileTable.CurrentContent t !! i = Some r ->
                 PlatformTable.ID r = Z.of_nat i + 1.

Lemma numbered_init : numbered MetaFileTable.init.
Proof. split; [reflexivity|]. intros i r H. destruct i; discriminate H. Qed.

Lemma numbered_round self self' :
  _PostProcess_round ext self = Ok self' ->
  numbered (_Table self) -> numbered (_Table self').
Proof.
  intros Hround (Hid & Hrows).
  destruct (PostProcess_round_table _ _ Hround)
    as (item & _ & [(_ & -> & _)|(r & Hrow & Hnext)]); [split; assumption|].
  destruct Hrow as (Happ & _ & _ & _ & Hr & _).
  unfold rows in Happ. split.
  - rewrite Hnext, Hr, Happ, length_app, Hid. cbn. lia.
  - intros i r0. rewrite Happ. intros Hi.
    apply lookup_app_Some in Hi as [Hi|(Hle & Hi)]; [exact (Hrows _ _ Hi)|].
    destruct (i - length (MetaFileTable.CurrentContent (_Table self)))%nat
      as [|k] eqn:Ek; [|destruct k; discriminate Hi].
    injection Hi as <-. rewrite Hr, Hid. lia.
Qed.

(** The values of the id mapping, and the owners of the rows stored, are
    [-1] or ids that the table has given. *)
Definition settled (t : MetaFileTable.t PlatformTable.DscLine)
    (IdMapping : gmap Z Z) : Prop :=
  (forall k v, IdMapping !! k = Some v ->
               v = -1 \/ 1 <= v <= MetaFileTable.ID t)
  /\ Forall (fun r => PlatformTable.BelongsToItem r = -1
                      \/ 1 <= PlatformTable.BelongsToItem r < PlatformTable.ID r)
            (MetaFileTable.CurrentContent t).

Lemma settled_round self self' :
  _PostProcess_round ext self = Ok self' ->
  0 <= MetaFileTable.ID (_Table self) ->
  settled (_Table self) (_IdMapping self) ->
  settled (_Table self') (_IdMapping self').
Proof.
  intros Hround Hpos (Hmap & Hrows).
  destruct (PostProcess_round_table _ _ Hround)
    as (item & _ & [((_ & _ & Hm) & -> & _)|(r & Hrow & Hnext)]).
  - rewrite Hm. split; assumption.
  - destruct Hrow as (Happ & _ & _ & _ & Hr & Hown & Hm).
    unfold rows in Happ. split.
    + intros k v. rewrite Hm, Hnext.
      destruct (decide (k = PlatformTable.ID item)) as [->|Hne].
      * rewrite lookup_insert_eq. intros [= <-]. right. lia.
      * rewrite lookup_insert_ne by congruence. intros Hk.
        destruct (Hmap _ _ Hk); [left; assumption|right; lia].
    + rewrite Happ. apply Forall_app. split; [exact Hrows|].
      constructor; [|constructor]. rewrite Hown.
      destruct (_IdMapping self !! PlatformTable.BelongsToItem item)
        as [v|] eqn:Hv; cbn; [|left; reflexivity].
      destruct (Hmap _ _ Hv); [left; assumption|right; lia].
Qed.

(** The flag [_Enabled] says whether the stack of results has no
    [False]. *)
Definition flag_in_step (x : DscParser) : Prop :=
  _Enabled x = no_false (_DirectiveEvalStack x).

Lemma flag_in_step_round self self' :
  _PostProcess_round ext self = Ok self' ->
  flag_in_step self -> flag_in_step self'.
Proof.
  intros Hround Hflag. unfold flag_in_step in *.
  destruct (PostProcess_round_table _ _ Hround)
    as (item & _ & [(_ & _ & -> & ->)|(r & Hrow & _)]); [exact Hflag|].
  destruct Hrow as (_ & _ & Hen & -> & _). exact Hen.
Qed.

(** A round on an [!error] row: it raises when the flag is set, and stores
    a disabled row when the flag is in step with the stack. *)
Lemma PostProcess_round_error self item :
  current_item self = Some item ->
  PlatformTable.Model item = MODEL_META_DATA_CONDITIONAL_STATEMENT_ERROR ->
  (_Enabled self = true -> _PostProcess_round ext self = Err ERROR_STATEMENT)
  /\ (forall self', _PostProcess_round ext self = Ok self' ->
        _Enabled self = false
        /\ _DirectiveEvalStack self' = _DirectiveEvalStack self).
Proof.
  intros Hcur Hty.
  destruct (round_enter_frame self item)
    as (_ & _ & _ & _ & _ & _ & _ & _ & Hen0 & _).
  cbv zeta in Hen0.
  assert (Hraise : _Enabled self = true ->
                   _PostProcess_round ext self = Err ERROR_STATEMENT).
  { intros Hen. rewrite PostProcess_round_unfold, Hcur, Hty. cbn [Processer].
    unfold _ProcessError. rewrite Hen0, Hen. reflexivity. }
  split; [exact Hraise|].
  intros self' Hround. split.
  - destruct (_Enabled self); [|reflexivity].
    rewrite (Hraise eq_refl) in Hround. discriminate Hround.
  - apply (PostProcess_round_keeps_stack ext _ _ _ Hcur); [|exact Hround].
    rewrite Hty. cbn. intuition discriminate.
Qed.

Definition no_enabled_error (x : DscParser) : Prop :=
  Forall (fun r => PlatformTable.Model r
                   = MODEL_META_DATA_CONDITIONAL_STATEMENT_ERROR ->
                   PlatformTable.Enabled r = false)
         (rows x).

Lemma no_enabled_error_round self self' :
  _PostProcess_round ext self = Ok self' ->
  flag_in_step self -> no_enabled_error self -> no_enabled_error self'.
Proof.
  intros Hround Hflag Hrows. unfold no_enabled_error in *.
  destruct (PostProcess_round_table _ _ Hround)
    as (item & Hcur & [((_ & -> & _) & _)|(r & Hrow & _)]); [exact Hrows|].
  destruct Hrow as (-> & Hm & Hen & _).
  apply Forall_app. split; [exact Hrows|]. constructor; [|constructor].
  intros Herr. rewrite Hm in Herr.
  destruct (PostProcess_round_error self item Hcur Herr) as (_ & Hok).
  destruct (Hok _ Hround) as (Hoff & Hstack).
  rewrite Hen, Hstack, <- Hflag. exact Hoff.
Qed.

End PassInvariants.

(** X5. The resolved table that a pass leaves is numbered from 1: the row
    at position [i] (from 0) has the id [i + 1], and the counter of the
    table is the number of its rows.  On a parser whose id mapping is the
    one of a new parser, [{-1: -1}], the owner of every resolved row is
    [-1] or the id of a row stored before it. *)
Theorem PostProcess_resolved_ids ext fuel self self' :
  _PostProcess ext fuel self = Ok self' ->
  (forall i r, rows self' !! i = Some r -> PlatformTable.ID r = Z.of_nat i + 1)
  /\ MetaFileTable.ID (_Table self') = Z.of_nat (length (rows self'))
  /\ (_IdMapping self = <[(-1) := (-1)]> ∅ ->
      Forall (fun r => PlatformTable.BelongsToItem r = -1
                       \/ 1 <= PlatformTable.BelongsToItem r < PlatformTable.ID r)
             (rows self')
      /\ forall k v, _IdMapping self' !! k = Some v ->
           v = -1 \/ exists r, In r (rows self') /\ PlatformTable.ID r = v).
Proof.
  intros Hpass.
  destruct (PostProcess_factor ext _ _ _ Hpass)
    as (entered & looped & Hloop & Htab & _ & _ & _ & Hmap & Hend & Hmend).
  assert (Hnum : numbered (_Table looped)).
  { apply (PostProcess_loop_invariant ext (fun x => numbered (_Table x)))
      with (fuel := fuel) (x := entered); [| |exact Hloop].
    - intros x x' Hx Hr. exact (numbered_round ext _ _ Hr Hx).
    - rewrite Htab. exact numbered_init. }
  unfold rows. rewrite Hend. destruct Hnum as (Hid & Hrows).
  split; [exact Hrows|]. split; [exact Hid|].
  intros Hnew.
  assert (Hset : numbered (_Table looped)
                 /\ settled (_Table looped) (_IdMapping looped)).
  { apply (PostProcess_loop_invariant ext
             (fun x => numbered (_Table x)
                       /\ settled (_Table x) (_IdMapping x)))
      with (fuel := fuel) (x := entered); [| |exact Hloop].
    - intros x x' (Hx & Hs) Hr. split; [exact (numbered_round ext _ _ Hr Hx)|].
      apply (settled_round ext _ _ Hr); [|exact Hs].
      destruct Hx as (-> & _). lia.
    - rewrite Htab, Hmap, Hnew. split; [exact numbered_init|]. split.
      + intros k v Hk. apply lookup_insert_Some in Hk as [(_ & <-)|(_ & Hk)];
          [left; reflexivity|]. rewrite lookup_empty in Hk. discriminate Hk.
      + constructor. }
  destruct Hset as (_ & Hvals & Hown). split; [exact Hown|].
  intros k v Hk. rewrite Hmend in Hk.
  destruct (Hvals _ _ Hk) as [->|Hv]; [left; reflexivity|right].
  destruct (lookup_lt_is_Some_2 (MetaFileTable.CurrentContent (_Table looped))
              (Z.to_nat (v - 1))) as (r & Hr); [rewrite Hid in Hv; lia|].
  exists r. split.
  - apply list_elem_of_In. exact (list_elem_of_lookup_2 _ _ _ Hr).
  - rewrite (Hrows _ _ Hr). lia.
Qed.

(** [PostProcess_resolved_ids] on the file of the conditional scenario. *)
Lemma PostProcess_resolved_ids_witness :
  exists self',
    _PostProcess (example_ext []) 7 (parsed scenario_conditional) = Ok self'
    /\ (forall i r, rows self' !! i = Some r ->
                    PlatformTable.ID r = Z.of_nat i + 1)
    /\ Forall (fun r => PlatformTable.BelongsToItem r = -1
                        \/ 1 <= PlatformTable.BelongsToItem r < PlatformTable.ID r)
              (rows self').
Proof.
  pose (self' := match _PostProcess (example_ext []) 7
                         (parsed scenario_conditional)
                 with Ok s => s | Err _ => parsed scenario_conditional end).
  assert (Hpass : _PostProcess (example_ext []) 7 (parsed scenario_conditional)
                  = Ok self') by (vm_compute; reflexivity).
  destruct (PostProcess_resolved_ids _ _ _ _ Hpass) as (Hids & _ & Hown).
  exists self'. split; [exact Hpass|]. split; [exact Hids|].
  apply Hown. vm_compute. reflexivity.
Defined.

(** X6. An [!error] row stops the pass when it is met with the flag
    [_Enabled] set: the round raises [ERROR_STATEMENT].  So a pass that
    starts with the flag set, as a new parser has it, and succeeds has
    stored every [!error] row it has met as a disabled row. *)
Theorem PostProcess_error_statement ext :
  (forall self item,
      current_item self = Some item ->
      PlatformTable.Model item = MODEL_META_DATA_CONDITIONAL_STATEMENT_ERROR ->
      _Enabled self = true ->
      _PostProcess_round ext self = Err ERROR_STATEMENT)
  /\ (forall fuel self self',
      _Enabled self = true ->
      _PostProcess ext fuel self = Ok self' ->
      Forall (fun r => PlatformTable.Model r
                       = MODEL_META_DATA_CONDITIONAL_STATEMENT_ERROR ->
                       PlatformTable.Enabled r = false)
             (rows self')).
Proof.
  split.
  - intros self item Hcur Hty.
    exact (proj1 (PostProcess_round_error ext self item Hcur Hty)).
  - intros fuel self self' Hen Hpass.
    destruct (PostProcess_factor ext _ _ _ Hpass)
      as (entered & looped & Hloop & Htab & Hstack & _ & Hen0 & _ & Hend & _).
    assert (H : flag_in_step looped /\ no_enabled_error looped).
    { apply (PostProcess_loop_invariant ext
               (fun x => flag_in_step x /\ no_enabled_error x))
        with (fuel := fuel) (x := entered); [| |exact Hloop].
      - intros x x' (Hf & Hn) Hr. split.
        + exact (flag_in_step_round ext _ _ Hr Hf).
        + exact (no_enabled_error_round ext _ _ Hr Hf Hn).
      - split.
        + unfold flag_in_step. rewrite Hen0, Hstack, Hen. reflexivity.
        + unfold no_enabled_error, rows. rewrite Htab. constructor. }
    destruct H as (_ & H). unfold no_enabled_error, rows in *.
    rewrite Hend. exact H.
Qed.

(** [PostProcess_error_statement] on the files [[Defines]], [!error stop]
    (after the round of the header) and [[Defines]], [!if 0],
    [!error stop], [!endif]. *)
Lemma PostProcess_error_statement_witness :
  _PostProcess_round (example_ext [])
    (after_rounds (example_ext []) 1 (entered (example_ext []) scenario_error))
  = Err ERROR_STATEMENT
  /\ exists self',
       _PostProcess (example_ext []) 4 (parsed scenario_error_skipped) = Ok self'
       /\ Forall (fun r => PlatformTable.Model r
                           = MODEL_META_DATA_CONDITIONAL_STATEMENT_ERROR ->
                           PlatformTable.Enabled r = false)
                 (rows self').
Proof.
  split.
  - eapply (proj1 (PostProcess_error_statement (example_ext []))).
    + vm_compute. reflexivity.
    + reflexivity.
    + vm_compute. reflexivity.
  - pose (self' := match _PostProcess (example_ext []) 4
                           (parsed scenario_error_skipped)
                   with Ok s => s | Err _ => parsed scenario_error_skipped end).
    assert (Hpass : _PostProcess (example_ext []) 4
                      (parsed scenario_error_skipped) = Ok self')
      by (vm_compute; reflexivity).
    exists self'. split; [exact Hpass|].
    apply (proj2 (PostProcess_error_statement (example_ext [])) 4%nat
             (parsed scenario_error_skipped)); [vm_compute; reflexivity|exact Hpass].
Defined.

(** ** Conditional blocks in [_PostProcess] *)

Section ConditionalBlocks.
Variable ext : Externals.

Local Abbreviation DscParser := (Parser PlatformTable.DscLine).
















End ConditionalBlocks.



(** ** [CheckPcdDatum] on the integer types *)

(** A decimal digit, and the number that a text of decimal digits
    spells. *)
Definition is_digit (c : ascii) : bool :=
  let n := N_of_ascii c in ((48 <=? n) && (n <=? 57))%N.

Definition decimal (s : string) : Z :=
  fold_left (fun acc c => acc * 10 + (Z.of_N (N_of_ascii c) - 48))
            (list_ascii_of_string s) 0.

Lemma is_digit_facts c :
  is_digit c = true ->
  Misc.digit_value c = Some (Z.of_N (N_of_ascii c) - 48)
  /\ 0 <= Z.of_N (N_of_ascii c) - 48 < 10
  /\ Misc.int_blank c = false
  /\ c <> "_"%char /\ c <> "-"%char /\ c <> "+"%char
  /\ Py.upper_char c = String c EmptyString /\ Misc.lower_char c = c
  /\ (c = "0"%char \/ Z.of_N (N_of_ascii c) - 48 <> 0).
Proof.
  destruct c as [[] [] [] [] [] [] [] []]; vm_compute; intros H;
    try discriminate H;
    repeat split; try discriminate; try reflexivity; auto;
    right; discriminate.
Qed.

Lemma rstrip_cons c r :
  Misc.int_blank c = false ->
  Misc.int_rstrip (String c r) = String c (Misc.int_rstrip r).
Proof.
  intros Hc. cbn [Misc.int_rstrip]. rewrite Hc.
  destruct (Misc.int_rstrip r); reflexivity.
Qed.

Lemma strip_digits s :
  Py.forallb is_digit s = true -> Misc.int_rstrip (Misc.int_lstrip s) = s.
Proof.
  intros Hs.
  assert (Hl : Misc.int_lstrip s = s).
  { destruct s as [|c r]; [reflexivity|]. cbn in Hs |- *.
    apply andb_true_iff in Hs as (Hc & _).
    destruct (is_digit_facts c Hc) as (_ & _ & -> & _). reflexivity. }
  rewrite Hl. induction s as [|c r IH]; [reflexivity|].
  cbn in Hs. apply andb_true_iff in Hs as (Hc & Hr).
  destruct (is_digit_facts c Hc) as (_ & _ & Hsp & _).
  rewrite (rstrip_cons c r Hsp). f_equal. apply IH; [exact Hr|].
  destruct r as [|d r]; [reflexivity|]. cbn in Hr |- *.
  apply andb_true_iff in Hr as (Hd & _).
  destruct (is_digit_facts d Hd) as (_ & _ & -> & _). reflexivity.
Qed.

Lemma digits_decimal s : forall prev acc,
  Py.forallb is_digit s = true ->
  s <> "" \/ prev = true ->
  Misc.digits 10 s prev acc
  = Some (fold_left (fun acc c => acc * 10 + (Z.of_N (N_of_ascii c) - 48))
                    (list_ascii_of_string s) acc).
Proof.
  induction s as [|c r IH]; intros prev acc Hs Hne.
  - destruct Hne as [Hne| ->]; [contradiction|]. reflexivity.
  - cbn in Hs. apply andb_true_iff in Hs as (Hc & Hr).
    destruct (is_digit_facts c Hc) as (Hv & Hrange & _ & Hu & _).
    cbn [Misc.digits list_ascii_of_string fold_left].
    rewrite bool_decide_eq_false_2 by exact Hu. rewrite Hv.
    replace (Z.of_N (N_of_ascii c) - 48 <? 10) with true
      by (symmetry; apply Z.ltb_lt; lia).
    apply IH; [exact Hr|right; reflexivity].
Qed.

Lemma fold_decimal_nonneg l : forall acc,
  Forall (fun c => is_digit c = true) l -> 0 <= acc ->
  0 <= fold_left (fun acc c => acc * 10 + (Z.of_N (N_of_ascii c) - 48)) l acc.
Proof.
  induction l as [|c l IH]; intros acc Hl Hacc; [exact Hacc|].
  inversion Hl as [|? ? Hc Hl']; subst. cbn [fold_left]. apply IH; [exact Hl'|].
  destruct (is_digit_facts c Hc) as (_ & Hrange & _). lia.
Qed.

Lemma forallb_Forall_digits s :
  Py.forallb is_digit s = true ->
  Forall (fun c => is_digit c = true) (list_ascii_of_string s).
Proof.
  induction s as [|c r IH]; cbn; intros Hs; [constructor|].
  apply andb_true_iff in Hs as (Hc & Hr). constructor; auto.
Qed.

Lemma decimal_nonneg s : Py.forallb is_digit s = true -> 0 <= decimal s.
Proof.
  intros Hs. apply fold_decimal_nonneg; [apply forallb_Forall_digits, Hs|lia].
Qed.

(** Zeros in front do not change the number, and [lstrip('0')] leaves a
    text of digits that does not start with a zero. *)
Lemma lstrip0_spec s :
  Py.forallb is_digit s = true ->
  decimal (Misc.lstrip0 s) = decimal s
  /\ Py.forallb is_digit (Misc.lstrip0 s) = true
  /\ Py.startswith (Misc.lstrip0 s) "0" = false.
Proof.
  induction s as [|c r IH]; intros Hs; [repeat split|].
  cbn in Hs. pose proof Hs as Hs'. apply andb_true_iff in Hs as (Hc & Hr).
  destruct (is_digit_facts c Hc) as (_ & _ & _ & _ & _ & _ & _ & _ & [->|Hnz]).
  - cbn [Misc.lstrip0]. destruct (IH Hr) as (Hd & Hf & Hp).
    repeat split; auto.
  - assert (E : Misc.lstrip0 (String c r) = String c r).
    { destruct c as [[] [] [] [] [] [] [] []]; try reflexivity.
      exfalso. apply Hnz. reflexivity. }
    rewrite E. repeat split; [cbn; exact Hs'|].
    unfold Py.startswith. cbn [String.prefix].
    destruct (ascii_dec "0" c) as [<-|]; [|reflexivity].
    exfalso. apply Hnz. reflexivity.
Qed.

(** A text of digits that starts with a zero and spells a number other
    than zero is no literal in base 0; every other text of digits is read
    as the decimal number it spells. *)
Lemma int_digits s :
  s <> "" -> Py.forallb is_digit s = true ->
  Py.startswith s "0" = false \/ decimal s = 0 ->
  Misc.int s 0 = Some (decimal s).
Proof.
  intros Hne Hs Hzero. unfold Misc.int. rewrite (strip_digits s Hs).
  destruct s as [|c r] eqn:Es; [contradiction|]. rewrite <- Es in *.
  assert (Hc : is_digit c = true).
  { rewrite Es in Hs. cbn in Hs. apply andb_true_iff in Hs. tauto. }
  destruct (is_digit_facts c Hc) as (_ & _ & _ & _ & Hm & Hp & Hup & _).
  assert (Hu : Misc.unsigned_int 0 s = Some (decimal s)).
  { unfold Misc.unsigned_int.
    rewrite (bool_decide_eq_false_2 (0 = 16)) by discriminate.
    rewrite (bool_decide_eq_false_2 (0 = 10)) by discriminate.
    assert (Hlow : Py.forallb is_digit (Py.upper (Py.take 2 s)) = true).
    { rewrite Es. rewrite Es in Hs. cbn [Py.take Py.upper]. rewrite Hup.
      rewrite append_cons, append_nil_l. cbn [Py.forallb]. rewrite Hc.
      cbn [andb].
      destruct r as [|d r']; [reflexivity|]. cbn [Py.take Py.upper].
      cbn in Hs. apply andb_true_iff in Hs as (_ & Hs).
      apply andb_true_iff in Hs as (Hd & _).
      destruct (is_digit_facts d Hd) as (_ & _ & _ & _ & _ & _ & -> & _).
      rewrite append_cons, append_nil_l. cbn [Py.forallb]. rewrite Hd.
      reflexivity. }
    rewrite !bool_decide_eq_false_2
      by (intros E; rewrite E in Hlow; discriminate Hlow).
    rewrite (digits_decimal s false 0 Hs (or_introl Hne)).
    fold (decimal s).
    destruct Hzero as [-> | ->]; [reflexivity|].
    change (negb (0 =? 0)) with false. rewrite andb_false_r. reflexivity. }
  rewrite Es in Hu |- *.
  destruct c as [[] [] [] [] [] [] [] []]; try exact Hu;
    exfalso; [apply Hp|apply Hm]; reflexivity.
Qed.

Lemma digits_no_x Value :
  Py.forallb is_digit Value = true ->
  Py.startswith (Misc.lower Value) "0x" = false.
Proof.
  intros Hs. unfold Py.startswith.
  destruct Value as [|c [|d r]]; [reflexivity| |]; cbn [Misc.lower String.prefix].
  - destruct (ascii_dec "0" (Misc.lower_char c)); reflexivity.
  - destruct (ascii_dec "0" (Misc.lower_char c)); [|reflexivity].
    cbn in Hs. apply andb_true_iff in Hs as (_ & Hs).
    apply andb_true_iff in Hs as (Hd & _).
    destruct (is_digit_facts d Hd) as (_ & _ & _ & _ & _ & _ & _ & -> & _).
    destruct (ascii_dec "x" d) as [<-|]; [|reflexivity].
    vm_compute in Hd. discriminate Hd.
Qed.

(** The text that [CheckPcdDatum] hands to [int(Value, 0)], for a text of
    digits. *)
Lemma numeral_read Value :
  Value <> "" -> Py.forallb is_digit Value = true ->
  let Value0 :=
    if Py.startswith Value "0" && negb (Py.startswith (Misc.lower Value) "0x")
       && (1 <? String.length Value)%nat
       && negb (bool_decide (Misc.lstrip0 Value = ""))
    then Misc.lstrip0 Value else Value in
  Misc.int Value0 0 = Some (decimal Value).
Proof.
  intros Hne Hs. cbv zeta.
  destruct (lstrip0_spec Value Hs) as (Hd & Hf & Hp).
  rewrite (digits_no_x Value Hs). cbn [negb].
  destruct (Py.startswith Value "0") eqn:H0; cbn [andb];
    [|apply int_digits; auto].
  destruct (1 <? String.length Value)%nat eqn:Hlen; cbn [andb].
  - destruct (bool_decide (Misc.lstrip0 Value = "")) eqn:He; cbn [negb].
    + apply bool_decide_eq_true_1 in He. apply int_digits; auto.
      right. rewrite <- Hd, He. reflexivity.
    + apply bool_decide_eq_false_1 in He. rewrite <- Hd.
      apply int_digits; auto.
  - apply int_digits; auto. right.
    apply Nat.ltb_ge in Hlen.
    destruct Value as [|c [|d r]]; [contradiction| |cbn in Hlen; lia].
    unfold Py.startswith in H0. cbn [String.prefix] in H0.
    destruct (ascii_dec "0" c) as [<-|]; [reflexivity|discriminate H0].
Qed.

(** The four integer types. *)
Definition integer_types : list string :=
  [Misc.TAB_UINT8; Misc.TAB_UINT16; Misc.TAB_UINT32; Misc.TAB_UINT64].

(** The notations of the language for octal and binary literals. *)
Definition radix_letters : list ascii := ["o"; "O"; "b"; "B"]%char.

(** X8. [CheckPcdDatum] on the types [UINT8], [UINT16], [UINT32] and
    [UINT64]:
    - a text of decimal digits (of at most 4300 digits, which the
      conversion of the run time takes) is read as the decimal number it
      spells, zeros in front or not, so that [017] is seventeen; it is
      accepted when the number is at most the maximum of the type, and
      refused as too large otherwise;
    - a text that starts with [0o], [0O], [0b] or [0B] is refused as no
      number, the cause naming the text without its zero. *)
Theorem CheckPcdDatum_integer_types Type_ :
  In Type_ integer_types ->
  (forall Value,
      Value <> "" -> Py.forallb is_digit Value = true ->
      (String.length Value <= 4300)%nat ->
      Misc.CheckPcdDatum Type_ Value
      = if decimal Value <=? Misc.MAX_VAL_TYPE Type_
        then (true, Misc.NoCause)
        else (false, Misc.TooLarge (decimal Value) Type_))
  /\ (forall c rest,
      In c radix_letters ->
      Misc.CheckPcdDatum Type_ (String "0" (String c rest))
      = (false, Misc.InvalidNumber (String c rest) Type_)).
Proof.
  intros HT.
  assert (Hbranch : forall Value,
    Misc.CheckPcdDatum Type_ Value
    = let Value :=
        if Py.startswith Value "0"
           && negb (Py.startswith (Misc.lower Value) "0x")
           && (1 <? String.length Value)%nat
           && negb (bool_decide (Misc.lstrip0 Value = ""))
        then Misc.lstrip0 Value else Value in
      match Misc.int Value 0 with
      | None => (false, Misc.InvalidNumber Value Type_)
      | Some v =>
          if negb (bool_decide (Value = "")) && (v <? 0)
          then (false, Misc.NegativeValue Value Type_)
          else if Misc.MAX_VAL_TYPE Type_ <? v
               then (false, Misc.TooLarge v Type_)
               else (true, Misc.NoCause)
      end).
  { intros Value. unfold Misc.CheckPcdDatum.
    destruct HT as [<-|[<-|[<-|[<-|[]]]]];
      decide_closed_goal Value; reflexivity. }
  split.
  - intros Value Hne Hs _. rewrite Hbranch. cbv zeta.
    rewrite (numeral_read Value Hne Hs).
    pose proof (decimal_nonneg Value Hs) as Hpos.
    replace (decimal Value <? 0) with false by (symmetry; apply Z.ltb_ge; lia).
    rewrite andb_false_r.
    destruct (Z.ltb_spec (Misc.MAX_VAL_TYPE Type_) (decimal Value));
      destruct (Z.leb_spec (decimal Value) (Misc.MAX_VAL_TYPE Type_));
      try reflexivity; lia.
  - intros c rest Hc. rewrite Hbranch. cbv zeta.
    assert (Hsp : Misc.int_blank c = false)
      by (destruct Hc as [<-|[<-|[<-|[<-|[]]]]]; reflexivity).
    assert (Hstrip : exists r',
               Misc.int_rstrip (Misc.int_lstrip (String c rest)) = String c r').
    { cbn [Misc.int_lstrip]. rewrite Hsp, (rstrip_cons c rest Hsp).
      eexists. reflexivity. }
    destruct Hstrip as (r' & Hstrip).
    assert (Hcond : Py.startswith (String "0" (String c rest)) "0"
                    && negb (Py.startswith
                               (Misc.lower (String "0" (String c rest))) "0x")
                    && (1 <? String.length (String "0" (String c rest)))%nat
                    && negb (bool_decide
                               (Misc.lstrip0 (String "0" (String c rest)) = ""))
                    = true).
    { destruct Hc as [<-|[<-|[<-|[<-|[]]]]]; reflexivity. }
    rewrite Hcond.
    assert (Hl : Misc.lstrip0 (String "0" (String c rest)) = String c rest)
      by (destruct Hc as [<-|[<-|[<-|[<-|[]]]]]; reflexivity).
    rewrite Hl.
    assert (Hint : Misc.int (String c rest) 0 = None).
    { unfold Misc.int. rewrite Hstrip.
      destruct Hc as [<-|[<-|[<-|[<-|[]]]]]; destruct r'; reflexivity. }
    rewrite Hint. reflexivity.
Qed.

(** [CheckPcdDatum_integer_types] on [UINT8]: [017] and [255] pass, [256]
    is too large, [0o17] is no number. *)
Lemma CheckPcdDatum_integer_types_witness :
  Misc.CheckPcdDatum "UINT8" "017" = (true, Misc.NoCause)
  /\ Misc.CheckPcdDatum "UINT8" "255" = (true, Misc.NoCause)
  /\ Misc.CheckPcdDatum "UINT8" "256" = (false, Misc.TooLarge 256 "UINT8")
  /\ Misc.CheckPcdDatum "UINT8" "0o17" = (false, Misc.InvalidNumber "o17" "UINT8").
Proof.
  assert (HT : In "UINT8" integer_types) by (left; reflexivity).
  destruct (CheckPcdDatum_integer_types "UINT8" HT) as (Hdec & Hradix).
  split; [|split; [|split]].
  - rewrite (Hdec "017"); [reflexivity|discriminate|reflexivity|cbn; lia].
  - rewrite (Hdec "255"); [reflexivity|discriminate|reflexivity|cbn; lia].
  - rewrite (Hdec "256"); [reflexivity|discriminate|reflexivity|cbn; lia].
  - apply (Hradix "o"%char "17"). left. reflexivity.
Defined.

(** ** [AnalyzePcdExpression] and [AnalyzeDscPcd] on plain settings *)

(** A character that the scan of [AnalyzePcdExpression] passes over: no
    quote, no parenthesis, no backslash. *)
Definition plain_char (c : ascii) : bool :=
  negb (bool_decide (c ∈ [Py.DQUOTE; Py.SQUOTE; "("%char; ")"%char;
                          Py.BACKSLASH])).

(** The place of the first separator, if there is one. *)
Fixpoint index_bar (s : string) : option nat :=
  match s with
  | EmptyString => None
  | String c r =>
      if bool_decide (c = "|"%char) then Some 0%nat
      else option_map S (index_bar r)
  end.

(** What [AnalyzePcdExpression] does to a field at its end: the drawn text
    becomes two backslashes again. *)
Definition restore (RanStr ch : string) : string :=
  if Py.contains ch RanStr then Py.replace ch RanStr "\\" else ch.

Lemma plain_char_scan c prev :
  plain_char c = true ->
  Misc.scan_char prev c (Misc.mkScan false false 0)
  = (Misc.mkScan false false 0, c)
  /\ c <> Py.BACKSLASH.
Proof.
  destruct c as [[] [] [] [] [] [] [] []]; intros H;
    try (vm_compute in H; discriminate H); split;
    try reflexivity; discriminate.
Qed.

Lemma scan_plain s : forall prev,
  Py.forallb plain_char s = true ->
  Misc.scan prev s (Misc.mkScan false false 0) = s.
Proof.
  induction s as [|c r IH]; intros prev Hs; [reflexivity|].
  cbn in Hs. apply andb_true_iff in Hs as (Hc & Hr).
  cbn [Misc.scan]. rewrite (proj1 (plain_char_scan c prev Hc)).
  f_equal. apply IH. exact Hr.
Qed.

Lemma last_cons c r : exists l, Py.last (String c r) = Some l.
Proof.
  revert c. induction r as [|d r IH]; intros c; [eexists; reflexivity|].
  destruct (IH d) as (l & Hl). exists l. exact Hl.
Qed.

Lemma NewStr_plain Data :
  Py.forallb plain_char Data = true -> Misc.NewStr_of Data = Data.
Proof.
  intros Hs. unfold Misc.NewStr_of.
  destruct Data as [|c r]; [reflexivity|].
  destruct (last_cons c r) as (l & ->). apply scan_plain, Hs.
Qed.

Lemma replace_plain s R :
  Py.forallb plain_char s = true -> Py.replace s "\\" R = s.
Proof.
  unfold Py.replace. induction s as [|c r IH]; intros Hs; [reflexivity|].
  cbn in Hs. apply andb_true_iff in Hs as (Hc & Hr).
  destruct (plain_char_scan c c Hc) as (_ & Hb).
  cbn [Py.replace_go String.prefix].
  destruct (ascii_dec "\" c) as [E|_]; [exfalso; apply Hb; symmetry; exact E|].
  f_equal. apply IH. exact Hr.
Qed.

Lemma forallb_lstrip p s :
  Py.forallb p s = true -> Py.forallb p (Py.lstrip s) = true.
Proof.
  induction s as [|c r IH]; intros Hs; [reflexivity|].
  cbn [Py.lstrip]. destruct (Py.isspace c); [|exact Hs].
  cbn in Hs. apply andb_true_iff in Hs as (_ & Hr). apply IH, Hr.
Qed.

Lemma forallb_rstrip p s :
  Py.forallb p s = true -> Py.forallb p (Py.rstrip s) = true.
Proof.
  induction s as [|c r IH]; intros Hs; [reflexivity|].
  cbn in Hs. apply andb_true_iff in Hs as (Hc & Hr).
  cbn [Py.rstrip]. specialize (IH Hr).
  destruct (Py.rstrip r) as [|d r'].
  - destruct (Py.isspace c); [reflexivity|]. cbn. rewrite Hc. reflexivity.
  - cbn [Py.forallb]. rewrite Hc. exact IH.
Qed.

Lemma forallb_strip p s :
  Py.forallb p s = true -> Py.forallb p (Py.strip s) = true.
Proof. intros Hs. apply forallb_rstrip, forallb_lstrip, Hs. Qed.

Lemma index_bar_lt s i : index_bar s = Some i -> (i < String.length s)%nat.
Proof.
  revert i. induction s as [|c r IH]; intros i Hi; [discriminate Hi|].
  cbn in Hi |- *. destruct (bool_decide (c = "|"%char)).
  - injection Hi as <-. lia.
  - destruct (index_bar r) as [j|]; [|discriminate Hi].
    injection Hi as <-. specialize (IH j eq_refl). lia.
Qed.

Lemma find_from_bar t : forall fuel pos,
  (String.length t <= fuel)%nat ->
  Py.find_from fuel "|" t pos
  = match index_bar t with Some i => Some (pos + i)%nat | None => None end.
Proof.
  induction t as [|c r IH]; intros fuel pos Hfuel.
  - destruct fuel; reflexivity.
  - destruct fuel as [|fuel]; [cbn in Hfuel; lia|].
    cbn [Py.find_from String.prefix index_bar].
    destruct (ascii_dec "|" c) as [<-|Hne].
    + rewrite bool_decide_eq_true_2 by reflexivity.
      destruct r; cbn; f_equal; lia.
    + rewrite bool_decide_eq_false_2 by congruence.
      rewrite IH by (cbn in Hfuel; lia).
      destruct (index_bar r); cbn; [f_equal; lia|reflexivity].
Qed.

Lemma py_split_bar t :
  py_split "|" t
  = match index_bar t with
    | None => [t]
    | Some i => Py.take i t :: py_split "|" (Py.drop (S i) t)
    end.
Proof.
  induction t as [|c r IH]; [reflexivity|].
  cbn [py_split index_bar].
  destruct (bool_decide (c = "|"%char)); [reflexivity|].
  rewrite IH. destruct (index_bar r); reflexivity.
Qed.

Lemma string_drop_length s : forall k,
  String.length (Py.drop k s) = (String.length s - k)%nat.
Proof.
  induction s as [|c r IH]; intros [|k]; cbn; auto.
Qed.

Lemma string_drop_drop s : forall k i, Py.drop i (Py.drop k s) = Py.drop (k + i) s.
Proof.
  induction s as [|c r IH]; intros [|k] i; cbn; auto.
  - destruct i; reflexivity.
Qed.

(** The loop that cuts the setting, when the scan has changed nothing: it
    cuts at every separator. *)
Lemma split_fields_plain s : forall fuel k,
  (k <= String.length s)%nat ->
  (String.length s - k <= fuel)%nat ->
  Misc.split_fields fuel s s k = map Py.strip (py_split "|" (Py.drop k s)).
Proof.
  induction fuel as [|fuel IH]; intros k Hk Hfuel.
  - assert (Hnone : Py.find s Misc.TAB_VALUE_SPLIT k = None).
    { unfold Py.find. replace (String.length s <? k)%nat with false
        by (symmetry; apply Nat.ltb_ge; lia).
      rewrite find_from_bar by (rewrite string_drop_length; lia).
      destruct (index_bar (Py.drop k s)) as [i|] eqn:Ei; [|reflexivity].
      apply index_bar_lt in Ei. rewrite string_drop_length in Ei. lia. }
    cbn [Misc.split_fields]. rewrite Hnone.
    rewrite py_split_bar.
    destruct (index_bar (Py.drop k s)) as [i|] eqn:Ei; [|reflexivity].
    apply index_bar_lt in Ei. rewrite string_drop_length in Ei. lia.
  - cbn [Misc.split_fields]. unfold Py.find.
    replace (String.length s <? k)%nat with false
      by (symmetry; apply Nat.ltb_ge; lia).
    rewrite find_from_bar by (rewrite string_drop_length; lia).
    rewrite (py_split_bar (Py.drop k s)).
    destruct (index_bar (Py.drop k s)) as [i|] eqn:Ei; [|reflexivity].
    pose proof (index_bar_lt _ _ Ei) as Hi. rewrite string_drop_length in Hi.
    cbn [map]. f_equal.
    + unfold Py.slice. do 2 f_equal. lia.
    + rewrite IH by lia. rewrite string_drop_drop. do 3 f_equal. lia.
Qed.

(** X9. On a setting that holds no quote, no parenthesis and no
    backslash, [AnalyzePcdExpression] cuts at every [|] and strips each
    field: the fields are those of [Setting.strip().split('|')], each
    stripped.  (A field in which the text drawn at random happens to occur
    gets two backslashes in its place.) *)
Theorem AnalyzePcdExpression_plain RanStr Setting :
  Py.forallb plain_char Setting = true ->
  Misc.AnalyzePcdExpression RanStr Setting
  = map (restore RanStr) (map Py.strip (py_split "|" (Py.strip Setting))).
Proof.
  intros Hs. unfold Misc.AnalyzePcdExpression.
  rewrite (replace_plain Setting RanStr Hs).
  pose proof (forallb_strip _ _ Hs) as Hs'.
  rewrite (NewStr_plain _ Hs').
  rewrite split_fields_plain by lia.
  reflexivity.
Qed.

(** [AnalyzePcdExpression_plain] on the setting [ 0x10 | UINT8|1 ]. *)
Lemma AnalyzePcdExpression_plain_witness :
  Misc.AnalyzePcdExpression "k3Zq9TbM" " 0x10 | UINT8|1 "
  = map (restore "k3Zq9TbM") ["0x10"; "UINT8"; "1"].
Proof.
  rewrite (AnalyzePcdExpression_plain "k3Zq9TbM" " 0x10 | UINT8|1 ");
    reflexivity.
Defined.

(** The types of PCD rows. *)
Definition pcd_types : list model :=
  [MODEL_PCD_FIXED_AT_BUILD; MODEL_PCD_PATCHABLE_IN_MODULE;
   MODEL_PCD_FEATURE_FLAG; MODEL_PCD_DYNAMIC_DEFAULT; MODEL_PCD_DYNAMIC_HII;
   MODEL_PCD_DYNAMIC_VPD; MODEL_PCD_DYNAMIC_EX_DEFAULT;
   MODEL_PCD_DYNAMIC_EX_HII; MODEL_PCD_DYNAMIC_EX_VPD].

Definition hii_types : list model :=
  [MODEL_PCD_DYNAMIC_HII; MODEL_PCD_DYNAMIC_EX_HII].

(** X10. What [AnalyzeDscPcd] returns, whatever the setting:
    - for a PCD type, a list of three values (five for the HII types) and
      an index inside it, so that [ValueList[Index]] never raises;
    - for any other type the empty list, not valid;
    - a setting is valid only when it has at most three fields (a feature
      flag: one; the HII types: three to five). *)
Theorem AnalyzeDscPcd_shape RanStr Setting PcdType DataType :
  let n := length (Misc.AnalyzePcdExpression RanStr Setting) in
  let r := Misc.AnalyzeDscPcd RanStr Setting PcdType DataType in
  let ValueList := fst (fst r) in
  let IsValid := snd (fst r) in
  let Index := snd r in
  (In PcdType pcd_types ->
   (Index < length ValueList)%nat
   /\ length ValueList = if bool_decide (PcdType ∈ hii_types) then 5%nat else 3%nat)
  /\ (~ In PcdType pcd_types -> ValueList = [] /\ IsValid = false)
  /\ (IsValid = true ->
      (PcdType = MODEL_PCD_FEATURE_FLAG -> (n <= 1)%nat)
      /\ (In PcdType hii_types -> (3 <= n <= 5)%nat)
      /\ (~ In PcdType hii_types -> (n <= 3)%nat)).
Proof.
  cbv zeta. unfold Misc.AnalyzeDscPcd.
  set (FieldList := Misc.AnalyzePcdExpression RanStr Setting).
  set (n := length FieldList).
  destruct PcdType; decide_closed_goal FieldList; cbv iota;
    repeat match goal with
           | |- context [if ?b then _ else _] =>
               lazymatch b with
               | context [if _ then _ else _] => fail
               | _ => destruct b eqn:?
               end
           end;
    cbn [fst snd length];
    (split; [|split]);
    try (intros Hin; cbn; split; [lia|reflexivity]);
    try (intros Hin; exfalso; apply Hin; cbn; tauto);
    try (intros Hin; cbn in Hin; exfalso; intuition discriminate);
    try (intros _; split; reflexivity);
    try (intros Hv; discriminate Hv);
    intros Hv;
    repeat match goal with
           | H : (_ <=? _)%nat = true |- _ => apply Nat.leb_le in H
           | H : (_ <=? _)%nat = false |- _ => apply Nat.leb_gt in H
           | H : (_ <? _)%nat = true |- _ => apply Nat.ltb_lt in H
           | H : (_ <? _)%nat = false |- _ => apply Nat.ltb_ge in H
           | H : _ && _ = true |- _ => apply andb_true_iff in H as (? & ?)
           end;
    (split; [|split]);
    try (intros E; discriminate E);
    try (intros Hin; cbn in Hin; exfalso; intuition discriminate);
    try (intros Hin; exfalso; apply Hin; cbn; tauto);
    intros; try lia.
Qed.

(** ** [StartParse] and the macro table *)

(** A [Start] that succeeds has called [_Done]. *)
Lemma DscParser_Start_finished ext body self self' :
  DscParser_Start ext body self = Ok self' -> _Finished self' = true.
Proof.
  unfold DscParser_Start. destruct (ReadLines ext) as [Content|]; [|discriminate].
  cbv zeta. destruct (for_lines body _ _ _) as [[s o]|]; [|discriminate].
  cbn [mbind result_bind].
  destruct (negb (bool_decide (_DirectiveStack s = []))); [discriminate|].
  intros [= <-]. apply Done_table.
Qed.

Lemma InfParser_Start_finished ext body M self self' :
  InfParser_Start ext body M self = Ok self' -> _Finished self' = true.
Proof.
  unfold InfParser_Start. destruct (ReadLines ext) as [Content|]; [|discriminate].
  destruct (for_lines body _ _ _) as [[s loc]|]; [|discriminate].
  cbn [mbind result_bind]. cbv zeta.
  destruct (IsFindBlockComment loc); [discriminate|].
  destruct (store_tail_comments M s _) as [s'|]; [|discriminate].
  cbn [mbind result_bind]. intros [= <-]. apply Done_table.
Qed.

Lemma DecParser_Start_finished ext body self self' :
  DecParser_Start ext body self = Ok self' -> _Finished self' = true.
Proof.
  unfold DecParser_Start. destruct (ReadLines ext) as [Content|]; [|discriminate].
  cbv zeta. destruct (for_lines body _ _ _) as [s|]; [|discriminate].
  cbn [mbind result_bind].
  destruct (1 <? _DefinesCount s); [discriminate|].
  destruct (_DefinesCount s =? 0); [discriminate|].
  intros [= <-]. apply Done_table.
Qed.

Lemma StartParse_again {L : Type} `{MetaFileTable.Row L}
    (Start : Parser L -> result (Parser L)) (self self' : Parser L) :
  (forall x x', Start x = Ok x' -> _Finished x' = true) ->
  StartParse Start self = Ok self' ->
  _Finished self' = true /\ StartParse Start self' = Ok self'.
Proof.
  intros HStart Hrun.
  assert (Hfin : _Finished self' = true).
  { unfold StartParse in Hrun.
    destruct (_Finished self) eqn:E; cbn [negb] in Hrun.
    - injection Hrun as <-. exact E.
    - destruct (MetaFileTable.IsIntegrity (_RawTable self)).
      + injection Hrun as <-.
        destruct self; reflexivity.
      + exact (HStart _ _ Hrun). }
  split; [exact Hfin|]. unfold StartParse. rewrite Hfin. reflexivity.
Qed.

(** X11. A parser parses its file once.  [StartParse] on a parser that is
    finished returns it as it is, and does not call [Start]; on a parser
    whose raw table has the end flag it sets [_Finished] and does not call
    [Start] either; and after a [StartParse] that has succeeded, with the
    [Start] of any of the three dialects and whatever the loop bodies do,
    the parser is finished, so that a second [StartParse] returns it
    unchanged. *)
Theorem StartParse_once ext :
  (forall (L : Type) (R : MetaFileTable.Row L)
          (Start : Parser L -> result (Parser L)) (self : Parser L),
      (_Finished self = true -> StartParse Start self = Ok self)
      /\ (_Finished self = false ->
          MetaFileTable.IsIntegrity (_RawTable self) = true ->
          exists self', StartParse Start self = Ok self'
                        /\ _Finished self' = true
                        /\ _RawTable self' = _RawTable self
                        /\ _OwnTable self' = _OwnTable self))
  /\ (forall body self self',
      StartParse (DscParser_Start ext body) self = Ok self' ->
      _Finished self' = true
      /\ StartParse (DscParser_Start ext body) self' = Ok self')
  /\ (forall body M self self',
      StartParse (InfParser_Start ext body M) self = Ok self' ->
      _Finished self' = true
      /\ StartParse (InfParser_Start ext body M) self' = Ok self')
  /\ (forall body self self',
      StartParse (DecParser_Start ext body) self = Ok self' ->
      _Finished self' = true
      /\ StartParse (DecParser_Start ext body) self' = Ok self').
Proof.
  split; [|split; [|split]].
  - intros L R Start self. split.
    + intros Hfin. unfold StartParse. rewrite Hfin. reflexivity.
    + intros Hfin Hint. unfold StartParse. rewrite Hfin, Hint. cbn [negb].
      eexists. split; [reflexivity|]. destruct self; repeat split.
  - intros body self self'. apply StartParse_again.
    intros x x'. apply DscParser_Start_finished.
  - intros body M self self'. apply StartParse_again.
    intros x x'. apply InfParser_Start_finished.
  - intros body self self'. apply StartParse_again.
    intros x x'. apply DecParser_Start_finished.
Qed.

(** [StartParse_once] on a new D-dialect parser and an empty file. *)
Lemma StartParse_once_witness :
  exists self',
    StartParse (DscParser_Start (example_ext []) (fun st _ _ => Ok st))
               new_DscParser = Ok self'
    /\ _Finished self' = true
    /\ StartParse (DscParser_Start (example_ext []) (fun st _ _ => Ok st))
                  self' = Ok self'.
Proof.
  pose (self' := match StartParse
                         (DscParser_Start (example_ext []) (fun st _ _ => Ok st))
                         new_DscParser
                 with Ok s => s | Err _ => new_DscParser end).
  assert (Hrun : StartParse
                   (DscParser_Start (example_ext []) (fun st _ _ => Ok st))
                   new_DscParser = Ok self') by (vm_compute; reflexivity).
  exists self'. split; [exact Hrun|].
  exact (proj1 (proj2 (StartParse_once (example_ext []))) _ _ _ Hrun).
Defined.

(** The items of [BuildOptionPcd] that do not name [N] leave it as it
    is. *)
Lemma with_build_options_other items : forall (m : Macros) N,
  Forall (fun item => Py.strip (fst item) <> N) items ->
  with_build_options m items !! N = m !! N.
Proof.
  unfold with_build_options.
  induction items as [|item items IH]; intros m N Hitems; [reflexivity|].
  inversion Hitems as [|? ? Hne Hrest]; subst. cbn [fold_left].
  rewrite (IH _ _ Hrest). apply lookup_insert_ne. exact Hne.
Qed.

(** The first of a list of lookups that finds something. *)
Definition first_found (l : list (option string)) : option string :=
  List.hd None (List.filter (fun o => bool_decide (is_Some o)) l).

(** X12. The order in which the D dialect looks a macro up.  For a name
    that no build option sets, [_Macros] finds the value in the first of
    these tables that holds the name: the PCD values [_Symbols] (not
    looked at while the row is a [DEFINE] or an [EDK_GLOBAL]), the defines
    of the command line, the defines of the platform, the global defines
    of [EDK_GLOBAL], the macros of the sections that apply, the macros of
    the file.  A build option that names it, the last one when there are
    several, goes before all of them. *)
Theorem DscParser_Macros_order {L : Type} `{MetaFileTable.Row L}
    (self : Parser L) (N : string) :
  Class_ self = IsDscParser ->
  (Forall (fun item => Py.strip (fst item) <> N) (BuildOptionPcd self) ->
   _Macros self !! N
   = first_found
       [ (if bool_decide (_ItemType self ∈ [MODEL_META_DATA_DEFINE;
                                            MODEL_META_DATA_GLOBAL_DEFINE])
          then None else _Symbols self !! N);
         gCommandLineDefines self !! N;
         gPlatformDefines self !! N;
         gEdkGlobal self !! N;
         _GetApplicableSectionMacro self !! N;
         _FileLocalMacros self !! N ])
  /\ (forall before name v after,
      BuildOptionPcd self = before ++ (name, v) :: after ->
      Py.strip name = N ->
      Forall (fun item => Py.strip (fst item) <> N) after ->
      _Macros self !! N = Some v).
Proof.
  intros Hcls. unfold _Macros. rewrite Hcls.
  rewrite bool_decide_eq_true_2 by reflexivity. cbv zeta. split.
  - intros Hother. rewrite (with_build_options_other _ _ _ Hother).
    unfold update, first_found, Macros.
    destruct (bool_decide (_ItemType self ∈ _)); cbn [negb];
      rewrite ?lookup_union, ?lookup_empty;
      repeat match goal with
             | |- context [@lookup _ _ _ ?i N ?m] =>
                 destruct (@lookup _ _ _ i N m)
             end;
      reflexivity.
  - intros before name v after Hitems Hname Hafter.
    rewrite Hitems. unfold with_build_options.
    rewrite fold_left_app. cbn [fold_left fst snd].
    fold (with_build_options
            (<[Py.strip name := v]>
               (fold_left (fun acc item => <[Py.strip (fst item) := snd item]> acc)
                          before
                          (if negb (bool_decide
                                      (_ItemType self
                                       ∈ [MODEL_META_DATA_DEFINE;
                                          MODEL_META_DATA_GLOBAL_DEFINE]))
                           then update
                                  (update
                                     (update
                                        (update
                                           (update
                                              (update ∅ (_FileLocalMacros self))
                                              (_GetApplicableSectionMacro self))
                                           (gEdkGlobal self))
                                        (gPlatformDefines self))
                                     (gCommandLineDefines self))
                                  (_Symbols self)
                           else update
                                  (update
                                     (update
                                        (update
                                           (update ∅ (_FileLocalMacros self))
                                           (_GetApplicableSectionMacro self))
                                        (gEdkGlobal self))
                                     (gPlatformDefines self))
                                  (gCommandLineDefines self))))
            after).
    rewrite (with_build_options_other _ _ _ Hafter), Hname.
    apply lookup_insert_eq.
Qed.

(** [DscParser_Macros_order] on a parser where the command line and the
    file both define [TARGET]. *)
Lemma DscParser_Macros_order_witness :
  let self := Parser_init IsDscParser DscParser_DataType
                (MetaFileTable.mk ([] : list PlatformTable.DscLine) 10000000)
                (-1) (-1) example_globals (<["TARGET" := "RELEASE"]> ∅) ∅ ∅ ∅ []
                <| _FileLocalMacros := <["TARGET" := "DEBUG"]> ∅ |> in
  _Macros self !! "TARGET" = Some "RELEASE".
Proof.
  intros self.
  rewrite (proj1 (DscParser_Macros_order self "TARGET" eq_refl));
    [vm_compute; reflexivity|].
  vm_compute. constructor.
Defined.

(** ** Macros defined in a section *)

Section SectionMacros.
Context {L : Type}.

Lemma section_macro_set_new (d : SectionsMacroDict) key N V :
  ~ In key (map fst d) ->
  section_macro_set d key N V = d ++ [(key, <[N := V]> ∅)].
Proof.
  induction d as [|[k m] d IH]; intros Hnew; [reflexivity|].
  cbn [section_macro_set]. cbn in Hnew.
  rewrite bool_decide_eq_false_2 by tauto.
  rewrite IH by tauto. reflexivity.
Qed.

Lemma all_active_self (sc : list ScopeEntry) :
  all_active (fun a => bool_decide (a ∈ sc)) sc = true.
Proof.
  unfold all_active. apply forallb_forall. intros a Ha.
  apply bool_decide_eq_true_2, list_elem_of_In, Ha.
Qed.

(** The table that the last entry of the dictionary holds goes before the
    others, when the entry is of the active section and scope. *)
Lemma GetApplicableSectionMacro_last (x : Parser L) d st m N V :
  ActiveSectionType x = Some st ->
  _SectionsMacroDict x = d ++ [((st, _Scope x), m)] ->
  m !! N = Some V ->
  _GetApplicableSectionMacro x !! N = Some V.
Proof.
  intros Hst Hd Hm. unfold _GetApplicableSectionMacro.
  rewrite Hst, Hd, fold_left_app. cbn [fold_left].
  set (acc := fold_left _ d _). clearbody acc. destruct acc as [[CC CS] SS].
  rewrite (bool_decide_eq_true_2 (st = st)) by reflexivity. cbn [negb].
  rewrite all_active_self.
  match goal with
  | |- context [if ?b then update CS m else CS] =>
      generalize (if b then update CS m else CS)
  end.
  match goal with
  | |- context [if ?b then update CC m else CC] =>
      generalize (if b then update CC m else CC)
  end.
  intros CC' CS'. unfold update, Macros in *.
  rewrite !lookup_union, Hm, lookup_empty.
  repeat match goal with
         | |- context [@lookup _ _ _ ?i N ?t] => destruct (@lookup _ _ _ i N t)
         end;
    reflexivity.
Qed.

End SectionMacros.

(** The D-dialect parser in a section [[LibraryClasses]] of the given
    architectures, with the given dictionary of section macros. *)
Definition in_library_classes (archs : list string) (d : SectionsMacroDict)
    : Parser PlatformTable.DscLine :=
  new_DscParser
    <| _SectionType := OneType MODEL_EFI_LIBRARY_CLASS |>
    <| _Scope := map (fun a => (a, "COMMON", Store "COMMON")) archs |>
    <| _SectionsMacroDict := d |>.

(** The dictionary after [calls], each a list of architectures and the
    name and value of a [DEFINE] made in a section [[LibraryClasses]] of
    these architectures. *)
Fixpoint defined_in_sections (calls : list (list string * string * string))
    (d : SectionsMacroDict) : SectionsMacroDict :=
  match calls with
  | [] => d
  | (archs, Name, Value) :: rest =>
      match _ConstructSectionMacroDict (in_library_classes archs d) Name Value with
      | Ok self => defined_in_sections rest (_SectionsMacroDict self)
      | Err _ => d
      end
  end.

(** X13. A macro that [_ConstructSectionMacroDict] defines in a section
    whose type and scope have held no macro before is the value that
    [_GetApplicableSectionMacro] finds under that name in the same section.
    When the section has held a macro before it need not be: after
    [DEFINE A = 1] under [[LibraryClasses.IA32]], [DEFINE A = 2] under
    [[LibraryClasses.IA32, LibraryClasses.X64]] and [DEFINE A = 3] under
    [[LibraryClasses.IA32]] again, [A] reads [2] under
    [[LibraryClasses.IA32]]: the entry of the second section is the later
    one in the dictionary and applies too. *)
Theorem section_macro_define_lookup :
  (forall (L : Type) (self self' : Parser L) Name Value,
      _ConstructSectionMacroDict self Name Value = Ok self' ->
      (forall st, ActiveSectionType self = Some st ->
                  ~ In (st, _Scope self) (map fst (_SectionsMacroDict self))) ->
      _GetApplicableSectionMacro self' !! Name = Some Value)
  /\ (forall (L : Type) (self : Parser L) Name Value,
      ActiveSectionType self = None ->
      _ConstructSectionMacroDict self Name Value = Err PyIndexError)
  /\ (let d := defined_in_sections
                 [(["IA32"], "A", "1"); (["IA32"; "X64"], "A", "2");
                  (["IA32"], "A", "3")] [] in
      _GetApplicableSectionMacro (in_library_classes ["IA32"] d) !! "A"
      = Some "2").
Proof.
  split; [|split].
  - intros L self self' Name Value Hrun Hnew.
    unfold _ConstructSectionMacroDict in Hrun.
    destruct (ActiveSectionType self) as [st|] eqn:Hst; [|discriminate].
    injection Hrun as <-. specialize (Hnew st eq_refl).
    rewrite (section_macro_set_new _ _ Name Value Hnew).
    apply (GetApplicableSectionMacro_last _ (_SectionsMacroDict self) st
             (<[Name := Value]> ∅)).
    + destruct self; exact Hst.
    + destruct self; reflexivity.
    + apply lookup_insert_eq.
  - intros L self Name Value Hst. unfold _ConstructSectionMacroDict.
    rewrite Hst. reflexivity.
  - vm_compute. reflexivity.
Qed.

(** [section_macro_define_lookup] on the first [DEFINE] of a section
    [[LibraryClasses.IA32]]. *)
Lemma section_macro_define_lookup_witness :
  exists self',
    _ConstructSectionMacroDict (in_library_classes ["IA32"] []) "A" "1" = Ok self'
    /\ _GetApplicableSectionMacro self' !! "A" = Some "1".
Proof.
  eexists. split; [reflexivity|].
  apply (proj1 section_macro_define_lookup _
           (in_library_classes ["IA32"] []) _ "A" "1");
    [reflexivity|].
  intros st _ [].
Defined.

(** ** Queries through [__getitem__] *)

Section GetItem.
Variable ext : Externals.
Variable body :
  Parser PlatformTable.DscLine * gmap string Z -> nat -> string ->
  result (Parser PlatformTable.DscLine * gmap string Z).
Variable fuel : nat.

Local Abbreviation DscParser := (Parser PlatformTable.DscLine).

Lemma PostProcess_done (s f : DscParser) :
  _PostProcess ext fuel s = Ok f ->
  _PostProcessed f = true /\ _Finished f = _Finished s.
Proof.
  intros Hpass.
  destruct (PostProcess_fixed ext _ _ _ Hpass) as (Hfix & _).
  split; [|unfold fixed in Hfix; congruence].
  unfold _PostProcess in Hpass.
  destruct (_PostProcess_enter ext s) as [e|]; [|discriminate].
  cbn [mbind result_bind] in Hpass.
  destruct (_PostProcess_loop ext fuel e) as [x|]; [|discriminate].
  cbn [mbind result_bind] in Hpass. injection Hpass as <-.
  destruct x. reflexivity.
Qed.

Lemma PlatformTable_Query_rows t m s1 s2 owner from r :
  In r (PlatformTable.Query t m s1 s2 owner from) ->
  In r (MetaFileTable.CurrentContent t).
Proof.
  unfold PlatformTable.Query. cbv zeta. intros Hin.
  peel_filters; assumption.
Qed.

Lemma FilterRecordList_spec l FilterArch r :
  In r (_FilterRecordList l FilterArch) <->
  In r l /\ (PlatformTable.Scope1 r = TAB_ARCH_COMMON
             \/ Some (PlatformTable.Scope1 r) = FilterArch).
Proof.
  unfold _FilterRecordList. rewrite filter_In, orb_true_iff.
  rewrite !bool_decide_eq_true. reflexivity.
Qed.

End GetItem.

(** X14. Queries on a D-dialect parser through [[]]:
    - without an architecture the raw table answers: the rows are rows of
      the raw table, of the model asked for, whose architecture is
      [COMMON] or the one of the parser, and the parser is post-processed
      no more than before;
    - with an architecture the resolved table answers, after a pass if
      none has been made: the rows are enabled rows of the table that
      [self._Table] names, of the model asked for, whose architecture is
      [COMMON] or the one asked for, and the parser is finished and
      post-processed;
    - the same query with an architecture, asked again, parses nothing and
      makes no pass: it returns the same parser and the same rows. *)
Theorem DscParser_getitem_tables ext body fuel Arch self Model0 Scope2_ B F :
  (forall self' rows_,
      DscParser_getitem ext body fuel Arch self Model0 None Scope2_ B F
      = Ok (self', rows_) ->
      StartParse (DscParser_Start ext body) self = Ok self'
      /\ Forall (fun r => In r (MetaFileTable.CurrentContent (_RawTable self'))
                          /\ PlatformTable.Model r = Model0
                          /\ (PlatformTable.Scope1 r = TAB_ARCH_COMMON
                              \/ Some (PlatformTable.Scope1 r) = Arch))
                rows_)
  /\ (forall a self' rows_,
      DscParser_getitem ext body fuel Arch self Model0 (Some a) Scope2_ B F
      = Ok (self', rows_) ->
      _Finished self' = true /\ _PostProcessed self' = true
      /\ Forall (fun r => In r (MetaFileTable.CurrentContent (_Table self'))
                          /\ PlatformTable.Model r = Model0
                          /\ PlatformTable.Enabled r = true
                          /\ (PlatformTable.Scope1 r = TAB_ARCH_COMMON
                              \/ PlatformTable.Scope1 r = a))
                rows_
      /\ DscParser_getitem ext body fuel Arch self' Model0 (Some a) Scope2_ B F
         = Ok (self', rows_)).
Proof.
  split.
  - intros self' rows_ Hrun. unfold DscParser_getitem in Hrun.
    destruct (StartParse (DscParser_Start ext body) self) as [s1|] eqn:Hs;
      [|discriminate].
    cbn [mbind result_bind] in Hrun. injection Hrun as <- <-.
    split; [reflexivity|]. apply List.Forall_forall. intros r Hr.
    apply FilterRecordList_spec in Hr as (Hq & Harch).
    destruct (PlatformTable_Query_sound _ _ _ _ _ _ _ Hq) as (_ & Hm & _).
    pose proof (PlatformTable_Query_rows _ _ _ _ _ _ _ Hq) as Hin.
    auto.
  - intros a self' rows_ Hrun. unfold DscParser_getitem in Hrun.
    destruct (StartParse (DscParser_Start ext body) self) as [s1|] eqn:Hs;
      [|discriminate].
    cbn [mbind result_bind] in Hrun.
    destruct (StartParse_again _ _ _
                (fun x x' => DscParser_Start_finished ext body x x') Hs)
      as (Hfin1 & _).
    assert (Hpp : exists s2,
              (if negb (_PostProcessed s1) then _PostProcess ext fuel s1
               else Ok s1) = Ok s2
              /\ _Finished s2 = true /\ _PostProcessed s2 = true).
    { destruct (_PostProcessed s1) eqn:Hp; cbn [negb] in Hrun |- *.
      - exists s1. auto.
      - destruct (_PostProcess ext fuel s1) as [s2|] eqn:Hpass; [|discriminate].
        exists s2. destruct (PostProcess_done ext fuel _ _ Hpass) as (Hd & Hf).
        split; [reflexivity|]. split; [congruence|exact Hd]. }
    destruct Hpp as (s2 & Hs2 & Hfin2 & Hpp2). rewrite Hs2 in Hrun.
    cbn [mbind result_bind] in Hrun. injection Hrun as <- <-.
    split; [exact Hfin2|]. split; [exact Hpp2|]. split.
    + apply List.Forall_forall. intros r Hr.
      apply FilterRecordList_spec in Hr as (Hq & Harch).
      destruct (PlatformTable_Query_sound _ _ _ _ _ _ _ Hq) as (Hen & Hm & _).
      pose proof (PlatformTable_Query_rows _ _ _ _ _ _ _ Hq) as Hin.
      repeat split; auto.
      destruct Harch as [Hc|Ha]; [left; exact Hc|right; congruence].
    + unfold DscParser_getitem, StartParse. rewrite Hfin2. cbn [negb mbind result_bind].
      rewrite Hpp2. reflexivity.
Qed.

(** [DscParser_getitem_tables] on the file of the conditional scenario,
    asked for the [Defines] rows of [IA32]: the row of the first part of
    the block. *)
Lemma DscParser_getitem_tables_witness :
  let ask self :=
    DscParser_getitem (example_ext []) (fun st _ _ => Ok st) 7 None self
      MODEL_META_DATA_HEADER (Some "IA32") None None None in
  exists self' rows_,
    ask (parsed scenario_conditional) = Ok (self', rows_)
    /\ map brief rows_ = [(MODEL_META_DATA_HEADER, "A", true)]
    /\ _PostProcessed self' = true
    /\ ask self' = Ok (self', rows_).
Proof.
  intros ask.
  pose (answer := match ask (parsed scenario_conditional) with
                  | Ok a => a
                  | Err _ => (parsed scenario_conditional, [])
                  end).
  assert (Hrun : ask (parsed scenario_conditional) = Ok (fst answer, snd answer))
    by (vm_compute; reflexivity).
  destruct (proj2 (DscParser_getitem_tables (example_ext []) (fun st _ _ => Ok st)
                     7 None (parsed scenario_conditional)
                     MODEL_META_DATA_HEADER None None None)
              "IA32" (fst answer) (snd answer) Hrun)
    as (_ & Hpp & _ & Hagain).
  exists (fst answer), (snd answer).
  split; [exact Hrun|]. split; [vm_compute; reflexivity|].
  split; [exact Hpp|exact Hagain].
Defined.

(** ** The table factory *)

(** Splits on the lookup in the cache that a call starts with. *)
Ltac case_cache H :=
  match type of H with
  | context [match ?o with Some _ => _ | None => _ end] =>
      let reval := fresh "reval" in
      destruct o as [reval|] eqn:Hhit
  end.

Section StorageFacts.
Variable c : FileModels.

(** What is cached stays cached, whatever is called. *)
Lemma call_storage_keeps st a st' r key ref :
  call_storage c st a = Ok (st', r) ->
  _ObjectCache st !! key = Some ref ->
  _ObjectCache st' !! key = Some ref.
Proof.
  unfold call_storage, MetaFileStorage_new. cbv zeta. intros Hcall Hkey.
  case_cache Hcall.
  - injection Hcall as <- <-. exact Hkey.
  - destruct (_FILE_TABLE_ c _) as [cls|]; [|discriminate].
    destruct (call_Temporary a); cbn [negb] in Hcall; injection Hcall as <- <-;
      cbn [_ObjectCache]; [exact Hkey|].
    rewrite lookup_insert_ne; [exact Hkey|]. intros E. rewrite E in Hhit.
    congruence.
Qed.

Lemma call_storage_all_keeps calls : forall st key ref,
  _ObjectCache st !! key = Some ref ->
  _ObjectCache (call_storage_all c st calls) !! key = Some ref.
Proof.
  induction calls as [|a calls IH]; intros st key ref Hkey; [exact Hkey|].
  cbn [call_storage_all].
  destruct (call_storage c st a) as [[st' r]|] eqn:Hcall; [|apply IH, Hkey].
  apply IH. exact (call_storage_keeps _ _ _ _ _ _ Hcall Hkey).
Qed.

(** No key of the cache is a temporary one, and every object of the cache
    has been made. *)
Definition cache_sound (st : Storage) : Prop :=
  forall key ref, _ObjectCache st !! key = Some ref ->
    snd (fst key) = false /\ (ref < length (objects st))%nat.

Lemma call_storage_sound st a st' r :
  cache_sound st -> call_storage c st a = Ok (st', r) ->
  cache_sound st' /\ (length (objects st) <= length (objects st'))%nat
  /\ (r < length (objects st'))%nat.
Proof.
  unfold call_storage, MetaFileStorage_new. cbv zeta. intros Hsound Hcall.
  case_cache Hcall.
  - injection Hcall as <- <-. split; [exact Hsound|]. split; [lia|].
    exact (proj2 (Hsound _ _ Hhit)).
  - destruct (_FILE_TABLE_ c _) as [cls|]; [|discriminate].
    destruct (call_Temporary a) eqn:Htmp; cbn [negb] in Hcall;
      injection Hcall as <- <-; cbn [objects _ObjectCache];
      rewrite length_app; cbn [length]; (split; [|lia]).
    + intros key ref Hkey. cbn [objects _ObjectCache] in *.
      destruct (Hsound _ _ Hkey). rewrite length_app. cbn [length].
      split; [assumption|lia].
    + intros key ref Hkey. cbn [objects _ObjectCache] in *.
      rewrite length_app. cbn [length].
      apply lookup_insert_Some in Hkey as [(<- & <-)|(_ & Hkey)].
      * split; [reflexivity|lia].
      * destruct (Hsound _ _ Hkey). split; [assumption|lia].
Qed.

End StorageFacts.

(** X15. The table factory [MetaFileStorage]:
    - a call that is not temporary and succeeds returns the object that
      every later call with the same path, type, flag and item returns,
      whatever is called in between, and that later call makes no object;
    - on a storage whose cache is sound, as the empty one is and every
      call leaves it, a temporary call makes an object of its own: the
      object is none of those made before, and the cache stays as it is,
      so two temporary calls for one file give two tables;
    - the type is part of the key as it is written: for a [.dsc] file the
      call that leaves the type out and the call that gives
      [MODEL_FILE_DSC] make two tables, both of the D shape;
    - a type that is not one of the four raises [KeyError]. *)
Theorem MetaFileStorage_cache (c : FileModels) :
  (forall st st' r Path Type_ FileType FromItem calls,
      MetaFileStorage_new c st Path Type_ FileType false FromItem = Ok (st', r) ->
      let later := call_storage_all c st' calls in
      MetaFileStorage_new c later Path Type_ FileType false FromItem
      = Ok (later, r))
  /\ (forall st st' r Path Type_ FileType FromItem,
      cache_sound st ->
      MetaFileStorage_new c st Path Type_ FileType true FromItem = Ok (st', r) ->
      r = length (objects st)
      /\ length (objects st') = S (length (objects st))
      /\ _ObjectCache st' = _ObjectCache st
      /\ cache_sound st')
  /\ (MODEL_FILE_DSC c <> 0 ->
      forall Path FromItem st1 r1 st2 r2,
        MetaFileStorage_new c (mkStorage [] ∅) Path ".dsc" None false FromItem
        = Ok (st1, r1) ->
        MetaFileStorage_new c st1 Path ".dsc" (Some (MODEL_FILE_DSC c)) false
                            FromItem
        = Ok (st2, r2) ->
        r1 <> r2
        /\ (MODEL_FILE_DSC c <> MODEL_FILE_OTHERS c ->
            objects st2 = [IsPlatformTable; IsPlatformTable]))
  /\ (forall st Path Type_ ft Temporary FromItem,
      ft <> 0 ->
      ~ In ft [MODEL_FILE_INF c; MODEL_FILE_DEC c; MODEL_FILE_DSC c;
               MODEL_FILE_OTHERS c] ->
      _ObjectCache st !! (Path, Some ft, Temporary, FromItem) = None ->
      MetaFileStorage_new c st Path Type_ (Some ft) Temporary FromItem
      = Err PyKeyError).
Proof.
  split; [|split; [|split]].
  - intros st st' r Path Type_ FileType FromItem calls Hcall later.
    assert (Hkey : _ObjectCache st' !! (Path, FileType, false, FromItem) = Some r).
    { unfold MetaFileStorage_new in Hcall. cbv zeta in Hcall.
      case_cache Hcall.
      - injection Hcall as <- <-. exact Hhit.
      - destruct (_FILE_TABLE_ c _) as [cls|]; [|discriminate].
        cbn [negb] in Hcall. injection Hcall as <- <-.
        cbn [_ObjectCache]. apply lookup_insert_eq. }
    unfold MetaFileStorage_new. cbv zeta. subst later.
    rewrite (call_storage_all_keeps c calls _ _ _ Hkey). reflexivity.
  - intros st st' r Path Type_ FileType FromItem Hsound Hcall.
    pose proof (call_storage_sound c st
                  (mkStorageCall Path Type_ FileType true FromItem) st' r
                  Hsound Hcall) as (Hsound' & _).
    unfold MetaFileStorage_new in Hcall. cbv zeta in Hcall.
    case_cache Hcall.
    + destruct (Hsound _ _ Hhit) as (Hf & _). discriminate Hf.
    + destruct (_FILE_TABLE_ c _) as [cls|]; [|discriminate].
      cbn [negb] in Hcall. injection Hcall as <- <-. cbn [objects _ObjectCache].
      rewrite length_app. cbn [length]. split; [reflexivity|].
      split; [lia|]. split; [reflexivity|exact Hsound'].
  - intros Hnz Path FromItem st1 r1 st2 r2 H1 H2.
    unfold MetaFileStorage_new in H1. cbv zeta in H1.
    cbn [_ObjectCache] in H1. rewrite lookup_empty in H1.
    replace (_FILE_TYPE_ c ".dsc") with (Some (MODEL_FILE_DSC c)) in H1
      by reflexivity.
    cbn [default from_option] in H1. unfold id in H1.
    destruct (_FILE_TABLE_ c (MODEL_FILE_DSC c)) as [cls|] eqn:Hcls;
      [|discriminate].
    cbn in H1. injection H1 as <- <-.
    unfold MetaFileStorage_new in H2. cbv zeta in H2. cbn [_ObjectCache] in H2.
    rewrite lookup_insert_ne in H2 by congruence.
    rewrite lookup_empty in H2.
    rewrite (proj2 (Z.eqb_neq _ _) Hnz), Hcls in H2.
    cbn in H2. injection H2 as <- <-.
    split; [discriminate|]. intros Hne. cbn [objects].
    unfold _FILE_TABLE_ in Hcls.
    rewrite (proj2 (Z.eqb_neq _ _) Hne), Z.eqb_refl in Hcls.
    injection Hcls as <-. reflexivity.
  - intros st Path Type_ ft Temporary FromItem Hnz Hnot Hmiss.
    unfold MetaFileStorage_new. cbv zeta.
    match goal with
    | |- context [match ?o with Some _ => _ | None => _ end] =>
        replace o with (@None nat) by (symmetry; exact Hmiss)
    end.
    rewrite (proj2 (Z.eqb_neq _ _) Hnz).
    unfold _FILE_TABLE_.
    rewrite !(proj2 (Z.eqb_neq _ _)); [reflexivity| | | |];
      intros E; apply Hnot; cbn; auto.
Qed.

(** [MetaFileStorage_cache] with the constants 1011, 1012, 1013 and 1099:
    the table of an included file is found again after a temporary table
    has been made. *)
Lemma MetaFileStorage_cache_witness :
  let c := mkFileModels 1011 1012 1013 1099 in
  exists st' r,
    MetaFileStorage_new c (mkStorage [] ∅) "inc.dsc" ".dsc" (Some 1013) false
                        (Some 7)
    = Ok (st', r)
    /\ let later := call_storage_all c st'
                      [mkStorageCall "main.dsc" ".dsc" (Some 1013) true None] in
       MetaFileStorage_new c later "inc.dsc" ".dsc" (Some 1013) false (Some 7)
       = Ok (later, r).
Proof.
  intros c. eexists _, _. split; [reflexivity|].
  apply (proj1 (MetaFileStorage_cache c) (mkStorage [] ∅)). reflexivity.
Defined.

(** ** [CommonPath] *)

Lemma str_lt_irrefl a : str_lt a a = false.
Proof.
  induction a as [|c a IH]; [reflexivity|]. cbn [str_lt].
  rewrite N.ltb_irrefl, N.eqb_refl, IH. reflexivity.
Qed.

Lemma N_of_ascii_inj c d : N_of_ascii c = N_of_ascii d -> c = d.
Proof.
  intros E. rewrite <- (ascii_N_embedding c), <- (ascii_N_embedding d), E.
  reflexivity.
Qed.

(** Two strings of which none is smaller are equal. *)
Lemma str_lt_total a : forall b,
  str_lt a b = false -> str_lt b a = false -> a = b.
Proof.
  induction a as [|c a IH]; intros [|d b] Hab Hba; try discriminate;
    [reflexivity|].
  cbn [str_lt] in Hab, Hba.
  apply orb_false_iff in Hab as (H1 & H2).
  apply orb_false_iff in Hba as (H3 & H4).
  apply N.ltb_ge in H1, H3.
  assert (E : N_of_ascii c = N_of_ascii d) by lia.
  rewrite E, N.eqb_refl in H2, H4. cbn [andb] in H2, H4.
  apply N_of_ascii_inj in E. subst d. f_equal. apply IH; assumption.
Qed.

Lemma str_lt_trans a : forall b c,
  str_lt a b = true -> str_lt b c = true -> str_lt a c = true.
Proof.
  induction a as [|x a IH]; intros [|y b] [|z c] Hab Hbc; try discriminate;
    [reflexivity|].
  cbn [str_lt] in *.
  apply orb_true_iff in Hab as [H1|H1]; apply orb_true_iff in Hbc as [H2|H2];
    try apply andb_true_iff in H1 as (H1 & H1');
    try apply andb_true_iff in H2 as (H2 & H2');
    try apply N.ltb_lt in H1; try apply N.ltb_lt in H2;
    try apply N.eqb_eq in H1; try apply N.eqb_eq in H2;
    apply orb_true_iff.
  - left. apply N.ltb_lt. lia.
  - left. apply N.ltb_lt. lia.
  - left. apply N.ltb_lt. lia.
  - right. apply andb_true_iff. split; [apply N.eqb_eq; lia|].
    exact (IH _ _ H1' H2').
Qed.

(** [a <= b]. *)
Definition str_le (a b : string) : Prop := str_lt b a = false.

Lemma str_le_refl a : str_le a a.
Proof. apply str_lt_irrefl. Qed.

Lemma str_le_trans a b c : str_le a b -> str_le b c -> str_le a c.
Proof.
  unfold str_le. intros Hab Hbc.
  destruct (str_lt c a) eqn:Hca; [|reflexivity].
  destruct (str_lt a b) eqn:Hlt.
  - rewrite (str_lt_trans _ _ _ Hca Hlt) in Hbc. discriminate.
  - rewrite (str_lt_total _ _ Hlt Hab) in Hca. congruence.
Qed.

Lemma str_lt_le a b : str_lt a b = true -> str_le a b.
Proof.
  unfold str_le. intros Hab. destruct (str_lt b a) eqn:Hba; [|reflexivity].
  pose proof (str_lt_trans _ _ _ Hab Hba) as H.
  rewrite str_lt_irrefl in H. discriminate.
Qed.

Lemma fold_min_spec rest : forall x,
  let m := fold_left (fun m y => if str_lt y m then y else m) rest x in
  In m (x :: rest) /\ Forall (str_le m) (x :: rest).
Proof.
  induction rest as [|y rest IH]; intros x; cbv zeta.
  - cbn. split; [auto|]. constructor; [apply str_le_refl|constructor].
  - cbn [fold_left].
    destruct (IH (if str_lt y x then y else x)) as (Hin & Hall).
    cbv zeta in Hin, Hall. inversion Hall as [|? ? Hm Hrest]; subst.
    split.
    + destruct Hin as [Hin|Hin]; [|right; right; exact Hin].
      rewrite <- Hin. destruct (str_lt y x); [right; left|left]; reflexivity.
    + destruct (str_lt y x) eqn:Hyx.
      * constructor; [|constructor; assumption].
        exact (str_le_trans _ _ _ Hm (str_lt_le _ _ Hyx)).
      * constructor; [exact Hm|]. constructor; [|exact Hrest].
        exact (str_le_trans _ _ _ Hm Hyx).
Qed.

Lemma fold_max_spec rest : forall x,
  let m := fold_left (fun m y => if str_lt m y then y else m) rest x in
  In m (x :: rest) /\ Forall (fun p => str_le p m) (x :: rest).
Proof.
  induction rest as [|y rest IH]; intros x; cbv zeta.
  - cbn. split; [auto|]. constructor; [apply str_le_refl|constructor].
  - cbn [fold_left].
    destruct (IH (if str_lt x y then y else x)) as (Hin & Hall).
    cbv zeta in Hin, Hall. inversion Hall as [|? ? Hm Hrest]; subst.
    split.
    + destruct Hin as [Hin|Hin]; [|right; right; exact Hin].
      rewrite <- Hin. destruct (str_lt x y); [right; left|left]; reflexivity.
    + destruct (str_lt x y) eqn:Hxy.
      * constructor; [|constructor; assumption].
        exact (str_le_trans _ _ _ (str_lt_le _ _ Hxy) Hm).
      * constructor; [exact Hm|]. constructor; [|exact Hrest].
        exact (str_le_trans _ _ _ Hxy Hm).
Qed.

(** A common prefix of two strings is a prefix of every string between
    them. *)
Lemma prefix_between r : forall a b p,
  String.prefix r a = true -> String.prefix r b = true ->
  str_le a p -> str_le p b -> String.prefix r p = true.
Proof.
  unfold str_le.
  induction r as [|c r IH]; intros a b p Ha Hb Hap Hpb;
    [destruct p; reflexivity|].
  destruct a as [|x a]; [discriminate|]. destruct b as [|y b]; [discriminate|].
  cbn [String.prefix] in Ha, Hb.
  destruct (ascii_dec c x) as [<-|]; [|discriminate].
  destruct (ascii_dec c y) as [<-|]; [|discriminate].
  destruct p as [|d p]; [discriminate Hap|].
  cbn [str_lt] in Hap, Hpb.
  apply orb_false_iff in Hap as (H1 & H2).
  apply orb_false_iff in Hpb as (H3 & H4).
  apply N.ltb_ge in H1, H3.
  assert (E : N_of_ascii d = N_of_ascii c) by lia.
  rewrite E, N.eqb_refl in H2, H4. cbn [andb] in H2, H4.
  apply N_of_ascii_inj in E. subst d.
  cbn [String.prefix]. destruct (ascii_dec c c); [|contradiction].
  exact (IH _ _ _ Ha Hb H2 H4).
Qed.

Lemma prefix_refl s : String.prefix s s = true.
Proof.
  induction s as [|c s IH]; [reflexivity|]. cbn.
  destruct (ascii_dec c c); [exact IH|contradiction].
Qed.

Lemma prefix_app_r p s t :
  String.prefix p s = true -> String.prefix p (s +:+ t) = true.
Proof.
  revert s. induction p as [|c p IH]; intros s Hp; [destruct (s +:+ t); reflexivity|].
  destruct s as [|d s]; [discriminate|]. rewrite append_cons.
  cbn [String.prefix] in Hp |- *.
  destruct (ascii_dec c d); [apply IH, Hp|discriminate].
Qed.

(** A proper prefix is smaller. *)
Lemma prefix_lt p : forall s,
  String.prefix p s = true -> p <> s -> str_lt p s = true.
Proof.
  induction p as [|c p IH]; intros [|d s] Hp Hne; try discriminate;
    [contradiction|reflexivity|].
  cbn [String.prefix] in Hp. destruct (ascii_dec c d) as [<-|]; [|discriminate].
  cbn [str_lt]. rewrite N.ltb_irrefl, N.eqb_refl. cbn.
  apply IH; [exact Hp|]. congruence.
Qed.

(** [sep.join(s.split(sep))] is [s]. *)
Lemma py_split_cons sep s : exists x xs, py_split sep s = x :: xs.
Proof.
  destruct s as [|c s]; cbn; [eauto|].
  destruct (bool_decide (c = sep)); [eauto|].
  destruct (py_split sep s); eauto.
Qed.

Lemma py_join_cons sep x y l :
  py_join sep (x :: y :: l) = x +:+ sep +:+ py_join sep (y :: l).
Proof. reflexivity. Qed.

Lemma py_join_split sep s :
  py_join (String sep EmptyString) (py_split sep s) = s.
Proof.
  induction s as [|c s IH]; [reflexivity|]. cbn [py_split].
  destruct (bool_decide (c = sep)) eqn:E.
  - apply bool_decide_eq_true_1 in E. subst c.
    destruct (py_split_cons sep s) as (x & xs & Hs). rewrite Hs in IH |- *.
    rewrite py_join_cons, IH. reflexivity.
  - destruct (py_split_cons sep s) as (x & xs & Hs). rewrite Hs in IH |- *.
    destruct xs as [|y xs].
    + cbn in IH |- *. rewrite IH. reflexivity.
    + rewrite py_join_cons in IH |- *. rewrite append_cons, IH. reflexivity.
Qed.

(** The text of the first components of a list is a prefix of the text of
    the list. *)
Lemma py_join_prefix sep l1 : forall l2,
  String.prefix (py_join sep l1) (py_join sep (l1 ++ l2)) = true.
Proof.
  induction l1 as [|x l1 IH]; intros l2.
  - cbn. destruct (py_join sep l2); reflexivity.
  - destruct l1 as [|y l1].
    + cbn [app]. destruct l2 as [|z l2]; [apply prefix_refl|].
      rewrite py_join_cons. cbn [py_join].
      rewrite <- (append_nil_r x) at 1.
      apply prefix_app_r. rewrite append_nil_r. apply prefix_refl.
    + cbn [app]. rewrite !py_join_cons.
      specialize (IH l2). cbn [app] in IH.
      clear - IH. revert IH.
      generalize (py_join sep (y :: l1)) (py_join sep (y :: l1 ++ l2)).
      intros u v Huv. induction x as [|c x IHx].
      * rewrite !append_nil_l. induction sep as [|c sep IHs]; [exact Huv|].
        rewrite !append_cons. cbn. destruct (ascii_dec c c); [exact IHs|contradiction].
      * rewrite !append_cons. cbn. destruct (ascii_dec c c); [exact IHx|contradiction].
Qed.

(** What the loop returns is made of first components of [P1]; it is made
    of first components of [P2] too, unless [P2] is used up before
    [P1]. *)
Lemma common_components_spec P1 : forall P2,
  (exists rest, P1 = common_components P1 P2 ++ rest)
  /\ ((exists rest, P2 = common_components P1 P2 ++ rest)
      \/ (exists y rest, P1 = P2 ++ y :: rest)).
Proof.
  induction P1 as [|x P1 IH]; intros P2.
  - cbn. split; [exists []; reflexivity|]. left. exists P2. reflexivity.
  - destruct P2 as [|y P2].
    + cbn. split; [exists []; rewrite app_nil_r; reflexivity|].
      right. exists x, P1. reflexivity.
    + cbn [common_components].
      destruct (bool_decide (x = y)) eqn:E; cbn [negb].
      * apply bool_decide_eq_true_1 in E. subst y.
        destruct (IH P2) as ((r1 & H1) & H2). split.
        -- exists r1. cbn. rewrite <- H1. reflexivity.
        -- destruct H2 as [(r2 & H2)|(z & r2 & H2)].
           ++ left. exists r2. cbn. rewrite <- H2. reflexivity.
           ++ right. exists z, r2. cbn. rewrite <- H2. reflexivity.
      * split; [exists (x :: P1); reflexivity|].
        left. exists (y :: P2). reflexivity.
Qed.

(** X16. [CommonPath] returns a text that every path of the list starts
    with.  It raises on an empty list, and returns the path itself when
    the list holds one path only.  The text need not be made of whole
    components of every path: for [a], [a-b] and [a/b] it is [a]. *)
Theorem CommonPath_prefix (sep : ascii) :
  (forall PathList common,
      CommonPath sep PathList = Some common ->
      Forall (fun p => String.prefix common p = true) PathList)
  /\ CommonPath sep [] = None
  /\ (forall p, CommonPath sep [p] = Some p)
  /\ CommonPath "/" ["a"; "a-b"; "a/b"] = Some "a".
Proof.
  split; [|split; [reflexivity|split; [|reflexivity]]].
  - intros PathList common Hrun. unfold CommonPath in Hrun.
    destruct PathList as [|x rest]; [discriminate|].
    cbn [py_min py_max] in Hrun. cbv zeta in Hrun. injection Hrun as <-.
    destruct (fold_min_spec rest x) as (_ & Hmin).
    destruct (fold_max_spec rest x) as (_ & Hmax).
    cbv zeta in Hmin, Hmax.
    set (lo := fold_left (fun m y => if str_lt y m then y else m) rest x) in *.
    set (hi := fold_left (fun m y => if str_lt m y then y else m) rest x) in *.
    assert (Hlohi : str_le lo hi).
    { inversion Hmin; subst. inversion Hmax; subst.
      eapply str_le_trans; eassumption. }
    destruct (common_components_spec (py_split sep lo) (py_split sep hi))
      as ((r1 & H1) & H2).
    set (cc := common_components (py_split sep lo) (py_split sep hi)) in *.
    clearbody cc lo hi.
    assert (Elo : lo = py_join (String sep "") (cc ++ r1))
      by (rewrite <- H1; symmetry; apply py_join_split).
    assert (Hplo : String.prefix (py_join (String sep "") cc) lo = true)
      by (rewrite Elo; apply py_join_prefix).
    assert (Hphi : String.prefix (py_join (String sep "") cc) hi = true).
    { destruct H2 as [(r2 & H2)|(y & r2 & H2)].
      - assert (Ehi : hi = py_join (String sep "") (cc ++ r2))
          by (rewrite <- H2; symmetry; apply py_join_split).
        rewrite Ehi. apply py_join_prefix.
      - exfalso.
        assert (Hpre : String.prefix hi lo = true).
        { assert (E1 : lo = py_join (String sep "") (py_split sep hi ++ y :: r2))
            by (rewrite <- H2; symmetry; apply py_join_split).
          rewrite E1. rewrite <- (py_join_split sep hi) at 1.
          apply py_join_prefix. }
        assert (Hne : hi <> lo).
        { intros E. rewrite E in H2.
          apply (f_equal (@length _)) in H2. rewrite length_app in H2.
          cbn in H2. lia. }
        pose proof (prefix_lt _ _ Hpre Hne) as Hlt.
        unfold str_le in Hlohi. congruence. }
    apply List.Forall_forall. intros p Hp.
    rewrite List.Forall_forall in Hmin, Hmax.
    exact (prefix_between _ _ _ _ Hplo Hphi (Hmin _ Hp) (Hmax _ Hp)).
  - intros p. unfold CommonPath. cbn [py_min py_max fold_left]. cbv zeta.
    f_equal.
    assert (E : forall P, common_components P P = P).
    { induction P as [|x P IH]; [reflexivity|]. cbn.
      rewrite bool_decide_eq_true_2 by reflexivity. cbn. rewrite IH. reflexivity. }
    rewrite E. apply py_join_split.
Qed.

(** [CommonPath_prefix] on two paths of one directory. *)
Lemma CommonPath_prefix_witness :
  CommonPath "/" ["pkg/a/x.inf"; "pkg/a/y.inf"] = Some "pkg/a"
  /\ Forall (fun p => String.prefix "pkg/a" p = true)
            ["pkg/a/x.inf"; "pkg/a/y.inf"].
Proof.
  split; [reflexivity|].
  apply (proj1 (CommonPath_prefix "/") ["pkg/a/x.inf"; "pkg/a/y.inf"]).
  reflexivity.
Defined.
